(* ===== verification/_CoqProject ===== *)
-Q . S2P
Prelude.v
PyValue.v
Text.v
Floats.v
Parsing.v
Formatting.v
Upload.v
Zones.v
ZoneDistance.v
Classify.v
Config.v
Dates.v
DateRanges.v
Weekly.v
Markdown.v
Disk.v
Fetch.v
Api.v
Auth.v
Cli.v
UploadCommand.v
Export.v
FetchCommand.v
ExportCommand.v
ZoneReport.v
Patterns.v
AnalyzeCommand.v
Authenticate.v
ConfigFile.v
