(* ===== verification/Prelude.v ===== *)
(** * A verification development of trainingpeaks-cli

    trainingpeaks-cli ([src/tp_cli]) is a command-line client for the
    TrainingPeaks API.  The commands ([commands/*.py]) resolve a date
    range from their flags, fetch workouts in chunks through the API
    client, classify them, and print or export reports; [upload] compiles
    a small workout DSL into a TrainingPeaks structure and estimates its
    duration.  The computations behind the commands are pure functions
    on decoded JSON, and those are what this development models, as a
    shallow embedding: every Python function is a Rocq function, every
    exception a [Raise] of the result monad [res] of this file, every
    dictionary an association list in insertion order.

    Files (each opens with a comment that maps it to the code), in the
    order of [_CoqProject]:
    - [Prelude] (this file): the exceptions and [res] with its [let*]
      notation, string helpers ([str.lower], [str.strip], [str.split],
      one-character [str.replace], [in]), the decimal digits of [str()],
      a stable insertion sort standing for [sorted] and [list.sort],
      the hint databases [tpcli] and [tpcli_rw] and the tactics
      [res_inv], [res_step], [res_uniq], [qbool] and [qcase].
    - [PyValue]: decoded JSON values ([pyval]), [dict.get], [d[k] = v],
      float and integer literals, [str()] and [repr()], truthiness.
    - [Text]: [utils/text.py], [slugify].
    - [Floats]: IEEE 754 binary64 as CPython computes it (rounding to
      nearest even, overflow to infinity, [divmod], [round], [max],
      [float()] and [int()] of a JSON value with their [OverflowError],
      [==] across types, [format(x, ".nf")]).
    - [Parsing]: [utils/parsing.py], the step DSL ([parse_length],
      [parse_duration], [parse_target], [simple_to_tp_structure]).
    - [Formatting]: [utils/formatting.py] ([format_duration],
      [format_distance], [format_length_human], [format_target_human],
      [format_steps]).
    - [Upload]: [core/upload.py], [calc_time_and_distance],
      [speed_pct_to_pace] and [label_run_steps].
    - [Zones], [ZoneDistance], [Classify]: [core/classify.py] and the
      zone decomposition [parse_workout_zones] of [core/analysis.py];
      the thresholds are the dict the caller passes, read key by key.
    - [Config]: [core/config.py] ([_deep_merge], [_default_config],
      [load_config], the TOML writer of [save_config]) and the threshold
      precedence of [commands/analyze.py].
    - [Dates]: CPython's [date] ([toordinal], [fromordinal], [weekday],
      [isocalendar], [+ timedelta], comparison) and [strptime] for
      [%Y-%m-%d].
    - [DateRanges]: [utils/date_ranges.py], the date flags and the chunk
      generator.
    - [Weekly], [ZoneReport], [Patterns]: [build_weekly_analysis],
      [analyze_zones] and [analyze_patterns] of [core/analysis.py].
    - [Markdown]: [exporters/markdown.py] ([workout_to_markdown],
      [write_workout_markdown] on a file system given as predicates,
      [generate_indexes]) and the type [commands/fetch.py] passes.
    - [Fetch]: [fetch_workouts_in_chunks] of [commands/common.py], the
      chunked API loop (the API call is a [Context] parameter), the
      filters, the stored classification and the final sort.
    - [Export]: the CSV, iCalendar and TCX writers of
      [commands/export.py] ([_write_csv] as the text [csv.DictWriter]
      writes, [_ics_escape], [_write_ical], [_write_tcx]) and the
      [Counter]-based [_summary] of [commands/fetch.py], with the RFC 4180
      and RFC 5545 readers their round trips are stated against.
    - [Api]: [core/api.py], the client with its [_has_sent_request]
      flag and the world it acts on (requests sent, sleeps, in order) as
      explicit state in the state monad [st] of this file; the network
      and [response.json()] are [Context] parameters.
    - [Auth]: [core/auth.py], the login flow over a world of the cookie
      file, the 1Password documents and the token exchanges; the JSON
      codec, the token endpoint, the [op] tool and the browser session
      are [Context] parameters.
    - [Cli]: [main_callback] of [__main__.py] and [login_command] and
      [logout_command] of [commands/auth.py] over the [Auth] world; the
      [output] a command shows and the [CLIState] it reads.
    - [UploadCommand]: [commands/upload.py] over the [Api] world:
      [load_workout_input] after decoding, [build_basic_workout],
      [convert_workout], [fetch_threshold_speed], [workout_exists] and
      the upload loop with its results, and [delete_command] with its
      confirmation; [authenticate] is given as the client and user id it
      returns.
    - [Disk]: the file system of the commands: [Path.mkdir(parents=True,
      exist_ok=True)], [Path.write_text] and [Path.exists()] as CPython
      3.11 performs them, on a disk of files and directories whose paths
      the operating system resolves component by component ([..]
      included); the same [st] monad threads the disk.
    - [FetchCommand]: [fetch_command] and [get_command] of
      [commands/fetch.py] with [write_json] and the disk side of
      [write_workout_markdown] and [generate_indexes]; their output
      (JSON payload, plain lines, table rows) is a value.
    - [ExportCommand]: [export_command] of [commands/export.py] with
      [_write_csv], [_write_ical] and [_write_tcx] on the disk.
    - [AnalyzeCommand]: [weekly_command], [zones_command] and
      [patterns_command] of [commands/analyze.py] with
      [_fetch_for_analysis], their [--output-file] writes on the disk,
      [weekly_to_markdown] of [core/analysis.py] and the console lines of
      the zone and pattern reports; the dict each report record stands
      for and [repr] of a [float] are parameters.
    - [Authenticate]: [authenticate] of [commands/common.py], the
      [resolve_cookie_store] of [TrainingPeaksAuth.__init__], then the
      composition of [Auth.login] and a new [Api] client on a session
      holding both worlds.
    - [ConfigFile]: [save_config] of [core/config.py] on the disk.

    Numbers.  Every Python float is a binary64 value ([Floats.float]:
    a dyadic rational, an infinity or NaN), and every operation on it is
    the exact operation rounded to nearest even, so the percentages,
    loads and sums of the zones, the classifier, the decomposition and
    the weekly and zone reports are the floats CPython computes, as are
    [parse_length]'s [int(value * 1000)], the estimator's
    [int(total + 0.5)], the pace [divmod], the risk percentage of
    [analyze_patterns], [format_duration]'s [int(hours * 3600)] and every
    [:.nf] format.  [float()] and [int()] of a JSON value round a float
    literal to binary64 first ([json.loads] does) and raise
    [OverflowError] on an [int] beyond the float range or an infinite
    float.  The one exception is the [Api] client, whose
    [rate_limit_delay] is the exact value of the configured float.
    Python [int] is [Z], and
    [str()] of an [int] is computed on [Z] digit by digit, with fuel
    [1 + log2 |z|], which is more than the number of decimal digits.
    Strings are ASCII [string]s.  [json.loads] is a [Context] parameter
    of the Sections that call it, so the theorems hold for every decoder.

    Theorems.  Each component has its functional behaviour on every
    branch (errors included) and its invariants: the zone classifier
    refines the threshold bands, is monotone and passes on the exception
    of a bad threshold (a NaN percentage lands in [vo2]); the
    decomposition never raises on well-formed input and returns the
    recorded distance unless the raw estimate is negative or NaN, while
    its rescaled buckets, being rounded products, need not sum to it
    exactly (a 7000 m example sums to 6999.999999999999, as in CPython);
    the weekly session counts add up per sport; each zone's session
    count is the number of workouts giving the zone a positive distance;
    the zone and pattern reports keep their keys sorted; the DSL compiler emits the blocks of its grouping rule; the
    chunk generator yields exactly the chunks of a closed-form
    specification and needs fuel one more than the days of its range,
    and with [chunk_days = 0] no fuel is enough, while with
    [chunk_days >= 1] the fuel [1 + days] always suffices (the fetch loop
    is modelled with that fuel, so its out-of-fuel branch is dead).
    Every workout the fetch returns is a workout of a list payload the
    API answered, passes its filters and carries its classification, in
    date order, and is written to the file its
    markdown index row links to.  Round trips: a
    duration printed by [format_duration] reads back through
    [parse_length] as the seconds it was computed from; a string written
    by the TOML writer reads back through a TOML basic-string reader; the
    CSV file [_write_csv] writes parses back into its header and the
    [str()] of each row's values; an [_ics_escape]d text reads back as the
    original and stays on one line.  The fetch summary's counts add up to
    its total.  The API client refines the contract "first usable answer
    among [max_retries], else [APIError]" and sends exactly the requests
    that contract consumes; its rate limit (a sleep right before every
    request but the first) is an invariant of every state reachable by
    its operations, proved by induction on reachability.  A token
    [login] returns was issued for the jar it returns; the 1Password
    document is tried first; [_cookies_to_jar] equals its last-cookie-wins
    specification.  Without [--force], a workout [upload] reports created
    was posted only after [workout_exists] answered [False] for its date
    and title; the upload loop gives one result per workout, in order.
    The command-level theorems are proved against the [Disk] model: its
    operations keep a disk well formed (every entry below a directory, no
    path both a file and a directory) and never remove a directory, and
    the invariant of a whole command follows by the [st_inv] hints along
    its binds.  On a disk without [..] in the paths, [mkdir_p] adds
    exactly the missing prefixes or fails on a file in the way, and the
    writer [FetchCommand.write_workout_markdown_disk] refines
    [Markdown.write_workout_markdown] read on the disk below the output
    directory (same path, same exception, the text at that path and no
    other file changed), so the index-link theorems about the abstract
    writer hold of the files on disk; [fetch]'s markdown count is the
    number of workouts; the
    CSV file [export] leaves is [Export.write_csv]'s text (so the RFC 4180
    round trip is a property of the file), or its prefix when a row
    raises; [export --format fit] exits with 1 only in the rich mode; the
    table of [get] is dead code.  [login] exits with code 1 exactly when [Auth.login] raised
    [AuthError]; every other exception escapes.  The file [analyze
    weekly] writes holds exactly what it prints, the file of [analyze
    zones] is the JSON report in every mode, a bad [--sport] or
    [--group-by] is rejected before authentication, and the zone and
    weekly texts of a sample are the Python code's line for line.
    [authenticate] raises before the login on a cookie store setting
    that is not a path, returns the token
    [login] returned, and every request it sends is [GET /users/v3/user]
    with that token, the first one without a sleep before it; a bad
    [api] setting raises after the login, before any request.
    [save_config] leaves at its path the JSON text for a [.json] suffix
    in any case, the TOML text otherwise.
    [_deep_merge] is characterised by lookup and by key order; the
    thresholds [analyze zones] passes follow "flag > config > default"
    through a real [load_config]; the markdown index links to the file
    the writer wrote; the two [str.replace] passes of the TOML writer
    equal a one-pass escape; slugs are bounded and idempotent when not
    cut.  The calendar lemmas prove [toordinal] and [fromordinal]
    inverse on all of years 1..9999 by evaluating one 400-year cycle
    (146097 days) and shifting it.  The manifest lists the claims
    C1..C39 and the findings, edge cases where the code does what the
    spec or a comment does not say (a null day, a week without hard
    sessions, [date.max], [1.001km], ties of [int(x + 0.5)], a lost
    second in [format_duration], control characters and bare keys in the
    TOML writer, index links to files that were named otherwise, a
    calendar without CRLF, an unescaped TCX title, client errors that are
    retried, an empty cookie value dropped, a login that fails after
    success when [op] is missing, a POST retried after a 502 that can
    create a workout twice, an upload aborted by one odd entry of the day,
    a [workoutDay] of [../../../x] that writes outside the output
    directory, a markdown count that counts files it did not write,
    three wordings of one logout message, zone buckets that do not sum
    to the distance the spec says they sum to).

    Not modelled: the transport under the HTTP client (the answers of
    [requests] are a parameter of [Api]; [Fetch] takes [get_workouts] as
    a parameter of its own), the Playwright page script and [_op_env] of
    [core/auth.py] (the browser session is a parameter), typer's argument
    parsing (the option callbacks are modelled, run first), [json.dumps] (a parameter wherever it
    is called), the rendering of [rich] tables and of [console.print]
    markup, standard-error warnings, permissions and symbolic links of
    the file system, the YAML parser of [load_workout_input], path
    expansion and environment reads of [core/config.py] ([expand_path],
    [default_data_dir]: the data directory is an argument), the TOML and
    JSON parsers (the decoded contents of a config file are an argument;
    the TOML basic-string reader of [Config] states only what the round
    trip needs), non-ASCII text (the regular expressions' [\d] and
    [str.lower] on Unicode), the sign of [-0.0], and CPython's limit on
    the digits of [int()].  [date.today()] is the [today] argument of
    [resolve_date_range].  The typer wiring of [__main__.py] (the
    command registrations) and [get_state] (its [ctx.obj] is always the
    state [main_callback] built) have no behaviour of their own; the
    [Content-Type] header of [_headers] and [_op_env] of [core/auth.py]
    (an environment copy for the [op] subprocess, itself a parameter)
    are not modelled.  A [rate_limit_delay] of [+inf] (with which
    [time.sleep] raises [OverflowError]) is outside the [Api] model, and
    the order [sorted] gives NaN distances in the weekly by-type table
    depends on CPython's merge order and is not modelled; [repr] of the
    risk percentage is a parameter. *)

From Stdlib Require Import QArith Qround Lqa ZArith Lia Ascii String List Bool.
From Stdlib Require Import Sorting.Permutation Sorting.Sorted.
From stdpp Require Import base decidable list.
Import ListNotations.

(** ** Python exceptions and the result monad

    Every Python function of the program that can raise is modelled as a
    function into [res A]: [Ok a] is a normal return, [Raise e] is an
    exception of class [e] propagating out of the function. *)

Inductive exc : Type :=
  | TypeError
  | ValueError
  | AttributeError
  | KeyError
  | IndexError
  | OverflowError
  | ZeroDivisionError
  | BadParameter
  | JSONDecodeError
  | ConfigError
  | OSError
  | APIError
  | AuthError
  | RuntimeError.

#[export] Instance exc_eq_dec : EqDecision exc.
Proof. solve_decision. Defined.

Inductive res (A : Type) : Type :=
  | Ok (a : A)
  | Raise (e : exc).
Arguments Ok {A} a.
Arguments Raise {A} e.

Definition res_bind {A B : Type} (r : res A) (k : A -> res B) : res B :=
  match r with
  | Ok a => k a
  | Raise e => Raise e
  end.

Definition res_map {A B : Type} (f : A -> B) (r : res A) : res B :=
  match r with
  | Ok a => Ok (f a)
  | Raise e => Raise e
  end.

(** [try: r except (C1, ..., Cn): handler] *)
Definition try_except {A : Type} (caught : list exc) (r : res A) (handler : A) : res A :=
  match r with
  | Ok a => Ok a
  | Raise e => if decide (e ∈ caught) then Ok handler else Raise e
  end.

(** [try: r except Exception: handler] *)
Definition try_any {A : Type} (r : res A) (handler : A) : res A :=
  match r with
  | Ok a => Ok a
  | Raise _ => Ok handler
  end.

Declare Scope py_scope.
Delimit Scope py_scope with py.

Notation "'let*' x ':=' c 'in' k" := (res_bind c (fun x => k))
  (at level 10, x name, c at level 100, k at level 200) : py_scope.
Notation "'let*' ' p ':=' c 'in' k" := (res_bind c (fun x => match x with p => k end))
  (at level 10, p pattern, c at level 100, k at level 200) : py_scope.

Open Scope py_scope.

(** A [for] loop whose body may raise. *)
Fixpoint res_fold_left {A B : Type} (f : B -> A -> res B) (l : list A) (b : B) : res B :=
  match l with
  | [] => Ok b
  | x :: l' => let* b' := f b x in res_fold_left f l' b'
  end.

(** A list comprehension whose element expression may raise. *)
Fixpoint res_map_list {A B : Type} (f : A -> res B) (l : list A) : res (list B) :=
  match l with
  | [] => Ok []
  | x :: l' => let* y := f x in let* ys := res_map_list f l' in Ok (y :: ys)
  end.

(** [[x for x in l if p(x)]] where the test can raise. *)
Fixpoint res_filter {A : Type} (p : A -> res bool) (l : list A) : res (list A) :=
  match l with
  | [] => Ok []
  | x :: l' => let* b := p x in let* r := res_filter p l' in Ok (if b then x :: r else r)
  end.

(** ** A state and error monad

    Code that changes the state of an object or of the world around it
    (sleeps, requests, files) is modelled as [st S A]: from the state
    before, the state after and the result or the exception. *)

Definition st (S A : Type) : Type := S -> S * res A.

Definition st_ret {S A : Type} (a : A) : st S A := fun s => (s, Ok a).

Definition st_bind {S A B : Type} (m : st S A) (k : A -> st S B) : st S B :=
  fun s => let '(s', r) := m s in
           match r with Ok a => k a s' | Raise e => (s', Raise e) end.

(** A computation that does not touch the state. *)
Definition st_lift {S A : Type} (r : res A) : st S A := fun s => (s, r).

(** A computation that only changes the state. *)
Definition st_modify {S : Type} (f : S -> S) : st S unit := fun s => (f s, Ok tt).

Declare Scope st_scope.
Delimit Scope st_scope with st.
Notation "x <-- m ;; k" := (st_bind m (fun x => k))
  (at level 62, m at next level, right associativity) : st_scope.
Notation "m ;;; k" := (st_bind m (fun _ => k))
  (at level 62, right associativity) : st_scope.

(** [for x in l: f(x)] *)
Fixpoint st_iter {S A : Type} (f : A -> st S unit) (l : list A) : st S unit :=
  match l with
  | [] => st_ret tt
  | x :: l' => st_bind (f x) (fun _ => st_iter f l')
  end.

(** [try: m except e: h] *)
Definition st_except {S A : Type} (e : exc) (m h : st S A) : st S A :=
  fun s => let '(s', r) := m s in
           match r with
           | Raise e' => if decide (e' = e) then h s' else (s', r)
           | Ok _ => (s', r)
           end.

(** [m] keeps [P] of the state, whether it returns or raises. *)
Definition st_preserves {S A : Type} (P : S -> Prop) (m : st S A) : Prop :=
  forall s s' r, P s -> m s = (s', r) -> P s'.

(** ** Strings as Python [str] (ASCII model) *)

Open Scope string_scope.

(** [str.lower] on the ASCII range. *)
Definition ascii_lower (c : ascii) : ascii :=
  let n := nat_of_ascii c in
  if (65 <=? n)%nat && (n <=? 90)%nat then ascii_of_nat (n + 32) else c.

Fixpoint lower (s : string) : string :=
  match s with
  | EmptyString => EmptyString
  | String c s' => String (ascii_lower c) (lower s')
  end.

(** [str.isspace] on the ASCII range: TAB..CR, the separators
    0x1c..0x1f and SPACE. *)
Definition is_space (c : ascii) : bool :=
  let n := nat_of_ascii c in
  ((9 <=? n)%nat && (n <=? 13)%nat) || ((28 <=? n)%nat && (n <=? 32)%nat).

Fixpoint lstrip (s : string) : string :=
  match s with
  | EmptyString => EmptyString
  | String c s' => if is_space c then lstrip s' else s
  end.

Fixpoint string_rev (s : string) : string :=
  match s with
  | EmptyString => EmptyString
  | String c s' => string_rev s' ++ String c EmptyString
  end.

Definition rstrip (s : string) : string := string_rev (lstrip (string_rev s)).

(** [str.strip()] *)
Definition strip (s : string) : string := rstrip (lstrip s).

(** [needle in hay] for two strings. *)
Fixpoint contains (needle hay : string) : bool :=
  String.prefix needle hay ||
  match hay with
  | EmptyString => false
  | String _ hay' => contains needle hay'
  end.

(** [s.endswith(suf)] *)
Definition ends_with (suf s : string) : bool := String.prefix (string_rev suf) (string_rev s).

(** [s[:n]] for [n >= 0] *)
Definition take (n : nat) (s : string) : string := substring 0 n s.

(** [s[:-n]] for [n > 0] *)
Definition drop_last (n : nat) (s : string) : string := substring 0 (String.length s - n) s.

(** [s.split(c)] for a one-character separator: the empty string gives a list of one empty string, and
    empty fields are kept. *)
Fixpoint split_char (sep : ascii) (s : string) : list string :=
  match s with
  | EmptyString => [EmptyString]
  | String c s' =>
      if Ascii.eqb c sep then EmptyString :: split_char sep s'
      else match split_char sep s' with
           | [] => [String c EmptyString]
           | w :: ws => String c w :: ws
           end
  end.

(** [a < b] and [a <= b] on [str]: code-point order, which is the byte
    order of the encodings. *)
Definition str_ltb (a b : string) : bool :=
  match String.compare a b with Lt => true | _ => false end.
Definition str_leb (a b : string) : bool :=
  match String.compare a b with Gt => false | _ => true end.

(** ** Decimal digits *)

Definition digit_value (c : ascii) : option nat :=
  let n := nat_of_ascii c in
  if (48 <=? n)%nat && (n <=? 57)%nat then Some (n - 48)%nat else None.

Definition is_digit (c : ascii) : bool :=
  match digit_value c with Some _ => true | None => false end.

Definition digit_char (d : nat) : ascii := ascii_of_nat (48 + d).

(** The decimal digits of [n >= 0], most significant first, prepended
    to [acc]; [fuel] bounds the number of digits. *)
Fixpoint digits_of_Z (fuel : nat) (n : Z) (acc : string) : string :=
  match fuel with
  | O => acc
  | S fuel' =>
      let acc' := String (digit_char (Z.to_nat (n mod 10))) acc in
      if (n <? 10)%Z then acc' else digits_of_Z fuel' (n / 10) acc'
  end.

(** [str(z)] for a Python [int]: [|z|] has at most [log2 |z| + 1]
    decimal digits. *)
Definition string_of_Z (z : Z) : string :=
  let a := Z.abs z in
  let ds := digits_of_Z (S (Z.to_nat (Z.log2 a))) a EmptyString in
  if (z <? 0)%Z then "-" ++ ds else ds.

(** [f"{z:02d}"] *)
Definition pad2 (z : Z) : string :=
  if ((0 <=? z) && (z <? 10))%Z then "0" ++ string_of_Z z else string_of_Z z.

(** ** Stable sorting ([sorted(xs, key=...)] and [list.sort]) *)

Section StableSort.
Context {A : Type} (leb : A -> A -> bool).

(** Insert [x] after every element that is not greater than it. *)
Fixpoint insert_stable (x : A) (l : list A) : list A :=
  match l with
  | [] => [x]
  | y :: l' => if leb y x then y :: insert_stable x l' else x :: l
  end.

Definition sort_stable (l : list A) : list A :=
  fold_left (fun acc x => insert_stable x acc) l [].
End StableSort.

(** ** Python floats as rationals *)

Open Scope Q_scope.

Definition qltb (a b : Q) : bool := negb (Qle_bool b a).

(** [int(x)] on a float: truncation toward zero. *)
Definition trunc (q : Q) : Z := Z.quot (Qnum q) (Zpos (Qden q)).

(** ** Automation *)

(** [s.replace(c, rep)] for a one-character pattern. *)
Fixpoint replace_char (c : ascii) (rep : string) (s : string) : string :=
  match s with
  | EmptyString => EmptyString
  | String c' s' => (if Ascii.eqb c' c then rep else String c' EmptyString) ++ replace_char c rep s'
  end.

Create HintDb tpcli.
Create Rewrite HintDb tpcli_rw.

(** ** Shared lemmas *)

Lemma res_bind_Ok {A B : Type} (a : A) (k : A -> res B) : res_bind (Ok a) k = k a.
Proof. reflexivity. Qed.

Lemma res_bind_Raise {A B : Type} (e : exc) (k : A -> res B) : res_bind (Raise e) k = Raise e.
Proof. reflexivity. Qed.

#[export] Hint Rewrite @res_bind_Ok @res_bind_Raise : tpcli_rw.

Lemma qltb_true (a b : Q) : qltb a b = true <-> a < b.
Proof.
  unfold qltb. rewrite negb_true_iff. split; intros H.
  - apply Qnot_le_lt. intros Hle. apply Qle_bool_iff in Hle. congruence.
  - destruct (Qle_bool b a) eqn:E; [| reflexivity].
    apply Qle_bool_iff in E. exfalso. apply (Qlt_not_le a b); assumption.
Qed.

Lemma qltb_false (a b : Q) : qltb a b = false <-> b <= a.
Proof.
  unfold qltb. rewrite negb_false_iff. apply Qle_bool_iff.
Qed.

Lemma Qle_bool_false (a b : Q) : Qle_bool a b = false <-> b < a.
Proof.
  split; intros H.
  - apply Qnot_le_lt. intros Hle. apply Qle_bool_iff in Hle. congruence.
  - destruct (Qle_bool a b) eqn:E; [| reflexivity].
    apply Qle_bool_iff in E. exfalso. apply (Qlt_not_le b a); assumption.
Qed.

(** Turn the boolean comparisons of a hypothesis or goal into [Qle]/[Qlt]. *)
Ltac qbool :=
  repeat match goal with
  | H : Qle_bool _ _ = true |- _ => apply Qle_bool_iff in H
  | H : Qle_bool _ _ = false |- _ => apply Qle_bool_false in H
  | H : qltb _ _ = true |- _ => apply qltb_true in H
  | H : qltb _ _ = false |- _ => apply qltb_false in H
  end.

(** Case on every [Qle_bool] test of the goal, keeping the facts. *)
Ltac qcase :=
  repeat match goal with
  | |- context [Qle_bool ?a ?b] =>
      let E := fresh "E" in destruct (Qle_bool a b) eqn:E; qbool
  | |- context [qltb ?a ?b] =>
      let E := fresh "E" in destruct (qltb a b) eqn:E; qbool
  end.

Lemma lower_app (a b : string) : lower (a ++ b) = lower a ++ lower b.
Proof. induction a as [| c a IH]; simpl; [reflexivity | now rewrite IH]. Qed.

Lemma contains_app_r (n a b : string) : contains n b = true -> contains n (a ++ b) = true.
Proof.
  induction a as [| c a IH]; simpl; intros H; [exact H |].
  rewrite (IH H). apply orb_true_r.
Qed.

Lemma prefix_app_r (n a b : string) : String.prefix n a = true -> String.prefix n (a ++ b) = true.
Proof.
  revert a. induction n as [| c n IH]; intros a H; [destruct (a ++ b); reflexivity |].
  destruct a as [| c' a]; simpl in *; [discriminate |].
  destruct (ascii_dec c c'); [now apply IH | discriminate].
Qed.

Lemma contains_app_l (n a b : string) : contains n a = true -> contains n (a ++ b) = true.
Proof.
  induction a as [| c a IH]; simpl; intros H.
  - destruct n; [destruct b; reflexivity | discriminate].
  - apply orb_true_iff in H as [H | H].
    + apply orb_true_iff. left. exact (prefix_app_r _ (String c a) b H).
    + rewrite (IH H). apply orb_true_r.
Qed.

#[export] Hint Resolve contains_app_l contains_app_r : tpcli.

Lemma insert_stable_perm {A : Type} (leb : A -> A -> bool) (x : A) (l : list A) :
  Permutation (x :: l) (insert_stable leb x l).
Proof.
  induction l as [| y l IH]; simpl; [reflexivity |].
  destruct (leb y x); [| reflexivity].
  etransitivity; [apply perm_swap |]. now constructor.
Qed.

Lemma sort_stable_perm {A : Type} (leb : A -> A -> bool) (l : list A) :
  Permutation l (sort_stable leb l).
Proof.
  unfold sort_stable.
  enough (forall acc, Permutation (acc ++ l) (fold_left (fun acc x => insert_stable leb x acc) l acc))
    by (apply (H [])).
  induction l as [| x l IH]; intros acc; simpl; [now rewrite app_nil_r |].
  rewrite <- IH. rewrite <- insert_stable_perm.
  symmetry. apply Permutation_middle.
Qed.

Lemma nat_ascii_small (n : nat) : (n < 256)%nat -> nat_of_ascii (ascii_of_nat n) = n.
Proof. intros H. apply nat_ascii_embedding. exact H. Qed.

Lemma ascii_lower_cases (c : ascii) :
  (ascii_lower c = c /\ ((nat_of_ascii c < 65)%nat \/ (90 < nat_of_ascii c)%nat)) \/
  ((65 <= nat_of_ascii c <= 90)%nat /\ nat_of_ascii (ascii_lower c) = (nat_of_ascii c + 32)%nat).
Proof.
  unfold ascii_lower.
  pose proof (nat_ascii_bounded c) as Hb.
  destruct (Nat.leb_spec 65 (nat_of_ascii c)), (Nat.leb_spec (nat_of_ascii c) 90); simpl;
    [right; split; [lia | apply nat_ascii_small; lia] | left; split; auto; lia ..].
Qed.

Lemma is_space_lower (c : ascii) : is_space (ascii_lower c) = is_space c.
Proof.
  destruct (ascii_lower_cases c) as [[-> _] | [Hr Hn]]; [reflexivity |].
  unfold is_space. rewrite Hn.
  destruct (Nat.leb_spec 9 (nat_of_ascii c + 32)), (Nat.leb_spec (nat_of_ascii c + 32) 13),
           (Nat.leb_spec 28 (nat_of_ascii c + 32)), (Nat.leb_spec (nat_of_ascii c + 32) 32),
           (Nat.leb_spec 9 (nat_of_ascii c)), (Nat.leb_spec (nat_of_ascii c) 13),
           (Nat.leb_spec 28 (nat_of_ascii c)), (Nat.leb_spec (nat_of_ascii c) 32);
    simpl; lia.
Qed.

Lemma ascii_lower_idem (c : ascii) : ascii_lower (ascii_lower c) = ascii_lower c.
Proof.
  destruct (ascii_lower_cases c) as [[E _] | [Hr Hn]]; [now rewrite E, E |].
  unfold ascii_lower at 1. cbv zeta. rewrite Hn.
  destruct (Nat.leb_spec 65 (nat_of_ascii c + 32)), (Nat.leb_spec (nat_of_ascii c + 32) 90);
    simpl; [lia | reflexivity ..].
Qed.

Lemma lower_idem (s : string) : lower (lower s) = lower s.
Proof. induction s as [| c s IH]; simpl; [reflexivity | now rewrite ascii_lower_idem, IH]. Qed.

Lemma lstrip_lower (s : string) : lstrip (lower s) = lower (lstrip s).
Proof.
  induction s as [| c s IH]; simpl; [reflexivity |].
  rewrite is_space_lower. destruct (is_space c); [exact IH | reflexivity].
Qed.

Lemma string_rev_lower (s : string) : string_rev (lower s) = lower (string_rev s).
Proof. induction s as [| c s IH]; simpl; [reflexivity | now rewrite lower_app, IH]. Qed.

(** [s.strip().lower() == s.lower().strip()] *)
Lemma strip_lower (s : string) : strip (lower s) = lower (strip s).
Proof.
  unfold strip, rstrip.
  now rewrite lstrip_lower, string_rev_lower, lstrip_lower, string_rev_lower.
Qed.

#[export] Hint Rewrite lower_idem strip_lower lower_app : tpcli_rw.

(** Case on the first bind of [H : res_bind c k = Ok _], discarding the
    case where [c] raises. *)
Ltac res_step H :=
  match type of H with
  | res_bind ?c _ = _ =>
      let E := fresh "E" in destruct c eqn:E; cbn [res_bind] in H; [| discriminate H]
  end.

(** Invert a hypothesis [H : <monadic code> = Ok _]: case on every bind
    and every [if], discarding the branches that raise. *)
Ltac res_inv H :=
  repeat (match type of H with
  | res_bind ?c _ = _ =>
      let E := fresh "E" in destruct c eqn:E; cbn [res_bind] in H; try discriminate H
  | (if ?b then _ else _) = _ =>
      let E := fresh "E" in destruct b eqn:E; try discriminate H
  | (let '(_, _) := ?p in _) = _ => destruct p
  | Ok _ = Ok _ => injection H; clear H; intros; subst
  end).

(** Identify the results of two runs of the same computation. *)
Ltac res_uniq :=
  repeat match goal with
  | H1 : ?x = Ok ?a, H2 : ?x = Ok ?b |- _ =>
      rewrite H1 in H2; let E := fresh "E" in injection H2 as E; first [subst b | subst a | idtac]
  | H : Ok ?a = Ok ?b |- _ => let E := fresh "E" in injection H as E; first [subst b | subst a | idtac]
  end.

(** A loop whose body succeeds on every element succeeds. *)
Lemma res_fold_left_ok {A B : Type} (P : B -> Prop) (f : B -> A -> res B) (l : list A) (b : B) :
  P b ->
  (forall b x, In x l -> P b -> exists b', f b x = Ok b' /\ P b') ->
  exists b', res_fold_left f l b = Ok b' /\ P b'.
Proof.
  revert b. induction l as [| x l IH]; intros b Hb Hf; simpl; [eauto |].
  destruct (Hf b x (or_introl eq_refl) Hb) as (b' & -> & Hb'). simpl.
  apply IH; [exact Hb' |]. intros b0 y Hy. apply Hf. now right.
Qed.

(** A loop preserves every invariant its body preserves. *)
Lemma res_fold_left_inv {A B : Type} (P : B -> Prop) (f : B -> A -> res B) (l : list A) (b b' : B) :
  P b ->
  (forall b x b', In x l -> P b -> f b x = Ok b' -> P b') ->
  res_fold_left f l b = Ok b' -> P b'.
Proof.
  revert b. induction l as [| x l IH]; intros b Hb Hf H; simpl in H.
  - now injection H as <-.
  - destruct (f b x) as [b1|] eqn:E; simpl in H; [| discriminate].
    apply (IH b1); [exact (Hf b x b1 (or_introl eq_refl) Hb E) | | exact H].
    intros b0 y b2 Hy. apply Hf. now right.
Qed.

(** ** Digit strings

    [digstr ds] is the string of the decimal digits [ds]; [str(n)]
    ([string_of_Z]) is one, and [strip], [split] and the scanners of
    [int()] and [float()] see through it. *)

Definition digstr (ds : list nat) : string :=
  fold_right (fun d s => String (digit_char d) s) EmptyString ds.

(** Every character of [s] satisfies [P]. *)
Fixpoint all_chars (P : ascii -> bool) (s : string) : bool :=
  match s with
  | EmptyString => true
  | String c s' => P c && all_chars P s'
  end.

(** A character that [str.strip()] keeps. *)
Definition no_space (c : ascii) : bool := negb (is_space c).

Definition is_digit_list (ds : list nat) : Prop := Forall (fun d => (d < 10)%nat) ds.

Lemma digit_char_value (d : nat) : (d < 10)%nat -> digit_value (digit_char d) = Some d.
Proof.
  intros H. unfold digit_value, digit_char. rewrite nat_ascii_small by lia.
  replace ((48 <=? 48 + d)%nat && (48 + d <=? 57)%nat) with true
    by (symmetry; apply andb_true_iff; split; apply Nat.leb_le; lia).
  f_equal. lia.
Qed.

Lemma digit_char_code (d : nat) : (d < 10)%nat -> nat_of_ascii (digit_char d) = (48 + d)%nat.
Proof. intros H. apply nat_ascii_small. lia. Qed.

(** A digit is none of the characters with another code. *)
Lemma digit_char_neq (d : nat) (c : ascii) :
  (d < 10)%nat -> ((nat_of_ascii c < 48)%nat \/ (57 < nat_of_ascii c)%nat) -> digit_char d <> c.
Proof. intros Hd Hc <-. rewrite digit_char_code in Hc by exact Hd. lia. Qed.

(** A property of characters holds of all of them when it holds of the
    256 codes. *)
Lemma ascii_forall (P : ascii -> bool) :
  forallb (fun n => P (ascii_of_nat n)) (seq 0 256) = true -> forall c, P c = true.
Proof.
  intros H c. rewrite forallb_forall in H. rewrite <- (ascii_nat_embedding c). apply H.
  apply in_seq. pose proof (nat_ascii_bounded c). lia.
Qed.

Lemma all_chars_substring (P : ascii -> bool) (n m : nat) (s : string) :
  all_chars P s = true -> all_chars P (substring n m s) = true.
Proof.
  revert n m. induction s as [| c s IH]; intros n m H; destruct n, m; simpl in *; auto.
  apply andb_true_iff in H as [Hc Hs]. rewrite Hc. simpl. auto.
  apply andb_true_iff in H as [_ Hs]. auto.
  apply andb_true_iff in H as [_ Hs]. auto.
Qed.

Lemma substring_length_le (n : nat) (s : string) : (String.length (substring 0 n s) <= n)%nat.
Proof. revert n. induction s as [| c s IH]; intros [| n]; simpl; try lia. specialize (IH n). lia. Qed.

Lemma substring_all (n : nat) (s : string) : (String.length s <= n)%nat -> substring 0 n s = s.
Proof.
  revert n. induction s as [| c s IH]; intros [| n] H; simpl in *; try reflexivity; try lia.
  f_equal. apply IH. lia.
Qed.

Lemma all_chars_app (P : ascii -> bool) (a b : string) :
  all_chars P (a ++ b) = all_chars P a && all_chars P b.
Proof. induction a as [| c a IH]; simpl; [reflexivity | now rewrite IH, andb_assoc]. Qed.

Lemma string_app_nil_r (s : string) : s ++ EmptyString = s.
Proof. induction s as [| c s IH]; simpl; [reflexivity | now rewrite IH]. Qed.

Lemma string_app_assoc (a b c : string) : a ++ (b ++ c) = (a ++ b) ++ c.
Proof. induction a as [| x a IH]; simpl; [reflexivity | now rewrite IH]. Qed.

Lemma replace_char_app (c : ascii) (rep a b : string) :
  replace_char c rep (a ++ b) = replace_char c rep a ++ replace_char c rep b.
Proof. induction a as [| c' a IH]; cbn; [reflexivity |]. now rewrite IH, string_app_assoc. Qed.

Lemma string_rev_app (a b : string) : string_rev (a ++ b) = string_rev b ++ string_rev a.
Proof.
  induction a as [| c a IH]; simpl.
  - now rewrite string_app_nil_r.
  - now rewrite IH, string_app_assoc.
Qed.

Lemma string_rev_involutive (s : string) : string_rev (string_rev s) = s.
Proof. induction s as [| c s IH]; simpl; [reflexivity |]. now rewrite string_rev_app, IH. Qed.

Lemma all_chars_rev (P : ascii -> bool) (s : string) : all_chars P (string_rev s) = all_chars P s.
Proof.
  induction s as [| c s IH]; simpl; [reflexivity |].
  rewrite all_chars_app, IH. simpl. now rewrite andb_true_r, andb_comm.
Qed.

Lemma lstrip_no_space (s : string) : all_chars no_space s = true -> lstrip s = s.
Proof. destruct s as [| c s]; simpl; [reflexivity |]. unfold no_space. now destruct (is_space c). Qed.

(** A string without whitespace is its own [strip()]. *)
Lemma strip_no_space (s : string) : all_chars no_space s = true -> strip s = s.
Proof.
  intros H. unfold strip, rstrip. rewrite (lstrip_no_space s H), lstrip_no_space.
  - apply string_rev_involutive.
  - now rewrite all_chars_rev.
Qed.

Lemma split_char_none (sep : ascii) (s : string) :
  all_chars (fun c => negb (Ascii.eqb c sep)) s = true -> split_char sep s = [s].
Proof.
  induction s as [| c s IH]; simpl; [reflexivity |].
  intros [Hc Hs]%andb_true_iff. apply negb_true_iff in Hc. rewrite Hc, (IH Hs). reflexivity.
Qed.

(** [(a + sep + b).split(sep)] is [[a] + b.split(sep)] when [a] has no [sep]. *)
Lemma split_char_app (sep : ascii) (a b : string) :
  all_chars (fun c => negb (Ascii.eqb c sep)) a = true ->
  split_char sep (a ++ String sep b) = a :: split_char sep b.
Proof.
  induction a as [| c a IH]; simpl; intros H.
  - now rewrite Ascii.eqb_refl.
  - apply andb_true_iff in H as [Hc Ha]. apply negb_true_iff in Hc. rewrite Hc, (IH Ha). reflexivity.
Qed.

Lemma string_length_app (a b : string) : String.length (a ++ b) = (String.length a + String.length b)%nat.
Proof. induction a as [| c a IH]; cbn; [reflexivity | now rewrite IH]. Qed.

(** A string that ends in [t] without [sep] splits into pieces the last
    of which ends in [t]. *)
Lemma split_char_suffix (sep : ascii) (s t : string) :
  all_chars (fun c => negb (Ascii.eqb c sep)) t = true -> exists u, In (u ++ t) (split_char sep (s ++ t)).
Proof.
  intros Ht. induction s as [| c s IH]; cbn.
  - exists EmptyString. rewrite split_char_none by exact Ht. now left.
  - destruct IH as [u Hu]. destruct (Ascii.eqb c sep); [exists u; now right |].
    destruct (split_char sep (s ++ t)) as [| w ws]; [destruct Hu |].
    destruct Hu as [-> | Hu]; [exists (String c u); now left | exists u; now right].
Qed.

Lemma digstr_app (a b : list nat) : digstr (a ++ b) = digstr a ++ digstr b.
Proof. induction a as [| d a IH]; simpl; [reflexivity | now rewrite IH]. Qed.

Lemma all_chars_digstr (P : ascii -> bool) (ds : list nat) :
  is_digit_list ds -> (forall d, (d < 10)%nat -> P (digit_char d) = true) -> all_chars P (digstr ds) = true.
Proof. intros Hds HP. induction Hds; simpl; [reflexivity |]. now rewrite HP, IHHds. Qed.

Lemma prefix_refl (s : string) : String.prefix s s = true.
Proof.
  induction s as [| c s IH]; cbn; [reflexivity |].
  destruct (ascii_dec c c); [exact IH | contradiction].
Qed.

(** [(s + suf).endswith(suf)] *)
Lemma ends_with_app (suf s : string) : ends_with suf (s ++ suf) = true.
Proof. unfold ends_with. rewrite string_rev_app. apply prefix_app_r, prefix_refl. Qed.

(** A loop whose body keeps [g] of each item keeps [map g] of the list. *)
Lemma res_map_list_map {A B C : Type} (f : A -> res B) (g : B -> C) (h : A -> C) (l : list A) (l' : list B) :
  (forall x y, f x = Ok y -> g y = h x) -> res_map_list f l = Ok l' -> map g l' = map h l.
Proof.
  intros Hf. revert l'. induction l as [| x l IH]; intros l' H; cbn in H.
  - now injection H as <-.
  - destruct (f x) as [y |] eqn:E; cbn in H; [| discriminate].
    destruct (res_map_list f l) as [ys |]; cbn in H; [| discriminate].
    injection H as <-. cbn. f_equal; [exact (Hf x y E) | exact (IH ys eq_refl)].
Qed.

(** A loop whose body only yields values satisfying [P] yields a list of them. *)
Lemma res_map_list_Forall {A B : Type} (P : B -> Prop) (f : A -> res B) (l : list A) (l' : list B) :
  (forall x y, f x = Ok y -> P y) -> res_map_list f l = Ok l' -> Forall P l'.
Proof.
  intros Hf. revert l'. induction l as [| x l IH]; intros l' H; cbn in H.
  - now injection H as <-.
  - destruct (f x) as [y |] eqn:E; cbn in H; [| discriminate].
    destruct (res_map_list f l) as [ys |]; cbn in H; [| discriminate].
    injection H as <-. constructor; [exact (Hf x y E) | exact (IH ys eq_refl)].
Qed.

(** The same, for a body that is only run on the items of [l]. *)
Lemma res_map_list_Forall_in {A B : Type} (P : B -> Prop) (f : A -> res B) (l : list A) (l' : list B) :
  (forall x y, In x l -> f x = Ok y -> P y) -> res_map_list f l = Ok l' -> Forall P l'.
Proof.
  revert l'. induction l as [| x l IH]; intros l' Hf H; cbn in H.
  - now injection H as <-.
  - destruct (f x) as [y |] eqn:E; cbn in H; [| discriminate].
    destruct (res_map_list f l) as [ys |]; cbn in H; [| discriminate].
    injection H as <-. constructor; [exact (Hf x y (or_introl eq_refl) E) |].
    apply (IH ys); [intros x' y' Hx; apply Hf; now right | reflexivity].
Qed.

Lemma res_map_list_length {A B : Type} (f : A -> res B) (l : list A) (l' : list B) :
  res_map_list f l = Ok l' -> length l' = length l.
Proof.
  intros H. rewrite <- (length_map (fun _ => tt) l'), <- (length_map (fun _ => tt) l).
  f_equal. exact (res_map_list_map f (fun _ => tt) (fun _ => tt) l l' (fun _ _ _ => eq_refl) H).
Qed.

Lemma res_map_list_then {A B C : Type} (f : A -> res B) (g : B -> C) (l : list A) (l' : list C) :
  res_map_list (fun x => let* y := f x in Ok (g y)) l = Ok l' ->
  exists l0, res_map_list f l = Ok l0 /\ l' = map g l0.
Proof.
  revert l'. induction l as [| x l IH]; intros l' H; cbn in H; [injection H as <-; now exists [] |].
  destruct (f x) as [y |] eqn:Ef; cbn in H; [| discriminate H].
  destruct (res_map_list _ l) as [l1 |] eqn:El; cbn in H; [| discriminate H]. injection H as <-.
  destruct (IH _ eq_refl) as [l0 [Hl0 ->]]. exists (y :: l0). cbn. now rewrite Ef, Hl0.
Qed.

Lemma prefix_app (p s : string) : String.prefix p (p ++ s) = true.
Proof. apply prefix_app_r, prefix_refl. Qed.

#[export] Hint Resolve prefix_app : tpcli.

(** ** Sortedness of [sort_stable] and the order on [str] *)

Section SortFacts.
Context {A : Type} (leb : A -> A -> bool).
Hypothesis leb_total : forall x y, leb x y = false -> leb y x = true.

Lemma insert_stable_sorted (x : A) (l : list A) :
  Sorted (fun a b => leb a b = true) l -> Sorted (fun a b => leb a b = true) (insert_stable leb x l).
Proof.
  induction 1 as [| y l Hs IH Hhd]; cbn; [repeat constructor |].
  destruct (leb y x) eqn:E.
  - constructor; [exact IH |]. destruct l as [| z l']; cbn; [constructor; exact E |].
    destruct (leb z x); constructor; [inversion Hhd; assumption | exact E].
  - constructor; [constructor; assumption | constructor; apply leb_total; exact E].
Qed.

Lemma sort_stable_sorted (l : list A) : Sorted (fun a b => leb a b = true) (sort_stable leb l).
Proof.
  unfold sort_stable. assert (H : Sorted (fun a b => leb a b = true) []) by constructor. revert H.
  generalize (@nil A). induction l as [| x l IH]; intros acc H; cbn; [exact H |].
  apply IH, insert_stable_sorted, H.
Qed.
End SortFacts.

(** A sorted list stays sorted under a map that carries the order. *)
Lemma Sorted_map {A B : Type} (R : A -> A -> Prop) (S : B -> B -> Prop) (f : A -> B) (l : list A) :
  (forall x y, In x l -> In y l -> R x y -> S (f x) (f y)) -> Sorted R l -> Sorted S (map f l).
Proof.
  intros HRS Hs. induction Hs as [| x l Hs IH Hhd]; cbn; constructor.
  - apply IH. intros a b Ha Hb. apply HRS; right; assumption.
  - destruct Hhd as [| y l' Hxy]; cbn; constructor. apply HRS; [left | right; left |]; auto.
Qed.

Lemma str_leb_total (a b : string) : str_leb a b = false -> str_leb b a = true.
Proof. unfold str_leb. rewrite (String.compare_antisym b a). destruct (String.compare a b); cbn; congruence. Qed.

(** Adjacent distinct keys of a sorted list are strictly ordered. *)
Lemma sorted_nodup_strict (l : list string) :
  Sorted (fun a b => str_leb a b = true) l -> List.NoDup l -> Sorted (fun a b => str_ltb a b = true) l.
Proof.
  induction 1 as [| a l Hs IH Hhd]; intros Hnd; constructor; inversion Hnd as [| ? ? Hna Hnd']; subst.
  - exact (IH Hnd').
  - destruct Hhd as [| b l' Hab]; constructor. unfold str_leb, str_ltb in *.
    destruct (String.compare a b) eqn:E; try discriminate; [| reflexivity].
    apply String.compare_eq_iff in E. subst. exfalso. apply Hna. now left.
Qed.

(** ** The state monad *)

Lemma st_bind_lift_fst {S A B : Type} (m : st S A) (f : A -> res B) (s : S) :
  fst (st_bind m (fun x => st_lift (f x)) s) = fst (m s).
Proof. unfold st_bind, st_lift. destruct (m s) as [s' [a | e]]; reflexivity. Qed.

Lemma st_bind_ok {S A B : Type} (m : st S A) (k : A -> st S B) (s s' : S) (a : A) :
  m s = (s', Ok a) -> st_bind m k s = k a s'.
Proof. intros H. unfold st_bind. now rewrite H. Qed.

Lemma st_bind_raise {S A B : Type} (m : st S A) (k : A -> st S B) (s s' : S) (e : exc) :
  m s = (s', Raise e) -> st_bind m k s = (s', Raise e).
Proof. intros H. unfold st_bind. now rewrite H. Qed.

Lemma st_bind_inv {S A B : Type} (m : st S A) (k : A -> st S B) (s s' : S) (b : B) :
  st_bind m k s = (s', Ok b) -> exists s1 a, m s = (s1, Ok a) /\ k a s1 = (s', Ok b).
Proof.
  unfold st_bind. destruct (m s) as [s1 [a | e]]; [eauto | discriminate].
Qed.

Lemma st_lift_inv {S A : Type} (r : res A) (s s' : S) (a : A) : st_lift r s = (s', Ok a) -> s' = s /\ r = Ok a.
Proof. unfold st_lift. intros H. now injection H as -> ->. Qed.

(** Invariants of the state, built along the structure of a program by
    [eauto with st_inv]. *)
Create HintDb st_inv.

Lemma st_ret_preserves {S A : Type} (P : S -> Prop) (a : A) : st_preserves P (st_ret a).
Proof. intros s s' r H E. now injection E as <- _. Qed.

Lemma st_lift_preserves {S A : Type} (P : S -> Prop) (r : res A) : st_preserves P (st_lift r).
Proof. intros s s' r' H E. now injection E as <- _. Qed.

Lemma st_bind_preserves {S A B : Type} (P : S -> Prop) (m : st S A) (k : A -> st S B) :
  st_preserves P m -> (forall a, st_preserves P (k a)) -> st_preserves P (st_bind m k).
Proof.
  intros Hm Hk s s' r H E. unfold st_bind in E. destruct (m s) as [s1 [a | e]] eqn:M.
  - exact (Hk a s1 s' r (Hm _ _ _ H M) E).
  - injection E as <- _. exact (Hm _ _ _ H M).
Qed.

Lemma st_iter_preserves {S A : Type} (P : S -> Prop) (f : A -> st S unit) (l : list A) :
  (forall x, st_preserves P (f x)) -> st_preserves P (st_iter f l).
Proof.
  intros Hf. induction l as [| x l IH]; cbn [st_iter]; [apply st_ret_preserves |].
  apply st_bind_preserves; [apply Hf | intros _; exact IH].
Qed.

Lemma st_if_preserves {S A : Type} (P : S -> Prop) (b : bool) (m1 m2 : st S A) :
  st_preserves P m1 -> st_preserves P m2 -> st_preserves P (if b then m1 else m2).
Proof. now destruct b. Qed.

Lemma st_except_preserves {S A : Type} (P : S -> Prop) (e : exc) (m h : st S A) :
  st_preserves P m -> st_preserves P h -> st_preserves P (st_except e m h).
Proof.
  intros Hm Hh s s' r H E. unfold st_except in E. destruct (m s) as [s1 [a | e']] eqn:M.
  - injection E as <- _. exact (Hm _ _ _ H M).
  - destruct (decide (e' = e)); [exact (Hh _ _ _ (Hm _ _ _ H M) E) |]. injection E as <- _. exact (Hm _ _ _ H M).
Qed.

#[export] Hint Resolve st_ret_preserves st_lift_preserves st_bind_preserves st_iter_preserves
  st_if_preserves st_except_preserves : st_inv.

(** Invert a hypothesis [H : <stateful code> s = (s', Ok _)]: name the
    state and result of every bind, case on every [if] and pair, discard
    the branches that raise. *)
Ltac st_run H :=
  repeat (match type of H with
  | st_bind _ _ _ = (_, Ok _) =>
      let s1 := fresh "s" in let a := fresh "a" in let H1 := fresh "Hb" in
      apply st_bind_inv in H as (s1 & a & H1 & H);
      try (let E := fresh "E" in apply st_lift_inv in H1 as [E H1]; subst s1)
  | (if ?b then _ else _) _ = _ => let E := fresh "E" in destruct b eqn:E
  | (let '(_, _) := ?p in _) _ = _ => destruct p
  | st_lift (Raise _) _ = _ => discriminate H
  | st_ret _ _ = _ => injection H; clear H; intros; subst
  end; cbv beta zeta in H).

(** Proves [st_preserves P m] along the structure of [m]: binds,
    conditionals and pair matches, then the [st_inv] hints of the
    operations. *)
Ltac st_inv_auto :=
  repeat (intros; match goal with
    | |- st_preserves _ (st_bind _ _) => apply st_bind_preserves
    | |- st_preserves _ (if _ then _ else _) => apply st_if_preserves
    | |- st_preserves _ (let (_, _) := ?p in _) => destruct p
    | |- st_preserves _ (match ?o with Some _ => _ | None => _ end) => destruct o
    | |- _ => solve [eauto with st_inv]
    end).
