(* ===== verification/PyValue.v ===== *)
(** * PyValue: the Python values the program manipulates

    Workouts, structures, steps and configuration arrive as decoded JSON
    or TOML, i.e. as Python [None], [bool], [int], [float], [str], [list]
    and [dict] values, and the source reads them with [dict.get], [or],
    [float()], [int()], [str()] and [isinstance].  This file models those
    values ([pyval]) and those built-in operations, with the exception
    each one raises.  A [float] that comes from a JSON literal is kept as
    the decimal [m * 10^e] it was written as; arithmetic on floats is done
    in [Q] (see the root header for what this abstracts). *)

From Stdlib Require Import QArith ZArith Lia Ascii String List Bool.
From stdpp Require Import base decidable.
From S2P Require Import Prelude.
Import ListNotations.
Open Scope string_scope.

#[local] Set Warnings "-register-all".

Inductive pyval : Type :=
  | PNone
  | PBool (b : bool)
  | PInt (z : Z)
  | PFloat (m : Z) (e : Z)
  | PStr (s : string)
  | PList (l : list pyval)
  | PDict (kv : list (string * pyval)).

(** The rational value of the decimal [m * 10^e]. *)
Definition dec_value (m e : Z) : Q :=
  if (0 <=? e)%Z then inject_Z (m * 10 ^ e) else Qmake m (Z.to_pos (10 ^ (- e))).

(** Truth value testing ([if v:], [v or w]). *)
Definition truthy (v : pyval) : bool :=
  match v with
  | PNone => false
  | PBool b => b
  | PInt z => negb (z =? 0)%Z
  | PFloat m _ => negb (m =? 0)%Z
  | PStr s => negb (String.eqb s EmptyString)
  | PList l => match l with [] => false | _ => true end
  | PDict kv => match kv with [] => false | _ => true end
  end.

(** [a or b] *)
Definition py_or (a b : pyval) : pyval := if truthy a then a else b.

Fixpoint assoc {A : Type} (k : string) (kv : list (string * A)) : option A :=
  match kv with
  | [] => None
  | (k', v) :: kv' => if String.eqb k k' then Some v else assoc k kv'
  end.

(** [d.get(k, default)]: only a [dict] has a [get] method. *)
Definition dict_get (d : pyval) (k : string) (default : pyval) : res pyval :=
  match d with
  | PDict kv => Ok (match assoc k kv with Some v => v | None => default end)
  | _ => Raise AttributeError
  end.

(** [d[k] = v]: an existing key keeps its position, a new key is appended. *)
Fixpoint dict_set (kv : list (string * pyval)) (k : string) (v : pyval) : list (string * pyval) :=
  match kv with
  | [] => [(k, v)]
  | (k', v') :: kv' => if String.eqb k' k then (k, v) :: kv' else (k', v') :: dict_set kv' k v
  end.

Lemma assoc_dict_set (kv : list (string * pyval)) (k : string) (v : pyval) :
  assoc k (dict_set kv k v) = Some v.
Proof.
  induction kv as [| [k' v'] kv IH]; cbn; [now rewrite String.eqb_refl |].
  destruct (String.eqb_spec k' k) as [-> | Hne]; cbn; [now rewrite String.eqb_refl |].
  destruct (String.eqb_spec k k'); [congruence | exact IH].
Qed.

Lemma dict_set_twice (kv : list (string * pyval)) (k : string) (v w : pyval) :
  dict_set (dict_set kv k v) k w = dict_set kv k w.
Proof.
  induction kv as [| [k' v'] kv IH]; cbn; [now rewrite String.eqb_refl |].
  destruct (String.eqb_spec k' k) as [-> | Hne]; cbn; rewrite ?String.eqb_refl; [reflexivity |].
  destruct (String.eqb_spec k' k); [congruence | now rewrite IH].
Qed.

Lemma assoc_dict_set_other (kv : list (string * pyval)) (k k' : string) (v : pyval) :
  k' <> k -> assoc k' (dict_set kv k v) = assoc k' kv.
Proof.
  intros Hne. induction kv as [| [k0 v0] kv IH]; cbn.
  - destruct (String.eqb_spec k' k); congruence.
  - destruct (String.eqb_spec k0 k) as [-> | Hk]; cbn.
    + destruct (String.eqb_spec k' k); congruence.
    + now rewrite IH.
Qed.


Lemma assoc_notin {A : Type} (k : string) (kv : list (string * A)) :
  ~ In k (map fst kv) -> assoc k kv = None.
Proof.
  induction kv as [| [k' v] kv IH]; cbn; intros Hn; [reflexivity |].
  destruct (String.eqb_spec k k'); [subst; tauto | auto].
Qed.

(** [k in d] for a dict [d]. *)
Definition has_key (kv : list (string * pyval)) (k : string) : bool :=
  match assoc k kv with Some _ => true | None => false end.

(** Assignment keeps the key order and appends a new key. *)
Lemma dict_set_keys (kv : list (string * pyval)) (k : string) (v : pyval) :
  map fst (dict_set kv k v) = if has_key kv k then map fst kv else app (map fst kv) [k].
Proof.
  unfold has_key. induction kv as [| [k0 v0] kv IH]; cbn; [reflexivity |].
  destruct (String.eqb_spec k0 k) as [-> | Hk]; cbn; rewrite ?String.eqb_refl; [reflexivity |].
  destruct (String.eqb_spec k k0); [congruence |]. rewrite IH. now destruct (assoc k kv).
Qed.

Definition is_dict (v : pyval) : bool := match v with PDict _ => true | _ => false end.
Definition is_list (v : pyval) : bool := match v with PList _ => true | _ => false end.

(** ** Numeric literals in strings ([int(s)], [float(s)]) *)

(** A run of digits with single underscores between digits, as
    [int()] and [float()] accept it; returns the digits and the rest. *)
Fixpoint scan_digitpart (s : string) : list nat * string :=
  match s with
  | EmptyString => ([], EmptyString)
  | String c s' =>
      match digit_value c with
      | None => ([], s)
      | Some d =>
          match s' with
          | String u t =>
              if Ascii.eqb u "_" && match t with String c2 _ => is_digit c2 | _ => false end
              then let '(ds, r) := scan_digitpart t in (d :: ds, r)
              else let '(ds, r) := scan_digitpart s' in (d :: ds, r)
          | EmptyString => ([d], EmptyString)
          end
      end
  end.

Definition digits_to_Z (ds : list nat) : Z :=
  fold_left (fun acc d => acc * 10 + Z.of_nat d)%Z ds 0%Z.

Definition scan_sign (s : string) : Z * string :=
  match s with
  | String "-" t => ((-1)%Z, t)
  | String "+" t => (1%Z, t)
  | _ => (1%Z, s)
  end.

(** The integer literal accepted by [int(s)]. *)
Definition parse_int_literal (s : string) : option Z :=
  let '(sg, s1) := scan_sign (strip s) in
  let '(ds, rest) := scan_digitpart s1 in
  match ds, rest with
  | _ :: _, EmptyString => Some (sg * digits_to_Z ds)%Z
  | _, _ => None
  end.

(** The decimal literal accepted by [float(s)]: sign, digits with an
    optional fraction, optional exponent.  Returned as [(m, e)]. *)
Definition parse_float_literal (s : string) : option (Z * Z) :=
  let '(sg, s1) := scan_sign (strip s) in
  let '(ip, s2) := scan_digitpart s1 in
  let '(fp, s3) :=
    match s2 with
    | String "." t => scan_digitpart t
    | _ => ([], s2)
    end in
  let mant := (sg * digits_to_Z (ip ++ fp)%list)%Z in
  let e0 := (- Z.of_nat (List.length fp))%Z in
  match (ip ++ fp)%list with
  | [] => None
  | _ =>
      match s3 with
      | EmptyString => Some (mant, e0)
      | String c t =>
          if Ascii.eqb c "e" || Ascii.eqb c "E" then
            let '(esg, t1) := scan_sign t in
            match scan_digitpart t1 with
            | ((_ :: _) as eds, EmptyString) => Some (mant, e0 + esg * digits_to_Z eds)%Z
            | _ => None
            end
          else None
      end
  end.

(** ** [str(v)] *)

Fixpoint zeros (n : nat) : string :=
  match n with O => EmptyString | S n' => String "0" (zeros n') end.

(** Strip the trailing zeros of a nonzero mantissa. *)
Fixpoint normalize_dec (fuel : nat) (m e : Z) : Z * Z :=
  match fuel with
  | O => (m, e)
  | S fuel' =>
      if ((m mod 10 =? 0) && negb (m =? 0))%Z then normalize_dec fuel' (m / 10) (e + 1)%Z
      else (m, e)
  end.

(** [repr(float)] of the double nearest to [m * 10^e]: the shortest
    decimal, positional when the decimal exponent is in [-4, 16),
    scientific otherwise. *)
Definition float_repr (m e : Z) : string :=
  if (m =? 0)%Z then "0.0" else
  let '(m', e') := normalize_dec (Z.to_nat (Z.log2 (Z.abs m) + 1)) m e in
  let sgn := if (m' <? 0)%Z then "-" else EmptyString in
  let ds := string_of_Z (Z.abs m') in
  let n := Z.of_nat (String.length ds) in
  let k := (n - 1 + e')%Z in
  if ((-4 <=? k) && (k <? 16))%Z then
    if (0 <=? e')%Z then sgn ++ ds ++ zeros (Z.to_nat e') ++ ".0"
    else if (- e' <? n)%Z then
      sgn ++ substring 0 (Z.to_nat (n + e')) ds ++ "." ++
      substring (Z.to_nat (n + e')) (Z.to_nat (- e')) ds
    else sgn ++ "0." ++ zeros (Z.to_nat (- e' - n)) ++ ds
  else
    sgn ++ substring 0 1 ds ++
    (if (1 <? n)%Z then "." ++ substring 1 (Z.to_nat (n - 1)) ds else EmptyString) ++
    "e" ++ (if (k <? 0)%Z then "-" else "+") ++ pad2 (Z.abs k).

Definition hex_digit (n : nat) : ascii :=
  if (n <? 10)%nat then digit_char n else ascii_of_nat (87 + n).

(** [repr(str)] for an ASCII string. *)
Fixpoint repr_body (q : ascii) (s : string) : string :=
  match s with
  | EmptyString => EmptyString
  | String c s' =>
      let n := nat_of_ascii c in
      let esc :=
        if Ascii.eqb c "\" then "\\"
        else if Ascii.eqb c q then String "\" (String q EmptyString)
        else if (n =? 9)%nat then "\t"
        else if (n =? 10)%nat then "\n"
        else if (n =? 13)%nat then "\r"
        else if (n <? 32)%nat || (n =? 127)%nat then
          String "\" (String "x" (String (hex_digit (n / 16)) (String (hex_digit (n mod 16)) EmptyString)))
        else String c EmptyString in
      esc ++ repr_body q s'
  end.

Definition dquote : ascii := ascii_of_nat 34.

Definition str_repr (s : string) : string :=
  let q := if contains "'" s && negb (contains (String dquote EmptyString) s) then dquote else "'"%char in
  String q (repr_body q s ++ String q EmptyString).

Fixpoint join (sep : string) (l : list string) : string :=
  match l with
  | [] => EmptyString
  | [x] => x
  | x :: l' => x ++ sep ++ join sep l'
  end.

(** [repr(v)] and [str(v)]: they differ only on strings. *)
Fixpoint py_repr (v : pyval) : string :=
  match v with
  | PNone => "None"
  | PBool b => if b then "True" else "False"
  | PInt z => string_of_Z z
  | PFloat m e => float_repr m e
  | PStr s => str_repr s
  | PList l => "[" ++ join ", " (map py_repr l) ++ "]"
  | PDict kv => "{" ++ join ", " (map (fun '(k, v) => str_repr k ++ ": " ++ py_repr v) kv) ++ "}"
  end.

Definition py_str (v : pyval) : string :=
  match v with
  | PStr s => s
  | _ => py_repr v
  end.

(** [v[0]] *)
Definition py_index0 (v : pyval) : res pyval :=
  match v with
  | PList (x :: _) => Ok x
  | PList [] => Raise IndexError
  | PStr (String c _) => Ok (PStr (String c EmptyString))
  | PStr EmptyString => Raise IndexError
  | PDict _ => Raise KeyError
  | PNone | PBool _ | PInt _ | PFloat _ _ => Raise TypeError
  end.

Fixpoint chars (s : string) : list pyval :=
  match s with
  | EmptyString => []
  | String c s' => PStr (String c EmptyString) :: chars s'
  end.

(** [for x in v]: a list yields its items, a dict its keys, a string its
    characters; other values are not iterable. *)
Definition py_iter (v : pyval) : res (list pyval) :=
  match v with
  | PList l => Ok l
  | PDict kv => Ok (map (fun kv => PStr (fst kv)) kv)
  | PStr s => Ok (chars s)
  | PNone | PBool _ | PInt _ | PFloat _ _ => Raise TypeError
  end.

(** A true value iterates over at least one item. *)
Lemma py_iter_truthy (v : pyval) (xs : list pyval) : truthy v = true -> py_iter v = Ok xs -> xs <> [].
Proof.
  intros Ht H. destruct v as [| | | | [| c s] | [| x l] | [| kv l]]; cbn in *; try discriminate;
    injection H as <-; discriminate.
Qed.

(** [v[k]] with a string key: a dict looks the key up and raises
    [KeyError] when it is absent; a list or a string needs an integer
    index, and other values are not subscriptable. *)
Definition getitem (v : pyval) (k : string) : res pyval :=
  match v with
  | PDict kv => match assoc k kv with Some x => Ok x | None => Raise KeyError end
  | _ => Raise TypeError
  end.

(** The receiver of a [str] method such as [.strip()]. *)
Definition as_str (v : pyval) : res string :=
  match v with
  | PStr s => Ok s
  | _ => Raise AttributeError
  end.

(** [v == "s"] *)
Definition is_str_eq (v : pyval) (s : string) : bool :=
  match v with
  | PStr s' => String.eqb s' s
  | _ => false
  end.

(** [v in {"s1", ..., "sn"}]: membership in a set of strings hashes [v]. *)
Definition in_str_set (v : pyval) (set : list string) : res bool :=
  match v with
  | PStr s => Ok (existsb (String.eqb s) set)
  | PList _ | PDict _ => Raise TypeError
  | _ => Ok false
  end.

(** [TABLE.get(key, default)] for a constant dict with [str] keys and
    values: a list or dict key is unhashable ([TypeError]), a key of
    another type is absent. *)
Definition str_table_get (tbl : list (string * string)) (key : pyval) (default : string) : res string :=
  match key with
  | PStr s => Ok (match assoc s tbl with Some v => v | None => default end)
  | PList _ | PDict _ => Raise TypeError
  | _ => Ok default
  end.

Lemma dict_get_dict (kv : list (string * pyval)) (k : string) (d : pyval) :
  dict_get (PDict kv) k d = Ok (match assoc k kv with Some v => v | None => d end).
Proof. reflexivity. Qed.

(** The value [d.get(k, default)] of a dict [d]. *)
Definition get_default (kv : list (string * pyval)) (k : string) (d : pyval) : pyval :=
  match assoc k kv with Some v => v | None => d end.

(** The key [k] is absent or its value satisfies [P]. *)
Definition opt_field (kv : list (string * pyval)) (k : string) (P : pyval -> bool) : bool :=
  match assoc k kv with None => true | Some v => P v end.

Lemma dict_get_default (kv : list (string * pyval)) (k : string) (d : pyval) :
  dict_get (PDict kv) k d = Ok (get_default kv k d).
Proof. reflexivity. Qed.

Lemma opt_field_get kv k P d :
  opt_field kv k P = true -> P d = true -> P (get_default kv k d) = true.
Proof. unfold opt_field, get_default. destruct (assoc k kv); auto. Qed.

#[export] Hint Rewrite dict_get_default : tpcli_rw.

Lemma in_str_set_ok (v : pyval) (set : list string) :
  negb (is_list v || is_dict v) = true -> exists b, in_str_set v set = Ok b.
Proof. destruct v; simpl; try discriminate; eauto. Qed.

(** ** [str(n)] is read back by [int()] *)

Lemma digits_to_Z_snoc (ds : list nat) (d : nat) :
  digits_to_Z (ds ++ [d]) = (digits_to_Z ds * 10 + Z.of_nat d)%Z.
Proof. unfold digits_to_Z. now rewrite fold_left_app. Qed.

Lemma digits_of_Z_S (fuel : nat) (n : Z) (acc : string) :
  digits_of_Z (S fuel) n acc =
  let acc' := String (digit_char (Z.to_nat (n mod 10))) acc in
  if (n <? 10)%Z then acc' else digits_of_Z fuel (n / 10) acc'.
Proof. reflexivity. Qed.

(** [digits_of_Z] with enough fuel prepends the digits of [n]. *)
Lemma digits_of_Z_spec (fuel : nat) (n : Z) (acc : list nat) :
  (0 <= n < 10 ^ Z.of_nat (S fuel))%Z ->
  exists ds, digits_of_Z (S fuel) n (digstr acc) = digstr (ds ++ acc) /\ ds <> [] /\
             is_digit_list ds /\ digits_to_Z ds = n.
Proof.
  revert n acc. induction fuel as [| fuel IH]; intros n acc Hn; rewrite digits_of_Z_S; cbv zeta;
    change (String (digit_char (Z.to_nat (n mod 10))) (digstr acc)) with (digstr (Z.to_nat (n mod 10) :: acc));
    assert (Hm : (0 <= n mod 10 < 10)%Z) by (apply Z.mod_pos_bound; lia).
  - rewrite (proj2 (Z.ltb_lt n 10)) by (simpl in Hn; lia).
    exists [Z.to_nat (n mod 10)]. rewrite Z.mod_small by (simpl in Hn; lia).
    split; [reflexivity |]. split; [discriminate |].
    split; [constructor; [simpl in Hn; lia | constructor] |]. cbn. lia.
  - destruct (Z.ltb_spec n 10) as [Hlt | Hge].
    + exists [Z.to_nat (n mod 10)]. rewrite Z.mod_small by lia.
      split; [reflexivity |]. split; [discriminate |].
      split; [constructor; [lia | constructor] |]. cbn. lia.
    + destruct (IH (n / 10)%Z (Z.to_nat (n mod 10) :: acc)) as (ds & -> & Hne & Hd & Hv).
      { split; [apply Z.div_pos; lia |]. apply Z.div_lt_upper_bound; [lia |].
        rewrite Nat2Z.inj_succ, Z.pow_succ_r in Hn by lia. lia. }
      exists (ds ++ [Z.to_nat (n mod 10)])%list. rewrite <- app_assoc. repeat split.
      * now destruct ds.
      * apply Forall_app. split; [exact Hd | constructor; [lia | constructor]].
      * rewrite digits_to_Z_snoc, Hv, Z2Nat.id by lia. pose proof (Z.div_mod n 10). lia.
Qed.

(** [|z|] has at most [log2 |z| + 1] decimal digits. *)
Lemma abs_lt_pow10 (z : Z) : (0 <= Z.abs z < 10 ^ Z.of_nat (S (Z.to_nat (Z.log2 (Z.abs z)))))%Z.
Proof.
  split; [lia |]. rewrite Nat2Z.inj_succ, Z2Nat.id by apply Z.log2_nonneg.
  destruct (Z.eq_dec (Z.abs z) 0) as [-> | Hz]; [simpl; lia |].
  apply Z.lt_le_trans with (2 ^ Z.succ (Z.log2 (Z.abs z)))%Z.
  - apply Z.log2_spec. lia.
  - apply Z.pow_le_mono_l. split; [lia | lia].
Qed.

Lemma scan_digitpart_digstr (ds : list nat) :
  ds <> [] -> is_digit_list ds -> scan_digitpart (digstr ds) = (ds, EmptyString).
Proof.
  intros Hne Hds. revert Hne. induction Hds as [| d ds Hd Hds IH]; intros Hne; [congruence |].
  cbn [digstr fold_right scan_digitpart]. rewrite digit_char_value by exact Hd.
  destruct ds as [| d2 ds]; [reflexivity |]. inversion Hds; subst.
  cbn [digstr fold_right] in IH |- *.
  replace (Ascii.eqb (digit_char d2) "_") with false
    by (symmetry; apply Ascii.eqb_neq, digit_char_neq; [assumption | right; apply Nat.ltb_lt; reflexivity]).
  cbn [andb]. rewrite IH by discriminate. reflexivity.
Qed.

Lemma is_space_digit (d : nat) : (d < 10)%nat -> is_space (digit_char d) = false.
Proof. intros H. do 10 (destruct d as [| d]; [reflexivity |]). lia. Qed.

Lemma scan_sign_digit (d : nat) (t : string) :
  (d < 10)%nat -> scan_sign (String (digit_char d) t) = (1%Z, String (digit_char d) t).
Proof. intros H. do 10 (destruct d as [| d]; [reflexivity |]). lia. Qed.

(** [str(z)] is an optional minus sign followed by the digits of [|z|]. *)
Lemma string_of_Z_digits (z : Z) :
  exists ds, ds <> [] /\ is_digit_list ds /\ digits_to_Z ds = Z.abs z /\
    string_of_Z z = (if (z <? 0)%Z then String "-" (digstr ds) else digstr ds).
Proof.
  destruct (digits_of_Z_spec _ (Z.abs z) [] (abs_lt_pow10 z)) as (ds & H & ? & ? & Hv).
  exists ds. rewrite app_nil_r in H. repeat split; auto.
  unfold string_of_Z. change EmptyString with (digstr []). rewrite H. now destruct (z <? 0)%Z.
Qed.

(** The string [str(z)] contains no whitespace, and it is read back
    as its own sign and digits. *)
Lemma string_of_Z_read (z : Z) :
  exists ds, ds <> [] /\ is_digit_list ds /\
    strip (string_of_Z z) = string_of_Z z /\
    scan_sign (string_of_Z z) = (if (z <? 0)%Z then (-1)%Z else 1%Z, digstr ds) /\
    digits_to_Z ds = Z.abs z.
Proof.
  destruct (string_of_Z_digits z) as (ds & Hne & Hd & Hv & ->).
  exists ds. assert (Hsp : all_chars no_space (digstr ds) = true).
  { apply all_chars_digstr; [exact Hd |]. intros d Hd'. unfold no_space; now rewrite is_space_digit. }
  destruct ds as [| d ds]; [congruence |]. inversion Hd; subst.
  repeat split; auto.
  - destruct (z <? 0)%Z; apply strip_no_space; [exact Hsp | exact Hsp].
  - destruct (z <? 0)%Z; [reflexivity | now apply scan_sign_digit].
Qed.

Lemma sign_abs (z : Z) : ((if (z <? 0)%Z then (-1)%Z else 1%Z) * Z.abs z)%Z = z.
Proof. destruct (Z.ltb_spec z 0); lia. Qed.

(** [int(str(z)) == z] *)
Lemma parse_int_literal_string_of_Z (z : Z) : parse_int_literal (string_of_Z z) = Some z.
Proof.
  destruct (string_of_Z_read z) as (ds & Hne & Hd & Hs & Hsg & Hv).
  unfold parse_int_literal. rewrite Hs, Hsg, scan_digitpart_digstr by assumption.
  destruct ds as [| d ds]; [congruence |]. rewrite Hv, sign_abs. reflexivity.
Qed.

(** A nonempty digit string reads back as its value, leading zeros included. *)
Lemma parse_int_literal_digstr (ds : list nat) :
  ds <> [] -> is_digit_list ds -> parse_int_literal (digstr ds) = Some (digits_to_Z ds).
Proof.
  intros Hne Hd. unfold parse_int_literal.
  rewrite strip_no_space
    by (apply all_chars_digstr; [exact Hd | intros d Hd1; unfold no_space; now rewrite is_space_digit]).
  destruct ds as [| d ds]; [congruence |]. inversion Hd; subst.
  change (digstr (d :: ds)) with (String (digit_char d) (digstr ds)).
  rewrite scan_sign_digit by assumption.
  change (String (digit_char d) (digstr ds)) with (digstr (d :: ds)).
  rewrite scan_digitpart_digstr by (congruence || assumption). now rewrite Z.mul_1_l.
Qed.

(** [f"{m:02d}"] of a natural [m] is a digit string denoting [m]. *)
Lemma pad2_digits (m : Z) :
  (0 <= m)%Z -> exists ds, ds <> [] /\ is_digit_list ds /\ digits_to_Z ds = m /\ pad2 m = digstr ds.
Proof.
  intros Hm. destruct (string_of_Z_digits m) as (ds & Hne & Hd & Hv & Hs).
  assert (Hs' : string_of_Z m = digstr ds) by (rewrite Hs; destruct (Z.ltb_spec m 0); [lia | reflexivity]).
  unfold pad2. destruct ((0 <=? m) && (m <? 10))%Z.
  - exists (0%nat :: ds). repeat split; [congruence | constructor; [lia | exact Hd] | | now rewrite Hs'].
    unfold digits_to_Z in *. cbn [fold_left]. change (0 * 10 + Z.of_nat 0)%Z with 0%Z. rewrite Hv. lia.
  - exists ds. repeat split; auto. lia.
Qed.

Lemma parse_int_literal_pad2 (m : Z) : (0 <= m)%Z -> parse_int_literal (pad2 m) = Some m.
Proof.
  intros Hm. destruct (pad2_digits m Hm) as (ds & Hne & Hd & Hv & ->).
  now rewrite parse_int_literal_digstr, Hv.
Qed.

(** [f"{z:02d}"] is [str(z)] behind an optional ["0"]. *)
Lemma pad2_split (z : Z) : exists p, (p = EmptyString \/ p = "0") /\ pad2 z = p ++ string_of_Z z.
Proof. unfold pad2. destruct ((0 <=? z) && (z <? 10))%Z; eauto. Qed.

(** [float(str(z))] reads the decimal [z * 10^0]. *)
Lemma parse_float_literal_string_of_Z (z : Z) : parse_float_literal (string_of_Z z) = Some (z, 0%Z).
Proof.
  destruct (string_of_Z_read z) as (ds & Hne & Hd & Hs & Hsg & Hv).
  unfold parse_float_literal. rewrite Hs, Hsg, scan_digitpart_digstr by assumption.
  rewrite app_nil_r, Hv, sign_abs. destruct ds as [| d ds]; [congruence |]. reflexivity.
Qed.

(** Every character of [str(z)] is a digit or the minus sign. *)
Lemma string_of_Z_chars (P : ascii -> bool) (z : Z) :
  P "-"%char = true -> (forall d, (d < 10)%nat -> P (digit_char d) = true) ->
  all_chars P (string_of_Z z) = true.
Proof.
  intros Hm Hd. destruct (string_of_Z_digits z) as (ds & _ & Hds & _ & ->).
  pose proof (all_chars_digstr P ds Hds Hd). destruct (z <? 0)%Z; cbn [all_chars]; [now rewrite Hm |]; auto.
Qed.

(** [str(z)] ends with a digit. *)
Lemma string_of_Z_last (z : Z) : exists d t, (d < 10)%nat /\ string_rev (string_of_Z z) = String (digit_char d) t.
Proof.
  destruct (string_of_Z_digits z) as (ds & Hne & Hds & _ & ->).
  destruct (exists_last Hne) as (ds0 & d & ->). apply Forall_app in Hds as [_ Hd]. inversion Hd; subst.
  assert (Hr : string_rev (digstr (ds0 ++ [d])) = String (digit_char d) (string_rev (digstr ds0)))
    by (rewrite digstr_app, string_rev_app; reflexivity).
  exists d. destruct (z <? 0)%Z; cbn [string_rev]; rewrite Hr; eauto.
Qed.

Lemma substring_app (s t : string) : substring 0 (String.length s) (s ++ t) = s.
Proof. induction s as [| c s IH]; cbn; [now destruct t | now rewrite IH]. Qed.

(** [(s + t)[:-len(t)] == s] *)
Lemma drop_last_app (s t : string) : drop_last (String.length t) (s ++ t) = s.
Proof. unfold drop_last. rewrite string_length_app, Nat.add_sub. apply substring_app. Qed.

(** [x + str(z)] does not end with a suffix whose last character is not a digit. *)
Lemma ends_with_string_of_Z (suf x t : string) (c : ascii) (z : Z) :
  string_rev suf = String c t -> ((nat_of_ascii c < 48)%nat \/ (57 < nat_of_ascii c)%nat) ->
  ends_with suf (x ++ string_of_Z z) = false.
Proof.
  intros Hs Hc. unfold ends_with. rewrite Hs, string_rev_app.
  destruct (string_of_Z_last z) as (d & t' & Hd & ->). cbn.
  destruct (ascii_dec c (digit_char d)) as [E | _]; [| reflexivity].
  exfalso. exact (digit_char_neq d c Hd Hc (eq_sym E)).
Qed.
