(* ===== verification/Text.v ===== *)
(** * Text: [slugify] of [utils/text.py]

    [slugify(value, max_len)] lower-cases a title, replaces every maximal
    run of characters outside [a-z0-9] by one [-] ([re.sub]), strips the
    dashes at both ends, falls back to [untitled], and cuts the result to
    [max_len] characters.  The markdown exporter names its files and
    index links with it.  The theorems: a slug only holds [a-z0-9-], is
    never longer than [max_len] nor empty when [max_len >= 1], and
    slugifying a slug that was not cut gives it back; a cut slug can end
    with a dash, and then it is not a fixed point. *)

From Stdlib Require Import ZArith Lia Ascii String List Bool.
From S2P Require Import Prelude.
Import ListNotations.
Open Scope string_scope.

(** The class [a-z0-9] of the pattern. *)
Definition slug_char (c : ascii) : bool :=
  let n := nat_of_ascii c in ((97 <=? n)%nat && (n <=? 122)%nat) || is_digit c.

Definition dash : ascii := "-".

(** [re.sub(r"[^a-z0-9]+", "-", s)]: [in_run] is true inside a run of
    characters outside the class, whose dash is already written. *)
Fixpoint sub_runs (s : string) (in_run : bool) : string :=
  match s with
  | EmptyString => EmptyString
  | String c s' =>
      if slug_char c then String c (sub_runs s' false)
      else if in_run then sub_runs s' true
      else String dash (sub_runs s' true)
  end.

Fixpoint lstrip_dash (s : string) : string :=
  match s with
  | String c s' => if Ascii.eqb c dash then lstrip_dash s' else s
  | EmptyString => EmptyString
  end.

(** [s.rstrip("-")]: a dash is dropped when nothing but dashes follows. *)
Fixpoint rstrip_dash (s : string) : string :=
  match s with
  | EmptyString => EmptyString
  | String c s' =>
      let r := rstrip_dash s' in
      if String.eqb r EmptyString && Ascii.eqb c dash then EmptyString else String c r
  end.

(** [s.strip("-")] *)
Definition strip_dash (s : string) : string := rstrip_dash (lstrip_dash s).

(** [s[:n]] for any [int] [n]: a negative bound drops characters from
    the end. *)
Definition slice_to (n : Z) (s : string) : string :=
  if (0 <=? n)%Z then substring 0 (Z.to_nat n) s
  else substring 0 (String.length s - Z.to_nat (- n)) s.

(** The slug before the cut. *)
Definition full_slug (value : string) : string :=
  let slug := strip_dash (sub_runs (lower value) false) in
  if String.eqb slug EmptyString then "untitled" else slug.

(** [slugify(value, max_len)] *)
Definition slugify (value : string) (max_len : Z) : string := slice_to max_len (full_slug value).

(** ** Slugs

    [runs_ok s after_dash]: [s] is made of [a-z0-9] runs joined by single
    dashes, with no dash at its end, nor at its start when [after_dash]. *)
Fixpoint runs_ok (s : string) (after_dash : bool) : bool :=
  match s with
  | EmptyString => negb after_dash
  | String c s' =>
      if slug_char c then runs_ok s' false
      else Ascii.eqb c dash && negb after_dash && runs_ok s' true
  end.

(** The same without the condition at the end: what [re.sub] leaves. *)
Fixpoint no_double_dash (s : string) (after_dash : bool) : bool :=
  match s with
  | EmptyString => true
  | String c s' =>
      if slug_char c then no_double_dash s' false
      else Ascii.eqb c dash && negb after_dash && no_double_dash s' true
  end.

Definition slug_or_dash (c : ascii) : bool := slug_char c || Ascii.eqb c dash.

(** ** Lemmas *)

Lemma slug_char_not_dash c : slug_char c = true -> Ascii.eqb c dash = false.
Proof. intros H. destruct (Ascii.eqb_spec c dash) as [-> |]; [discriminate H | reflexivity]. Qed.

Lemma slug_or_dash_lower : forall c, implb (slug_or_dash c) (Ascii.eqb (ascii_lower c) c) = true.
Proof. apply ascii_forall. vm_compute. reflexivity. Qed.

Lemma lower_slug s : all_chars slug_or_dash s = true -> lower s = s.
Proof.
  induction s as [| c s IH]; simpl; [reflexivity |]. intros [Hc Hs]%andb_true_iff.
  pose proof (slug_or_dash_lower c) as E. rewrite Hc in E. apply Ascii.eqb_eq in E.
  now rewrite E, IH.
Qed.

Lemma runs_ok_chars s b : runs_ok s b = true -> all_chars slug_or_dash s = true.
Proof.
  revert b. induction s as [| c s IH]; intros b H; simpl in *; [reflexivity |].
  unfold slug_or_dash. destruct (slug_char c); simpl; [eauto |].
  apply andb_true_iff in H as [[Hd _]%andb_true_iff Hs]. rewrite Hd. eauto.
Qed.

Lemma runs_ok_weaken s : runs_ok s true = true -> runs_ok s false = true.
Proof.
  destruct s as [| c s]; simpl; [discriminate |].
  destruct (slug_char c); [auto |]. now rewrite andb_false_r.
Qed.

Lemma runs_ok_nonempty s : runs_ok s true = true -> s <> EmptyString.
Proof. now destruct s. Qed.

(** [re.sub] leaves a slug as it is. *)
Lemma sub_runs_slug s b : runs_ok s b = true -> sub_runs s b = s.
Proof.
  revert b. induction s as [| c s IH]; intros b H; simpl in *; [reflexivity |].
  destruct (slug_char c); [f_equal; eauto |].
  apply andb_true_iff in H as [[Hd Hb]%andb_true_iff Hs]. apply Ascii.eqb_eq in Hd. subst c.
  destruct b; [discriminate | simpl; f_equal; eauto].
Qed.

Lemma lstrip_dash_slug s : runs_ok s true = true -> lstrip_dash s = s.
Proof.
  destruct s as [| c s]; simpl; [discriminate |].
  destruct (slug_char c) eqn:Hc; [now rewrite slug_char_not_dash | now rewrite andb_false_r].
Qed.

Lemma rstrip_dash_slug s b : runs_ok s b = true -> rstrip_dash s = s.
Proof.
  revert b. induction s as [| c s IH]; intros b H; simpl in *; [reflexivity |].
  destruct (slug_char c) eqn:Hc.
  - rewrite (IH false H), (slug_char_not_dash c Hc), andb_false_r. reflexivity.
  - apply andb_true_iff in H as [_ Hs]. rewrite (IH true Hs).
    destruct s; [discriminate | reflexivity].
Qed.

Lemma sub_runs_no_double_dash s b : no_double_dash (sub_runs s b) b = true.
Proof.
  revert b. induction s as [| c s IH]; intros b; simpl; [reflexivity |].
  destruct (slug_char c) eqn:Hc; simpl; [rewrite Hc; apply IH |].
  destruct b; [apply IH | simpl; apply IH].
Qed.

Lemma lstrip_no_double_dash t b :
  no_double_dash t b = true -> no_double_dash (lstrip_dash t) true = true.
Proof.
  revert b. induction t as [| c t IH]; intros b H; simpl in *; [reflexivity |].
  destruct (Ascii.eqb_spec c dash) as [-> | Hne].
  - simpl in H. apply andb_true_iff in H as [_ Ht]. eauto.
  - simpl. destruct (slug_char c); [exact H |].
    apply andb_true_iff in H as [[Hd _]%andb_true_iff _].
    destruct (Ascii.eqb_spec c dash); [contradiction | discriminate].
Qed.

Lemma rstrip_no_double_dash t b :
  no_double_dash t b = true -> rstrip_dash t = EmptyString \/ runs_ok (rstrip_dash t) b = true.
Proof.
  revert b. induction t as [| c t IH]; intros b H; simpl in *; [left; reflexivity |].
  destruct (slug_char c) eqn:Hc.
  - rewrite (slug_char_not_dash c Hc), andb_false_r. right. simpl. rewrite Hc.
    destruct (IH false H) as [-> | R]; [reflexivity | exact R].
  - apply andb_true_iff in H as [[Hd Hb]%andb_true_iff Ht]. rewrite Hd.
    destruct (IH true Ht) as [-> | R]; [left; reflexivity |].
    destruct (String.eqb (rstrip_dash t) EmptyString) eqn:E; [left; reflexivity |].
    right. simpl. rewrite Hc, Hd, Hb. exact R.
Qed.

(** The slug before the cut is a well-formed slug. *)
Lemma full_slug_runs v : runs_ok (full_slug v) true = true.
Proof.
  unfold full_slug, strip_dash.
  pose proof (lstrip_no_double_dash _ false (sub_runs_no_double_dash (lower v) false)) as H.
  destruct (rstrip_no_double_dash _ true H) as [E | R];
    destruct (String.eqb _ EmptyString) eqn:Es; try reflexivity.
  - rewrite E in Es. discriminate.
  - exact R.
Qed.

Lemma full_slug_slug s : runs_ok s true = true -> full_slug s = s.
Proof.
  intros H. unfold full_slug, strip_dash.
  rewrite lower_slug by (eapply runs_ok_chars; eauto).
  rewrite sub_runs_slug by (now apply runs_ok_weaken).
  rewrite lstrip_dash_slug, (rstrip_dash_slug s true) by exact H.
  destruct (String.eqb_spec s EmptyString) as [-> | _]; [discriminate | reflexivity].
Qed.

Lemma slice_to_nonneg n s : (0 <= n)%Z -> slice_to n s = substring 0 (Z.to_nat n) s.
Proof. intros H. unfold slice_to. now rewrite (proj2 (Z.leb_le 0 n) H). Qed.

Lemma slugify_all_chars v n : all_chars slug_or_dash (slugify v n) = true.
Proof.
  unfold slugify, slice_to. destruct (0 <=? n)%Z; apply all_chars_substring;
    eapply runs_ok_chars; apply full_slug_runs.
Qed.

(** ** Theorems *)

(** every character of a slug is a lower-case letter, a digit or a
    dash, whatever the title and the bound. *)
Theorem slugify_chars v n : all_chars slug_or_dash (slugify v n) = true.
Proof. apply slugify_all_chars. Qed.

(** for [max_len >= 0] a slug has at most [max_len] characters, and
    for [max_len >= 1] it is never empty. *)
Theorem slugify_length v n : (0 <= n)%Z ->
  (String.length (slugify v n) <= Z.to_nat n)%nat /\ ((1 <= n)%Z -> slugify v n <> EmptyString).
Proof.
  intros Hn. unfold slugify. rewrite slice_to_nonneg by exact Hn.
  split; [apply substring_length_le |]. intros H1.
  pose proof (runs_ok_nonempty _ (full_slug_runs v)) as Hne.
  destruct (full_slug v) as [| c s]; [contradiction |].
  destruct (Z.to_nat n) eqn:E; [lia | discriminate].
Qed.

Lemma slugify_length_witness :
  (0 <= 50)%Z /\
  (String.length (slugify "Tempo Run: 5x1km @ LT2!" 50) <= Z.to_nat 50)%nat /\
  ((1 <= 50)%Z -> slugify "Tempo Run: 5x1km @ LT2!" 50 <> EmptyString).
Proof. split; [lia | apply slugify_length; lia]. Defined.

(** A slug that was not cut is a fixed point: slugifying it again
    with the same bound gives it back. *)
Theorem slugify_idempotent v n : (0 <= n)%Z ->
  (String.length (full_slug v) <= Z.to_nat n)%nat -> slugify (slugify v n) n = slugify v n.
Proof.
  intros Hn Hl. unfold slugify. rewrite !slice_to_nonneg by exact Hn.
  rewrite (substring_all _ (full_slug v) Hl).
  rewrite full_slug_slug by apply full_slug_runs.
  exact (substring_all _ _ Hl).
Qed.

Lemma slugify_idempotent_witness :
  (0 <= 50)%Z /\ (String.length (full_slug "Long Run (Z2)") <= Z.to_nat 50)%nat /\
  slugify (slugify "Long Run (Z2)" 50) 50 = slugify "Long Run (Z2)" 50 /\
  slugify "Long Run (Z2)" 50 = "long-run-z2".
Proof.
  split; [lia |]. split; [apply Nat.leb_le; reflexivity |]. split; [| reflexivity].
  apply slugify_idempotent; [lia | apply Nat.leb_le; reflexivity].
Defined.

(** the cut can end a slug with a dash ([Tempo run tomorrow] with
    [max_len = 6] gives [tempo-]), and such a slug is not a fixed point:
    slugifying it again drops the dash. *)
Example slugify_cut_trailing_dash :
  slugify "Tempo run tomorrow" 6 = "tempo-" /\ slugify (slugify "Tempo run tomorrow" 6) 6 = "tempo".
Proof. split; reflexivity. Qed.
