(* ===== verification/Floats.v ===== *)
(** * Floats: IEEE 754 binary64 arithmetic as CPython performs it

    The upload estimator ([core/upload.py]) and the length parser
    ([utils/parsing.py]) compute with Python floats and then truncate
    ([int(...)]) or round, so the rounding of every operation is visible
    in their results.  A float is modelled by its exact value: [Fin q]
    with [q] a dyadic rational that binary64 represents, [Inf neg], or
    [NaN] (the sign of zero is not kept: no result of the code depends
    on it).  [round64] rounds an exact rational to the nearest binary64
    value, ties to even, with 53-bit significands, subnormals down to
    [2^-1074] and overflow to infinity at [2^1024]; each arithmetic
    operation is the exact operation followed by [round64], as IEEE 754
    prescribes.  On top of it: [float(str)], [int(float)], [float(int)],
    [round], [//] and [%] as CPython's [floatobject.c] defines them. *)

From Stdlib Require Import QArith Qround ZArith Lia Ascii String List Bool.
From stdpp Require Import base decidable.
From S2P Require Import Prelude PyValue.
Import ListNotations.
Open Scope Z_scope.

Inductive float : Type :=
  | Fin (q : Q)
  | Inf (neg : bool)
  | NaN.

(** ** Rounding *)

(** [a / b] rounded to the nearest integer, ties to even ([0 < b]). *)
Definition rhe (a b : Z) : Z :=
  let q := a / b in
  match Z.compare (2 * (a mod b)) b with
  | Lt => q
  | Gt => q + 1
  | Eq => if Z.even q then q else q + 1
  end.

(** [floor (log2 (n / d))] for [0 < n] and [0 < d]. *)
Definition log2_floor (n d : Z) : Z :=
  let L := Z.log2 n - Z.log2 d in
  if 0 <=? L then (if d * 2 ^ L <=? n then L else L - 1)
  else (if d <=? n * 2 ^ (- L) then L else L - 1).

(** The exponent of the last significand bit of the result. *)
Definition round_exponent (a d : Z) : Z := Z.max (log2_floor a d - 52) (-1074).

(** [a / d / 2^e] rounded to an integer. *)
Definition scaled_round (a d e : Z) : Z :=
  if e <? 0 then rhe (a * 2 ^ (- e)) d else rhe a (d * 2 ^ e).

(** [m * 2^e] as a rational. *)
Definition dyadic (m e : Z) : Q :=
  if e <? 0 then Qmake m (Z.to_pos (2 ^ (- e))) else inject_Z (m * 2 ^ e).

Definition round64 (q : Q) : float :=
  let n := Qnum q in
  let d := Zpos (Qden q) in
  if n =? 0 then Fin 0
  else
    let a := Z.abs n in
    let e := round_exponent a d in
    let m := scaled_round a d e in
    if 2 ^ (1024 - e) <=? m then Inf (n <? 0)
    else Fin (Qred (dyadic (Z.sgn n * m) e)).

(** ** Arithmetic *)

Definition fneg (x : float) : float :=
  match x with Fin q => Fin (- q)%Q | Inf b => Inf (negb b) | NaN => NaN end.

Definition fadd (x y : float) : float :=
  match x, y with
  | NaN, _ | _, NaN => NaN
  | Inf a, Inf b => if Bool.eqb a b then Inf a else NaN
  | Inf a, Fin _ | Fin _, Inf a => Inf a
  | Fin a, Fin b => round64 (a + b)%Q
  end.

Definition fsub (x y : float) : float := fadd x (fneg y).

Definition qneg (q : Q) : bool := qltb q 0.

Definition fmul (x y : float) : float :=
  match x, y with
  | NaN, _ | _, NaN => NaN
  | Inf a, Inf b => Inf (xorb a b)
  | Inf a, Fin q | Fin q, Inf a => if Qeq_bool q 0 then NaN else Inf (xorb a (qneg q))
  | Fin a, Fin b => round64 (a * b)%Q
  end.

(** Division once the divisor is known not to be zero. *)
Definition fdiv_nz (x y : float) : float :=
  match x, y with
  | NaN, _ | _, NaN => NaN
  | Inf _, Inf _ => NaN
  | Inf a, Fin q => Inf (xorb a (qneg q))
  | Fin _, Inf _ => Fin 0
  | Fin a, Fin b => round64 (a / b)%Q
  end.

Definition fis_zero (x : float) : bool :=
  match x with Fin q => Qeq_bool q 0 | _ => false end.

(** [x / y]: Python raises [ZeroDivisionError] on a zero divisor. *)
Definition fdiv (x y : float) : res float :=
  if fis_zero y then Raise ZeroDivisionError else Ok (fdiv_nz x y).

(** [x < y] and [x <= y]: false when either side is a NaN. *)
Definition flt (x y : float) : bool :=
  match x, y with
  | NaN, _ | _, NaN => false
  | Fin a, Fin b => qltb a b
  | Inf a, Inf b => a && negb b
  | Inf a, Fin _ => a
  | Fin _, Inf b => negb b
  end.

Definition fle (x y : float) : bool :=
  match x, y with
  | NaN, _ | _, NaN => false
  | _, _ => negb (flt y x)
  end.

(** A float is true unless it is zero. *)
Definition ftruthy (x : float) : bool := negb (fis_zero x).

(** ** Conversions *)

(** [float(z)] (and the implicit conversion of [int] operands):
    [OverflowError] when the rounded value is infinite. *)
Definition float_of_int (z : Z) : res float :=
  match round64 (inject_Z z) with
  | Fin q => Ok (Fin q)
  | _ => Raise OverflowError
  end.

(** [a / b] on two [int]s: the correctly rounded quotient;
    [ZeroDivisionError] for [b = 0], [OverflowError] when it is too large. *)
Definition int_true_div (a b : Z) : res float :=
  if b =? 0 then Raise ZeroDivisionError
  else match round64 (inject_Z a / inject_Z b)%Q with
       | Fin q => Ok (Fin q)
       | _ => Raise OverflowError
       end.

(** [int(x)] truncates toward zero. *)
Definition int_of_float (x : float) : res Z :=
  match x with
  | Fin q => Ok (trunc q)
  | Inf _ => Raise OverflowError
  | NaN => Raise ValueError
  end.

(** [float(s)] for a string: surrounding whitespace, a sign, and either
    [inf], [infinity] or [nan] in any case, or a decimal literal, which
    is rounded to the nearest float. *)
Definition float_of_str (s : string) : res float :=
  let '(sg, body) := scan_sign (strip s) in
  let special := lower body in
  if String.eqb special "inf" || String.eqb special "infinity" then Ok (Inf (sg <? 0))
  else if String.eqb special "nan" then Ok NaN
  else
    match parse_float_literal s with
    | Some (m, e) => Ok (round64 (dec_value m e))
    | None => Raise ValueError
    end.

(** [round(x)]: the nearest integer, ties to even. *)
Definition py_round (x : float) : res Z :=
  match x with
  | Fin q => Ok (rhe (Qnum q) (Zpos (Qden q)))
  | Inf _ => Raise OverflowError
  | NaN => Raise ValueError
  end.

(** [round(x, nd)] for [0 <= nd]: the exact value rounded to [nd]
    decimals, ties to even, then converted back to the nearest float. *)
Definition py_round_digits (x : float) (nd : Z) : float :=
  match x with
  | Fin q => round64 (Qmake (rhe (Qnum q * 10 ^ nd) (Zpos (Qden q))) (Z.to_pos (10 ^ nd)))
  | _ => x
  end.

(** C's [fmod], which is exact: [x - w * trunc (x / w)]. *)
Definition ffmod (x w : float) : float :=
  match x, w with
  | Fin a, Fin b => Fin (Qred (a - b * inject_Z (trunc (a / b)))%Q)
  | Fin a, Inf _ => Fin a
  | _, _ => NaN
  end.

Definition ffloor (x : float) : float :=
  match x with Fin q => Fin (inject_Z (Qfloor q)) | _ => x end.

Definition one : float := Fin 1.
Definition half : float := Fin (1 # 2).

(** [_float_div_mod] of [floatobject.c] for a nonzero divisor. *)
Definition float_div_mod (vx wx : float) : float * float :=
  let md := ffmod vx wx in
  let div := fdiv_nz (fsub vx md) wx in
  let '(div, md) :=
    if ftruthy md then
      (if Bool.eqb (flt wx (Fin 0)) (flt md (Fin 0)) then (div, md)
       else (fsub div one, fadd md wx))
    else (div, Fin 0) in
  let floordiv :=
    if ftruthy div then
      let f := ffloor div in
      if flt half (fsub div f) then fadd f one else f
    else Fin 0 in
  (floordiv, md).

(** [x // w] and [x % w] on floats. *)
Definition ffloordiv (x w : float) : res float :=
  if fis_zero w then Raise ZeroDivisionError else Ok (fst (float_div_mod x w)).

Definition fmod (x w : float) : res float :=
  if fis_zero w then Raise ZeroDivisionError else Ok (snd (float_div_mod x w)).

(** ** Floats of JSON values *)

(** [float(v)] for a JSON value: a number is rounded to the nearest
    float, a string is parsed; [None], lists and dicts are rejected. *)
Definition py_float_d (v : pyval) : res float :=
  match v with
  | PBool b => Ok (if b then one else Fin 0)
  | PInt z => float_of_int z
  | PFloat m e => Ok (round64 (dec_value m e))
  | PStr s => float_of_str s
  | PNone | PList _ | PDict _ => Raise TypeError
  end.

(** [int(v)] for a JSON value: a float literal is the binary64 value
    [json.loads] rounds it to ([inf] beyond the range, where [int]
    raises [OverflowError]), truncated toward zero; a string is parsed
    as an integer literal. *)
Definition py_int_d (v : pyval) : res Z :=
  match v with
  | PBool b => Ok (if b then 1 else 0)
  | PInt z => Ok z
  | PFloat m e => int_of_float (round64 (dec_value m e))
  | PStr s => match parse_int_literal s with Some z => Ok z | None => Raise ValueError end
  | PNone | PList _ | PDict _ => Raise TypeError
  end.

(** [max(a, b)] on floats: [b] only when [a < b], so a NaN [b] is never
    taken. *)
Definition fmax (a b : float) : float := if flt a b then b else a.

(** [float(z)] does not overflow: [|z| < 2^1024 - 2^970]. *)
Definition int_in_range (z : Z) : bool :=
  match float_of_int z with Ok _ => true | Raise _ => false end.

(** [None] or a number [float()] converts without [OverflowError]. *)
Definition numeric_float (v : pyval) : bool :=
  match v with
  | PNone | PBool _ | PFloat _ _ => true
  | PInt z => int_in_range z
  | _ => false
  end.

(** A number [n = int(v)] exists and [float(n)] does not overflow. *)
Definition int_float_ok (v : pyval) : bool :=
  match v with
  | PBool _ => true
  | PInt z => int_in_range z
  | PFloat m e => match round64 (dec_value m e) with Fin q => int_in_range (trunc q) | _ => false end
  | _ => false
  end.

(** The number a JSON value holds, as Python compares it: [bool] and
    [int] exactly, a float literal after rounding to binary64. *)
Definition num_of (v : pyval) : option float :=
  match v with
  | PBool b => Some (if b then one else Fin 0)
  | PInt z => Some (Fin (inject_Z z))
  | PFloat m e => Some (round64 (dec_value m e))
  | _ => None
  end.

Definition float_eqb (x y : float) : bool :=
  match x, y with
  | Fin a, Fin b => Qeq_bool a b
  | Inf s, Inf t => Bool.eqb s t
  | _, _ => false
  end.

(** [v == z] for an [int] [z]: a [bool] as [0] or [1], a float literal
    by its binary64 value, exactly. *)
Definition num_eq (v : pyval) (z : Z) : bool :=
  match v with
  | PBool b => ((if b then 1 else 0) =? z)%Z
  | PInt z' => (z' =? z)%Z
  | PFloat m e => float_eqb (round64 (dec_value m e)) (Fin (inject_Z z))
  | _ => false
  end.

(** [a == b] on JSON values: numbers by value across [bool], [int] and
    [float], strings, [None], lists element by element and dicts key by
    key; values of different kinds are unequal. *)
Fixpoint py_eq (a b : pyval) {struct a} : bool :=
  match a, b with
  | PNone, PNone => true
  | PStr s, PStr t => String.eqb s t
  | PList l, PList l' =>
      (fix go (l l' : list pyval) : bool :=
         match l, l' with
         | [], [] => true
         | x :: xs, y :: ys => py_eq x y && go xs ys
         | _, _ => false
         end) l l'
  | PDict kv, PDict kv' =>
      Nat.eqb (length kv) (length kv') &&
      (fix go (kv : list (string * pyval)) : bool :=
         match kv with
         | [] => true
         | (k, v) :: r => match assoc k kv' with Some v' => py_eq v v' && go r | None => false end
         end) kv
  | _, _ => match num_of a, num_of b with Some x, Some y => float_eqb x y | _, _ => false end
  end.

(** [format(x, ".{nd}f")]: the exact value of [x] rounded to [nd]
    decimals, ties to even, printed with its sign; a negative value that
    rounds to zero keeps its minus sign (the sign of a zero itself is not
    modelled). *)
Definition format_fixed (x : float) (nd : nat) : string :=
  match x with
  | Inf neg => if neg then "-inf" else "inf"
  | NaN => "nan"
  | Fin q =>
      let p := 10 ^ Z.of_nat nd in
      let n := rhe (Z.abs (Qnum q) * p) (Zpos (Qden q)) in
      let frac := string_of_Z (n mod p) in
      (if qltb q 0 then "-" else EmptyString) ++ string_of_Z (n / p) ++
      (if Nat.eqb nd 0 then EmptyString
       else "." ++ zeros (nd - String.length frac) ++ frac)
  end.

(** ** Exactness on integers *)

Lemma rhe_1 (x : Z) : rhe x 1 = x.
Proof. unfold rhe. rewrite Z.div_1_r, Z.mod_1_r. reflexivity. Qed.

Lemma log2_floor_int (a : Z) : 0 < a -> log2_floor a 1 = Z.log2 a.
Proof.
  intros Ha. unfold log2_floor. cbn [Z.log2]. rewrite Z.sub_0_r.
  pose proof (Z.log2_nonneg a). pose proof (Z.log2_spec a Ha) as [Hl _].
  rewrite (proj2 (Z.leb_le 0 _)) by lia. rewrite Z.mul_1_l, (proj2 (Z.leb_le _ _) Hl). reflexivity.
Qed.

Lemma Qred_inject_Z (n : Z) : Qred (inject_Z n) = inject_Z n.
Proof.
  unfold Qred, inject_Z. pose proof (Z.ggcd_gcd n 1) as Hg. pose proof (Z.ggcd_correct_divisors n 1) as Hd.
  destruct (Z.ggcd n 1) as [g [a b]]. cbn in *. rewrite Z.gcd_1_r in Hg. subst g. rewrite !Z.mul_1_l in Hd.
  destruct Hd as [-> <-]. reflexivity.
Qed.

(** A rational with denominator 1 whose magnitude is below [2^53] is a
    float: [round64] returns it unchanged. *)
Lemma round64_integral (q : Q) :
  Qden q = 1%positive -> Z.abs (Qnum q) < 2 ^ 53 -> round64 q = Fin (inject_Z (Qnum q)).
Proof.
  destruct q as [n d]; cbn [Qnum Qden]; intros -> Hn. unfold round64; cbn [Qnum Qden].
  destruct (Z.eqb_spec n 0) as [->|Hn0]; [reflexivity|].
  assert (Ha : 0 < Z.abs n) by lia.
  assert (HL : Z.log2 (Z.abs n) < 53) by (apply Z.log2_lt_pow2; lia).
  pose proof (Z.log2_nonneg (Z.abs n)).
  unfold round_exponent. rewrite (log2_floor_int _ Ha).
  set (k := 52 - Z.log2 (Z.abs n)).
  replace (Z.max (Z.log2 (Z.abs n) - 52) (-1074)) with (- k) by lia.
  assert (Hm : scaled_round (Z.abs n) 1 (- k) = Z.abs n * 2 ^ k).
  { unfold scaled_round. destruct (Z.ltb_spec (- k) 0).
    - rewrite Z.opp_involutive, rhe_1. reflexivity.
    - replace k with 0 by lia. rewrite !Z.mul_1_r. apply rhe_1. }
  rewrite Hm.
  assert (Hk : 0 < 2 ^ k) by (apply Z.pow_pos_nonneg; lia).
  assert (Hb : Z.abs n * 2 ^ k < 2 ^ (1024 - - k)).
  { replace (1024 - - k) with (971 + 53 + k) by lia. rewrite !Z.pow_add_r by lia.
    assert (0 < 2 ^ 971) by (apply Z.pow_pos_nonneg; lia). nia. }
  rewrite (proj2 (Z.leb_gt _ _) Hb).
  assert (Hs : Z.sgn n * Z.abs n = n) by (destruct n; cbn; lia).
  f_equal. rewrite <- Qred_inject_Z. apply Qred_complete. unfold dyadic. rewrite Z.opp_involutive.
  destruct (Z.ltb_spec (- k) 0).
  - unfold Qeq; cbn [Qnum Qden]. rewrite Z2Pos.id by lia.
    rewrite Z.mul_assoc, Hs. cbn. ring.
  - replace k with 0 by lia. unfold Qeq; cbn [Qnum Qden inject_Z]. rewrite !Z.mul_1_r; exact Hs.
Qed.

Lemma int_of_float_int (z : Z) : int_of_float (Fin (inject_Z z)) = Ok z.
Proof. cbn. unfold trunc; cbn. rewrite Z.quot_1_r. reflexivity. Qed.

Lemma lower_digstr (ds : list nat) : is_digit_list ds -> lower (digstr ds) = digstr ds.
Proof.
  induction 1 as [| d ds Hd _ IH]; [reflexivity |].
  change (digstr (d :: ds)) with (String (digit_char d) (digstr ds)). cbn [lower]. rewrite IH. f_equal.
  destruct (ascii_lower_cases (digit_char d)) as [[-> _] | [Hr _]]; [reflexivity |].
  rewrite digit_char_code in Hr by exact Hd. lia.
Qed.

Lemma digstr_neq (d : nat) (ds : list nat) (c : ascii) (t : string) :
  (d < 10)%nat -> (57 < nat_of_ascii c)%nat -> String.eqb (digstr (d :: ds)) (String c t) = false.
Proof.
  intros Hd Hc. apply String.eqb_neq. intros [= Heq _]. exact (digit_char_neq d c Hd (or_intror Hc) Heq).
Qed.

(** [float(str(z))] is the float nearest to [z]. *)
Lemma float_of_str_string_of_Z (z : Z) : float_of_str (string_of_Z z) = Ok (round64 (inject_Z z)).
Proof.
  destruct (string_of_Z_read z) as (ds & Hne & Hd & Hs & Hsg & _).
  unfold float_of_str. rewrite Hs, Hsg, lower_digstr by exact Hd.
  destruct ds as [| d ds]; [congruence |]. inversion Hd; subst.
  rewrite !digstr_neq by (first [assumption | apply Nat.ltb_lt; reflexivity]).
  rewrite parse_float_literal_string_of_Z. unfold dec_value. cbn. now rewrite Z.mul_1_r.
Qed.

(** Multiplying an integral float by an integral float whose exact
    product stays below [2^53] is exact. *)
Lemma fmul_int (a b : Z) :
  Z.abs (a * b) < 2 ^ 53 -> fmul (Fin (inject_Z a)) (Fin (inject_Z b)) = Fin (inject_Z (a * b)).
Proof. intros H. apply round64_integral; [reflexivity | exact H]. Qed.

(** Adding two integral floats whose exact sum stays below [2^53] is exact. *)
Lemma fadd_int (a b : Z) :
  Z.abs (a + b) < 2 ^ 53 -> fadd (Fin (inject_Z a)) (Fin (inject_Z b)) = Fin (inject_Z (a + b)).
Proof.
  intros H. cbn [fadd]. rewrite round64_integral; [| reflexivity | cbn; rewrite !Z.mul_1_r; exact H].
  cbn. now rewrite !Z.mul_1_r.
Qed.

Lemma round64_int (z : Z) : Z.abs z < 2 ^ 53 -> round64 (inject_Z z) = Fin (inject_Z z).
Proof. intros H. apply round64_integral; [reflexivity | exact H]. Qed.

(** ** Signs and ranges *)

Lemma rhe_bounds (a b : Z) : 0 < b -> a / b <= rhe a b <= a / b + 1.
Proof. intros Hb. unfold rhe. destruct (Z.compare _ _); [destruct (Z.even _) |..]; lia. Qed.

Lemma rhe_nonneg (a b : Z) : 0 <= a -> 0 < b -> 0 <= rhe a b.
Proof. intros Ha Hb. pose proof (rhe_bounds a b Hb). pose proof (Z.div_pos a b Ha Hb). lia. Qed.

Lemma dyadic_nonneg (m e : Z) : 0 <= m -> (0 <= dyadic m e)%Q.
Proof.
  intros Hm. unfold dyadic. destruct (e <? 0).
  - unfold Qle; cbn. lia.
  - unfold Qle; cbn. pose proof (Z.pow_nonneg 2 e ltac:(lia)). nia.
Qed.

(** Rounding keeps the sign of a nonnegative value. *)
Lemma round64_nonneg (q r : Q) : (0 <= q)%Q -> round64 q = Fin r -> (0 <= r)%Q.
Proof.
  destruct q as [n d]. intros Hn. unfold Qle in Hn; cbn in Hn. unfold round64; cbn [Qnum Qden].
  destruct (n =? 0); [intros [= <-]; apply Qle_refl |].
  destruct (_ <=? _); [discriminate |]. intros [= <-]. rewrite Qred_correct.
  apply dyadic_nonneg. apply Z.mul_nonneg_nonneg; [destruct n; cbn; lia |].
  unfold scaled_round. destruct (Z.ltb_spec (round_exponent (Z.abs n) (Zpos d)) 0).
  - apply rhe_nonneg; [apply Z.mul_nonneg_nonneg; [lia | apply Z.pow_nonneg; lia] | lia].
  - apply rhe_nonneg; [lia | apply Z.mul_pos_pos; [lia | apply Z.pow_pos_nonneg; lia]].
Qed.

(** C's [fmod] of a nonnegative value by a positive one lies in [[0, w)]. *)
Lemma ffmod_range (a w : Q) :
  (0 <= a)%Q -> (0 < w)%Q -> exists r, ffmod (Fin a) (Fin w) = Fin r /\ (0 <= r)%Q /\ (r < w)%Q.
Proof.
  destruct a as [an ad], w as [wn wd]. intros Ha Hw. unfold Qle, Qlt in Ha, Hw; cbn in Ha, Hw.
  eexists. split; [reflexivity |]. rewrite !Qred_correct.
  unfold trunc, Qdiv, Qmult, Qinv; cbn [Qnum Qden].
  destruct wn as [| wp | wp]; [lia | | lia]. cbn [Qnum Qden].
  set (x := an * Zpos wd). set (y := Zpos (ad * wp)).
  assert (Hx : 0 <= x) by (unfold x; lia). assert (Hy : 0 < y) by (unfold y; lia).
  rewrite Z.quot_div_nonneg by lia.
  pose proof (Z.mul_div_le x y Hy). pose proof (Z.mul_succ_div_gt x y Hy).
  unfold Qminus, Qplus, Qopp, Qmult, Qle, Qlt, inject_Z; cbn [Qnum Qden].
  unfold x, y in *. rewrite !Pos2Z.inj_mul in *. split; nia.
Qed.

(** ** Conversions that cannot fail *)

Lemma int_in_range_ok (z : Z) : int_in_range z = true -> exists f, float_of_int z = Ok f.
Proof. unfold int_in_range. destruct (float_of_int z); [eauto | discriminate]. Qed.

Lemma py_float_d_numeric (v : pyval) :
  numeric_float v = true -> v <> PNone -> exists f, py_float_d v = Ok f.
Proof.
  destruct v; simpl; try discriminate; intros H N; eauto using int_in_range_ok; congruence.
Qed.

Lemma numeric_float_or (v d : pyval) :
  numeric_float v = true -> numeric_float d = true -> numeric_float (py_or v d) = true.
Proof. unfold py_or. now destruct (truthy v). Qed.

(** [float(v or 0)] *)
Lemma py_float_d_or_zero (v : pyval) :
  numeric_float v = true -> exists f, py_float_d (py_or v (PInt 0)) = Ok f.
Proof.
  intros H. apply py_float_d_numeric; [now apply numeric_float_or |].
  unfold py_or. destruct (truthy v) eqn:T; [| discriminate]. intros ->. discriminate.
Qed.

(** [float(v or x)] for a float [x] already at hand. *)
Lemma py_float_d_or_float (v : pyval) (x : float) :
  numeric_float v = true -> exists f, (if truthy v then py_float_d v else Ok x) = Ok f.
Proof.
  intros H. destruct (truthy v) eqn:T; [| eauto].
  apply py_float_d_numeric; [exact H |]. intros ->. discriminate.
Qed.

Lemma int_float_ok_spec (v : pyval) :
  int_float_ok v = true -> exists n f, py_int_d v = Ok n /\ float_of_int n = Ok f.
Proof.
  destruct v; simpl; try discriminate; intros H.
  - exists (if b then 1 else 0), (if b then Fin 1 else Fin 0). now destruct b.
  - destruct (int_in_range_ok z H) as [f Hf]. eauto.
  - destruct (round64 (dec_value m e)) as [q| |]; try discriminate.
    destruct (int_in_range_ok _ H) as [f Hf]. eauto.
Qed.

#[export] Hint Resolve int_in_range_ok py_float_d_or_zero py_float_d_or_float : tpcli.
