(* ===== verification/Parsing.v ===== *)
(** * Parsing: the workout step DSL ([utils/parsing.py])

    [parse_length] reads a length token ([5km], [400m], [8:00],
    [1:02:03], [90]) into a value and a unit, [parse_target] reads the
    leading integer of a target such as [72% TP], and
    [simple_to_tp_structure] compiles a list of DSL steps ([warmup],
    [interval], [steady], [cooldown]) into the TrainingPeaks structure
    payload: a pending buffer of warm-up steps flushed as one [rampUp]
    block, one [repetition] block per interval, one [step] block per
    steady or cool-down step.  The compiler is a left fold of
    [compile_step] over the steps with the state of the Python loop
    (the [blocks] list and the [warmup_steps] buffer). *)

From Stdlib Require Import QArith ZArith Lia Ascii String List Bool.
From stdpp Require Import base decidable.
From S2P Require Import Prelude PyValue Floats.
Import ListNotations.
Open Scope string_scope.
Open Scope Z_scope.

(** ** Regular expressions [(\d+)] and [(\d+)-(\d+)] *)

(** The longest run of ASCII digits at the start of [s]. *)
Fixpoint scan_digits (s : string) : list nat * string :=
  match s with
  | String c s' =>
      match digit_value c with
      | Some d => let '(ds, r) := scan_digits s' in (d :: ds, r)
      | None => ([], s)
      end
  | EmptyString => ([], EmptyString)
  end.

(** [re.match(r"(\d+)", s)]: the integer value of group 1 and the rest. *)
Definition match_int (s : string) : option (Z * string) :=
  match scan_digits s with
  | ([], _) => None
  | (ds, r) => Some (digits_to_Z ds, r)
  end.

(** [re.match(r"(\d+)-(\d+)", s)]: the greedy first group leaves no
    digit before the dash, so no backtracking can produce another match. *)
Definition match_range (s : string) : option (Z * Z) :=
  match match_int s with
  | Some (a, String "-" r) =>
      match match_int r with Some (b, _) => Some (a, b) | None => None end
  | _ => None
  end.

(** [int(s)] on a string. *)
Definition int_of_str (s : string) : res Z := py_int_d (PStr s).

(** ** [parse_length], [parse_duration], [parse_target] *)

Definition parse_length (value : string) : res (Z * string) :=
  let raw := strip value in
  if ends_with "km" raw then
    let* x := float_of_str (drop_last 2 raw) in
    let* v := int_of_float (fmul x (Fin 1000)) in
    Ok (v, "meter")
  else if ends_with "m" raw then
    let* x := float_of_str (drop_last 1 raw) in
    let* v := int_of_float x in
    Ok (v, "meter")
  else
    match split_char ":" raw with
    | [p0; p1] =>
        let* a := int_of_str p0 in
        let* b := int_of_str p1 in
        Ok (a * 60 + b, "second")
    | [p0; p1; p2] =>
        let* a := int_of_str p0 in
        let* b := int_of_str p1 in
        let* c := int_of_str p2 in
        Ok (a * 3600 + b * 60 + c, "second")
    | _ =>
        let* v := int_of_str raw in
        Ok (v, "second")
    end.

(** [parse_length(v)] called on a JSON value: [v.strip()] needs a string. *)
Definition parse_length_v (v : pyval) : res (Z * string) :=
  let* s := as_str v in parse_length s.

Definition parse_duration (v : pyval) : res Z :=
  let* '(parsed, _) := parse_length_v v in Ok parsed.

(** [parse_target(value)]: [None] for a falsy value; [re.match] raises
    [TypeError] on a value that is not a string. *)
Definition parse_target (value : pyval) : res (option Z) :=
  if negb (truthy value) then Ok None
  else
    match value with
    | PStr s => Ok (option_map fst (match_int s))
    | _ => Raise TypeError
    end.

Definition opt_int (o : option Z) : pyval :=
  match o with Some z => PInt z | None => PNone end.

(** ** [simple_to_tp_structure] *)

(** [[{"minValue": parse_target(t)}] if t else []] *)
Definition targets_of (t : pyval) : res pyval :=
  if truthy t then
    let* p := parse_target t in
    Ok (PList [PDict [("minValue", opt_int p)]])
  else Ok (PList []).

Definition mk_step (name value unit targets : pyval) (ic : string) : pyval :=
  PDict [("name", name); ("length", PDict [("value", value); ("unit", unit)]);
         ("targets", targets); ("intensityClass", PStr ic); ("openDuration", PBool false)].

Definition mk_block (ty : string) (reps : pyval) (steps : list pyval) : pyval :=
  PDict [("type", PStr ty); ("length", PDict [("value", reps); ("unit", PStr "repetition")]);
         ("steps", PList steps)].

(** The local variables of the loop: [blocks] and [warmup_steps]. *)
Record cstate : Type := CState { blocks : list pyval; warmups : list pyval }.

Definition cstate_init : cstate := CState [] [].

(** [if warmup_steps: blocks.append(rampUp block); warmup_steps = []] *)
Definition flush (st : cstate) : cstate :=
  match warmups st with
  | [] => st
  | ws => CState (blocks st ++ [mk_block "rampUp" (PInt 1) ws]) []
  end.

(** The [on_targets] of an interval: a [min-max] range, else a single
    percent, else none. *)
Definition on_targets_of (on_target : pyval) : res (list pyval) :=
  if truthy on_target then
    match on_target with
    | PStr s =>
        match match_range s with
        | Some (a, b) => Ok [PDict [("minValue", PInt a); ("maxValue", PInt b)]]
        | None =>
            let* p := parse_target on_target in
            Ok (match p with Some z => [PDict [("minValue", PInt z)]] | None => [] end)
        end
    | _ => Raise TypeError
    end
  else Ok [].

(** A single-step [step] block of a cool-down or steady entry. *)
Definition single_step_block (step : pyval) (default_name : string) (ic : string) : res pyval :=
  let* name := dict_get step "name" (PStr default_name) in
  let* d := getitem step "duration" in
  let* secs := parse_duration d in
  let* t := dict_get step "target" PNone in
  let* targets := targets_of t in
  Ok (mk_block "step" (PInt 1) [mk_step name (PInt secs) (PStr "second") targets ic]).

(** One iteration of [for step in steps]. *)
Definition compile_step (st : cstate) (step : pyval) : res cstate :=
  let* step_type := getitem step "type" in
  if is_str_eq step_type "warmup" then
    let* d := getitem step "duration" in
    let* '(v, u) := parse_length_v d in
    let* name := dict_get step "name" (PStr EmptyString) in
    let* t := dict_get step "target" PNone in
    let* targets := targets_of t in
    let ic := match warmups st with [] => "warmUp" | _ => "active" end in
    Ok (CState (blocks st) (warmups st ++ [mk_step name (PInt v) (PStr u) targets ic]))
  else if is_str_eq step_type "interval" then
    let* on := getitem step "on" in
    let* '(on_value, on_unit) := parse_length_v on in
    let* off := getitem step "off" in
    let* '(off_value, off_unit) := parse_length_v off in
    let* on_target := dict_get step "on_target" PNone in
    let* on_targets := on_targets_of on_target in
    let st := flush st in
    let* reps := dict_get step "reps" (PInt 1) in
    let* name := dict_get step "name" (PStr EmptyString) in
    let* on_name := dict_get step "on_name" name in
    let* off_name := dict_get step "off_name" (PStr "Easy") in
    let* off_target := dict_get step "off_target" PNone in
    let* off_targets := targets_of off_target in
    let b := mk_block "repetition" reps
               [mk_step on_name (PInt on_value) (PStr on_unit) (PList on_targets) "active";
                mk_step off_name (PInt off_value) (PStr off_unit) off_targets "rest"] in
    Ok (CState (blocks st ++ [b]) (warmups st))
  else
    let st := flush st in
    if is_str_eq step_type "cooldown" then
      let* b := single_step_block step "Cool Down" "coolDown" in
      Ok (CState (blocks st ++ [b]) (warmups st))
    else if is_str_eq step_type "steady" then
      let* b := single_step_block step EmptyString "active" in
      Ok (CState (blocks st ++ [b]) (warmups st))
    else Ok st.

Definition simple_to_tp_structure (steps : pyval) (intensity_metric : string) : res pyval :=
  let* items := py_iter steps in
  let* st := res_fold_left compile_step items cstate_init in
  let st := flush st in
  Ok (PDict [("primaryIntensityMetric", PStr intensity_metric); ("structure", PList (blocks st))]).

(** ** Length tokens *)

Definition no_colon (c : ascii) : bool := negb (Ascii.eqb c ":").

Lemma int_of_str_string_of_Z (z : Z) : int_of_str (string_of_Z z) = Ok z.
Proof. unfold int_of_str; cbn. now rewrite parse_int_literal_string_of_Z. Qed.

Lemma string_of_Z_no_space (z : Z) : all_chars no_space (string_of_Z z) = true.
Proof.
  apply string_of_Z_chars; [reflexivity |]. intros d Hd. unfold no_space. now rewrite is_space_digit.
Qed.

Lemma string_of_Z_no_colon (z : Z) : all_chars no_colon (string_of_Z z) = true.
Proof.
  apply string_of_Z_chars; [reflexivity |]. intros d Hd.
  apply negb_true_iff, Ascii.eqb_neq, digit_char_neq; [exact Hd | right; apply Nat.ltb_lt; reflexivity].
Qed.

#[export] Hint Rewrite all_chars_app string_of_Z_no_space string_of_Z_no_colon
  int_of_str_string_of_Z : tpcli_rw.

(** A token ending in a digit is neither a [km] nor an [m] length. *)
Lemma parse_length_clock_form (x : string) (z : Z) :
  all_chars no_space x = true ->
  parse_length (x ++ string_of_Z z) =
    match split_char ":" (x ++ string_of_Z z) with
    | [p0; p1] => let* a := int_of_str p0 in let* b := int_of_str p1 in Ok (a * 60 + b, "second")
    | [p0; p1; p2] =>
        let* a := int_of_str p0 in let* b := int_of_str p1 in let* c := int_of_str p2 in
        Ok (a * 3600 + b * 60 + c, "second")
    | _ => let* v := int_of_str (x ++ string_of_Z z) in Ok (v, "second")
    end.
Proof.
  intros Hx. unfold parse_length.
  rewrite strip_no_space by (rewrite all_chars_app, Hx; apply string_of_Z_no_space).
  rewrite (ends_with_string_of_Z "km" x "k" "m"), (ends_with_string_of_Z "m" x EmptyString "m")
    by (reflexivity || (right; apply Nat.ltb_lt; reflexivity)).
  reflexivity.
Qed.

Lemma split_clock2 (a b : Z) :
  split_char ":" (string_of_Z a ++ ":" ++ string_of_Z b) = [string_of_Z a; string_of_Z b].
Proof.
  cbn [append]. rewrite split_char_app, split_char_none by apply string_of_Z_no_colon. reflexivity.
Qed.

Lemma split_clock3 (a b c : Z) :
  split_char ":" (string_of_Z a ++ ":" ++ string_of_Z b ++ ":" ++ string_of_Z c) =
    [string_of_Z a; string_of_Z b; string_of_Z c].
Proof.
  cbn [append]. rewrite !split_char_app, split_char_none by apply string_of_Z_no_colon. reflexivity.
Qed.

Lemma split_colon2 (a b : string) :
  all_chars no_colon a = true -> all_chars no_colon b = true -> split_char ":" (a ++ ":" ++ b) = [a; b].
Proof. intros Ha Hb. cbn [append]. rewrite split_char_app, split_char_none by assumption. reflexivity. Qed.

Lemma split_colon3 (a b c : string) :
  all_chars no_colon a = true -> all_chars no_colon b = true -> all_chars no_colon c = true ->
  split_char ":" (a ++ ":" ++ b ++ ":" ++ c) = [a; b; c].
Proof. intros Ha Hb Hc. cbn [append]. rewrite !split_char_app, split_char_none by assumption. reflexivity. Qed.

Lemma pad2_no_space (z : Z) : all_chars no_space (pad2 z) = true.
Proof. destruct (pad2_split z) as (p & [-> | ->] & ->); now autorewrite with tpcli_rw. Qed.

Lemma pad2_no_colon (z : Z) : all_chars no_colon (pad2 z) = true.
Proof. destruct (pad2_split z) as (p & [-> | ->] & ->); now autorewrite with tpcli_rw. Qed.

Lemma int_of_str_pad2 (m : Z) : (0 <= m)%Z -> int_of_str (pad2 m) = Ok m.
Proof. intros Hm. unfold int_of_str, py_int_d. now rewrite parse_int_literal_pad2. Qed.

#[export] Hint Rewrite pad2_no_space pad2_no_colon : tpcli_rw.

(** The clock forms of a length token denote seconds: [str(a):str(b)]
    parses to [a * 60 + b] seconds and [str(a):str(b):str(c)] to
    [a * 3600 + b * 60 + c] seconds, for all integers [a], [b], [c]. *)
Theorem parse_length_clock (a b c : Z) :
  parse_length (string_of_Z a ++ ":" ++ string_of_Z b) = Ok (a * 60 + b, "second") /\
  parse_length (string_of_Z a ++ ":" ++ string_of_Z b ++ ":" ++ string_of_Z c) =
    Ok (a * 3600 + b * 60 + c, "second").
Proof.
  split.
  - rewrite string_app_assoc, parse_length_clock_form, <- string_app_assoc, split_clock2
      by (autorewrite with tpcli_rw; reflexivity).
    now autorewrite with tpcli_rw.
  - rewrite !string_app_assoc, parse_length_clock_form,
      <- !string_app_assoc, split_clock3 by (autorewrite with tpcli_rw; reflexivity).
    now autorewrite with tpcli_rw.
Qed.

Lemma ends_with_km_m (n : Z) : ends_with "km" (string_of_Z n ++ "m") = false.
Proof.
  unfold ends_with. rewrite string_rev_app. destruct (string_of_Z_last n) as (d & t & Hd & ->).
  cbn [string_rev append String.prefix]. destruct (ascii_dec "m" "m"); [| reflexivity].
  destruct (ascii_dec "k" (digit_char d)) as [E | _]; [| reflexivity].
  exfalso. refine (digit_char_neq d "k" Hd _ (eq_sym E)). right. apply Nat.ltb_lt. reflexivity.
Qed.

Lemma float_of_str_small (n : Z) : Z.abs n < 2 ^ 53 -> float_of_str (string_of_Z n) = Ok (Fin (inject_Z n)).
Proof. intros H. now rewrite float_of_str_string_of_Z, round64_int. Qed.

(** C13: A whole number of kilometres or metres parses to the exact
    number of metres, [str(n) + "km"] to [n * 1000] and [str(n) + "m"]
    to [n], as long as [|n| * 1000] is below [2^53], where every step
    of the float computation [int(float(raw[:-2]) * 1000)] is exact. *)
Theorem parse_length_whole_distance (n : Z) :
  Z.abs n * 1000 < 2 ^ 53 ->
  parse_length (string_of_Z n ++ "km") = Ok (n * 1000, "meter") /\
  parse_length (string_of_Z n ++ "m") = Ok (n, "meter").
Proof.
  intros H. unfold parse_length.
  rewrite !strip_no_space by (autorewrite with tpcli_rw; reflexivity).
  rewrite !ends_with_app, ends_with_km_m.
  change 2%nat with (String.length "km"). change 1%nat with (String.length "m").
  rewrite !drop_last_app, float_of_str_small by lia. cbn [res_bind].
  change (Fin 1000) with (Fin (inject_Z 1000)).
  rewrite fmul_int, !int_of_float_int by lia. split; reflexivity.
Qed.

(** [parse_length] truncates the float product: ["1.001km"] is
    1000 metres, not 1001, because [float("1.001") * 1000] is
    [1000.9999999999999] and [int()] drops the fraction. *)
Example parse_length_km_truncates : parse_length "1.001km" = Ok (1000, "meter").
Proof. vm_compute. reflexivity. Qed.

(** ** The compiler refines the grouping rule of the DSL *)

(** The entry kinds of the DSL; any other [type] emits no block. *)
Inductive dsl_kind : Type := KWarmup | KInterval | KSteady | KCooldown | KOther.

Definition kind_of (step_type : pyval) : dsl_kind :=
  if is_str_eq step_type "warmup" then KWarmup
  else if is_str_eq step_type "interval" then KInterval
  else if is_str_eq step_type "cooldown" then KCooldown
  else if is_str_eq step_type "steady" then KSteady
  else KOther.

Definition step_kind (step : pyval) : dsl_kind :=
  match getitem step "type" with Ok t => kind_of t | Raise _ => KOther end.

Definition kind_blocks (k : dsl_kind) : list string :=
  match k with
  | KInterval => ["repetition"]
  | KSteady | KCooldown => ["step"]
  | KWarmup | KOther => []
  end.

(** The block types of the grouping rule: consecutive warm-ups form one
    [rampUp] block, emitted before the next other entry or at the end. *)
Fixpoint block_types (pending : bool) (ks : list dsl_kind) : list string :=
  match ks with
  | [] => if pending then ["rampUp"] else []
  | KWarmup :: ks => block_types true ks
  | k :: ks => ((if pending then ["rampUp"] else []) ++ kind_blocks k ++ block_types false ks)%list
  end.

Definition block_type (b : pyval) : string :=
  match b with
  | PDict kv => match assoc "type" kv with Some (PStr s) => s | _ => EmptyString end
  | _ => EmptyString
  end.

Definition pending (st : cstate) : bool := match warmups st with [] => false | _ => true end.

Lemma flush_types (st : cstate) :
  map block_type (blocks (flush st)) = (map block_type (blocks st) ++ (if pending st then ["rampUp"] else []))%list /\
  pending (flush st) = false.
Proof.
  unfold flush, pending. destruct (warmups st) eqn:W; cbn [blocks warmups].
  - now rewrite app_nil_r, W.
  - now rewrite map_app.
Qed.

Lemma pending_snoc (st : cstate) (l : list pyval) (x : pyval) : pending (CState l (warmups st ++ [x])) = true.
Proof. unfold pending; cbn. now destruct (warmups st). Qed.

Lemma emit_types (st : cstate) (bs : list pyval) (k : dsl_kind) (ks : list dsl_kind) :
  k <> KWarmup -> map block_type bs = kind_blocks k ->
  (map block_type (blocks (flush st) ++ bs) ++ block_types (pending (flush st)) ks =
   map block_type (blocks st) ++ block_types (pending st) (k :: ks))%list.
Proof.
  intros Hk Hbs. destruct (flush_types st) as [Hb Hp]. rewrite map_app, Hb, Hp, Hbs.
  destruct k; [congruence | ..]; cbn [block_types]; now rewrite <- !app_assoc.
Qed.

Lemma single_step_block_type (step : pyval) (n ic : string) (b : pyval) :
  single_step_block step n ic = Ok b -> block_type b = "step".
Proof. unfold single_step_block. intros H. res_inv H. reflexivity. Qed.

Lemma compile_step_types (st st' : cstate) (step : pyval) (ks : list dsl_kind) :
  compile_step st step = Ok st' ->
  (map block_type (blocks st') ++ block_types (pending st') ks =
   map block_type (blocks st) ++ block_types (pending st) (step_kind step :: ks))%list.
Proof.
  unfold compile_step, step_kind. intros H. res_step H. unfold kind_of.
  destruct (is_str_eq a "warmup"); [res_inv H; now rewrite pending_snoc |].
  destruct (is_str_eq a "interval"); [res_inv H; now apply emit_types |].
  destruct (is_str_eq a "cooldown"); [| destruct (is_str_eq a "steady")];
    [res_inv H; apply emit_types; [discriminate | cbn; f_equal; eauto using single_step_block_type] .. |].
  injection H as <-. pose proof (emit_types st [] KOther ks ltac:(discriminate) eq_refl) as He.
  now rewrite app_nil_r in He.
Qed.

Lemma fold_compile_types (items : list pyval) (st st' : cstate) (ks : list dsl_kind) :
  res_fold_left compile_step items st = Ok st' ->
  (map block_type (blocks st') ++ block_types (pending st') ks =
   map block_type (blocks st) ++ block_types (pending st) (map step_kind items ++ ks))%list.
Proof.
  revert st. induction items as [| x items IH]; intros st H; cbn in H.
  - now injection H as <-.
  - destruct (compile_step st x) as [st1 |] eqn:E; cbn in H; [| discriminate].
    rewrite (IH st1 H). exact (compile_step_types st st1 x _ E).
Qed.

(** C12: [simple_to_tp_structure] implements the grouping rule of the
    DSL: the types of the blocks it emits are exactly those of
    [block_types], where consecutive warm-ups become one [rampUp] block
    flushed before the next other entry or at the end, an interval a
    [repetition] block, a steady or cool-down entry a [step] block, and
    an entry of another type nothing. *)
Theorem simple_to_tp_structure_blocks (steps : pyval) (m : string) (out : pyval) :
  simple_to_tp_structure steps m = Ok out ->
  exists items bs, py_iter steps = Ok items /\
    out = PDict [("primaryIntensityMetric", PStr m); ("structure", PList bs)] /\
    map block_type bs = block_types false (map step_kind items).
Proof.
  unfold simple_to_tp_structure. intros H. res_step H. res_step H. injection H as <-.
  exists a, (blocks (flush a0)). split; [reflexivity | split; [reflexivity |]].
  pose proof (fold_compile_types a cstate_init a0 [] E0) as Hf. rewrite app_nil_r in Hf.
  rewrite (proj1 (flush_types a0)). exact Hf.
Qed.

(** ** Intensity classes of the [rampUp] blocks *)

Definition step_class (s : pyval) : string :=
  match s with
  | PDict kv => match assoc "intensityClass" kv with Some (PStr c) => c | _ => EmptyString end
  | _ => EmptyString
  end.

Definition block_steps (b : pyval) : list pyval :=
  match b with
  | PDict kv => match assoc "steps" kv with Some (PList l) => l | _ => [] end
  | _ => []
  end.

(** The classes of a buffer of [n] warm-ups: [warmUp] then [active]s. *)
Definition ramp_classes (n : nat) : list string :=
  match n with O => [] | S k => "warmUp" :: repeat "active" k end.

Definition ramp_ok (b : pyval) : Prop :=
  block_type b = "rampUp" ->
  block_steps b <> [] /\ map step_class (block_steps b) = ramp_classes (length (block_steps b)).

Definition buffer_ok (st : cstate) : Prop :=
  Forall ramp_ok (blocks st) /\ map step_class (warmups st) = ramp_classes (length (warmups st)).

Lemma ramp_classes_snoc (n : nat) :
  (ramp_classes n ++ [match n with O => "warmUp" | S _ => "active" end])%list = ramp_classes (S n).
Proof.
  destruct n as [| n]; [reflexivity |]. cbn. f_equal.
  change ["active"] with (repeat "active" 1). now rewrite <- repeat_app, Nat.add_1_r.
Qed.

Lemma flush_ok (st : cstate) : buffer_ok st -> buffer_ok (flush st).
Proof.
  unfold flush. intros [Hb Hw]. destruct (warmups st) as [| w ws] eqn:W.
  { split; [exact Hb | now rewrite W]. }
  split; [| reflexivity]. apply Forall_app. split; [exact Hb |].
  constructor; [| constructor]. intros _. cbn. split; [discriminate | exact Hw].
Qed.

Lemma emit_ok (st : cstate) (b : pyval) :
  buffer_ok st -> block_type b <> "rampUp" ->
  buffer_ok (CState (blocks (flush st) ++ [b]) (warmups (flush st))).
Proof.
  intros H Hb. destruct (flush_ok st H) as [Hf Hw]. split; [| exact Hw].
  apply Forall_app. split; [exact Hf |]. constructor; [| constructor]. intros E. contradiction.
Qed.

Lemma compile_step_ok (st st' : cstate) (step : pyval) :
  buffer_ok st -> compile_step st step = Ok st' -> buffer_ok st'.
Proof.
  unfold compile_step. intros Hok H. res_step H.
  destruct (is_str_eq a "warmup").
  { res_inv H. destruct Hok as [Hb Hw]. split; [exact Hb |]. cbn [warmups].
    rewrite map_app, Hw, List.length_app. cbn. rewrite Nat.add_1_r, <- ramp_classes_snoc.
    now destruct (warmups st). }
  destruct (is_str_eq a "interval"); [res_inv H; now apply emit_ok |].
  destruct (is_str_eq a "cooldown"); [| destruct (is_str_eq a "steady")];
    [res_inv H; apply emit_ok; [exact Hok | erewrite single_step_block_type by eassumption; discriminate] .. |].
  injection H as <-. now apply flush_ok.
Qed.

(** In every [rampUp] block of the compiled structure the steps are
    the buffered warm-ups, at least one, the first with intensity class
    [warmUp] and every later one [active]. *)
Theorem simple_to_tp_structure_rampup (steps : pyval) (m : string) (bs : list pyval) :
  simple_to_tp_structure steps m = Ok (PDict [("primaryIntensityMetric", PStr m); ("structure", PList bs)]) ->
  Forall ramp_ok bs.
Proof.
  unfold simple_to_tp_structure. intros H. res_step H. res_step H. injection H as <-.
  apply flush_ok. refine (res_fold_left_inv buffer_ok compile_step a cstate_init a0 _ _ E0).
  - split; constructor.
  - intros st x st' _. apply compile_step_ok.
Qed.

(** ** Interval entries *)

(** A target that [parse_target] and the range match accept: a string or a falsy value. *)
Definition str_or_falsy (v : pyval) : bool :=
  match v with PStr _ => true | _ => negb (truthy v) end.

Lemma parse_target_ok (v : pyval) : str_or_falsy v = true -> exists p, parse_target v = Ok p.
Proof.
  unfold parse_target. intros H. destruct (negb (truthy v)) eqn:T; [eauto |].
  destruct v; cbn [str_or_falsy] in H; eauto; congruence.
Qed.

Lemma targets_of_ok (v : pyval) : str_or_falsy v = true -> exists t, targets_of v = Ok t.
Proof.
  intros H. unfold targets_of. destruct (truthy v); [| eauto].
  destruct (parse_target_ok v H) as [p ->]. cbn. eauto.
Qed.

Lemma on_targets_of_ok (v : pyval) : str_or_falsy v = true -> exists t, on_targets_of v = Ok t.
Proof.
  intros H. unfold on_targets_of. destruct (truthy v) eqn:T; [| eauto].
  destruct v as [| | | | s | |]; cbn [str_or_falsy] in H; try (rewrite T in H; discriminate).
  destruct (match_range s) as [[a b] |]; [eauto |].
  destruct (parse_target_ok (PStr s) eq_refl) as [p ->]. cbn. eauto.
Qed.

(** An [interval] entry whose [on] and [off] lengths parse and whose
    targets are strings or absent compiles, on its own, to exactly one
    [repetition] block whose length is the entry's [reps] (default 1) and
    whose two steps are the [active] on-leg and the [rest] off-leg with
    the parsed lengths. *)
Theorem simple_to_tp_structure_interval (kv : list (string * pyval)) (on off m on_u off_u : string)
    (on_v off_v : Z) :
  assoc "type" kv = Some (PStr "interval") ->
  assoc "on" kv = Some (PStr on) -> assoc "off" kv = Some (PStr off) ->
  parse_length on = Ok (on_v, on_u) -> parse_length off = Ok (off_v, off_u) ->
  opt_field kv "on_target" str_or_falsy = true -> opt_field kv "off_target" str_or_falsy = true ->
  exists on_t off_t,
    simple_to_tp_structure (PList [PDict kv]) m =
      Ok (PDict [("primaryIntensityMetric", PStr m);
                 ("structure", PList [mk_block "repetition" (get_default kv "reps" (PInt 1))
                   [mk_step (get_default kv "on_name" (get_default kv "name" (PStr EmptyString)))
                      (PInt on_v) (PStr on_u) (PList on_t) "active";
                    mk_step (get_default kv "off_name" (PStr "Easy")) (PInt off_v) (PStr off_u) off_t "rest"]])]).
Proof.
  intros Ht Hon Hoff Hpon Hpoff Hot Hft.
  destruct (on_targets_of_ok (get_default kv "on_target" PNone)) as [on_t Ho]; [now apply opt_field_get |].
  destruct (targets_of_ok (get_default kv "off_target" PNone)) as [off_t Hf]; [now apply opt_field_get |].
  exists on_t, off_t. unfold simple_to_tp_structure, compile_step. cbn [py_iter res_fold_left res_bind getitem].
  rewrite Ht, Hon, Hoff. cbn [res_bind is_str_eq String.eqb parse_length_v as_str].
  autorewrite with tpcli_rw. rewrite Hpon, Hpoff. cbn [res_bind]. rewrite Ho, Hf. reflexivity.
Qed.

(** The spec's example: four repetitions of [8:00] on, [2:00] off. *)
Definition interval_example : list (string * pyval) :=
  [("type", PStr "interval"); ("reps", PInt 4); ("on", PStr "8:00"); ("off", PStr "2:00")].

Lemma simple_to_tp_structure_interval_witness :
  exists on_t off_t,
    simple_to_tp_structure (PList [PDict interval_example]) "percentOfThresholdPace" =
      Ok (PDict [("primaryIntensityMetric", PStr "percentOfThresholdPace");
                 ("structure", PList [mk_block "repetition" (PInt 4)
                   [mk_step (PStr EmptyString) (PInt 480) (PStr "second") (PList on_t) "active";
                    mk_step (PStr "Easy") (PInt 120) (PStr "second") off_t "rest"]])]).
Proof.
  apply (simple_to_tp_structure_interval interval_example "8:00" "2:00" _ "second" "second" 480 120);
    vm_compute; reflexivity.
Defined.

(** The spec's estimator example, as DSL entries:
    [warmup 10:00@70%, steady 5km@80%, interval 2x(1:00@100% / 0:30@70%)]. *)
Definition dsl_example : pyval :=
  PList [PDict [("type", PStr "warmup"); ("duration", PStr "10:00"); ("target", PStr "70%")];
         PDict [("type", PStr "steady"); ("duration", PStr "5km"); ("target", PStr "80%")];
         PDict [("type", PStr "interval"); ("reps", PInt 2); ("on", PStr "1:00"); ("off", PStr "0:30");
                ("on_target", PStr "100%"); ("off_target", PStr "70%")]].

Lemma simple_to_tp_structure_blocks_witness :
  exists out, simple_to_tp_structure dsl_example "percentOfThresholdPace" = Ok out /\
    exists items bs, py_iter dsl_example = Ok items /\
      out = PDict [("primaryIntensityMetric", PStr "percentOfThresholdPace"); ("structure", PList bs)] /\
      map block_type bs = block_types false (map step_kind items).
Proof.
  eexists. split; [vm_compute; reflexivity |].
  apply (simple_to_tp_structure_blocks dsl_example "percentOfThresholdPace"). vm_compute. reflexivity.
Defined.

Lemma simple_to_tp_structure_rampup_witness :
  exists bs, simple_to_tp_structure dsl_example "percentOfThresholdPace" =
    Ok (PDict [("primaryIntensityMetric", PStr "percentOfThresholdPace"); ("structure", PList bs)]) /\
    Forall ramp_ok bs.
Proof.
  eexists. split; [vm_compute; reflexivity |].
  apply (simple_to_tp_structure_rampup dsl_example "percentOfThresholdPace"). vm_compute. reflexivity.
Defined.

(** A steady (or cool-down) entry always gets the unit [second]:
    its length goes through [parse_duration], which drops the unit, so
    a distance such as ["5km"] becomes 5000 seconds. *)
Example steady_distance_as_seconds :
  simple_to_tp_structure (PList [PDict [("type", PStr "steady"); ("duration", PStr "5km")]]) "percentOfThresholdPace" =
  Ok (PDict [("primaryIntensityMetric", PStr "percentOfThresholdPace");
             ("structure", PList [mk_block "step" (PInt 1)
                [mk_step (PStr EmptyString) (PInt 5000) (PStr "second") (PList []) "active"]])]).
Proof. vm_compute. reflexivity. Qed.

Lemma parse_length_whole_distance_witness :
  Z.abs 42 * 1000 < 2 ^ 53 /\
  parse_length (string_of_Z 42 ++ "km") = Ok (42 * 1000, "meter") /\
  parse_length (string_of_Z 42 ++ "m") = Ok (42, "meter").
Proof. split; [lia | apply parse_length_whole_distance; lia]. Defined.
