(* ===== verification/Formatting.v ===== *)
(** * Formatting: the text helpers of [utils/formatting.py]

    [format_duration] prints a duration given in hours as [H:MM:SS] or
    [M:SS] after truncating [hours * 3600] to whole seconds,
    [format_distance] prints metres as kilometres with one decimal, and
    [format_steps] renders a workout structure as numbered markdown lines
    through [_format_single_step], [format_length_human] and
    [format_target_human].  The arguments are decoded JSON values
    ([pyval]); every [.get], [int()], comparison and [str.join] that can
    raise on a malformed value is modelled with its exception, and the
    float arithmetic is binary64 ([Floats]).  The theorems: a printed
    duration reads back, through the DSL's [parse_length], as the whole
    seconds it was computed from, for every integer, negative ones
    included; the seconds are those of the truncated binary64 product, one
    less than intended for some exact durations; a successful
    [format_steps] writes at least one line per block, each starting with
    the indentation. *)

From Stdlib Require Import QArith ZArith Lia Ascii String List Bool.
From stdpp Require Import base decidable.
From S2P Require Import Prelude PyValue Floats Parsing.
Import ListNotations.
Open Scope string_scope.
Open Scope Z_scope.

(** [INTENSITY_METRIC_LABELS] of [constants.py] *)
Definition INTENSITY_METRIC_LABELS : list (string * string) :=
  [("percentOfFtp", "% FTP"); ("percentOfThresholdPace", "% Threshold Pace");
   ("percentOfThresholdHr", "% LTHR"); ("roundOrStridePerMinute", "rpm/spm");
   ("beatsPerMinute", "bpm"); ("metersPerSecond", "m/s"); ("percentOfMax", "% Max")].

(** [INTENSITY_CLASS_LABELS] of [constants.py] *)
Definition INTENSITY_CLASS_LABELS : list (string * string) :=
  [("warmUp", "Warm-up"); ("coolDown", "Cool-down"); ("rest", "Recovery");
   ("recovery", "Recovery"); ("active", EmptyString)].

(** The text of [divmod(seconds, 3600)] and [divmod(rem, 60)]:
    [f"{h}:{m:02d}:{s:02d}"] or, without hours, [f"{m}:{s:02d}"]. *)
Definition clock_text (total_seconds : Z) : string :=
  let h := total_seconds / 3600 in
  let rem := total_seconds mod 3600 in
  let m := rem / 60 in
  let s := rem mod 60 in
  if negb (h =? 0) then string_of_Z h ++ ":" ++ pad2 m ++ ":" ++ pad2 s
  else string_of_Z m ++ ":" ++ pad2 s.

(** [int(float(hours) * 3600)] *)
Definition duration_seconds (hours : pyval) : res Z :=
  let* h := py_float_d hours in
  int_of_float (fmul h (Fin 3600)).

(** [format_duration(hours)] *)
Definition format_duration (hours : pyval) : res string :=
  if negb (truthy hours) then Ok "N/A"
  else let* total_seconds := duration_seconds hours in Ok (clock_text total_seconds).

(** [format_distance(meters)] *)
Definition format_distance (meters : pyval) : res string :=
  if negb (truthy meters) then Ok "N/A"
  else
    let* m := py_float_d meters in
    let* km := fdiv m (Fin 1000) in
    Ok (format_fixed km 1 ++ " km").

(** [format_length_human(length)] *)
Definition format_length_human (length : pyval) : res string :=
  if negb (truthy length) then Ok EmptyString
  else
    let* value := dict_get length "value" (PStr EmptyString) in
    let* unit := dict_get length "unit" (PStr EmptyString) in
    if is_str_eq unit "second" then
      let* seconds := py_int_d value in
      if 3600 <=? seconds then
        let h := seconds / 3600 in
        let rem := seconds mod 3600 in
        let m := rem / 60 in
        let s := rem mod 60 in
        Ok (if s =? 0 then string_of_Z h ++ "h" ++ pad2 m ++ "m"
            else string_of_Z h ++ ":" ++ pad2 m ++ ":" ++ pad2 s)
      else if 60 <=? seconds then
        let m := seconds / 60 in
        let s := seconds mod 60 in
        Ok (if s =? 0 then string_of_Z m ++ "min" else string_of_Z m ++ "min " ++ string_of_Z s ++ "sec")
      else Ok (string_of_Z seconds ++ "sec")
    else if is_str_eq unit "minute" then Ok (py_str value ++ "min")
    else if is_str_eq unit "meter" then
      let* meters := py_int_d value in
      if 1000 <=? meters then
        let* km := int_true_div meters 1000 in Ok (format_fixed km 1 ++ "km")
      else Ok (string_of_Z meters ++ "m")
    else if is_str_eq unit "kilometer" then Ok (py_str value ++ "km")
    else if is_str_eq unit "repetition" then
      let* n := py_int_d value in Ok (if 1 <? n then py_str value ++ "x" else EmptyString)
    else Ok (strip (py_str value ++ " " ++ py_str unit)).

(** [format_target_human(target, metric_label)] *)
Definition format_target_human (target : pyval) (metric_label : string) : res string :=
  let* unit := dict_get target "unit" (PStr EmptyString) in
  let* min_value := dict_get target "minValue" PNone in
  let* max_value := dict_get target "maxValue" PNone in
  match min_value, max_value with
  | PNone, PNone => Ok EmptyString
  | _, _ =>
      let range_text :=
        match min_value, max_value with
        | PNone, _ => "<" ++ py_str max_value
        | _, PNone => py_str min_value ++ "+"
        | _, _ => if py_eq min_value max_value then py_str min_value
                  else py_str min_value ++ "-" ++ py_str max_value
        end in
      let* l := str_table_get INTENSITY_METRIC_LABELS unit EmptyString in
      let label := if String.eqb l EmptyString then metric_label else l in
      Ok (if String.eqb label EmptyString then range_text else range_text ++ label)
  end.

Definition nonempty (s : string) : bool := negb (String.eqb s EmptyString).

(** [_format_single_step(step, metric_label)]; [" ".join(at_parts)]
    raises [TypeError] when the name is true but not a string. *)
Definition format_single_step (step : pyval) (metric_label : string) : res string :=
  let* name := dict_get step "name" (PStr EmptyString) in
  let* len := dict_get step "length" PNone in
  let* length := format_length_human len in
  let* intensity := dict_get step "intensityClass" (PStr EmptyString) in
  let* ts := dict_get step "targets" (PList []) in
  let* ts := py_iter ts in
  let* targets := res_map_list (fun t => format_target_human t metric_label) ts in
  let targets := List.filter nonempty targets in
  let parts := if nonempty length then [length] else [] in
  let target_part := match targets with [] => [] | _ => ["(" ++ join ", " targets ++ ")"] end in
  let* at_text :=
    if truthy name then
      match name with PStr s => Ok (Some (join " " (s :: target_part))) | _ => Raise TypeError end
    else match target_part with [] => Ok None | _ => Ok (Some (join " " target_part)) end in
  let parts := match at_text with Some t => app parts ["@ " ++ t] | None => parts end in
  let* intensity_label := str_table_get INTENSITY_CLASS_LABELS intensity EmptyString in
  let parts :=
    if nonempty intensity_label && negb (py_eq intensity (PStr "active"))
    then app parts ["[" ++ intensity_label ++ "]"] else parts in
  Ok (match parts with [] => "(step)" | _ => join " " parts end).

(** [reps > 1] for a true [reps]: numbers compare, other values raise. *)
Definition gt_one (v : pyval) : res bool :=
  match num_of v with
  | Some (Fin q) => Ok (qltb 1 q)
  | Some (Inf neg) => Ok (negb neg)
  | Some NaN => Ok false
  | None => Raise TypeError
  end.

(** [INTENSITY_CLASS_LABELS.get(x.get("intensityClass", ""), "")] *)
Definition class_label (x : pyval) : res string :=
  let* ic := dict_get x "intensityClass" (PStr EmptyString) in
  str_table_get INTENSITY_CLASS_LABELS ic EmptyString.

(** [f"{prefix}{idx}. **{label}:** {desc}"] or without a label. *)
Definition labelled_line (prefix idx : string) (x : pyval) (metric_label : string) : res string :=
  let* label := class_label x in
  let* desc := format_single_step x metric_label in
  Ok (if nonempty label then prefix ++ idx ++ ". **" ++ label ++ ":** " ++ desc
      else prefix ++ idx ++ ". " ++ desc).

(** The lines of one block of [format_steps]. *)
Definition format_block (prefix metric_label : string) (idx : Z) (block : pyval) : res (list string) :=
  let* block_type := dict_get block "type" (PStr "step") in
  let* block_len := dict_get block "length" (PDict []) in
  let* child_steps := dict_get block "steps" (PList []) in
  let* reps :=
    let* u := dict_get block_len "unit" PNone in
    if is_str_eq u "repetition" then let* v := dict_get block_len "value" (PInt 1) in Ok (Some v)
    else Ok None in
  let* repeated :=
    match reps with
    | Some r =>
        if is_str_eq block_type "repetition" && truthy r then
          let* gt := gt_one r in Ok (gt && truthy child_steps)
        else Ok false
    | None => Ok false
    end in
  let idxs := string_of_Z idx in
  if repeated then
    let* cs := py_iter child_steps in
    let* parts := res_map_list (fun st => format_single_step st metric_label) cs in
    let r := match reps with Some r => r | None => PNone end in
    Ok [prefix ++ idxs ++ ". **" ++ py_str r ++ "x** [" ++ join " / " parts ++ "]"]
  else if is_str_eq block_type "rampUp" && truthy child_steps then
    let* cs := py_iter child_steps in
    let* descs := res_map_list (fun st => format_single_step st metric_label) cs in
    Ok ((prefix ++ idxs ++ ". **Warm-up ramp:**") :: map (fun d => prefix ++ "   - " ++ d) descs)
  else if truthy child_steps then
    let* cs := py_iter child_steps in
    res_map_list (fun st => labelled_line prefix idxs st metric_label) cs
  else
    let* line := labelled_line prefix idxs block metric_label in Ok [line].

(** The loop [for idx, block in enumerate(steps, 1)]. *)
Fixpoint format_blocks (prefix metric_label : string) (idx : Z) (blocks : list pyval) : res (list string) :=
  match blocks with
  | [] => Ok []
  | b :: bs =>
      let* ls := format_block prefix metric_label idx b in
      let* rest := format_blocks prefix metric_label (idx + 1) bs in
      Ok (app ls rest)
  end.

(** ["    " * indent] *)
Fixpoint repeat_str (s : string) (n : nat) : string :=
  match n with O => EmptyString | S n' => s ++ repeat_str s n' end.

(** [format_steps(steps, primary_metric, indent)] *)
Definition format_steps (steps primary_metric : pyval) (indent : Z) : res string :=
  if negb (truthy steps) then Ok "No structured workout data"
  else
    let* metric_label := str_table_get INTENSITY_METRIC_LABELS primary_metric EmptyString in
    let prefix := repeat_str "    " (Z.to_nat indent) in
    let* blocks := py_iter steps in
    let* lines := format_blocks prefix metric_label 1 blocks in
    Ok (join (String "010" EmptyString) lines).

(** ** A printed duration reads back *)

(** A token ending in [f"{z:02d}"] is a clock form for [parse_length]. *)
Lemma parse_length_pad2_form (x : string) (z : Z) :
  all_chars no_space x = true ->
  parse_length (x ++ pad2 z) =
    match split_char ":" (x ++ pad2 z) with
    | [p0; p1] => let* a := int_of_str p0 in let* b := int_of_str p1 in Ok (a * 60 + b, "second")
    | [p0; p1; p2] =>
        let* a := int_of_str p0 in let* b := int_of_str p1 in let* c := int_of_str p2 in
        Ok (a * 3600 + b * 60 + c, "second")
    | _ => let* v := int_of_str (x ++ pad2 z) in Ok (v, "second")
    end.
Proof.
  intros Hx. destruct (pad2_split z) as (p & Hp & ->).
  rewrite string_app_assoc, parse_length_clock_form, <- string_app_assoc; [reflexivity |].
  autorewrite with tpcli_rw. rewrite Hx. now destruct Hp as [-> | ->].
Qed.

(** The fields of [divmod(seconds, 3600)], [divmod(rem, 60)] recombine. *)
Lemma clock_fields (t : Z) :
  let rem := t mod 3600 in
  0 <= rem / 60 /\ 0 <= rem mod 60 /\ t = t / 3600 * 3600 + rem / 60 * 60 + rem mod 60.
Proof.
  cbv zeta. pose proof (Z.div_mod t 3600 ltac:(lia)). pose proof (Z.mod_pos_bound t 3600 ltac:(lia)).
  pose proof (Z.div_mod (t mod 3600) 60 ltac:(lia)). pose proof (Z.mod_pos_bound (t mod 3600) 60 ltac:(lia)).
  repeat split; [apply Z.div_pos |..]; lia.
Qed.

Lemma clock_text_parse (t : Z) : parse_length (clock_text t) = Ok (t, "second").
Proof.
  unfold clock_text. destruct (clock_fields t) as (Hm & Hs & Ht).
  destruct (Z.eqb_spec (t / 3600) 0) as [H0 | H0]; cbn [negb].
  - rewrite !string_app_assoc, parse_length_pad2_form by (now autorewrite with tpcli_rw).
    rewrite <- !string_app_assoc, split_colon2 by (now autorewrite with tpcli_rw).
    rewrite int_of_str_string_of_Z, int_of_str_pad2 by exact Hs. cbn. do 2 f_equal. lia.
  - rewrite !string_app_assoc, parse_length_pad2_form by (now autorewrite with tpcli_rw).
    rewrite <- !string_app_assoc, split_colon3 by (now autorewrite with tpcli_rw).
    rewrite int_of_str_string_of_Z, !int_of_str_pad2 by assumption. cbn. do 2 f_equal. lia.
Qed.

(** C17: Round trip: for a true [hours] whose seconds [int(float(hours) * 3600)]
    are [t], [format_duration(hours)] succeeds with the clock text of [t], and
    the DSL's [parse_length] reads that text back as [t] seconds, for every
    integer [t], negative ones included (floor [divmod] keeps the minute and
    second fields in [0, 59]). *)
Theorem format_duration_roundtrip (hours : pyval) (t : Z) :
  truthy hours = true -> duration_seconds hours = Ok t ->
  format_duration hours = Ok (clock_text t) /\ parse_length (clock_text t) = Ok (t, "second").
Proof.
  intros Ht Hd. split; [unfold format_duration; now rewrite Ht, Hd | apply clock_text_parse].
Qed.

Lemma format_duration_roundtrip_witness :
  truthy (PFloat 15 (-1)) = true /\ duration_seconds (PFloat 15 (-1)) = Ok 5400 /\
  format_duration (PFloat 15 (-1)) = Ok "1:30:00" /\ parse_length "1:30:00" = Ok (5400, "second").
Proof.
  split; [reflexivity |]. split; [vm_compute; reflexivity |].
  exact (format_duration_roundtrip (PFloat 15 (-1)) 5400 eq_refl ltac:(vm_compute; reflexivity)).
Defined.

(** [int(hours * 3600)] truncates the binary64 product: [115] seconds
    written as [115/3600] hours ([0.03194444444444444]) print as [1:54], one
    second short, and read back as [114] seconds. *)
Example format_duration_truncates :
  format_duration (PFloat 3194444444444444 (-17)) = Ok "1:54" /\
  parse_length "1:54" = Ok (114, "second").
Proof. split; vm_compute; reflexivity. Qed.

(** ** The layout of [format_steps] *)

(** Every line of a block starts with the indentation. *)
Lemma labelled_line_prefix prefix idx x ml l : labelled_line prefix idx x ml = Ok l -> String.prefix prefix l = true.
Proof. unfold labelled_line. intros H. res_inv H. destruct (nonempty _); apply prefix_app. Qed.
Lemma format_block_lines prefix ml idx b ls : format_block prefix ml idx b = Ok ls -> ls <> [] /\ Forall (fun l => String.prefix prefix l = true) ls.
Proof.
  unfold format_block. intros H. res_inv H.
  - split; [discriminate | repeat constructor; apply prefix_app].
  - split; [discriminate |]. constructor; [apply prefix_app |].
    apply Forall_forall. intros l Hl. apply in_map_iff in Hl as (d & <- & _). apply prefix_app.
  - match goal with Ht : truthy ?v = true, Hi : py_iter ?v = Ok ?xs |- _ =>
      pose proof (py_iter_truthy v xs Ht Hi) end.
    split; [intros ->; apply res_map_list_length in H; destruct a4; [contradiction | discriminate] |].
    refine (res_map_list_Forall _ _ _ _ _ H). intros x y. apply labelled_line_prefix.
  - split; [discriminate | constructor; [eapply labelled_line_prefix; eassumption | constructor]].
Qed.
Lemma format_blocks_lines prefix ml idx bs ls :
  format_blocks prefix ml idx bs = Ok ls ->
  (length bs <= length ls)%nat /\ Forall (fun l => String.prefix prefix l = true) ls.
Proof.
  revert idx ls. induction bs as [| b bs IH]; intros idx ls H; cbn in H.
  - injection H as <-. split; [reflexivity | constructor].
  - res_inv H. destruct (format_block_lines _ _ _ _ _ E) as [Hne Hf].
    destruct (IH _ _ E0) as [Hl Hf']. split; [| now apply Forall_app].
    rewrite length_app. destruct a; [contradiction | cbn; lia].
Qed.

(** Layout of [format_steps]: when the steps are true and iterate to
    [blocks], a successful [format_steps(steps, primary_metric, indent)] is
    the newline join of at least one line per block, every line starting
    with the indentation ["    " * indent]. *)
Theorem format_steps_layout (steps primary_metric : pyval) (indent : Z) (blocks : list pyval) (s : string) :
  truthy steps = true -> py_iter steps = Ok blocks -> format_steps steps primary_metric indent = Ok s ->
  exists lines, s = join (String "010" EmptyString) lines /\ (length blocks <= length lines)%nat /\
    Forall (fun l => String.prefix (repeat_str "    " (Z.to_nat indent)) l = true) lines.
Proof.
  intros Ht Hi H. unfold format_steps in H. rewrite Ht, Hi in H. cbn [negb] in H. res_inv H.
  exists a0. destruct (format_blocks_lines _ _ _ _ _ E0). auto.
Qed.

Definition sample_steps : pyval :=
  PList [PDict [("type", PStr "step");
                ("steps", PList [PDict [("name", PStr "Warm up"); ("intensityClass", PStr "warmUp");
                                        ("length", PDict [("value", PInt 600); ("unit", PStr "second")])]])];
         PDict [("type", PStr "repetition"); ("length", PDict [("value", PInt 3); ("unit", PStr "repetition")]);
                ("steps", PList [PDict [("length", PDict [("value", PInt 60); ("unit", PStr "second")])];
                                 PDict [("length", PDict [("value", PInt 120); ("unit", PStr "second")])]])]].

Lemma format_steps_layout_witness :
  format_steps sample_steps PNone 1 =
    Ok ("    1. **Warm-up:** 10min @ Warm up [Warm-up]" ++ String "010" "    2. **3x** [1min / 2min]") /\
  exists lines, "    1. **Warm-up:** 10min @ Warm up [Warm-up]" ++ String "010" "    2. **3x** [1min / 2min]" =
    join (String "010" EmptyString) lines /\ (2 <= length lines)%nat /\
    Forall (fun l => String.prefix (repeat_str "    " (Z.to_nat 1)) l = true) lines.
Proof.
  split; [vm_compute; reflexivity |].
  exact (format_steps_layout sample_steps PNone 1 _ _ eq_refl eq_refl ltac:(vm_compute; reflexivity)).
Defined.
