(* ===== verification/Upload.v ===== *)
(** * Upload: the estimator and the pace labels of [core/upload.py]

    [calc_time_and_distance] estimates the total seconds and metres of
    a list of DSL steps from the athlete's threshold speed: each leg
    adds its time and its distance at the leg's speed
    ([_pct_to_speed]), an interval adds its two legs [reps] times, and
    the two float totals are rounded with [int(total + 0.5)].
    [speed_pct_to_pace] prints a percentage of threshold speed as a
    [min:sec] pace per kilometre and [label_run_steps] writes such paces
    into the names of the steps of a structure.  All arithmetic is the
    binary64 arithmetic of [Floats]. *)

From Stdlib Require Import QArith ZArith Lia Ascii String List Bool.
From stdpp Require Import base decidable.
From S2P Require Import Prelude PyValue Floats Parsing.
Import ListNotations.
Open Scope string_scope.
Open Scope Z_scope.

(** The literals [0.72], [2.0] and [100.0]. *)
Definition f072 : float := round64 (72 # 100).
Definition f2 : float := Fin 2.
Definition f100 : float := Fin 100.

(** [_pct_to_speed(target_str, threshold_speed)] *)
Definition pct_to_speed (target : pyval) (threshold_speed : float) : res float :=
  if negb (truthy target) then Ok (fmul threshold_speed f072)
  else
    match target with
    | PStr s =>
        match match_range s with
        | Some (a, b) =>
            let* sum := float_of_int (a + b) in
            let* mid := fdiv sum f2 in
            let* frac := fdiv mid f100 in
            Ok (fmul threshold_speed frac)
        | None =>
            match match_int s with
            | Some (n, _) =>
                let* x := float_of_int n in
                let* frac := fdiv x f100 in
                Ok (fmul threshold_speed frac)
            | None => Ok (fmul threshold_speed f072)
            end
        end
    | _ => Raise TypeError
    end.

(** The two accumulators [total_seconds] and [total_meters]. *)
Record totals : Type := Totals { total_seconds : float; total_meters : float }.

(** One leg of [value] in [unit] at [speed]: a time leg adds its
    seconds and [value * speed] metres, a distance leg its metres and
    [value / speed] seconds, or [0] when the speed is not positive. *)
Definition add_leg (t : totals) (value : Z) (unit : string) (speed : float) : res totals :=
  let* v := float_of_int value in
  if String.eqb unit "second" then
    Ok (Totals (fadd (total_seconds t) v) (fadd (total_meters t) (fmul v speed)))
  else
    let m := fadd (total_meters t) v in
    if flt (Fin 0) speed then
      let* q := fdiv v speed in
      Ok (Totals (fadd (total_seconds t) q) m)
    else Ok (Totals (fadd (total_seconds t) (Fin 0)) m).

(** [for _ in range(n): body] *)
Fixpoint repeat_res {A : Type} (n : nat) (body : A -> res A) (a : A) : res A :=
  match n with
  | O => Ok a
  | S n' => let* a' := body a in repeat_res n' body a'
  end.

(** One iteration of the loop over the steps. *)
Definition calc_step (threshold_speed : float) (t : totals) (step : pyval) : res totals :=
  let* step_type := dict_get step "type" PNone in
  if is_str_eq step_type "warmup" || is_str_eq step_type "steady" || is_str_eq step_type "cooldown" then
    let* d := getitem step "duration" in
    let* '(dur_value, dur_unit) := parse_length (py_str d) in
    let* target := dict_get step "target" PNone in
    let* speed := pct_to_speed target threshold_speed in
    add_leg t dur_value dur_unit speed
  else if is_str_eq step_type "interval" then
    let* r := dict_get step "reps" (PInt 1) in
    let* reps := py_int_d r in
    let* on := getitem step "on" in
    let* '(on_value, on_unit) := parse_length (py_str on) in
    let* off := getitem step "off" in
    let* '(off_value, off_unit) := parse_length (py_str off) in
    let* on_target := dict_get step "on_target" PNone in
    let* on_speed := pct_to_speed on_target threshold_speed in
    let* off_target := dict_get step "off_target" PNone in
    let* off_speed := pct_to_speed off_target threshold_speed in
    repeat_res (Z.to_nat reps)
      (fun t => let* t := add_leg t on_value on_unit on_speed in add_leg t off_value off_unit off_speed) t
  else Ok t.

(** [calc_time_and_distance(steps, threshold_speed)] *)
Definition calc_time_and_distance (steps : pyval) (threshold_speed : float) : res (Z * Z) :=
  let* items := py_iter steps in
  let* t := res_fold_left (calc_step threshold_speed) items (Totals (Fin 0) (Fin 0)) in
  let* secs := int_of_float (fadd (total_seconds t) half) in
  let* meters := int_of_float (fadd (total_meters t) half) in
  Ok (secs, meters).

(** ** Paces *)

(** [speed_pct_to_pace(pct, threshold_speed)] *)
Definition speed_pct_to_pace (pct threshold_speed : float) : res string :=
  let* frac := fdiv pct f100 in
  let speed := fmul threshold_speed frac in
  if fle speed (Fin 0) then Ok "?"
  else
    let* seconds_per_km := fdiv (Fin 1000) speed in
    let* fd := ffloordiv seconds_per_km (Fin 60) in
    let* minutes := int_of_float fd in
    let* md := fmod seconds_per_km (Fin 60) in
    let* seconds := py_round md in
    let '(minutes, seconds) := if seconds =? 60 then (minutes + 1, 0) else (minutes, seconds) in
    Ok (string_of_Z minutes ++ ":" ++ pad2 seconds).

(** The body of the inner loop of [label_run_steps] on one step: the
    new value of the step dict. *)
Definition label_step (threshold_speed : float) (step : pyval) : res pyval :=
  let* targets := dict_get step "targets" (PList []) in
  if negb (truthy targets) then Ok step
  else
    let* target := py_index0 targets in
    let* min_value := dict_get target "minValue" PNone in
    let* max_value := dict_get target "maxValue" PNone in
    let set_name name :=
      match step with PDict kv => Ok (PDict (dict_set kv "name" (PStr name))) | _ => Raise TypeError end in
    match min_value, max_value with
    | PNone, _ => Ok step
    | _, PNone =>
        let* x := py_float_d min_value in
        let* p := speed_pct_to_pace x threshold_speed in
        set_name ("Pace " ++ p)
    | _, _ =>
        let* x := py_float_d max_value in
        let* fast := speed_pct_to_pace x threshold_speed in
        let* y := py_float_d min_value in
        let* slow := speed_pct_to_pace y threshold_speed in
        set_name ("Pace " ++ fast ++ "-" ++ slow)
    end.

(** [for x in d.get(k, []): f(x)] where [f] mutates each item in
    place: the list stored under [k] is replaced by the updated items;
    a missing key or an empty container is left as it is. *)
Definition update_items (f : pyval -> res pyval) (d : pyval) (k : string) : res pyval :=
  let* container := dict_get d k (PList []) in
  let* items := py_iter container in
  let* items' := res_map_list f items in
  match d with
  | PDict kv =>
      match assoc k kv with
      | Some (PList _) => Ok (PDict (dict_set kv k (PList items')))
      | _ => Ok d
      end
  | _ => Ok d
  end.

(** [label_run_steps(structure_dict, threshold_speed)]: the structure
    after the in-place updates of the step names. *)
Definition label_run_steps (structure_dict : pyval) (threshold_speed : float) : res pyval :=
  update_items (fun block => update_items (label_step threshold_speed) block "steps") structure_dict "structure".

(** ** Paces print seconds below 60 *)

Lemma fmod_nonneg (a w : Q) :
  (0 <= a)%Q -> (0 < w)%Q -> exists r, fmod (Fin a) (Fin w) = Ok (Fin r) /\ (0 <= r)%Q /\ (r < w)%Q.
Proof.
  intros Ha Hw. destruct (ffmod_range a w Ha Hw) as (r & Hr & Hr0 & Hrw).
  assert (Hw0 : qltb w 0 = false) by (apply qltb_false; apply Qlt_le_weak; exact Hw).
  assert (Hr1 : qltb r 0 = false) by (apply qltb_false; exact Hr0).
  assert (Hz : Qeq_bool w 0 = false).
  { destruct (Qeq_bool w 0) eqn:E; [| reflexivity]. apply Qeq_bool_iff in E. rewrite E in Hw. discriminate. }
  unfold fmod, float_div_mod, fis_zero. rewrite Hz, Hr. cbn [flt]. rewrite Hw0, Hr1. cbn.
  destruct (ftruthy (Fin r)); cbn; eexists; (split; [reflexivity |]); [auto |].
  split; [apply Qle_refl | exact (Qle_lt_trans _ _ _ Hr0 Hrw)].
Qed.

Lemma py_round_range (q : Q) (n : Z) : (0 <= q)%Q -> (q < 60)%Q -> py_round (Fin q) = Ok n -> 0 <= n <= 60.
Proof.
  destruct q as [a d]. unfold Qle, Qlt; cbn. intros Ha Hb [= <-].
  pose proof (rhe_bounds a (Zpos d) ltac:(lia)). pose proof (Z.div_pos a (Zpos d) ltac:(lia) ltac:(lia)).
  assert (a / Zpos d < 60) by (apply Z.div_lt_upper_bound; lia). lia.
Qed.

Lemma pace_seconds_range (x md : float) (sec : Z) :
  (forall q, x = Fin q -> (0 <= q)%Q) -> fmod x (Fin 60) = Ok md -> py_round md = Ok sec -> 0 <= sec <= 60.
Proof.
  destruct x as [a | b |]; intros Hx Hm Hr; [| destruct b; injection Hm as <-; discriminate ..|].
  - destruct (fmod_nonneg a 60 (Hx a eq_refl) ltac:(reflexivity)) as (r & Hm' & Hr0 & Hr60).
    rewrite Hm' in Hm. injection Hm as <-. exact (py_round_range r sec Hr0 Hr60 Hr).
  - injection Hm as <-. discriminate.
Qed.

(** [1000.0 / speed] is nonnegative when [speed <= 0] is false. *)
Lemma seconds_per_km_nonneg (speed spk : float) :
  fle speed (Fin 0) = false -> fdiv (Fin 1000) speed = Ok spk -> forall q, spk = Fin q -> (0 <= q)%Q.
Proof.
  unfold fdiv. intros Hle Hd q ->. destruct (fis_zero speed); [discriminate |]. injection Hd as Hd.
  destruct speed as [sp | [|] |]; cbn in Hle, Hd; try discriminate.
  - apply negb_false_iff, qltb_true in Hle. apply (round64_nonneg (1000 / sp)); [| exact Hd].
    apply Qle_shift_div_l; [exact Hle | rewrite Qmult_0_l; unfold Qle; cbn; lia].
  - injection Hd as <-. apply Qle_refl.
Qed.

(** C14: [speed_pct_to_pace] prints either [?] or [M:SS] where the
    seconds [SS] are two digits between 00 and 59: the remainder of the
    seconds per kilometre by 60 lies in [[0, 60)], and a remainder that
    rounds to 60 carries into the minutes. *)
Theorem speed_pct_to_pace_format (pct threshold_speed : float) (s : string) :
  speed_pct_to_pace pct threshold_speed = Ok s ->
  s = "?" \/ exists minutes seconds, s = string_of_Z minutes ++ ":" ++ pad2 seconds /\ 0 <= seconds <= 59.
Proof.
  unfold speed_pct_to_pace. intros H. res_step H.
  destruct (fle (fmul threshold_speed a) (Fin 0)) eqn:Hle; [left; now injection H as <- |].
  res_step H. res_step H. res_step H. res_step H. res_step H. right.
  pose proof (pace_seconds_range a0 a3 a4 (seconds_per_km_nonneg _ _ Hle E0) E3 E4).
  destruct (Z.eqb_spec a4 60); injection H as <-; eexists _, _; split; [reflexivity | lia | reflexivity | lia].
Qed.

(** ** [label_run_steps] only writes step names *)

(** The list stored under [k] with [g] applied to each item. *)
Definition map_items (g : pyval -> pyval) (d : pyval) (k : string) : pyval :=
  match d with
  | PDict kv => match assoc k kv with Some (PList l) => PDict (dict_set kv k (PList (map g l))) | _ => d end
  | _ => d
  end.

Lemma update_items_map (f : pyval -> res pyval) (g : pyval -> pyval) (d d' : pyval) (k : string) :
  (forall x y, f x = Ok y -> g y = g x) -> update_items f d k = Ok d' -> map_items g d' k = map_items g d k.
Proof.
  intros Hf. unfold update_items. intros H. res_step H. res_step H. res_step H.
  pose proof (res_map_list_map f g g _ _ Hf E1) as Hm.
  destruct d as [| | | | | | kv]; cbn in E; try discriminate.
  unfold get_default in E. injection E as <-.
  destruct (assoc k kv) as [[| | | | | l |] |] eqn:A; injection H as <-; try reflexivity.
  injection E0 as <-. cbn. rewrite assoc_dict_set, dict_set_twice, A, Hm. reflexivity.
Qed.

(** A step dict without its [name] entry. *)
Definition without_name (v : pyval) : pyval :=
  match v with
  | PDict kv => PDict (List.filter (fun kv => negb (String.eqb (fst kv) "name")) kv)
  | _ => v
  end.

Lemma without_name_set (kv : list (string * pyval)) (v : pyval) :
  without_name (PDict (dict_set kv "name" v)) = without_name (PDict kv).
Proof.
  cbn. f_equal. induction kv as [| [k w] kv IH]; cbn; [reflexivity |].
  destruct (String.eqb_spec k "name") as [-> | Hne]; cbn; [reflexivity |].
  rewrite (proj2 (String.eqb_neq k "name") Hne). cbn. now rewrite IH.
Qed.

Lemma label_step_names (threshold_speed : float) (x y : pyval) :
  label_step threshold_speed x = Ok y -> without_name y = without_name x.
Proof.
  assert (Hset : forall name, (match x with PDict kv => Ok (PDict (dict_set kv "name" (PStr name)))
                               | _ => Raise TypeError end) = Ok y -> without_name y = without_name x).
  { intros name. destruct x; try discriminate. intros [= <-]. apply without_name_set. }
  unfold label_step. intros H. res_step H. destruct (negb (truthy a)); [now injection H as <- |].
  res_step H. res_step H. res_step H.
  destruct a1; [now injection H as <- | ..]; destruct a2; repeat res_step H; exact (Hset _ H).
Qed.

(** The structure with the names of its steps erased. *)
Definition erase_names (structure : pyval) : pyval :=
  map_items (fun block => map_items without_name block "steps") structure "structure".

(** [label_run_steps] changes nothing but step names: the
    structure it returns and the structure it was given are equal once
    the [name] entries of their steps are erased. *)
Theorem label_run_steps_only_names (structure structure' : pyval) (threshold_speed : float) :
  label_run_steps structure threshold_speed = Ok structure' -> erase_names structure' = erase_names structure.
Proof.
  unfold label_run_steps, erase_names. apply update_items_map.
  intros b b'. apply update_items_map. apply label_step_names.
Qed.

(** The structure of the unit test of [label_run_steps]. *)
Definition label_example : pyval :=
  PDict [("structure", PList [PDict [("steps", PList [
    PDict [("targets", PList [PDict [("minValue", PInt 94); ("maxValue", PInt 100)]]); ("name", PStr EmptyString)];
    PDict [("targets", PList [PDict [("minValue", PInt 72)]]); ("name", PStr EmptyString)]])]])].

Lemma label_run_steps_only_names_witness :
  exists s', label_run_steps label_example (Fin 4) = Ok s' /\ erase_names s' = erase_names label_example.
Proof.
  eexists. split; [vm_compute; reflexivity |].
  apply (label_run_steps_only_names label_example _ (Fin 4)). vm_compute. reflexivity.
Defined.

Lemma speed_pct_to_pace_format_witness :
  speed_pct_to_pace (Fin 72) (Fin 4) = Ok "5:47" /\
  ("5:47" = "?" \/ exists minutes seconds, "5:47" = string_of_Z minutes ++ ":" ++ pad2 seconds /\ 0 <= seconds <= 59).
Proof.
  split; [vm_compute; reflexivity |]. apply (speed_pct_to_pace_format (Fin 72) (Fin 4)). vm_compute. reflexivity.
Defined.

(** The estimate of the spec's example, [warmup 10:00@70%],
    [steady 5km@80%] and two [1:00@100% / 0:30@70%] intervals at a
    threshold speed of 4 m/s, is 2343 seconds and 7328 metres, the
    totals of the unit test. *)
Example calc_time_and_distance_example : calc_time_and_distance dsl_example (Fin 4) = Ok (2343, 7328).
Proof. vm_compute. reflexivity. Qed.

(** The final [int(total + 0.5)] is not half-up rounding above
    [2^52]: a steady step of [2^52 + 1] seconds, an integer, is
    estimated at [2^52 + 2] seconds, because [total + 0.5] is a tie
    that binary64 rounds to the even neighbour. *)
Example calc_time_and_distance_round_half_even :
  calc_time_and_distance (PList [PDict [("type", PStr "steady"); ("duration", PStr "4503599627370497")]]) (Fin 4) =
  Ok (4503599627370498, 12970366926827030).
Proof. vm_compute. reflexivity. Qed.
