(* ===== verification/Zones.v ===== *)
(** * Zones: the zone classifier of [tp_cli/core/classify.py]

    [classify_zone] maps a step's intensity percentage, its block type
    and its intensity class to one of the four zones, against the three
    configured upper bounds.  The zone-keyed accumulators of
    [classify.py] and [analysis.py] ([{"easy": 0.0, "lt1": 0.0, ...}]) are
    modelled by the record [zmap] of binary64 floats ([Floats.float]):
    [zones[key] += x] is [fadd], the scaling is [fmul], and
    [sum(zones.values())] adds from the [int] 0 in key order.  A
    percentage is a float and a threshold the number its JSON value
    denotes ([bool] and [int] exactly, a float literal rounded to
    binary64), compared as Python compares them: exactly, and false
    against a NaN.  The theorems: on finite percentages the classifier
    refines the band specification of the spec (4.4) and is monotone for
    any thresholds; a NaN percentage falls through every test to vo2; the
    labels are compared without regard to case and surrounding blanks. *)

From Stdlib Require Import QArith Qround Lqa ZArith Lia Ascii String List Bool.
From Stdlib Require Import Morphisms.
From stdpp Require Import base decidable.
From S2P Require Import Prelude PyValue Floats.
Import ListNotations.
Open Scope string_scope.
Open Scope Q_scope.

(** The four zones, which the code names by the strings of [zone_name];
    the type serves the specification (bands, ranks). *)
Inductive zone : Type := Easy | Lt1 | Lt2 | Vo2.

#[export] Instance zone_eq_dec : EqDecision zone.
Proof. solve_decision. Defined.

(** The dictionary key of each zone. *)
Definition zone_name (z : zone) : string :=
  match z with Easy => "easy" | Lt1 => "lt1" | Lt2 => "lt2" | Vo2 => "vo2" end.

(** A number on the right of [pct <= ...]: [int] and [bool] compare
    exactly with a float, a JSON float is its binary64 value, anything
    else raises [TypeError]. *)
Definition num_value (v : pyval) : res float :=
  match v with
  | PBool b => Ok (if b then one else Fin 0)
  | PInt z => Ok (Fin (inject_Z z))
  | PFloat m e => Ok (round64 (dec_value m e))
  | _ => Raise TypeError
  end.

(** [pct <= thresholds[key]] *)
Definition threshold_le (pct : float) (thresholds : pyval) (key : string) : res bool :=
  let* t := getitem thresholds key in
  let* v := num_value t in
  Ok (fle pct v).

(** [DEFAULT_ZONE_THRESHOLDS] of [constants.py]. *)
Definition DEFAULT_ZONE_THRESHOLDS : pyval :=
  PDict [("easy_max", PInt 75); ("lt1_max", PInt 93); ("lt2_max", PInt 100)].

(** [_EASY_CLASSES] *)
Definition EASY_CLASSES : list string := ["warmup"; "cooldown"; "rest"; "recovery"].

(** The threshold tests at the end of [classify_zone]: each key is read
    only when the tests before it failed. *)
Definition zone_of_pct (pct : float) (thresholds : pyval) : res string :=
  let* le_easy := threshold_le pct thresholds "easy_max" in
  if le_easy then Ok "easy" else
  let* le_lt1 := threshold_le pct thresholds "lt1_max" in
  if le_lt1 then Ok "lt1" else
  let* le_lt2 := threshold_le pct thresholds "lt2_max" in
  if le_lt2 then Ok "lt2" else Ok "vo2".

(** [classify_zone(pct, block_type, intensity_class, thresholds)] *)
Definition classify_zone (pct : float) (block_type intensity_class : string) (thresholds : pyval) : res string :=
  let block_type_norm := lower (strip block_type) in
  if String.eqb block_type_norm "rampup" then Ok "easy"
  else if existsb (String.eqb (lower (strip intensity_class))) EASY_CLASSES then Ok "easy"
  else zone_of_pct pct thresholds.

(** ** Zone-keyed accumulators *)

(** A zone dict of floats: the code builds it only with the keys
    easy, lt1, lt2 and vo2, in this order. *)
Record zmap : Type := ZMap {
  zm_easy : float;
  zm_lt1 : float;
  zm_lt2 : float;
  zm_vo2 : float
}.

(** [{"easy": 0.0, "lt1": 0.0, "lt2": 0.0, "vo2": 0.0}] *)
Definition zm_zero : zmap := ZMap (Fin 0) (Fin 0) (Fin 0) (Fin 0).

(** [{"easy": d, "lt1": 0.0, "lt2": 0.0, "vo2": 0.0}] *)
Definition zm_all_easy (d : float) : zmap := ZMap d (Fin 0) (Fin 0) (Fin 0).

(** [zones[zone_name z]] *)
Definition zm_get (m : zmap) (z : zone) : float :=
  match z with
  | Easy => zm_easy m
  | Lt1 => zm_lt1 m
  | Lt2 => zm_lt2 m
  | Vo2 => zm_vo2 m
  end.

(** [zones[key] += x]: the dict has exactly the four zone keys, any
    other key raises [KeyError]. *)
Definition zm_add (m : zmap) (key : string) (x : float) : res zmap :=
  if String.eqb key "easy" then Ok (ZMap (fadd (zm_easy m) x) (zm_lt1 m) (zm_lt2 m) (zm_vo2 m))
  else if String.eqb key "lt1" then Ok (ZMap (zm_easy m) (fadd (zm_lt1 m) x) (zm_lt2 m) (zm_vo2 m))
  else if String.eqb key "lt2" then Ok (ZMap (zm_easy m) (zm_lt1 m) (fadd (zm_lt2 m) x) (zm_vo2 m))
  else if String.eqb key "vo2" then Ok (ZMap (zm_easy m) (zm_lt1 m) (zm_lt2 m) (fadd (zm_vo2 m) x))
  else Raise KeyError.

(** [zones.items()] *)
Definition zm_items (m : zmap) : list (string * float) :=
  [("easy", zm_easy m); ("lt1", zm_lt1 m); ("lt2", zm_lt2 m); ("vo2", zm_vo2 m)].

(** [sum(zones.values())]: from the [int] 0, in the dict's key order. *)
Definition zm_total (m : zmap) : float :=
  fadd (fadd (fadd (fadd (Fin 0) (zm_easy m)) (zm_lt1 m)) (zm_lt2 m)) (zm_vo2 m).

(** [{k: v * scale for k, v in zones.items()}] *)
Definition zm_scale (m : zmap) (k : float) : zmap :=
  ZMap (fmul (zm_easy m) k) (fmul (zm_lt1 m) k) (fmul (zm_lt2 m) k) (fmul (zm_vo2 m) k).

(** ** Specification *)

(** The three bounds, as numbers. *)
Record bands : Type := Bands { easy_max : Q; lt1_max : Q; lt2_max : Q }.

Definition threshold_num (thresholds : pyval) (key : string) : option Q :=
  match getitem thresholds key with
  | Ok v => match num_value v with Ok (Fin q) => Some q | _ => None end
  | Raise _ => None
  end.

(** A thresholds dict whose three bounds are finite numbers. *)
Definition bands_of (thresholds : pyval) : option bands :=
  match threshold_num thresholds "easy_max", threshold_num thresholds "lt1_max",
        threshold_num thresholds "lt2_max" with
  | Some a, Some b, Some c => Some (Bands a b c)
  | _, _, _ => None
  end.

(** The band of the spec (4.4): lower bound exclusive, upper inclusive. *)
Inductive in_band (b : bands) (pct : Q) : zone -> Prop :=
  | band_easy : pct <= easy_max b -> in_band b pct Easy
  | band_lt1 : easy_max b < pct -> pct <= lt1_max b -> in_band b pct Lt1
  | band_lt2 : lt1_max b < pct -> pct <= lt2_max b -> in_band b pct Lt2
  | band_vo2 : lt2_max b < pct -> in_band b pct Vo2.

Definition ordered (b : bands) : Prop :=
  easy_max b < lt1_max b /\ lt1_max b < lt2_max b.

(** The first band whose upper bound holds [pct]. *)
Definition band_zone (pct : Q) (b : bands) : zone :=
  if Qle_bool pct (easy_max b) then Easy
  else if Qle_bool pct (lt1_max b) then Lt1
  else if Qle_bool pct (lt2_max b) then Lt2
  else Vo2.

(** A step forced to the easy zone by its block type or class. *)
Definition easy_override (block_type intensity_class : string) : bool :=
  String.eqb (lower (strip block_type)) "rampup" ||
  existsb (String.eqb (lower (strip intensity_class))) EASY_CLASSES.

Definition zone_rank (z : zone) : nat :=
  match z with Easy => 0 | Lt1 => 1 | Lt2 => 2 | Vo2 => 3 end.

(** ** Lemmas *)

Lemma fle_fin (p q : Q) : fle (Fin p) (Fin q) = Qle_bool p q.
Proof. cbn. unfold qltb. now rewrite negb_involutive. Qed.

Lemma threshold_le_float pct th key q :
  threshold_num th key = Some q -> threshold_le pct th key = Ok (fle pct (Fin q)).
Proof.
  unfold threshold_num, threshold_le. destruct (getitem th key) as [v|]; [|discriminate].
  cbn [res_bind]. destruct (num_value v) as [[q'| |]|]; try discriminate. now intros [= <-].
Qed.

Lemma threshold_le_num pct th key q :
  threshold_num th key = Some q -> threshold_le (Fin pct) th key = Ok (Qle_bool pct q).
Proof. intros H. rewrite (threshold_le_float _ _ _ _ H). f_equal. apply fle_fin. Qed.

Lemma bands_of_some th b : bands_of th = Some b ->
  threshold_num th "easy_max" = Some (easy_max b) /\ threshold_num th "lt1_max" = Some (lt1_max b) /\
  threshold_num th "lt2_max" = Some (lt2_max b).
Proof.
  unfold bands_of.
  destruct (threshold_num th "easy_max"), (threshold_num th "lt1_max"), (threshold_num th "lt2_max");
    try discriminate. now intros [= <-].
Qed.

(** With numeric bounds, the tests of [classify_zone] are the bands'. *)
Lemma zone_of_pct_bands pct th b :
  bands_of th = Some b -> zone_of_pct (Fin pct) th = Ok (zone_name (band_zone pct b)).
Proof.
  intros (H1 & H2 & H3)%bands_of_some. unfold zone_of_pct, band_zone.
  rewrite (threshold_le_num _ _ _ _ H1). cbn [res_bind]. destruct (Qle_bool pct (easy_max b)); [reflexivity|].
  rewrite (threshold_le_num _ _ _ _ H2). cbn [res_bind]. destruct (Qle_bool pct (lt1_max b)); [reflexivity|].
  rewrite (threshold_le_num _ _ _ _ H3). cbn [res_bind]. now destruct (Qle_bool pct (lt2_max b)).
Qed.

Lemma classify_zone_override pct bt ic th :
  easy_override bt ic = true -> classify_zone pct bt ic th = Ok "easy".
Proof.
  unfold easy_override, classify_zone. cbv zeta.
  destruct (String.eqb _ "rampup"); [reflexivity |]. simpl. intros ->. reflexivity.
Qed.

Lemma classify_zone_active pct bt ic th :
  easy_override bt ic = false -> classify_zone pct bt ic th = zone_of_pct pct th.
Proof.
  unfold easy_override, classify_zone. cbv zeta.
  destruct (String.eqb _ "rampup"); [discriminate |]. simpl. intros ->. reflexivity.
Qed.

(** Numeric bounds: [classify_zone] returns one of the four zone names. *)
Lemma classify_zone_name pct bt ic th b :
  bands_of th = Some b -> exists z, classify_zone (Fin pct) bt ic th = Ok (zone_name z).
Proof.
  intros Hb. destruct (easy_override bt ic) eqn:O.
  - exists Easy. now apply classify_zone_override.
  - rewrite classify_zone_active by exact O. rewrite (zone_of_pct_bands _ _ _ Hb). eauto.
Qed.

(** With numeric bounds, [classify_zone] names a zone for every float,
    infinities and NaN included. *)
Lemma classify_zone_total pct bt ic th b :
  bands_of th = Some b -> exists z, classify_zone pct bt ic th = Ok (zone_name z).
Proof.
  intros Hb. destruct (easy_override bt ic) eqn:O.
  - exists Easy. now apply classify_zone_override.
  - rewrite classify_zone_active by exact O. apply bands_of_some in Hb as (H1 & H2 & H3).
    unfold zone_of_pct. rewrite (threshold_le_float _ _ _ _ H1). cbn [res_bind].
    destruct (fle pct _); [now exists Easy |].
    rewrite (threshold_le_float _ _ _ _ H2). cbn [res_bind]. destruct (fle pct _); [now exists Lt1 |].
    rewrite (threshold_le_float _ _ _ _ H3). cbn [res_bind]. destruct (fle pct _); [now exists Lt2 | now exists Vo2].
Qed.

Lemma zone_name_inj z1 z2 : zone_name z1 = zone_name z2 -> z1 = z2.
Proof. destruct z1, z2; simpl; congruence. Qed.

Lemma in_band_unique b pct z1 z2 :
  ordered b -> in_band b pct z1 -> in_band b pct z2 -> z1 = z2.
Proof.
  intros [H1 H2] B1 B2.
  destruct B1; inversion B2; subst; try reflexivity; exfalso; lra.
Qed.

(** The first matching test gives the band: this needs no ordering of
    the bounds. *)
Lemma band_zone_in_band pct b : in_band b pct (band_zone pct b).
Proof. unfold band_zone. qcase; constructor; lra. Qed.

Lemma easy_override_lower bt ic :
  easy_override (lower bt) (lower ic) = easy_override bt ic.
Proof. unfold easy_override. now rewrite !strip_lower, !lower_idem. Qed.

Lemma zm_add_zone m z x : exists m', zm_add m (zone_name z) x = Ok m'.
Proof. destruct z; eexists; reflexivity. Qed.

#[export] Hint Resolve classify_zone_override zm_add_zone : tpcli.

(** Equal percentages (as rationals) give the same zone. *)
Lemma threshold_le_Qeq p q th key : p == q -> threshold_le (Fin p) th key = threshold_le (Fin q) th key.
Proof.
  intros Hpq. unfold threshold_le. destruct (getitem th key) as [v|]; [|reflexivity]. cbn [res_bind].
  destruct (num_value v) as [[r| |]|]; cbn [res_bind]; try reflexivity.
  rewrite !fle_fin. f_equal. apply Qleb_comp; [exact Hpq | reflexivity].
Qed.

Lemma classify_zone_Qeq p q bt ic th : p == q -> classify_zone (Fin p) bt ic th = classify_zone (Fin q) bt ic th.
Proof. intros Hpq. unfold classify_zone, zone_of_pct. now rewrite !(threshold_le_Qeq p q th _ Hpq). Qed.

(** ** Theorems *)

(** C1: outside the rampUp block type and the easy intensity classes,
    and for a thresholds dict whose three bounds are ordered finite
    numbers, [classify_zone] returns for a finite percentage [pct]
    exactly the name of the zone whose band (4.4: lower bound exclusive,
    upper bound inclusive) contains [pct]. *)
Theorem classify_zone_refines_band pct bt ic th b z :
  bands_of th = Some b -> ordered b -> easy_override bt ic = false ->
  classify_zone (Fin pct) bt ic th = Ok (zone_name z) <-> in_band b pct z.
Proof.
  intros Hb Hord O. rewrite classify_zone_active, (zone_of_pct_bands _ _ _ Hb) by exact O. split.
  - intros [= Hn%zone_name_inj]. subst. apply band_zone_in_band.
  - intros B. do 2 f_equal. eapply in_band_unique; [exact Hord | apply band_zone_in_band | exact B].
Qed.

(** C1 at the default thresholds, with the spec's boundary table
    (75 easy, 76 lt1, 93 lt1, 94 lt2, 100 lt2, 101 vo2). *)
Lemma classify_zone_refines_band_witness :
  bands_of DEFAULT_ZONE_THRESHOLDS = Some (Bands 75 93 100) /\ ordered (Bands 75 93 100) /\
  easy_override "step" "active" = false /\
  (classify_zone (Fin 93) "step" "active" DEFAULT_ZONE_THRESHOLDS = Ok (zone_name Lt1) <->
   in_band (Bands 75 93 100) 93 Lt1) /\
  map (fun p => classify_zone (Fin p) "step" "active" DEFAULT_ZONE_THRESHOLDS) [75; 76; 93; 94; 100; 101]
  = [Ok "easy"; Ok "lt1"; Ok "lt1"; Ok "lt2"; Ok "lt2"; Ok "vo2"].
Proof.
  assert (Ho : ordered (Bands 75 93 100)) by (split; reflexivity).
  split; [reflexivity |]. split; [exact Ho |]. split; [reflexivity |]. split; [| reflexivity].
  apply classify_zone_refines_band; [reflexivity | exact Ho | reflexivity].
Defined.

(** C5: for finite numeric bounds (ordered or not) and any labels,
    [classify_zone] returns a zone name for every finite percentage, and
    a higher percentage never gives a lower zone. *)
Theorem classify_zone_monotone p q bt ic th b :
  bands_of th = Some b -> p <= q ->
  exists zp zq, classify_zone (Fin p) bt ic th = Ok (zone_name zp) /\
    classify_zone (Fin q) bt ic th = Ok (zone_name zq) /\ (zone_rank zp <= zone_rank zq)%nat.
Proof.
  intros Hb Hpq. destruct (easy_override bt ic) eqn:O.
  - exists Easy, Easy. rewrite !classify_zone_override by exact O. auto.
  - rewrite !classify_zone_active, !(zone_of_pct_bands _ _ _ Hb) by exact O.
    do 2 eexists. split; [reflexivity |]. split; [reflexivity |].
    unfold band_zone. qcase; simpl; lia || lra.
Qed.

Lemma classify_zone_monotone_witness :
  bands_of DEFAULT_ZONE_THRESHOLDS = Some (Bands 75 93 100) /\ 70 <= 101 /\
  exists zp zq, classify_zone (Fin 70) "step" "active" DEFAULT_ZONE_THRESHOLDS = Ok (zone_name zp) /\
    classify_zone (Fin 101) "step" "active" DEFAULT_ZONE_THRESHOLDS = Ok (zone_name zq) /\
    (zone_rank zp <= zone_rank zq)%nat.
Proof.
  split; [reflexivity |]. split; [unfold Qle; simpl; lia |].
  apply (classify_zone_monotone 70 101 "step" "active" DEFAULT_ZONE_THRESHOLDS (Bands 75 93 100));
    [reflexivity | unfold Qle; simpl; lia].
Defined.

(** A NaN percentage (from [(inf + -inf) / 2], say) is not below any
    bound: an active step falls through every test to vo2. *)
Lemma classify_zone_nan bt ic th b :
  bands_of th = Some b -> easy_override bt ic = false -> classify_zone NaN bt ic th = Ok "vo2".
Proof.
  intros (H1 & H2 & H3)%bands_of_some O. rewrite classify_zone_active by exact O.
  unfold zone_of_pct, threshold_le, threshold_num in *.
  destruct (getitem th "easy_max") as [a|], (getitem th "lt1_max") as [c|], (getitem th "lt2_max") as [f|];
    try discriminate; cbn [res_bind].
  destruct (num_value a) as [[]|], (num_value c) as [[]|], (num_value f) as [[]|]; try discriminate; reflexivity.
Qed.

(** The block type and the intensity class are compared without
    regard to letter case or surrounding whitespace: labels equal up to
    case give the same zone, or the same exception. *)
Theorem classify_zone_case_insensitive pct bt bt' ic ic' th :
  lower bt = lower bt' -> lower ic = lower ic' ->
  classify_zone pct bt ic th = classify_zone pct bt' ic' th.
Proof.
  intros Hb Hi. unfold classify_zone.
  now rewrite <- !strip_lower, Hb, Hi.
Qed.

Lemma classify_zone_case_insensitive_witness :
  lower " RampUp" = lower " rampup" /\ lower "Active" = lower "active" /\
  classify_zone (Fin 120) " RampUp" "Active" DEFAULT_ZONE_THRESHOLDS =
  classify_zone (Fin 120) " rampup" "active" DEFAULT_ZONE_THRESHOLDS.
Proof.
  split; [reflexivity | split; [reflexivity |]].
  apply classify_zone_case_insensitive; reflexivity.
Defined.

(** A step that is not forced to easy reads [thresholds["easy_max"]]
    first: when that key is missing ([KeyError]) or holds a value that
    does not compare with a float, such as the string a configuration
    file may give ([TypeError]), [classify_zone] raises that exception. *)
Theorem classify_zone_easy_max_error pct bt ic th e :
  easy_override bt ic = false ->
  (let* t := getitem th "easy_max" in num_value t) = Raise e ->
  classify_zone pct bt ic th = Raise e.
Proof.
  intros O He. rewrite classify_zone_active by exact O.
  unfold zone_of_pct, threshold_le.
  destruct (getitem th "easy_max") as [t|]; cbn [res_bind] in *; [now rewrite He | congruence].
Qed.

Lemma classify_zone_easy_max_error_witness :
  classify_zone (Fin 80) "step" "active"
    (PDict [("easy_max", PStr "75"); ("lt1_max", PInt 93); ("lt2_max", PInt 100)]) = Raise TypeError.
Proof. apply classify_zone_easy_max_error; reflexivity. Defined.
