(* ===== verification/ZoneDistance.v ===== *)
(** * ZoneDistance: the zone-distance decomposer of [tp_cli/core/analysis.py]

    [parse_workout_zones] walks a workout's [structure] (a JSON string or
    an already decoded dict), estimates the distance of every step from
    its length and target ([_step_distance_raw]), adds it to the step's
    zone, and rescales the four buckets so that they sum to the recorded
    distance.  Every quantity is a binary64 float ([Floats.float]) and
    every [float()]/[int()] conversion is CPython's, overflow included.
    [json.loads] is a parameter of the section: the theorems hold for any
    decoder.  The theorems: with a positive recorded distance, the
    returned distance is the recorded one unless the raw estimate is
    negative or NaN; a workout without a usable structure is all easy;
    the decomposition succeeds on every well-formed workout; it raises
    on some malformed ones; and, rounding being what it is, the rescaled
    buckets need not sum to the distance returned. *)

From Stdlib Require Import QArith Qround Lqa ZArith Lia Ascii String List Bool.
From stdpp Require Import base decidable.
From S2P Require Import Prelude PyValue Floats Zones.
Import ListNotations.
Open Scope string_scope.
Open Scope Q_scope.

(** The metrics whose targets are percentages. *)
Definition PERCENT_METRICS : list string :=
  ["percentOfThresholdPace"; "percentOfFtp"; "percentOfThresholdHr"].

(** The literal [0.7]. *)
Definition f07 : float := round64 (7 # 10).

(** [_step_distance_raw(step, threshold_speed)]: the raw distance of one
    step and its intensity percentage, both floats. *)
Definition step_distance_raw (step : pyval) (threshold_speed : float) : res (float * float) :=
  let* length := dict_get step "length" (PDict []) in
  let* unit := dict_get length "unit" PNone in
  let* vraw := dict_get length "value" PNone in
  let* value := py_float_d (py_or vraw (PInt 0)) in
  let* targets := dict_get step "targets" (PList [PDict []]) in
  let* target := if truthy targets then py_index0 targets else Ok (PDict []) in
  let* mn := dict_get target "minValue" PNone in
  let* min_value := py_float_d (py_or mn (PInt 0)) in
  let* mx := dict_get target "maxValue" PNone in
  let* max_value := if truthy mx then py_float_d mx else Ok min_value in
  let pct := if flt min_value max_value then fdiv_nz (fadd min_value max_value) (Fin 2) else min_value in
  if is_str_eq unit "meter" then Ok (value, pct)
  else if is_str_eq unit "second" then
    let speed := if flt (Fin 0) pct then fmul threshold_speed (fdiv_nz pct (Fin 100))
                 else fmul threshold_speed f07 in
    Ok (fmul value speed, pct)
  else Ok (Fin 0, pct).

(** The body of the inner loop over a block's steps: [raw_distance *
    rep_count] converts the [int] to a float ([OverflowError] beyond the
    float range). *)
Definition zone_step (thresholds : pyval) (threshold_speed : float) (block_type : pyval)
    (rep_count : Z) (zones : zmap) (step : pyval) : res zmap :=
  let* '(raw_distance, pct) := step_distance_raw step threshold_speed in
  let* ic := dict_get step "intensityClass" (PStr "active") in
  let* bt := as_str block_type in
  let* zone := classify_zone pct bt (py_str ic) thresholds in
  let* reps := float_of_int rep_count in
  zm_add zones zone (fmul raw_distance reps).

(** The body of the outer loop over the blocks. *)
Definition zone_block (th : pyval) (threshold_speed : float) (zones : zmap) (block : pyval)
    : res zmap :=
  let* block_type := dict_get block "type" (PStr "step") in
  let* rep_count :=
    if is_str_eq block_type "repetition" then
      let* len := dict_get block "length" (PDict []) in
      let* v := dict_get len "value" (PInt 1) in
      py_int_d v
    else Ok 1%Z in
  let* steps := dict_get block "steps" (PList []) in
  let* steps := py_iter steps in
  res_fold_left (zone_step th threshold_speed block_type rep_count) steps zones.

(** [float(workout.get("distance") or 0)] *)
Definition recorded_distance (workout : pyval) : res float :=
  let* d := dict_get workout "distance" PNone in
  py_float_d (py_or d (PInt 0)).

(** The early return that puts the whole recorded distance in [easy]. *)
Definition all_easy_result (workout : pyval) : res (zmap * float) :=
  let* distance := recorded_distance workout in
  Ok (zm_all_easy distance, distance).

Section Decomposer.
Context (json_loads : string -> res pyval).

(** [if isinstance(structure, str): try: structure = json.loads(structure)
    except Exception: ...]; [None] is the [except] branch. *)
Definition load_structure (structure : pyval) : option pyval :=
  match structure with
  | PStr s => match json_loads s with Ok v => Some v | Raise _ => None end
  | _ => Some structure
  end.

(** [parse_workout_zones(workout, threshold_speed, thresholds)] *)
Definition parse_workout_zones (workout : pyval) (threshold_speed : float) (th : pyval)
    : res (zmap * float) :=
  let* structure := dict_get workout "structure" PNone in
  if negb (truthy structure) then all_easy_result workout else
  match load_structure structure with
  | None => all_easy_result workout
  | Some structure =>
      let* metric := dict_get structure "primaryIntensityMetric" (PStr EmptyString) in
      let* is_pct := in_str_set metric PERCENT_METRICS in
      if negb is_pct then all_easy_result workout else
      let* blocks := dict_get structure "structure" (PList []) in
      let* blocks := py_iter blocks in
      let* zones := res_fold_left (zone_block th threshold_speed) blocks zm_zero in
      let raw_total := zm_total zones in
      let* actual_distance := recorded_distance workout in
      if flt (Fin 0) raw_total && flt (Fin 0) actual_distance then
        let scale := fdiv_nz actual_distance raw_total in
        Ok (zm_scale zones scale, actual_distance)
      else if flt (Fin 0) actual_distance && float_eqb raw_total (Fin 0) then
        Ok (zm_all_easy actual_distance, actual_distance)
      else Ok (zones, raw_total)
  end.
End Decomposer.

(** ** Well-formed workouts

    The shape of a workout on which the decomposition cannot raise: every
    field it reads is absent or of a type the code handles. *)

Definition wf_target (t : pyval) : bool :=
  match t with
  | PDict kv => opt_field kv "minValue" numeric_float && opt_field kv "maxValue" numeric_float
  | _ => false
  end.

Definition wf_targets (v : pyval) : bool :=
  negb (truthy v) || match v with PList (t :: _) => wf_target t | _ => false end.

Definition wf_length (v : pyval) : bool :=
  match v with PDict kv => opt_field kv "value" numeric_float | _ => false end.

Definition wf_step (v : pyval) : bool :=
  match v with
  | PDict kv => opt_field kv "length" wf_length && opt_field kv "targets" wf_targets
  | _ => false
  end.

Definition wf_block (v : pyval) : bool :=
  match v with
  | PDict kv =>
      let bt := get_default kv "type" (PStr "step") in
      match bt with PStr _ => true | _ => false end &&
      (negb (is_str_eq bt "repetition") ||
       opt_field kv "length" (fun l => match l with PDict lk => opt_field lk "value" int_float_ok | _ => false end)) &&
      opt_field kv "steps" (fun st => match st with PList l => forallb wf_step l | _ => false end)
  | _ => false
  end.

Definition wf_structure (v : pyval) : bool :=
  match v with
  | PDict kv =>
      opt_field kv "primaryIntensityMetric" (fun m => negb (is_list m || is_dict m)) &&
      opt_field kv "structure" (fun b => match b with PList l => forallb wf_block l | _ => false end)
  | _ => false
  end.

Definition wf_workout (json_loads : string -> res pyval) (w : pyval) : bool :=
  match w with
  | PDict kv =>
      opt_field kv "distance" numeric_float &&
      (let st := get_default kv "structure" PNone in
       negb (truthy st) ||
       match load_structure json_loads st with None => true | Some v => wf_structure v end)
  | _ => false
  end.

(** ** Lemmas *)

Lemma all_easy_result_inv w z d :
  all_easy_result w = Ok (z, d) -> recorded_distance w = Ok d /\ z = zm_all_easy d.
Proof.
  unfold all_easy_result. intros H.
  destruct (recorded_distance w) as [a|]; cbn [res_bind] in H; [| discriminate].
  injection H as <- <-. auto.
Qed.

Lemma target_ok (v : pyval) :
  wf_targets v = true ->
  exists t, (if truthy v then py_index0 v else Ok (PDict [])) = Ok t /\ wf_target t = true.
Proof.
  unfold wf_targets. destruct (truthy v) eqn:T; simpl; [| eauto].
  destruct v as [| | | | | [| t l] |]; try discriminate; eauto.
Qed.

Lemma step_distance_raw_ok step s :
  wf_step step = true -> exists r, step_distance_raw step s = Ok r.
Proof.
  destruct step as [| | | | | | kv]; try discriminate. intros H. cbn [wf_step] in H.
  apply andb_true_iff in H as [Hl Ht].
  unfold step_distance_raw. rewrite dict_get_default. cbn [res_bind].
  pose proof (opt_field_get _ _ _ (PDict []) Hl eq_refl) as Hlen.
  destruct (get_default kv "length" (PDict [])) as [| | | | | | lk]; try discriminate.
  simpl in Hlen. rewrite ?dict_get_default. cbn [res_bind].
  destruct (py_float_d_or_zero _ (opt_field_get _ _ _ PNone Hlen eq_refl)) as [q ->]. cbn [res_bind].
  rewrite ?dict_get_default. cbn [res_bind].
  destruct (target_ok _ (opt_field_get _ _ _ (PList [PDict []]) Ht eq_refl)) as (t & -> & Hwt).
  cbn [res_bind].
  destruct t as [| | | | | | tk]; try discriminate. simpl in Hwt.
  apply andb_true_iff in Hwt as [Hmin Hmax].
  rewrite ?dict_get_default. cbn [res_bind].
  destruct (py_float_d_or_zero _ (opt_field_get _ _ _ PNone Hmin eq_refl)) as [mn ->]. cbn [res_bind].
  rewrite ?dict_get_default. cbn [res_bind].
  destruct (py_float_d_or_float _ mn (opt_field_get _ _ _ PNone Hmax eq_refl)) as [mx ->].
  cbn [res_bind].
  repeat match goal with |- context [if ?b then _ else _] => destruct b end; eauto.
Qed.

Lemma zone_step_ok th bs s b n z step :
  bands_of th = Some bs -> int_in_range n = true -> wf_step step = true ->
  exists z', zone_step th s (PStr b) n z step = Ok z'.
Proof.
  intros Hb Hn Hw. destruct (step_distance_raw_ok step s Hw) as [[rd pct] E].
  unfold zone_step. rewrite E. cbn [res_bind].
  destruct step as [| | | | | | kv]; try discriminate. rewrite dict_get_default. cbn [res_bind as_str].
  destruct (classify_zone_total pct b (py_str (get_default kv "intensityClass" (PStr "active"))) th bs Hb)
    as [zn ->].
  destruct (int_in_range_ok n Hn) as [f ->]. apply zm_add_zone.
Qed.

Lemma zone_steps_ok th bs s b n z kv :
  bands_of th = Some bs -> int_in_range n = true ->
  opt_field kv "steps" (fun st => match st with PList l => forallb wf_step l | _ => false end) = true ->
  exists z',
    (let* steps := dict_get (PDict kv) "steps" (PList []) in
     let* steps := py_iter steps in
     res_fold_left (zone_step th s (PStr b) n) steps z) = Ok z'.
Proof.
  intros Hb Hn Hs. rewrite dict_get_default. cbn [res_bind].
  pose proof (opt_field_get _ _ _ (PList []) Hs eq_refl) as Hl.
  destruct (get_default kv "steps" (PList [])) as [| | | | | l |]; try discriminate.
  cbn [py_iter res_bind].
  destruct (res_fold_left_ok (fun _ => True) (zone_step th s (PStr b) n) l z I) as (z' & E & _);
    [| eauto].
  intros z0 x Hx _. rewrite forallb_forall in Hl.
  destruct (zone_step_ok th bs s b n z0 x Hb Hn (Hl x Hx)) as [z1 E1]. eauto.
Qed.

Lemma zone_block_ok th bs s z b :
  bands_of th = Some bs -> wf_block b = true -> exists z', zone_block th s z b = Ok z'.
Proof.
  intros Hb. destruct b as [| | | | | | kv]; try discriminate. intros H. cbn [wf_block] in H.
  apply andb_true_iff in H as [H Hst]. apply andb_true_iff in H as [Ht Hrep].
  unfold zone_block. rewrite dict_get_default. cbn [res_bind].
  destruct (get_default kv "type" (PStr "step")) as [| | | | bt | |]; try discriminate.
  destruct (is_str_eq (PStr bt) "repetition"); simpl in Hrep; cbn [res_bind];
    [| apply (zone_steps_ok th bs); [exact Hb | reflexivity | exact Hst]].
  rewrite ?dict_get_default. cbn [res_bind].
  pose proof (opt_field_get _ _ _ (PDict []) Hrep eq_refl) as Hl.
  destruct (get_default kv "length" (PDict [])) as [| | | | | | lk]; try discriminate.
  rewrite ?dict_get_default. cbn [res_bind].
  destruct (int_float_ok_spec _ (opt_field_get _ _ _ (PInt 1) Hl eq_refl)) as (n & f & -> & Hf).
  cbn [res_bind]. apply (zone_steps_ok th bs); [exact Hb | | exact Hst].
  unfold int_in_range. now rewrite Hf.
Qed.

Section DecomposerTheorems.
Context (json_loads : string -> res pyval).

(** The three returns after the loop, for raw buckets [zones] and a
    positive recorded distance [a]. *)
Lemma rescale_distance (zones : zmap) (a : float) z d :
  (if flt (Fin 0) (zm_total zones) && flt (Fin 0) a then Ok (zm_scale zones (fdiv_nz a (zm_total zones)), a)
   else if flt (Fin 0) a && float_eqb (zm_total zones) (Fin 0) then Ok (zm_all_easy a, a)
   else Ok (zones, zm_total zones)) = Ok (z, d) ->
  flt (Fin 0) a = true ->
  d = a \/ (d = zm_total z /\ flt (Fin 0) d = false /\ float_eqb d (Fin 0) = false).
Proof.
  intros H Ha. rewrite Ha, andb_true_r in H. cbn [andb] in H.
  destruct (flt (Fin 0) (zm_total zones)) eqn:E1; [res_inv H; now left |].
  destruct (float_eqb (zm_total zones) (Fin 0)) eqn:E2; res_inv H; [now left |].
  right. now repeat split.
Qed.

Lemma all_easy_distance w z d a :
  all_easy_result w = Ok (z, d) -> recorded_distance w = Ok a -> d = a.
Proof. intros (Hd & _)%all_easy_result_inv Ha. congruence. Qed.

(** ** Theorems *)

(** C2: when the workout's recorded distance is positive, the distance
    [parse_workout_zones] returns is that recorded distance, unless the
    raw estimate of the structure is neither positive nor zero (negative
    or NaN): then the raw, unscaled buckets are returned with their own
    total. *)
Theorem parse_workout_zones_distance w s th z d a :
  parse_workout_zones json_loads w s th = Ok (z, d) ->
  recorded_distance w = Ok a -> flt (Fin 0) a = true ->
  d = a \/ (d = zm_total z /\ flt (Fin 0) d = false /\ float_eqb d (Fin 0) = false).
Proof.
  unfold parse_workout_zones. intros H Ha Hpos.
  destruct (dict_get w "structure" PNone) as [st|]; cbn [res_bind] in H; [| discriminate].
  destruct (negb (truthy st)); [left; eauto using all_easy_distance |].
  destruct (load_structure json_loads st) as [st'|]; [| left; eauto using all_easy_distance].
  do 2 res_step H. destruct (negb _); [left; eauto using all_easy_distance |].
  do 3 res_step H. rewrite Ha in H. cbn [res_bind] in H.
  exact (rescale_distance _ _ _ _ H Hpos).
Qed.

Lemma all_easy_result_ok kv :
  opt_field kv "distance" numeric_float = true ->
  exists a, recorded_distance (PDict kv) = Ok a /\ all_easy_result (PDict kv) = Ok (zm_all_easy a, a).
Proof.
  intros Hd. unfold all_easy_result, recorded_distance. rewrite dict_get_default. cbn [res_bind].
  destruct (py_float_d_or_zero _ (opt_field_get _ _ _ PNone Hd eq_refl)) as [a ->]. eauto.
Qed.

(** C3: the decomposition never raises on a well-formed workout and a
    thresholds dict whose three bounds are finite numbers: it returns a
    zone map and a distance.  Well formed means every field it reads is
    absent or of a type the code handles, with every [int] within the
    float range and a repetition count whose [int] is one. *)
Theorem parse_workout_zones_total w s th bs :
  bands_of th = Some bs ->
  wf_workout json_loads w = true -> exists z d, parse_workout_zones json_loads w s th = Ok (z, d).
Proof.
  intros Hbs. destruct w as [| | | | | | kv]; try discriminate. intros H. cbn [wf_workout] in H.
  apply andb_true_iff in H as [Hd Hst].
  destruct (all_easy_result_ok kv Hd) as (a & Ha & Hall).
  unfold parse_workout_zones. rewrite dict_get_default. cbn [res_bind].
  destruct (negb (truthy _)) eqn:Ht; [rewrite Hall; eauto |]. simpl in Hst.
  destruct (load_structure json_loads _) as [st|]; [| rewrite Hall; eauto].
  destruct st as [| | | | | | sk]; try discriminate. cbn [wf_structure] in Hst.
  apply andb_true_iff in Hst as [Hm Hb].
  rewrite dict_get_default. cbn [res_bind].
  destruct (in_str_set_ok _ PERCENT_METRICS (opt_field_get _ _ _ (PStr EmptyString) Hm eq_refl))
    as [isp ->].
  cbn [res_bind]. destruct (negb isp); [rewrite Hall; eauto |].
  rewrite dict_get_default. cbn [res_bind].
  pose proof (opt_field_get _ _ _ (PList []) Hb eq_refl) as Hl.
  destruct (get_default sk "structure" (PList [])) as [| | | | | l |]; try discriminate.
  cbn [py_iter res_bind]. rewrite forallb_forall in Hl.
  destruct (res_fold_left_ok (fun _ => True) (zone_block th s) l zm_zero I) as (z & -> & _).
  { intros z0 x Hx _. destruct (zone_block_ok th bs s z0 x Hbs (Hl x Hx)) as [z1 E1]. eauto. }
  cbn [res_bind]. rewrite Ha. cbn [res_bind].
  repeat match goal with |- context [if ?b then _ else _] => destruct b end; eauto.
Qed.

(** C4: a workout whose structure is absent or empty, is a string the
    decoder rejects, or has a metric other than the three percentage
    metrics, is decomposed as its whole recorded distance in [easy]. *)
Theorem parse_workout_zones_fallback kv s th a :
  recorded_distance (PDict kv) = Ok a ->
  let st := get_default kv "structure" PNone in
  truthy st = false \/
  (exists str e, st = PStr str /\ json_loads str = Raise e) \/
  (exists sk m, load_structure json_loads st = Some (PDict sk) /\
     get_default sk "primaryIntensityMetric" (PStr EmptyString) = m /\
     in_str_set m PERCENT_METRICS = Ok false) ->
  parse_workout_zones json_loads (PDict kv) s th = Ok (zm_all_easy a, a).
Proof.
  intros Ha st Hcases.
  assert (Hall : all_easy_result (PDict kv) = Ok (zm_all_easy a, a))
    by (unfold all_easy_result; rewrite Ha; reflexivity).
  unfold parse_workout_zones. rewrite dict_get_default. cbn [res_bind]. fold st.
  destruct (truthy st) eqn:Ht; [| exact Hall]. simpl.
  destruct Hcases as [Hf | [(str & e & Hs & Hj) | (sk & m & Hl & Hm & Hin)]].
  - congruence.
  - unfold load_structure. rewrite Hs, Hj. exact Hall.
  - rewrite Hl, dict_get_default, Hm. cbn [res_bind]. rewrite Hin. exact Hall.
Qed.
End DecomposerTheorems.

(** ** Examples *)

(** A decoder that rejects every string. *)
Definition reject_json (_ : string) : res pyval := Raise JSONDecodeError.

Definition length_of (unit : string) (v : Z) : pyval :=
  PDict [("unit", PStr unit); ("value", PInt v)].

Definition step_of (unit : string) (v mn mx : Z) (ic : string) : pyval :=
  PDict [("length", length_of unit v);
         ("targets", PList [PDict [("minValue", PInt mn); ("maxValue", PInt mx)]]);
         ("intensityClass", PStr ic)].

(** 10 min warm-up at 65-75%, then 4 x (400 m at 105-110%, 200 m rest);
    5000 m recorded. *)
Definition sample_workout : pyval :=
  PDict [("distance", PInt 5000);
         ("structure", PDict [
            ("primaryIntensityMetric", PStr "percentOfThresholdPace");
            ("structure", PList [
               PDict [("type", PStr "rampUp"); ("steps", PList [step_of "second" 600 65 75 "warmUp"])];
               PDict [("type", PStr "repetition");
                      ("length", PDict [("value", PInt 4); ("unit", PStr "repetition")]);
                      ("steps", PList [step_of "meter" 400 105 110 "active";
                                       step_of "meter" 200 0 0 "rest"])]])])].

Lemma parse_workout_zones_distance_witness :
  exists z d, parse_workout_zones reject_json sample_workout (Fin 4) DEFAULT_ZONE_THRESHOLDS = Ok (z, d) /\
    d = Fin 5000 /\ zm_lt1 z = Fin 0 /\ zm_lt2 z = Fin 0.
Proof.
  destruct (parse_workout_zones reject_json sample_workout (Fin 4) DEFAULT_ZONE_THRESHOLDS)
    as [[z d] | e] eqn:E; [| vm_compute in E; discriminate].
  exists z, d. split; [reflexivity |].
  destruct (parse_workout_zones_distance reject_json sample_workout (Fin 4) DEFAULT_ZONE_THRESHOLDS z d
              (Fin 5000) E eq_refl eq_refl) as [Hd | (_ & Hpos & _)];
    vm_compute in E; injection E as <- <-; [| discriminate Hpos].
  split; [exact Hd | split; reflexivity].
Defined.

Lemma parse_workout_zones_total_witness :
  bands_of DEFAULT_ZONE_THRESHOLDS = Some (Bands 75 93 100) /\ wf_workout reject_json sample_workout = true /\
  exists z d, parse_workout_zones reject_json sample_workout (Fin 4) DEFAULT_ZONE_THRESHOLDS = Ok (z, d).
Proof.
  assert (H : wf_workout reject_json sample_workout = true) by reflexivity.
  assert (Hb : bands_of DEFAULT_ZONE_THRESHOLDS = Some (Bands 75 93 100)) by reflexivity.
  split; [exact Hb | split; [exact H | exact (parse_workout_zones_total reject_json sample_workout (Fin 4) _ _ Hb H)]].
Defined.

Lemma parse_workout_zones_fallback_witness :
  parse_workout_zones reject_json
    (PDict [("distance", PInt 8000); ("structure", PStr "{not json")]) (Fin 4) DEFAULT_ZONE_THRESHOLDS
  = Ok (zm_all_easy (Fin 8000), Fin 8000).
Proof.
  apply (parse_workout_zones_fallback reject_json _ (Fin 4) _ (Fin 8000)); [reflexivity |].
  right; left. exists "{not json", JSONDecodeError. split; reflexivity.
Defined.

(** the decomposition raises [AttributeError] on a structure whose
    block has ["type": null] (and so does the zone report that calls it),
    although the spec (section 7) says no exception crosses the reporting
    functions. *)
Example parse_workout_zones_null_block_type :
  parse_workout_zones reject_json
    (PDict [("distance", PInt 5000);
            ("structure", PDict [("primaryIntensityMetric", PStr "percentOfFtp");
                                 ("structure", PList [PDict [("type", PNone);
                                     ("steps", PList [step_of "second" 60 90 95 "active"])]])])])
    (Fin 4) DEFAULT_ZONE_THRESHOLDS
  = Raise AttributeError.
Proof. vm_compute. reflexivity. Qed.

