(* ===== verification/Classify.v ===== *)
(** * Classify: the workout-type classifier of [tp_cli/core/classify.py]

    Two signals are combined.  The keyword signal ([classify_by_keywords])
    lower-cases the title, description, coach comments and tags and
    returns the type of the first rule one of whose keywords occurs in
    that text.  The structural signal ([classify_from_structure]) finds a
    structure in the workout ([extract_structure]), computes every step's
    intensity ([step_intensity_pct]) and zone ([Zones.classify_zone] at
    the default thresholds), accumulates zone loads in seconds and zone
    step counts, and decides a label from them; percentages and loads
    are binary64 floats ([Floats.float]), [float()] raising
    [OverflowError] where CPython does.  [classify_with_source]
    lets the priority keyword types win, then the structure, then the
    keywords.  [json.loads] is the section parameter [json_loads]. *)

From Stdlib Require Import QArith Qround Lqa ZArith Lia Ascii String List Bool.
From stdpp Require Import base decidable.
From S2P Require Import Prelude PyValue Floats Zones.
Import ListNotations.
Open Scope string_scope.
Open Scope Q_scope.

(** [TYPE_RULES] of [constants.py], in its order. *)
Definition TYPE_RULES : list (string * list string) :=
  [("race", ["race"; "competition"; "event"; "marathon"; "triathlon"; "70.3"]);
   ("test", ["test"; "ftp test"; "time trial"; "benchmark"; "ramp test"]);
   ("vo2", ["vo2"; "vo2max"; "zone 5"; "z5"]);
   ("sprint", ["sprint"; "anaerobic"; "zone 6"; "z6"; "neuromuscular"; "20/40"]);
   ("lt2", ["lt2"; "lactate threshold"; "threshold"; "zone 4"; "z4"; "ftp"; "over under";
            "sweetspot"; "sst"]);
   ("lt1", ["lt1"; "aerobic threshold"; "tempo"; "zone 3"; "z3"; "sweet spot"]);
   ("long", ["long run"; "long ride"; "long swim"; "endurance long"; "weekend long"]);
   ("strength", ["strength"; "gym"; "weights"; "dryland"; "core"]);
   ("easy", ["easy"; "recovery"; "endurance"; "zone 1"; "zone 2"; "z1"; "z2"; "base z2";
             "warm down"; "spin"; "technique"])].

(** [_PRIORITY_KEYWORD_TYPES] *)
Definition PRIORITY_KEYWORD_TYPES : list string := ["race"; "test"; "strength"; "long"; "sprint"].

(** [WorkoutClassification] of [models.py]. *)
Record WorkoutClassification : Type := {
  wc_type : string;
  wc_method : string;
  wc_confidence : Q;
  wc_reasoning : option string
}.

(** ** Keyword signal *)

(** [_normalized_text(workout)] *)
Definition normalized_text (workout : pyval) : res string :=
  let* title := dict_get workout "title" PNone in
  let* description := dict_get workout "description" PNone in
  let* comments := dict_get workout "coachComments" PNone in
  let* tags := dict_get workout "userTags" PNone in
  let empty := PStr EmptyString in
  Ok (lower (py_str (py_or title empty) ++ " " ++ py_str (py_or description empty) ++ " " ++
             py_str (py_or comments empty) ++ " " ++ py_str (py_or tags empty))).

(** The [for workout_type, keywords in rules] loop. *)
Fixpoint first_rule_match (text : string) (rules : list (string * list string)) : string :=
  match rules with
  | [] => "other"
  | (workout_type, keywords) :: rules' =>
      if existsb (fun keyword => contains keyword text) keywords then workout_type
      else first_rule_match text rules'
  end.

(** [_classify_by_keywords(workout, rules)] *)
Definition classify_by_keywords (workout : pyval) (rules : list (string * list string)) : res string :=
  let* text := normalized_text workout in
  Ok (first_rule_match text rules).

(** ** Structure extraction *)

(** [_normalize_blocks(raw_blocks)] *)
Definition normalize_blocks (raw_blocks : pyval) : list pyval :=
  match raw_blocks with
  | PList l =>
      let dict_blocks := filter is_dict l in
      match dict_blocks with
      | [] => []
      | _ =>
          if forallb (fun b => match b with PDict kv => negb (has_key kv "steps") | _ => true end)
               dict_blocks
          then [PDict [("type", PStr "step");
                       ("length", PDict [("value", PInt 1); ("unit", PStr "repetition")]);
                       ("steps", PList dict_blocks)]]
          else dict_blocks
      end
  | _ => []
  end.

(** The keys [_extract_structure] tries, in order. *)
Definition STRUCTURE_KEYS : list string := ["structuredSteps"; "structuredWorkout"; "structure"].

(** [_as_percent(value)]: [float()]'s [TypeError] and [ValueError] are
    caught as [0.0]; its [OverflowError] (an [int] beyond the float
    range) propagates.  A NaN passes both comparisons and is returned. *)
Definition as_percent (value : pyval) : res float :=
  let* pct := try_except [TypeError; ValueError] (py_float_d value) (Fin 0) in
  Ok (if fle pct (Fin 0) then Fin 0 else if fle pct (Fin 2) then fmul pct (Fin 100) else pct).

(** [_step_intensity_pct(step)] *)
Definition step_intensity_pct (step : pyval) : res float :=
  let* targets := dict_get step "targets" PNone in
  match targets with
  | PList (target :: _) =>
      match target with
      | PDict _ =>
          let* mn := dict_get target "minValue" PNone in
          let* min_pct := as_percent mn in
          let* mx := dict_get target "maxValue" PNone in
          let* max_pct := as_percent mx in
          if flt (Fin 0) min_pct && flt (Fin 0) max_pct then Ok (fdiv_nz (fadd min_pct max_pct) (Fin 2))
          else if flt (Fin 0) min_pct then Ok min_pct
          else if flt (Fin 0) max_pct then Ok max_pct
          else let* v := dict_get target "value" PNone in as_percent v
      | _ => Ok (Fin 0)
      end
  | _ => Ok (Fin 0)
  end.

(** [_length_to_seconds(length)]: meters at a flat 4 m/s; as in
    [as_percent], only [TypeError] and [ValueError] are caught. *)
Definition length_to_seconds (length : pyval) : res float :=
  let* u := dict_get length "unit" PNone in
  let unit := lower (py_str (py_or u (PStr EmptyString))) in
  let* v := dict_get length "value" PNone in
  let* value := try_except [TypeError; ValueError] (py_float_d (py_or v (PInt 0))) (Fin 0) in
  if fle value (Fin 0) then Ok (Fin 0)
  else if String.eqb unit "second" then Ok value
  else if String.eqb unit "minute" then Ok (fmul value (Fin 60))
  else if String.eqb unit "hour" then Ok (fmul value (Fin 3600))
  else if String.eqb unit "meter" then Ok (fdiv_nz value (Fin 4))
  else if String.eqb unit "kilometer" then Ok (fmul value (Fin 250))
  else Ok (Fin 0).

(** ** The structural accumulator *)

Record zcount : Type := ZCount { zc_easy : nat; zc_lt1 : nat; zc_lt2 : nat; zc_vo2 : nat }.

Definition zc_zero : zcount := ZCount 0 0 0 0.

(** [zone_counts[key] += 1]: [KeyError] for a key other than the four
    zone names. *)
Definition zc_incr (c : zcount) (key : string) : res zcount :=
  if String.eqb key "easy" then Ok (ZCount (S (zc_easy c)) (zc_lt1 c) (zc_lt2 c) (zc_vo2 c))
  else if String.eqb key "lt1" then Ok (ZCount (zc_easy c) (S (zc_lt1 c)) (zc_lt2 c) (zc_vo2 c))
  else if String.eqb key "lt2" then Ok (ZCount (zc_easy c) (zc_lt1 c) (S (zc_lt2 c)) (zc_vo2 c))
  else if String.eqb key "vo2" then Ok (ZCount (zc_easy c) (zc_lt1 c) (zc_lt2 c) (S (zc_vo2 c)))
  else Raise KeyError.

(** The local state of [_classify_from_structure]'s loops. *)
Record sstate : Type := SState {
  zone_loads : zmap;
  zone_counts : zcount;
  has_intensity_targets : bool;
  max_pct : float
}.

Definition sstate_init : sstate := SState zm_zero zc_zero false (Fin 0).

(** The body of the loop over a block's steps: [secs * max(rep_count, 1)]
    converts the [int] to a float first. *)
Definition structure_step (block_type : string) (rep_count : Z) (st : sstate) (step : pyval)
    : res sstate :=
  let* pct := step_intensity_pct step in
  let pos := flt (Fin 0) pct in
  let has := if pos then true else has_intensity_targets st in
  let mx := if pos then fmax (max_pct st) pct else max_pct st in
  let* ic := dict_get step "intensityClass" PNone in
  let* zone := classify_zone pct block_type (py_str (py_or ic (PStr "active"))) DEFAULT_ZONE_THRESHOLDS in
  let* len := dict_get step "length" (PDict []) in
  let* secs := length_to_seconds len in
  let* reps := float_of_int (Z.max rep_count 1) in
  let load0 := fmul secs reps in
  let load := if fle load0 (Fin 0) && pos then Fin 30 else load0 in
  let* loads := zm_add (zone_loads st) zone load in
  let* counts := if pos then zc_incr (zone_counts st) zone else Ok (zone_counts st) in
  Ok (SState loads counts has mx).

(** The body of the loop over the blocks: [int(float(v or 1))], whose
    [ValueError] (a NaN) is caught and whose [OverflowError] (an
    infinity, or an [int] beyond the float range) is not. *)
Definition structure_block (st : sstate) (block : pyval) : res sstate :=
  let* bt := dict_get block "type" PNone in
  let block_type := py_str (py_or bt (PStr "step")) in
  let* rep_count :=
    if String.eqb (lower (strip block_type)) "repetition" then
      try_except [TypeError; ValueError]
        (let* len := dict_get block "length" (PDict []) in
         let* v := dict_get len "value" PNone in
         let* f := py_float_d (py_or v (PInt 1)) in
         int_of_float f) 1%Z
    else Ok 1%Z in
  let* steps_raw := dict_get block "steps" PNone in
  let steps := match steps_raw with PList l => filter is_dict l | _ => [] end in
  res_fold_left (structure_step block_type rep_count) steps st.

(** The decision after the loops. *)
Definition structure_label (st : sstate) : string :=
  let loads := zone_loads st in
  let counts := zone_counts st in
  let vo2_load := zm_vo2 loads in
  let hard_load := fadd (zm_lt2 loads) vo2_load in
  let lt1_load := zm_lt1 loads in
  if fle (Fin 180) vo2_load || ((2 <=? zc_vo2 counts)%nat && flt (Fin 105) (max_pct st)) then "vo2"
  else if fle (Fin 180) hard_load || (2 <=? zc_lt2 counts + zc_vo2 counts)%nat then "lt2"
  else if fle (Fin 300) lt1_load || (2 <=? zc_lt1 counts)%nat then "lt1"
  else "easy".

(** ** Combination and metadata *)

Definition CONFIDENCE_STRUCTURE : Q := 97 # 100.
Definition CONFIDENCE_KEYWORD : Q := 95 # 100.
Definition CONFIDENCE_OTHER : Q := 6 # 10.

(** One iteration of the loop over the configured rules. *)
Definition config_rule (entry : string * pyval) : list (string * list string) :=
  let '(key, value) := entry in
  match py_iter value with
  | Ok items => [(key, map (fun item => lower (py_str item)) items)]
  | Raise _ => []
  end.

(** [classification_rules_from_config(config)]: a rule's keywords are
    the items of any iterable value: a list's items, a dict's keys, a
    string's characters. *)
Definition classification_rules_from_config (config : pyval) : res (list (string * list string)) :=
  let* cls := dict_get config "classification" (PDict []) in
  let* configured := dict_get cls "rules" (PDict []) in
  match configured with
  | PDict ((_ :: _) as kv) =>
      let rules := flat_map config_rule kv in
      Ok (match rules with [] => TYPE_RULES | _ => rules end)
  | _ => Ok TYPE_RULES
  end.

Section Classifier.
Context (json_loads : string -> res pyval).

(** [_parse_structure_value(raw)]; [PNone] stands for Python's [None]. *)
Definition parse_structure_value (raw : pyval) : pyval :=
  match raw with
  | PStr s => match json_loads s with Ok v => v | Raise _ => PNone end
  | _ => raw
  end.

(** The [for key in (...)] loop of [_extract_structure], carrying the
    metric. *)
Fixpoint extract_loop (workout : pyval) (keys : list string) (metric : string)
    : res (list pyval * string) :=
  match keys with
  | [] => Ok ([], metric)
  | key :: keys' =>
      let* raw := dict_get workout key PNone in
      let parsed := parse_structure_value raw in
      match parsed with
      | PNone => extract_loop workout keys' metric
      | PDict _ =>
          let* pm := dict_get parsed "primaryIntensityMetric" PNone in
          let metric' := py_str (py_or pm (PStr metric)) in
          let* s := dict_get parsed "structure" PNone in
          let* blocks := if truthy s then Ok s else dict_get parsed "steps" PNone in
          match normalize_blocks blocks with
          | [] => extract_loop workout keys' metric'
          | normalized => Ok (normalized, metric')
          end
      | _ =>
          match normalize_blocks parsed with
          | [] => extract_loop workout keys' metric
          | normalized => Ok (normalized, metric)
          end
      end
  end.

(** [_extract_structure(workout)] *)
Definition extract_structure (workout : pyval) : res (list pyval * string) :=
  let* m := dict_get workout "primaryIntensityMetric" PNone in
  extract_loop workout STRUCTURE_KEYS (py_str (py_or m (PStr EmptyString))).

(** [_classify_from_structure(workout)] *)
Definition classify_from_structure (workout : pyval) : res (option string) :=
  let* '(blocks, _) := extract_structure workout in
  match blocks with
  | [] => Ok None
  | _ =>
      let* st := res_fold_left structure_block blocks sstate_init in
      if negb (has_intensity_targets st) then Ok None
      else Ok (Some (structure_label st))
  end.

(** [_classify_with_source(workout, rules)]: the label and its source. *)
Definition classify_with_source (workout : pyval) (rules : list (string * list string))
    : res (string * string) :=
  let* keyword_label := classify_by_keywords workout rules in
  if existsb (String.eqb keyword_label) PRIORITY_KEYWORD_TYPES then Ok (keyword_label, "keyword")
  else
    let* sl := classify_from_structure workout in
    match sl with
    | Some l => if negb (String.eqb l EmptyString) then Ok (l, "structure")
                else Ok (keyword_label, "keyword")
    | None => Ok (keyword_label, "keyword")
    end.

(** [classify_workout(workout, rules)] *)
Definition classify_workout (workout : pyval) (rules : list (string * list string)) : res string :=
  let* '(label, _) := classify_with_source workout rules in
  Ok label.

(** [classify_with_metadata(workout, method, rules)] *)
Definition classify_with_metadata (workout : pyval) (method : string)
    (rules : list (string * list string)) : res WorkoutClassification :=
  let* '(label, source) := classify_with_source workout rules in
  if String.eqb method "ai" then
    Ok {| wc_type := label; wc_method := "auto"; wc_confidence := CONFIDENCE_OTHER;
          wc_reasoning := Some "AI classification not configured; fell back to rules" |}
  else
    let confidence :=
      if String.eqb source "structure" then CONFIDENCE_STRUCTURE
      else if negb (String.eqb label "other") then CONFIDENCE_KEYWORD
      else CONFIDENCE_OTHER in
    let reasoning :=
      if String.eqb source "structure"
      then Some "classified from structured workout intensity targets" else None in
    Ok {| wc_type := label; wc_method := "auto"; wc_confidence := confidence;
          wc_reasoning := reasoning |}.
End Classifier.

(** ** Specification *)

(** The ten workout types of the spec (section 3). *)
Definition TYPE_LABELS : list string :=
  ["easy"; "lt1"; "lt2"; "vo2"; "race"; "test"; "sprint"; "long"; "strength"; "other"].

(** The labels the structural signal can produce. *)
Definition STRUCTURE_LABELS : list string := ["vo2"; "lt2"; "lt1"; "easy"].

(** ** Lemmas *)

Lemma first_rule_match_cases text rules :
  first_rule_match text rules = "other" \/ In (first_rule_match text rules) (map fst rules).
Proof.
  induction rules as [| [t kws] rules IH]; simpl; [now left |].
  destruct (existsb _ kws); [right; now left |].
  destruct IH as [IH | IH]; [now left | right; now right].
Qed.

Lemma structure_label_in st : In (structure_label st) STRUCTURE_LABELS.
Proof.
  unfold structure_label, STRUCTURE_LABELS.
  repeat match goal with |- context [if ?b then _ else _] => destruct b end; simpl; tauto.
Qed.

Section ClassifierLemmas.
Context (json_loads : string -> res pyval).

Lemma classify_from_structure_label w l :
  classify_from_structure json_loads w = Ok (Some l) -> In l STRUCTURE_LABELS.
Proof.
  unfold classify_from_structure. intros H.
  destruct (extract_structure json_loads w) as [[blocks metric] |]; cbn [res_bind] in H;
    [| discriminate].
  destruct blocks; [discriminate |]. res_step H.
  destruct (negb _); [discriminate |]. injection H as <-. apply structure_label_in.
Qed.

(** The label comes from the structure (one of its four labels) or from
    the keywords. *)
Lemma classify_with_source_cases w rules l src :
  classify_with_source json_loads w rules = Ok (l, src) ->
  (src = "structure" /\ In l STRUCTURE_LABELS) \/
  (src = "keyword" /\ classify_by_keywords w rules = Ok l).
Proof.
  unfold classify_with_source. intros H.
  destruct (classify_by_keywords w rules) as [kw |]; cbn [res_bind] in H; [| discriminate].
  destruct (existsb _ _); [injection H as <- <-; right; auto |].
  destruct (classify_from_structure json_loads w) as [[l' |] |] eqn:Es; cbn [res_bind] in H;
    [| injection H as <- <-; right; auto | discriminate].
  destruct (negb _); injection H as <- <-;
    [left; eauto using classify_from_structure_label | right; auto].
Qed.

Lemma keywords_with_race_title kv t rules :
  get_default kv "title" PNone = PStr t -> contains "race" (lower t) = true ->
  exists text, classify_by_keywords (PDict kv) rules = Ok (first_rule_match text rules) /\
               contains "race" text = true.
Proof.
  intros Ht Hc. unfold classify_by_keywords, normalized_text.
  rewrite !dict_get_default. cbn [res_bind]. rewrite Ht.
  eexists. split; [reflexivity |].
  destruct t as [| c t]; [discriminate |]. cbn [py_or truthy py_str].
  replace (negb (String.eqb (String c t) EmptyString)) with true by reflexivity.
  rewrite lower_app. apply contains_app_l. exact Hc.
Qed.
End ClassifierLemmas.

Lemma TYPE_RULES_lower : Forall (fun r => Forall (fun k => lower k = k) (snd r)) TYPE_RULES.
Proof. repeat constructor. Qed.

Lemma CONFIDENCE_distinct :
  CONFIDENCE_STRUCTURE <> CONFIDENCE_KEYWORD /\ CONFIDENCE_STRUCTURE <> CONFIDENCE_OTHER /\
  CONFIDENCE_KEYWORD <> CONFIDENCE_OTHER.
Proof. repeat split; discriminate. Qed.

Section ClassifierTheorems.
Context (json_loads : string -> res pyval).

(** ** Theorems *)

(** C6: keyword priority overrides the structure: under the default
    rules, a workout whose title contains "race" in any letter case is
    labelled [race], whatever its structure (the structure is not even
    read). *)
Theorem classify_workout_race_title kv t :
  get_default kv "title" PNone = PStr t -> contains "race" (lower t) = true ->
  classify_workout json_loads (PDict kv) TYPE_RULES = Ok "race".
Proof.
  intros Ht Hc. destruct (keywords_with_race_title kv t TYPE_RULES Ht Hc) as (text & E & Hr).
  unfold classify_workout, classify_with_source. rewrite E. cbn [res_bind].
  assert (Hf : first_rule_match text TYPE_RULES = "race") by (simpl; now rewrite Hr).
  rewrite Hf. reflexivity.
Qed.

(** Under the default rules every label [classify_workout] returns
    is one of the ten workout types of the spec. *)
Theorem classify_workout_default_labels w l :
  classify_workout json_loads w TYPE_RULES = Ok l -> In l TYPE_LABELS.
Proof.
  unfold classify_workout. intros H.
  destruct (classify_with_source json_loads w TYPE_RULES) as [[l' src] |] eqn:E;
    cbn [res_bind] in H; [| discriminate].
  injection H as <-.
  destruct (classify_with_source_cases _ _ _ _ _ E) as [[_ Hin] | [_ Hk]].
  - unfold STRUCTURE_LABELS, TYPE_LABELS in *. simpl in *. tauto.
  - unfold classify_by_keywords in Hk.
    destruct (normalized_text w) as [text |]; cbn [res_bind] in Hk; [| discriminate].
    assert (Hl : l' = first_rule_match text TYPE_RULES) by congruence. rewrite Hl.
    destruct (first_rule_match_cases text TYPE_RULES) as [-> | Hin]; [simpl; tauto |].
    simpl in Hin. unfold TYPE_LABELS. simpl. tauto.
Qed.

(** the metadata: the method is always "auto" and the type is the
    rule-based label; in "ai" mode the confidence is 0.6 with the
    fallback note; otherwise the confidence is 0.97 exactly when the
    label comes from the structure (and then a reasoning is given), and
    0.6 exactly when the label is "other". *)
Theorem classify_with_metadata_confidence w m rules c :
  classify_with_metadata json_loads w m rules = Ok c ->
  wc_method c = "auto" /\ classify_workout json_loads w rules = Ok (wc_type c) /\
  (m = "ai" -> wc_confidence c = CONFIDENCE_OTHER /\
               wc_reasoning c = Some "AI classification not configured; fell back to rules") /\
  (m <> "ai" -> (wc_confidence c = CONFIDENCE_STRUCTURE <-> wc_reasoning c <> None) /\
                (wc_confidence c = CONFIDENCE_OTHER <-> wc_type c = "other")).
Proof.
  unfold classify_with_metadata, classify_workout. intros H.
  destruct (classify_with_source json_loads w rules) as [[l src] |] eqn:E;
    cbn [res_bind] in H; [| discriminate].
  pose proof CONFIDENCE_distinct as (D1 & D2 & D3).
  destruct (String.eqb_spec m "ai") as [-> | Hm].
  - injection H as <-. simpl. repeat split; congruence.
  - injection H as <-. cbn [wc_method wc_type wc_confidence wc_reasoning].
    do 2 (split; [reflexivity |]). split; [congruence | intros _].
    destruct (classify_with_source_cases _ _ _ _ _ E) as [[-> Hin] | [-> _]].
    + simpl. split; split; try congruence.
      intros ->. unfold STRUCTURE_LABELS in Hin. simpl in Hin. intuition discriminate.
    + simpl. destruct (String.eqb_spec l "other") as [-> | Hl]; simpl;
        split; split; congruence.
Qed.

(** Every keyword of the rule table in effect (the configured one
    or the default) is in lower case, so no rule is unreachable against
    the lower-cased workout text. *)
Theorem classification_rules_lowercase cfg rules :
  classification_rules_from_config cfg = Ok rules ->
  Forall (fun r => Forall (fun k => lower k = k) (snd r)) rules.
Proof.
  unfold classification_rules_from_config. intros H.
  destruct (dict_get cfg "classification" (PDict [])) as [cls |]; cbn [res_bind] in H;
    [| discriminate].
  destruct (dict_get cls "rules" (PDict [])) as [configured |]; cbn [res_bind] in H;
    [| discriminate].
  destruct configured as [| | | | | | [| kv0 kv]]; try (injection H as <-; apply TYPE_RULES_lower).
  assert (Hr : rules = match flat_map config_rule (kv0 :: kv) with
                       | [] => TYPE_RULES | _ => flat_map config_rule (kv0 :: kv) end) by congruence.
  rewrite Hr. destruct (flat_map config_rule (kv0 :: kv)) as [| r rs] eqn:F;
    [apply TYPE_RULES_lower |].
  rewrite <- F. apply Forall_forall. intros [k kws] Hin.
  apply in_flat_map in Hin as ([key value] & _ & Hin). unfold config_rule in Hin.
  destruct (py_iter value); [| contradiction].
  destruct Hin as [Hin | []]. injection Hin as <- <-.
  apply Forall_forall. intros x Hx. apply in_map_iff in Hx as (it & <- & _).
  apply lower_idem.
Qed.
End ClassifierTheorems.

(** ** Examples *)

Definition no_json (_ : string) : res pyval := Raise JSONDecodeError.

Definition interval_step (secs mn mx : Z) (ic : string) : pyval :=
  PDict [("length", PDict [("unit", PStr "second"); ("value", PInt secs)]);
         ("targets", PList [PDict [("minValue", PInt mn); ("maxValue", PInt mx)]]);
         ("intensityClass", PStr ic)].

(** 5 x (4 min at 95-100%, 2 min at 50-60% rest): 1200 s of lt2 load. *)
Definition threshold_structure : pyval :=
  PDict [("primaryIntensityMetric", PStr "percentOfFtp");
         ("structure", PList [
            PDict [("type", PStr "repetition"); ("length", PDict [("value", PInt 5)]);
                   ("steps", PList [interval_step 240 95 100 "active";
                                    interval_step 120 50 60 "rest"])]])].

Definition race_workout : list (string * pyval) :=
  [("title", PStr "Race Day"); ("structure", threshold_structure)].

(** The spec's example (section 8): the structure alone says lt2, the
    title says race, and the label is race. *)
Lemma classify_workout_race_title_witness :
  classify_from_structure no_json (PDict race_workout) = Ok (Some "lt2") /\
  classify_workout no_json (PDict race_workout) TYPE_RULES = Ok "race".
Proof.
  split; [vm_compute; reflexivity |].
  apply (classify_workout_race_title no_json race_workout "Race Day"); reflexivity.
Defined.

Lemma classify_workout_default_labels_witness :
  classify_workout no_json (PDict [("title", PStr "Intervals"); ("structure", threshold_structure)])
    TYPE_RULES = Ok "lt2" /\ In "lt2" TYPE_LABELS.
Proof.
  split; [vm_compute; reflexivity |].
  apply (classify_workout_default_labels no_json
           (PDict [("title", PStr "Intervals"); ("structure", threshold_structure)])).
  vm_compute. reflexivity.
Defined.

Lemma classify_with_metadata_confidence_witness :
  exists c, classify_with_metadata no_json
              (PDict [("title", PStr "Intervals"); ("structure", threshold_structure)]) "auto"
              TYPE_RULES = Ok c /\
    wc_confidence c = CONFIDENCE_STRUCTURE /\ wc_reasoning c <> None.
Proof.
  eexists. split; [vm_compute; reflexivity |].
  match goal with |- wc_confidence ?c = _ /\ _ =>
    destruct (classify_with_metadata_confidence no_json
                (PDict [("title", PStr "Intervals"); ("structure", threshold_structure)]) "auto"
                TYPE_RULES c) as (_ & _ & _ & Hm);
    [vm_compute; reflexivity |] end.
  assert (Hne : "auto" <> "ai") by discriminate.
  destruct (Hm Hne) as [[Hc _] _].
  split; [reflexivity |]. apply Hc. reflexivity.
Defined.

Lemma classification_rules_lowercase_witness :
  classification_rules_from_config
    (PDict [("classification", PDict [("rules", PDict [("tempo", PList [PStr "Tempo"; PStr "Z3"])])])])
  = Ok [("tempo", ["tempo"; "z3"])] /\
  Forall (fun r => Forall (fun k => lower k = k) (snd r)) [("tempo", ["tempo"; "z3"])].
Proof.
  split; [reflexivity |].
  apply (classification_rules_lowercase
           (PDict [("classification", PDict [("rules", PDict [("tempo", PList [PStr "Tempo"; PStr "Z3"])])])])).
  reflexivity.
Defined.

(** A configured rule whose value is a string, not a list, is a rule
    whose keywords are that string's characters: ["tempo" = "z3"] makes
    every text containing a "z" or a "3" a [tempo] workout. *)
Example config_string_rule_splits :
  classification_rules_from_config
    (PDict [("classification", PDict [("rules", PDict [("tempo", PStr "z3")])])])
  = Ok [("tempo", ["z"; "3"])].
Proof. reflexivity. Qed.

(** A configured rule table produces labels outside the ten
    types of the spec: here [tempo]. *)
Example config_rule_label_outside_types :
  classify_workout no_json (PDict [("title", PStr "Tempo run")]) [("tempo", ["tempo"])] = Ok "tempo" /\
  ~ In "tempo" TYPE_LABELS.
Proof. split; [reflexivity | simpl; intuition discriminate]. Qed.
