(* ===== verification/Config.v ===== *)
(** * Config: defaults, merge and TOML writer of [core/config.py]

    [default_config] is [_default_config()] for the data directory that
    [default_data_dir()] resolves, [deep_merge] is [_deep_merge] on the
    items of two dicts, [load_config] picks the config file, checks its
    root and merges it into the defaults, [toml_literal] and [dict_to_toml]
    are the writer behind [save_config], and [zone_thresholds] is the
    threshold dict that [commands/analyze.py] builds from the CLI flags and
    the loaded config ("CLI flags > config > defaults").  The file system,
    [os.getenv] and [Path.resolve] stay outside: the data directory, the
    existence of the candidate files, their decoded contents and the
    environment are arguments.  The theorems: the merge looks every key up
    in the override first and merges nested tables; it keeps the base's
    keys in order and appends the new ones; the thresholds follow the
    stated precedence through a real [load_config]; a string without
    control characters is written as a TOML basic string that reads back
    as itself, and one with a newline is written so that TOML rejects it. *)

From Stdlib Require Import ZArith Lia Ascii String List Bool.
From S2P Require Import Prelude PyValue Zones.
Import ListNotations.
Open Scope string_scope.

(** ** [_deep_merge] and the defaults *)

(** [_deep_merge(merged, override)]: [merged] starts as the deep copy of
    the base, and each item of the override either merges into a dict
    already under its key or replaces the value.  The recursion is on the
    override value, whose items the inner loop walks. *)
Fixpoint deep_merge_v (merged : list (string * pyval)) (override : pyval) {struct override}
    : list (string * pyval) :=
  match override with
  | PDict items =>
      (fix loop (merged : list (string * pyval)) (items : list (string * pyval)) :=
         match items with
         | [] => merged
         | (key, value) :: rest =>
             let v := match value, assoc key merged with
                      | PDict _, Some (PDict bv) => PDict (deep_merge_v bv value)
                      | _, _ => value
                      end in
             loop (dict_set merged key v) rest
         end) merged items
  | _ => merged
  end.

Definition deep_merge (base override : list (string * pyval)) : list (string * pyval) :=
  deep_merge_v base (PDict override).

(** [data_dir / name] for a resolved (absolute) directory. *)
Definition path_div (dir name : string) : string :=
  if String.eqb dir "/" then "/" ++ name else dir ++ "/" ++ name.

(** [_default_config()] *)
Definition default_config (data_dir : string) : list (string * pyval) :=
  [("auth", PDict [("username", PNone); ("cookie_store", PStr (path_div data_dir "cookies.json"));
                   ("use_1password", PBool false); ("op_vault", PStr EmptyString);
                   ("op_cookie_document", PStr EmptyString); ("op_username_ref", PStr EmptyString);
                   ("op_password_ref", PStr EmptyString)]);
   ("defaults", PDict [("output_format", PStr "pretty"); ("date_range", PStr "last-30-days");
                       ("sports", PList [PStr "swim"; PStr "bike"; PStr "run"])]);
   ("classification", PDict [("method", PStr "auto"); ("rules", PDict []);
                             ("ai", PDict [("enabled", PBool false); ("model", PStr "gpt-4");
                                           ("api_key_env", PStr "OPENAI_API_KEY")])]);
   ("cache", PDict [("enabled", PBool true); ("directory", PStr (path_div data_dir "cache"));
                    ("raw_responses", PBool false)]);
   ("export", PDict [("default_directory", PStr "./workouts"); ("include_index", PBool true);
                     ("markdown_frontmatter", PBool true)]);
   ("zones", PDict [("easy_max", PInt 75); ("lt1_max", PInt 93); ("lt2_max", PInt 100)]);
   ("api", PDict [("rate_limit_delay", PFloat 10 (-1)); ("max_retries", PInt 3);
                  ("timeout_seconds", PInt 30)])].

(** ** [_read_config] and [load_config] *)

(** [_read_config(path)] after decoding: [None] is a file that
    [tomllib.loads] or [json.loads] rejects. *)
Definition read_config (decoded : option pyval) : res (list (string * pyval)) :=
  match decoded with
  | Some (PDict kv) => Ok kv
  | Some _ => Raise ConfigError
  | None => Raise ConfigError
  end.

Inductive config_source := Primary | Legacy.

(** The choice of [source] in [load_config]: the given or default path
    when it exists, else the legacy JSON file when no path was given. *)
Definition select_source (path_given cfg_exists legacy_exists : bool) : option config_source :=
  if cfg_exists then Some Primary
  else if negb path_given && legacy_exists then Some Legacy
  else None.

(** [load_config(path)]; [read src] is the decoded contents of [src]. *)
Definition load_config (data_dir : string) (path_given cfg_exists legacy_exists : bool)
    (read : config_source -> option pyval) : res (list (string * pyval)) :=
  let cfg := default_config data_dir in
  match select_source path_given cfg_exists legacy_exists with
  | None => Ok cfg
  | Some src => let* loaded := read_config (read src) in Ok (deep_merge cfg loaded)
  end.

(** [os.getenv(name) or alternative]: an empty variable is false. *)
Definition env_or (env : option string) (alternative : res pyval) : res pyval :=
  match env with
  | Some s => if String.eqb s EmptyString then alternative else Ok (PStr s)
  | None => alternative
  end.

(** The [raw] path of [resolve_cookie_store(config)] before [expand_path]. *)
Definition cookie_store_raw (env : option string) (config : list (string * pyval)) (data_dir : string) : res pyval :=
  let* raw := env_or env (let* auth := dict_get (PDict config) "auth" (PDict []) in
                          dict_get auth "cookie_store" PNone) in
  Ok (if truthy raw then raw else PStr (path_div data_dir "cookies.json")).

(** The [raw] path of [resolve_output_dir(config)] without an explicit
    directory, before [expand_path]. *)
Definition output_dir_raw (env : option string) (config : list (string * pyval)) : res pyval :=
  env_or env (let* export := dict_get (PDict config) "export" (PDict []) in
              dict_get export "default_directory" (PStr "./workouts")).

(** ** The thresholds of [commands/analyze.py] *)

(** [flag if flag is not None else config_zones.get(key, DEFAULT_ZONE_THRESHOLDS[key])] *)
Definition threshold_choice (flag : option pyval) (config_zones : pyval) (key : string) : res pyval :=
  match flag with
  | Some v => Ok v
  | None => let* d := getitem DEFAULT_ZONE_THRESHOLDS key in dict_get config_zones key d
  end.

(** The [thresholds] dict passed to [analyze_zones]. *)
Definition zone_thresholds (config : list (string * pyval)) (easy_max lt1_max lt2_max : option pyval) : res pyval :=
  let* config_zones := dict_get (PDict config) "zones" (PDict []) in
  let* e := threshold_choice easy_max config_zones "easy_max" in
  let* l1 := threshold_choice lt1_max config_zones "lt1_max" in
  let* l2 := threshold_choice lt2_max config_zones "lt2_max" in
  Ok (PDict [("easy_max", e); ("lt1_max", l1); ("lt2_max", l2)]).

(** ** The TOML writer of [save_config] *)

(** [value.replace("\\", "\\\\").replace('"', '\\"')] *)
Definition toml_escape (s : string) : string :=
  replace_char dquote (String "\" (String dquote EmptyString)) (replace_char "\" "\\" s).

(** [_toml_literal(value)]; the items of a list skip [None]. *)
Fixpoint toml_literal (v : pyval) : res string :=
  match v with
  | PBool b => Ok (if b then "true" else "false")
  | PInt _ | PFloat _ _ => Ok (py_str v)
  | PStr s => Ok (String dquote (toml_escape s ++ String dquote EmptyString))
  | PList l =>
      let* items :=
        (fix items (l : list pyval) : res (list string) :=
           match l with
           | [] => Ok []
           | PNone :: l' => items l'
           | x :: l' => let* y := toml_literal x in let* ys := items l' in Ok (y :: ys)
           end) l in
      Ok ("[" ++ join ", " items ++ "]")
  | PNone | PDict _ => Raise TypeError
  end.

(** The loop that appends a table and, except after the last one, a blank line. *)
Fixpoint sep_blank (ts : list string) : list string :=
  match ts with
  | [] => []
  | [t] => [t]
  | t :: ts' => t :: EmptyString :: sep_blank ts'
  end.

Definition table_name (prefix : option string) (key : string) : string :=
  match prefix with None => key | Some p => p ++ "." ++ key end.

Definition is_plain (kv : string * pyval) : bool :=
  match snd kv with PNone | PDict _ => false | _ => true end.

Definition is_nested (kv : string * pyval) : bool :=
  match snd kv with PDict _ => true | _ => false end.

Definition newline : string := String "010" EmptyString.

(** [_dict_to_toml(data, prefix)]: the header, the plain keys, a blank
    line when both kinds are present, then the nested tables. *)
Fixpoint dict_to_toml_v (data : pyval) (prefix : option string) {struct data} : res string :=
  match data with
  | PDict items =>
      let* plain_lines :=
        res_map_list (fun '(key, value) => let* lit := toml_literal value in Ok (key ++ " = " ++ lit))
          (filter is_plain items) in
      let* tables :=
        (fix tables (items : list (string * pyval)) : res (list string) :=
           match items with
           | [] => Ok []
           | (key, value) :: rest =>
               match value with
               | PDict _ =>
                   let* t := dict_to_toml_v value (Some (table_name prefix key)) in
                   let* ts := tables rest in Ok (t :: ts)
               | _ => tables rest
               end
           end) items in
      let header := match prefix with None => [] | Some p => ["[" ++ p ++ "]"] end in
      let blank := if existsb is_plain items && existsb is_nested items
                   then [EmptyString] else [] in
      Ok (join newline (app header (app plain_lines (app blank (sep_blank tables)))))
  | _ => Raise AttributeError
  end.

Definition dict_to_toml (data : list (string * pyval)) (prefix : option string) : res string :=
  dict_to_toml_v (PDict data) prefix.

(** The text [save_config] writes to a [.toml] path. *)
Definition save_config_text (config : list (string * pyval)) : res string :=
  let* text := dict_to_toml config None in Ok (strip text ++ newline).

(** ** TOML basic strings (TOML 1.0, section "String") *)

(** Control characters other than tab may not appear in a basic string. *)
Definition toml_control (c : ascii) : bool :=
  let n := nat_of_ascii c in ((n <? 32)%nat && negb (n =? 9)%nat) || (n =? 127)%nat.

(** The short escapes; [\u] and [\U] are not decoded (the writer never
    emits them). *)
Definition toml_unescape (e : ascii) : option ascii :=
  if Ascii.eqb e "b" then Some (ascii_of_nat 8)
  else if Ascii.eqb e "t" then Some (ascii_of_nat 9)
  else if Ascii.eqb e "n" then Some (ascii_of_nat 10)
  else if Ascii.eqb e "f" then Some (ascii_of_nat 12)
  else if Ascii.eqb e "r" then Some (ascii_of_nat 13)
  else if Ascii.eqb e dquote then Some dquote
  else if Ascii.eqb e "\" then Some "\"%char
  else None.

(** The body of a basic string up to its closing quote: the decoded text
    and what follows the quote, or [None] where a TOML reader fails. *)
Fixpoint toml_basic_body (s : string) : option (string * string) :=
  match s with
  | EmptyString => None
  | String c s' =>
      if Ascii.eqb c dquote then Some (EmptyString, s')
      else if Ascii.eqb c "\" then
        match s' with
        | EmptyString => None
        | String e s'' =>
            match toml_unescape e, toml_basic_body s'' with
            | Some d, Some (t, r) => Some (String d t, r)
            | _, _ => None
            end
        end
      else if toml_control c then None
      else match toml_basic_body s' with Some (t, r) => Some (String c t, r) | None => None end
  end.

Definition toml_basic_string (s : string) : option (string * string) :=
  match s with
  | String c s' => if Ascii.eqb c dquote then toml_basic_body s' else None
  | EmptyString => None
  end.

(** * Theorems *)

(** ** The merge *)

(** The value [_deep_merge] stores under a key of the override. *)
Definition merged_value (v : pyval) (b : option pyval) : pyval :=
  match v, b with
  | PDict o, Some (PDict bv) => PDict (deep_merge bv o)
  | _, _ => v
  end.

Lemma deep_merge_cons (m : list (string * pyval)) (k : string) (v : pyval) (rest : list (string * pyval)) :
  deep_merge m ((k, v) :: rest) = deep_merge (dict_set m k (merged_value v (assoc k m))) rest.
Proof. destruct v; try reflexivity; cbn; now destruct (assoc k m) as [[] |]. Qed.

Lemma merged_value_scalar (v b : pyval) : is_dict b = false -> merged_value v (Some b) = v.
Proof. intros Hb. destruct v, b; try discriminate; reflexivity. Qed.

(** The lookup in a merged dict. *)
Lemma deep_merge_lookup (b o : list (string * pyval)) (k : string) :
  NoDup (map fst o) ->
  assoc k (deep_merge b o) =
    match assoc k o with
    | Some v => Some (merged_value v (assoc k b))
    | None => assoc k b
    end.
Proof.
  revert b. induction o as [| [k0 v0] o IH]; intros b Hnd; [reflexivity |].
  inversion Hnd as [| ? ? Hk0 Hnd']; subst. rewrite deep_merge_cons, IH by exact Hnd'. cbn.
  destruct (String.eqb_spec k k0) as [-> | Hne].
  - now rewrite assoc_notin, assoc_dict_set by exact Hk0.
  - now rewrite assoc_dict_set_other by exact Hne.
Qed.

(** C16: Refinement of [_deep_merge] by its lookup: for an override with
    distinct keys (a decoded dict), a key of the override maps to its value,
    merged recursively into the base's value when both are dicts, and any
    other key keeps the base's value. *)
Theorem deep_merge_assoc (b o : list (string * pyval)) (k : string) :
  NoDup (map fst o) ->
  assoc k (deep_merge b o) =
    match assoc k o with
    | Some v => Some (merged_value v (assoc k b))
    | None => assoc k b
    end.
Proof. apply deep_merge_lookup. Qed.

Lemma deep_merge_assoc_witness :
  NoDup (map fst [("a", PDict [("b", PInt 9)]); ("y", PInt 4)]) /\
  assoc "a" (deep_merge [("a", PDict [("b", PInt 1); ("c", PInt 2)]); ("x", PInt 3)]
                        [("a", PDict [("b", PInt 9)]); ("y", PInt 4)]) =
    Some (PDict [("b", PInt 9); ("c", PInt 2)]).
Proof.
  assert (H : NoDup (map fst [("a", PDict [("b", PInt 9)]); ("y", PInt 4)]))
    by (repeat constructor; cbn; intuition discriminate).
  split; [exact H |].
  rewrite (deep_merge_assoc _ _ "a" H). reflexivity.
Defined.

(** Ordering of the merged dict: its keys are the base's keys in their
    order, followed by the override's new keys in the override's order. *)
Theorem deep_merge_keys (b o : list (string * pyval)) :
  NoDup (map fst o) ->
  map fst (deep_merge b o) = app (map fst b) (filter (fun k => negb (has_key b k)) (map fst o)).
Proof.
  revert b. induction o as [| [k0 v0] o IH]; intros b Hnd; [cbn; now rewrite app_nil_r |].
  inversion Hnd as [| ? ? Hk0 Hnd']; subst. rewrite deep_merge_cons, IH, dict_set_keys by exact Hnd'.
  assert (Hf : filter (fun k => negb (has_key (dict_set b k0 (merged_value v0 (assoc k0 b))) k)) (map fst o) =
               filter (fun k => negb (has_key b k)) (map fst o)).
  { apply filter_ext_in. intros k Hk. unfold has_key.
    rewrite assoc_dict_set_other by (intros ->; contradiction). reflexivity. }
  rewrite Hf. cbn [map filter fst]. destruct (has_key b k0); cbn;
    now rewrite <- ?app_assoc.
Qed.

Lemma deep_merge_keys_witness :
  NoDup (map fst [("a", PDict [("b", PInt 9)]); ("y", PInt 4)]) /\
  map fst (deep_merge [("a", PDict [("b", PInt 1); ("c", PInt 2)]); ("x", PInt 3)]
                      [("a", PDict [("b", PInt 9)]); ("y", PInt 4)]) = ["a"; "x"; "y"].
Proof.
  assert (H : NoDup (map fst [("a", PDict [("b", PInt 9)]); ("y", PInt 4)]))
    by (repeat constructor; cbn; intuition discriminate).
  split; [exact H |]. rewrite (deep_merge_keys _ _ H). reflexivity.
Defined.

(** ** CLI flags > config > defaults *)

(** The threshold the precedence promises: the flag, else the config
    table's entry, else the default. *)
Definition pick (flag : option pyval) (z : list (string * pyval)) (k : string) (d : pyval) : pyval :=
  match flag with
  | Some v => v
  | None => match assoc k z with Some v => v | None => d end
  end.

Definition zone_defaults : list (string * pyval) :=
  [("easy_max", PInt 75); ("lt1_max", PInt 93); ("lt2_max", PInt 100)].

Lemma threshold_choice_merge (flag : option pyval) (z : list (string * pyval)) (k : string) (d : pyval) :
  NoDup (map fst z) -> getitem DEFAULT_ZONE_THRESHOLDS k = Ok d -> assoc k zone_defaults = Some d ->
  is_dict d = false ->
  threshold_choice flag (PDict (deep_merge zone_defaults z)) k = Ok (pick flag z k d).
Proof.
  intros Hz Hg Hd Hnd. destruct flag as [v |]; [reflexivity |].
  unfold threshold_choice. rewrite Hg, res_bind_Ok. cbn [dict_get].
  rewrite deep_merge_lookup, Hd by exact Hz. unfold pick.
  destruct (assoc k z); [rewrite merged_value_scalar by exact Hnd |]; reflexivity.
Qed.

(** The [zones] table of the merged config. *)
Lemma config_zones_merged (data_dir : string) (l z : list (string * pyval)) :
  NoDup (map fst l) -> (assoc "zones" l = Some (PDict z) \/ (assoc "zones" l = None /\ z = [])) ->
  dict_get (PDict (deep_merge (default_config data_dir) l)) "zones" (PDict []) =
    Ok (PDict (deep_merge zone_defaults z)).
Proof.
  intros Hl Hz. cbn [dict_get]. rewrite deep_merge_lookup by exact Hl.
  destruct Hz as [-> | [-> ->]]; reflexivity.
Qed.

(** C22: Composition of [load_config] with the thresholds of
    [commands/analyze.py]: when the chosen config file decodes to a dict
    whose [zones] entry, if any, is a table, [load_config] succeeds and each
    threshold is the CLI flag when given, else the file's entry, else the
    default 75 / 93 / 100. *)
Theorem zone_thresholds_precedence (data_dir : string) (path_given cfg_exists legacy_exists : bool)
    (read : config_source -> option pyval) (src : config_source) (l z : list (string * pyval))
    (easy_max lt1_max lt2_max : option pyval) :
  select_source path_given cfg_exists legacy_exists = Some src -> read src = Some (PDict l) ->
  NoDup (map fst l) -> (assoc "zones" l = Some (PDict z) \/ (assoc "zones" l = None /\ z = [])) ->
  NoDup (map fst z) ->
  exists cfg, load_config data_dir path_given cfg_exists legacy_exists read = Ok cfg /\
    zone_thresholds cfg easy_max lt1_max lt2_max =
      Ok (PDict [("easy_max", pick easy_max z "easy_max" (PInt 75));
                 ("lt1_max", pick lt1_max z "lt1_max" (PInt 93));
                 ("lt2_max", pick lt2_max z "lt2_max" (PInt 100))]).
Proof.
  intros Hs Hr Hl Hzl Hz. unfold load_config. rewrite Hs, Hr. cbn [read_config res_bind].
  eexists; split; [reflexivity |]. unfold zone_thresholds.
  rewrite (config_zones_merged data_dir l z) by assumption. rewrite res_bind_Ok.
  rewrite (threshold_choice_merge easy_max z "easy_max" (PInt 75)),
    (threshold_choice_merge lt1_max z "lt1_max" (PInt 93)),
    (threshold_choice_merge lt2_max z "lt2_max" (PInt 100)) by (assumption || reflexivity).
  reflexivity.
Qed.

Lemma zone_thresholds_precedence_witness :
  exists cfg,
    load_config "/home/u/.local/share/tp" true true false
      (fun _ => Some (PDict [("zones", PDict [("easy_max", PInt 80)])])) = Ok cfg /\
    zone_thresholds cfg None (Some (PFloat 90 0)) None =
      Ok (PDict [("easy_max", PInt 80); ("lt1_max", PFloat 90 0); ("lt2_max", PInt 100)]).
Proof.
  refine (zone_thresholds_precedence "/home/u/.local/share/tp" true true false
            (fun _ => Some (PDict [("zones", PDict [("easy_max", PInt 80)])])) Primary
            [("zones", PDict [("easy_max", PInt 80)])] [("easy_max", PInt 80)]
            None (Some (PFloat 90 0)) None eq_refl eq_refl _ _ _).
  - repeat constructor; cbn; tauto.
  - left. reflexivity.
  - repeat constructor; cbn; tauto.
Defined.

(** ** TOML strings *)

(** The escape [toml_escape] gives one character. *)
Definition toml_escape_char (c : ascii) : string :=
  if Ascii.eqb c "\" then "\\"
  else if Ascii.eqb c dquote then String "\" (String dquote EmptyString)
  else String c EmptyString.

Lemma toml_escape_cons (c : ascii) (s : string) :
  toml_escape (String c s) = toml_escape_char c ++ toml_escape s.
Proof.
  unfold toml_escape, toml_escape_char. cbn [replace_char]. rewrite replace_char_app. f_equal.
  destruct (Ascii.eqb_spec c "\") as [-> | Hb]; [reflexivity |].
  cbn [replace_char]. rewrite string_app_nil_r. now destruct (Ascii.eqb c dquote).
Qed.

(** The one-pass escape a TOML writer specifies: each backslash and each
    quote gets its own backslash. *)
Fixpoint toml_escape_ref (s : string) : string :=
  match s with
  | EmptyString => EmptyString
  | String c s' => toml_escape_char c ++ toml_escape_ref s'
  end.

(** Equivalence of the two chained [str.replace] passes of
    [_toml_literal] with the one-pass escape: replacing backslashes first
    and quotes second escapes every character once, never the backslash
    the second pass inserts. *)
Theorem toml_escape_equiv (s : string) : toml_escape s = toml_escape_ref s.
Proof. induction s as [| c s IH]; [reflexivity |]. now rewrite toml_escape_cons, IH. Qed.

Lemma toml_body_escape (s rest : string) :
  all_chars (fun c => negb (toml_control c)) s = true ->
  toml_basic_body (toml_escape s ++ String dquote rest) = Some (s, rest).
Proof.
  induction s as [| c s IH]; intros Hs; [reflexivity |].
  cbn [all_chars] in Hs. apply andb_true_iff in Hs as [Hc Hs].
  rewrite toml_escape_cons, <- string_app_assoc. unfold toml_escape_char.
  destruct (Ascii.eqb_spec c "\") as [-> | Hb]; [cbn; now rewrite IH |].
  destruct (Ascii.eqb_spec c dquote) as [-> | Hq]; [cbn; now rewrite IH |].
  cbn [append toml_basic_body]. apply negb_true_iff in Hc. rewrite Hc, IH by exact Hs.
  destruct (Ascii.eqb_spec c dquote); [contradiction |]. destruct (Ascii.eqb_spec c "\"); [contradiction |].
  reflexivity.
Qed.

(** C23: Round trip of [_toml_literal] on strings: a string without control
    characters other than tab is written as a TOML basic string that a TOML
    reader decodes back to the same string, with nothing after the closing
    quote. *)
Theorem toml_string_roundtrip (s : string) :
  all_chars (fun c => negb (toml_control c)) s = true ->
  exists lit, toml_literal (PStr s) = Ok lit /\ toml_basic_string lit = Some (s, EmptyString).
Proof.
  intros Hs. eexists; split; [reflexivity |]. cbn [toml_basic_string].
  rewrite Ascii.eqb_refl. exact (toml_body_escape s EmptyString Hs).
Qed.

Lemma toml_string_roundtrip_witness :
  all_chars (fun c => negb (toml_control c)) (String dquote "op:\Vault	TP") = true /\
  exists lit, toml_literal (PStr (String dquote "op:\Vault	TP")) = Ok lit /\
    toml_basic_string lit = Some (String dquote "op:\Vault	TP", EmptyString).
Proof.
  split; [reflexivity | apply toml_string_roundtrip; reflexivity].
Defined.

(** [_toml_literal] escapes only backslash and double quote: a string
    with a newline is written inside a basic string as it is, and a TOML
    reader rejects the line, so [load_config] of the saved file raises
    [ConfigError]. *)
Example toml_newline_rejected :
  toml_literal (PStr (String "a" (String "010" "b"))) = Ok (String dquote (String "a" (String "010" (String "b" (String dquote EmptyString))))) /\
  toml_basic_string (String dquote (String "a" (String "010" (String "b" (String dquote EmptyString))))) = None /\
  load_config "/home/u" true true false (fun _ => None) = Raise ConfigError.
Proof. repeat split; reflexivity. Qed.

(** [_dict_to_toml] writes keys bare: a key with a space (or a dot) gives a
    line that a TOML reader rejects (or reads as a dotted key). *)
Example dict_to_toml_bare_key :
  dict_to_toml [("auth", PDict [("op vault", PStr "x")])] None =
    Ok ("[auth]" ++ newline ++ "op vault = " ++ String dquote (String "x" (String dquote EmptyString))).
Proof. reflexivity. Qed.
