(* ===== verification/Dates.v ===== *)
(** * Dates: the calendar operations the reports rely on

    [analysis.py] parses workout days with
    [datetime.strptime(value[:10], "%Y-%m-%d")], derives ISO week keys
    with [isocalendar()], Monday-aligned week starts with [weekday()] and
    [timedelta], the next calendar day, and prints dates with
    [strftime("%Y-%m-%d")].  These are CPython library functions; this
    file models them after CPython's [_strptime] and [datetime] modules:
    the [%Y-%m-%d] regular expression with its alternatives tried in
    order, the proleptic Gregorian ordinal ([toordinal], [fromordinal]),
    [weekday], [isocalendar], and [date + timedelta] with its
    [OverflowError] outside years 1..9999, and the tuple comparison of
    dates used by [utils/date_ranges.py].

    The lemmas at the end show that [toordinal] is strictly increasing
    on calendar dates, that [toordinal] and [fromordinal] are inverse on
    years 1..9999 ([toordinal_fromordinal], [fromordinal_toordinal]),
    and what [d + timedelta(days=k)] returns ([add_days_Ok]).  The round
    trip is checked by evaluation on the first 400-year cycle
    ([first_cycle], 146097 days) and carried to the other cycles by
    [fromordinal_cycle] and [toordinal_shift]. *)

From Stdlib Require Import ZArith Lia Ascii String List Bool.
From stdpp Require Import base decidable.
From S2P Require Import Prelude PyValue.
Import ListNotations.
Open Scope string_scope.
Open Scope Z_scope.

Record date : Type := Date { year : Z; month : Z; day : Z }.

#[export] Instance date_eq_dec : EqDecision date.
Proof. solve_decision. Defined.

Definition is_leap (y : Z) : bool :=
  (y mod 4 =? 0) && (negb (y mod 100 =? 0) || (y mod 400 =? 0)).

(** [_DAYS_IN_MONTH] with February of leap years. *)
Definition days_in_month (y m : Z) : Z :=
  match m with
  | 1 | 3 | 5 | 7 | 8 | 10 | 12 => 31
  | 4 | 6 | 9 | 11 => 30
  | 2 => if is_leap y then 29 else 28
  | _ => 0
  end.

(** [_DAYS_BEFORE_MONTH] *)
Definition days_before_month_table (m : Z) : Z :=
  match m with
  | 1 => 0 | 2 => 31 | 3 => 59 | 4 => 90 | 5 => 120 | 6 => 151
  | 7 => 181 | 8 => 212 | 9 => 243 | 10 => 273 | 11 => 304 | 12 => 334
  | _ => 0
  end.

Definition days_before_year (y : Z) : Z :=
  let y' := y - 1 in y' * 365 + y' / 4 - y' / 100 + y' / 400.

Definition days_before_month (y m : Z) : Z :=
  days_before_month_table m + (if (2 <? m) && is_leap y then 1 else 0).

(** [date.toordinal()]: 0001-01-01 is day 1. *)
Definition toordinal (d : date) : Z :=
  days_before_year (year d) + days_before_month (year d) (month d) + day d.

(** [date.fromordinal(n)] ([_ord2ymd]). *)
Definition fromordinal (n0 : Z) : date :=
  let n := n0 - 1 in
  let n400 := n / 146097 in let n := n mod 146097 in
  let n100 := n / 36524 in let n := n mod 36524 in
  let n4 := n / 1461 in let n := n mod 1461 in
  let n1 := n / 365 in let n := n mod 365 in
  let y := n400 * 400 + 1 + n100 * 100 + n4 * 4 + n1 in
  if (n1 =? 4) || (n100 =? 4) then Date (y - 1) 12 31
  else
    let leap := (n1 =? 3) && (negb (n4 =? 24) || (n100 =? 3)) in
    let m := Z.shiftr (n + 50) 5 in
    let preceding := days_before_month_table m + (if (2 <? m) && leap then 1 else 0) in
    if n <? preceding then
      let m' := m - 1 in
      let preceding' := preceding - (days_in_month 2001 m' + (if (m' =? 2) && leap then 1 else 0)) in
      Date y m' (n - preceding' + 1)
    else Date y m (n - preceding + 1).

(** The ordinals of [date.min] and [date.max]. *)
Definition MAXORDINAL : Z := 3652059.

Definition valid_date (d : date) : bool :=
  (1 <=? year d) && (year d <=? 9999) && (1 <=? month d) && (month d <=? 12) &&
  (1 <=? day d) && (day d <=? days_in_month (year d) (month d)).

(** [date.weekday()]: Monday is 0. *)
Definition weekday (d : date) : Z := (toordinal d + 6) mod 7.

(** [_isoweek1monday(year)] *)
Definition isoweek1monday (y : Z) : Z :=
  let firstday := toordinal (Date y 1 1) in
  let firstweekday := (firstday + 6) mod 7 in
  let week1monday := firstday - firstweekday in
  if 3 <? firstweekday then week1monday + 7 else week1monday.

(** [date.isocalendar()[:2]]: the ISO year and week. *)
Definition isocalendar (d : date) : Z * Z :=
  let today := toordinal d in
  let y := year d in
  let w := (today - isoweek1monday y) / 7 in
  if w <? 0 then (y - 1, (today - isoweek1monday (y - 1)) / 7 + 1)
  else if (52 <=? w) && (isoweek1monday (y + 1) <=? today) then (y + 1, 1)
  else (y, w + 1).

(** [d + timedelta(days=n)] *)
Definition add_days (d : date) (n : Z) : res date :=
  let o := toordinal d + n in
  if (1 <=? o) && (o <=? MAXORDINAL) then Ok (fromordinal o) else Raise OverflowError.

(** ** [strptime(s, "%Y-%m-%d")] *)

Definition digit (c : ascii) : option Z :=
  match digit_value c with Some n => Some (Z.of_nat n) | None => None end.

(** [(?P<Y>\d\d\d\d)] *)
Definition match_Y (s : string) : option (Z * string) :=
  match s with
  | String a (String b (String c (String d rest))) =>
      match digit a, digit b, digit c, digit d with
      | Some a, Some b, Some c, Some d => Some (((a * 10 + b) * 10 + c) * 10 + d, rest)
      | _, _, _, _ => None
      end
  | _ => None
  end.

(** The alternatives of [(?P<m>1[0-2]|0[1-9]|[1-9])] that match at the
    start of [s], in the order the regular expression tries them. *)
Definition match_m (s : string) : list (Z * string) :=
  let two := (match s with
             | String a (String b rest) =>
                 match digit a, digit b with
                 | Some 1, Some b => if b <=? 2 then [(10 + b, rest)] else []
                 | _, _ => []
                 end ++ 
                 match digit a, digit b with
                 | Some 0, Some b => if 1 <=? b then [(b, rest)] else []
                 | _, _ => []
                 end
             | _ => []
             end)%list in
  let one := match s with
             | String a rest => match digit a with Some a => if 1 <=? a then [(a, rest)] else [] | None => [] end
             | _ => []
             end in
  (two ++ one)%list.

(** The alternatives of [(?P<d>3[01]|[12]\d|0[1-9]|[1-9]| [1-9])]. *)
Definition match_d (s : string) : list (Z * string) :=
  let two := (match s with
             | String a (String b rest) =>
                 match digit a, digit b with
                 | Some 3, Some b => if b <=? 1 then [(30 + b, rest)] else []
                 | _, _ => []
                 end ++ 
                 match digit a, digit b with
                 | Some a, Some b => if (1 <=? a) && (a <=? 2) then [(a * 10 + b, rest)] else []
                 | _, _ => []
                 end ++ 
                 match digit a, digit b with
                 | Some 0, Some b => if 1 <=? b then [(b, rest)] else []
                 | _, _ => []
                 end
             | _ => []
             end)%list in
  let one := match s with
             | String a rest => match digit a with Some a => if 1 <=? a then [(a, rest)] else [] | None => [] end
             | _ => []
             end in
  let space := match s with
               | String " " (String b rest) =>
                   match digit b with Some b => if 1 <=? b then [(b, rest)] else [] | None => [] end
               | _ => []
               end in
  (two ++ one ++ space)%list.

Definition match_dash (s : string) : option string :=
  match s with String "-" rest => Some rest | _ => None end.

(** The first way the regular expression matches a prefix of [s],
    trying the month alternatives, then the day alternatives, in order. *)
Definition match_ymd (s : string) : option (Z * Z * Z * string) :=
  match match_Y s with
  | None => None
  | Some (y, s1) =>
      match match_dash s1 with
      | None => None
      | Some s2 =>
          let fix try_m (ms : list (Z * string)) :=
            match ms with
            | [] => None
            | (m, s3) :: ms' =>
                match match_dash s3 with
                | Some s4 =>
                    match match_d s4 with
                    | (d, rest) :: _ => Some (y, m, d, rest)
                    | [] => try_m ms'
                    end
                | None => try_m ms'
                end
            end in
          try_m (match_m s2)
      end
  end.

(** [datetime.strptime(s, "%Y-%m-%d")]: no match, unconverted data or
    an impossible date raise [ValueError]. *)
Definition strptime_ymd (s : string) : res date :=
  match match_ymd s with
  | Some (y, m, d, EmptyString) =>
      let dt := Date y m d in
      if valid_date dt then Ok dt else Raise ValueError
  | _ => Raise ValueError
  end.

(** [_workout_date(value)]: [datetime.strptime(value[:10], "%Y-%m-%d")];
    a value that is not a string is rejected by [strptime] (or by the
    slice). *)
Definition workout_date (value : pyval) : res date :=
  match value with
  | PStr s => strptime_ymd (take 10 s)
  | _ => Raise TypeError
  end.

(** [f"{n:04d}"] for [0 <= n] *)
Definition pad4 (n : Z) : string :=
  let s := string_of_Z n in
  substring 0 (4 - String.length s) "0000" ++ s.

(** [d.strftime("%Y-%m-%d")] *)
Definition strftime_ymd (d : date) : string :=
  pad4 (year d) ++ "-" ++ pad2 (month d) ++ "-" ++ pad2 (day d).

(** [d.strftime("%Y-%m")] *)
Definition strftime_ym (d : date) : string := pad4 (year d) ++ "-" ++ pad2 (month d).

(** [f"{iso[0]}-W{iso[1]:02d}"] *)
Definition iso_week_key (d : date) : string :=
  let '(y, w) := isocalendar d in string_of_Z y ++ "-W" ++ pad2 w.

(** [date < date] and [date <= date]: CPython compares dates as
    [(year, month, day)] tuples. *)
Definition date_ltb (a b : date) : bool :=
  (year a <? year b) ||
  ((year a =? year b) && ((month a <? month b) || ((month a =? month b) && (day a <? day b)))).

Definition date_leb (a b : date) : bool := negb (date_ltb b a).

(** [min(a, b)] returns [a] unless [b < a]. *)
Definition date_min (a b : date) : date := if date_ltb b a then b else a.

(** ** The proleptic Gregorian calendar

    [toordinal] and [fromordinal] are inverse on the dates of years
    1..9999.  The proof checks the first 400-year cycle (146097 days)
    by evaluation and carries it to the others, since shifting a date by
    400 years shifts its ordinal by 146097. *)

Definition calendar_ok (d : date) : bool :=
  (1 <=? month d) && (month d <=? 12) && (1 <=? day d) && (day d <=? days_in_month (year d) (month d)).

Definition shift_years (k : Z) (d : date) : date := Date (year d + k) (month d) (day d).

Definition ord_ok (n : Z) : bool :=
  let d := fromordinal n in (toordinal d =? n) && calendar_ok d && (1 <=? year d).

Fixpoint cycle_ok (fuel : nat) (n : Z) : bool :=
  match fuel with O => true | S f => ord_ok n && cycle_ok f (n + 1) end.

Ltac month_cases m :=
  assert (m = 1 \/ m = 2 \/ m = 3 \/ m = 4 \/ m = 5 \/ m = 6 \/ m = 7 \/ m = 8 \/
          m = 9 \/ m = 10 \/ m = 11 \/ m = 12) as [|[|[|[|[|[|[|[|[|[|[|]]]]]]]]]]] by lia; subst m.

Lemma is_leap_shift y q : is_leap (y + 400 * q) = is_leap y.
Proof.
  unfold is_leap.
  replace (y + 400 * q) with (y + (100 * q) * 4) by ring. rewrite Z.mod_add by lia.
  replace (y + 100 * q * 4) with (y + (4 * q) * 100) by ring. rewrite Z.mod_add by lia.
  replace (y + 4 * q * 100) with (y + q * 400) by ring. rewrite Z.mod_add by lia.
  reflexivity.
Qed.

Lemma days_before_year_shift y q : days_before_year (y + 400 * q) = days_before_year y + 146097 * q.
Proof.
  unfold days_before_year.
  replace (y + 400 * q - 1) with ((y - 1) + (100 * q) * 4) by ring. rewrite Z.div_add by lia.
  replace (y - 1 + 100 * q * 4) with ((y - 1) + (4 * q) * 100) by ring. rewrite Z.div_add by lia.
  replace (y - 1 + 4 * q * 100) with ((y - 1) + q * 400) by ring. rewrite Z.div_add by lia.
  ring.
Qed.

Lemma days_before_year_succ y :
  days_before_year (y + 1) = days_before_year y + (if is_leap y then 366 else 365).
Proof.
  unfold days_before_year, is_leap.
  destruct (y mod 4 =? 0) eqn:E4, (y mod 100 =? 0) eqn:E100, (y mod 400 =? 0) eqn:E400;
    simpl; rewrite ?Z.eqb_eq, ?Z.eqb_neq in *; Z.to_euclidean_division_equations; lia.
Qed.

Lemma days_before_year_mono y y' : y <= y' -> days_before_year y <= days_before_year y'.
Proof. unfold days_before_year. intros. Z.to_euclidean_division_equations. lia. Qed.

Lemma toordinal_shift d q : toordinal (shift_years (400 * q) d) = toordinal d + 146097 * q.
Proof.
  destruct d as [y m dd]. unfold toordinal, shift_years, days_before_month; simpl.
  rewrite days_before_year_shift, is_leap_shift. ring.
Qed.

Lemma calendar_ok_shift d q : calendar_ok (shift_years (400 * q) d) = calendar_ok d.
Proof. destruct d. unfold calendar_ok, shift_years, days_in_month; simpl. now rewrite is_leap_shift. Qed.

(** [_ord2ymd] first splits off whole 400-year cycles. *)
Lemma fromordinal_cycle n0 :
  fromordinal n0 = shift_years (400 * ((n0 - 1) / 146097)) (fromordinal ((n0 - 1) mod 146097 + 1)).
Proof.
  assert (Hr : 0 <= (n0 - 1) mod 146097 < 146097) by (apply Z.mod_pos_bound; lia).
  unfold fromordinal.
  replace ((n0 - 1) mod 146097 + 1 - 1) with ((n0 - 1) mod 146097) by ring.
  cbv zeta.
  rewrite (Z.div_small ((n0 - 1) mod 146097) 146097), (Z.mod_small ((n0 - 1) mod 146097) 146097) by lia.
  repeat match goal with |- context [if ?c then _ else _] => destruct c end;
    unfold shift_years; simpl; f_equal; lia.
Qed.

Lemma cycle_ok_spec fuel n :
  cycle_ok fuel n = true -> forall k, n <= k < n + Z.of_nat fuel -> ord_ok k = true.
Proof.
  revert n. induction fuel as [|f IH]; simpl; intros n H k Hk; [lia|].
  apply andb_true_iff in H as [H1 H2].
  destruct (Z.eq_dec k n) as [->|]; [exact H1|].
  apply (IH (n + 1)); [exact H2|lia].
Qed.

(** The first 400 years, day by day. *)
Lemma first_cycle : cycle_ok (Z.to_nat 146097) 1 = true.
Proof. vm_compute. reflexivity. Qed.

Lemma days_in_month_bounds y m : 1 <= m <= 12 ->
  0 <= days_before_month y m /\
  days_before_month y m + days_in_month y m <= if is_leap y then 366 else 365.
Proof. intros. month_cases m; unfold days_before_month, days_in_month; simpl; destruct (is_leap y); lia. Qed.

Lemma days_before_month_lt y m m' : 1 <= m < m' -> m' <= 12 ->
  days_before_month y m + days_in_month y m <= days_before_month y m'.
Proof.
  intros. month_cases m'; month_cases m; try lia;
    unfold days_before_month, days_in_month; simpl; destruct (is_leap y); lia.
Qed.

Lemma calendar_okP d : calendar_ok d = true <->
  1 <= month d <= 12 /\ 1 <= day d <= days_in_month (year d) (month d).
Proof. unfold calendar_ok. rewrite !andb_true_iff, !Z.leb_le. tauto. Qed.

Lemma valid_date_calendar d : valid_date d = true <->
  1 <= year d <= 9999 /\ calendar_ok d = true.
Proof. unfold valid_date. rewrite calendar_okP, !andb_true_iff, !Z.leb_le. tauto. Qed.

(** A date of year [y] lies in [days_before_year y + 1 .. days_before_year (y + 1)]. *)
Lemma toordinal_year_bounds d : calendar_ok d = true ->
  days_before_year (year d) + 1 <= toordinal d <= days_before_year (year d + 1).
Proof.
  intros H%calendar_okP. destruct d as [y m dd]; simpl in *.
  destruct (days_in_month_bounds y m) as [H1 H2]; [lia|].
  unfold toordinal; simpl. rewrite days_before_year_succ. destruct (is_leap y); lia.
Qed.

Lemma date_ltb_trichotomy a b : a <> b -> date_ltb a b = true \/ date_ltb b a = true.
Proof.
  destruct a as [y m d], b as [y' m' d']; unfold date_ltb; simpl; intros Hne.
  rewrite !orb_true_iff, !andb_true_iff, !Z.ltb_lt, !Z.eqb_eq.
  destruct (Z.eq_dec y y'), (Z.eq_dec m m'), (Z.eq_dec d d'); subst; try congruence; lia.
Qed.

(** [toordinal] is strictly increasing on calendar dates. *)
Lemma toordinal_lt a b : calendar_ok a = true -> calendar_ok b = true ->
  date_ltb a b = true -> toordinal a < toordinal b.
Proof.
  intros Ha Hb Hlt.
  pose proof (toordinal_year_bounds a Ha). pose proof (toordinal_year_bounds b Hb).
  apply calendar_okP in Ha, Hb. destruct a as [y m d], b as [y' m' d']; simpl in *.
  unfold date_ltb in Hlt; simpl in Hlt.
  repeat rewrite ?orb_true_iff, ?andb_true_iff, ?Z.ltb_lt, ?Z.eqb_eq in Hlt.
  destruct Hlt as [Hy|[-> [Hm|[-> Hd]]]].
  - pose proof (days_before_year_mono (y + 1) y'). lia.
  - pose proof (days_before_month_lt y' m m'). unfold toordinal; simpl. lia.
  - unfold toordinal; simpl. lia.
Qed.

Lemma toordinal_inj a b : calendar_ok a = true -> calendar_ok b = true ->
  toordinal a = toordinal b -> a = b.
Proof.
  intros Ha Hb He. destruct (decide (a = b)) as [|Hne]; [assumption|].
  destruct (date_ltb_trichotomy a b Hne) as [H|H];
    [pose proof (toordinal_lt a b Ha Hb H) | pose proof (toordinal_lt b a Hb Ha H)]; lia.
Qed.

(** [a <= b] on calendar dates is [<=] on their ordinals. *)
Lemma date_leb_toordinal a b : calendar_ok a = true -> calendar_ok b = true ->
  date_leb a b = (toordinal a <=? toordinal b).
Proof.
  intros Ha Hb. unfold date_leb. destruct (date_ltb b a) eqn:E; simpl.
  - pose proof (toordinal_lt b a Hb Ha E). symmetry. apply Z.leb_gt. lia.
  - symmetry. apply Z.leb_le. destruct (decide (a = b)) as [->|Hne]; [lia|].
    destruct (date_ltb_trichotomy a b Hne) as [H|H]; [|congruence].
    pose proof (toordinal_lt a b Ha Hb H). lia.
Qed.

Lemma days_before_year_max : days_before_year 10000 = MAXORDINAL.
Proof. reflexivity. Qed.

(** [date.fromordinal(n).toordinal() == n], and the date is valid, for
    every ordinal of [date.min .. date.max]. *)
Lemma toordinal_fromordinal n : 1 <= n <= MAXORDINAL ->
  toordinal (fromordinal n) = n /\ valid_date (fromordinal n) = true.
Proof.
  intros Hn. rewrite fromordinal_cycle.
  set (q := (n - 1) / 146097). set (r := (n - 1) mod 146097).
  assert (Hr : 0 <= r < 146097) by (apply Z.mod_pos_bound; lia).
  assert (Hq : n - 1 = 146097 * q + r) by (apply Z.div_mod; lia).
  assert (Hq0 : 0 <= q) by (apply Z.div_pos; lia).
  assert (Hok : ord_ok (r + 1) = true).
  { apply (cycle_ok_spec _ _ first_cycle). rewrite Z2Nat.id; lia. }
  unfold ord_ok in Hok. rewrite !andb_true_iff, Z.eqb_eq, Z.leb_le in Hok.
  destruct Hok as [[Ht Hc] Hy].
  assert (Ht' : toordinal (shift_years (400 * q) (fromordinal (r + 1))) = n)
    by (rewrite toordinal_shift; lia).
  split; [exact Ht'|]. apply valid_date_calendar. rewrite calendar_ok_shift.
  split; [|exact Hc]. unfold shift_years; simpl. split; [lia|].
  rewrite <- (calendar_ok_shift _ q) in Hc.
  pose proof (toordinal_year_bounds _ Hc) as Hb. rewrite Ht' in Hb. unfold shift_years in Hb; simpl in Hb.
  destruct (Z.le_gt_cases (year (fromordinal (r + 1)) + 400 * q) 9999); [assumption|].
  pose proof (days_before_year_mono 10000 (year (fromordinal (r + 1)) + 400 * q)).
  unfold MAXORDINAL in *. rewrite days_before_year_max in *. unfold MAXORDINAL in *. lia.
Qed.

Lemma toordinal_range d : valid_date d = true -> 1 <= toordinal d <= MAXORDINAL.
Proof.
  intros [Hy Hc]%valid_date_calendar.
  pose proof (toordinal_year_bounds d Hc).
  pose proof (days_before_year_mono 1 (year d)). pose proof (days_before_year_mono (year d + 1) 10000).
  assert (days_before_year 1 = 0) by reflexivity.
  rewrite days_before_year_max in *. lia.
Qed.

(** [date.fromordinal(d.toordinal()) == d] *)
Lemma fromordinal_toordinal d : valid_date d = true -> fromordinal (toordinal d) = d.
Proof.
  intros Hd. destruct (toordinal_fromordinal (toordinal d)) as [Ht Hv]; [now apply toordinal_range|].
  apply toordinal_inj; [apply valid_date_calendar in Hv | apply valid_date_calendar in Hd|]; tauto.
Qed.

(** [d + timedelta(days=k)] is the valid date [k] days after [d]. *)
Lemma add_days_Ok d k d' : add_days d k = Ok d' ->
  valid_date d' = true /\ toordinal d' = toordinal d + k.
Proof.
  unfold add_days. destruct ((1 <=? toordinal d + k) && (toordinal d + k <=? MAXORDINAL)) eqn:E;
    [|discriminate]. intros [= <-]. rewrite andb_true_iff, !Z.leb_le in E.
  destruct (toordinal_fromordinal (toordinal d + k) E). tauto.
Qed.

Lemma add_days_in_range d k : 1 <= toordinal d + k <= MAXORDINAL ->
  add_days d k = Ok (fromordinal (toordinal d + k)).
Proof.
  intros H. unfold add_days. destruct (andb_true_iff (1 <=? toordinal d + k) (toordinal d + k <=? MAXORDINAL)) as [_ Hb].
  rewrite Hb; [reflexivity|]. rewrite !Z.leb_le. lia.
Qed.

Lemma add_days_out_of_range d k : ~ (1 <= toordinal d + k <= MAXORDINAL) ->
  add_days d k = Raise OverflowError.
Proof.
  intros H. unfold add_days.
  destruct ((1 <=? toordinal d + k) && (toordinal d + k <=? MAXORDINAL)) eqn:E; [|reflexivity].
  rewrite andb_true_iff, !Z.leb_le in E. tauto.
Qed.

Lemma date_min_toordinal a b : calendar_ok a = true -> calendar_ok b = true ->
  date_min a b = if toordinal b <? toordinal a then b else a.
Proof.
  intros Ha Hb. unfold date_min.
  pose proof (date_leb_toordinal a b Ha Hb) as H. unfold date_leb in H.
  destruct (date_ltb b a), (toordinal b <? toordinal a) eqn:E; simpl in H; try reflexivity;
    symmetry in H; rewrite ?Z.leb_le, ?Z.leb_gt, ?Z.ltb_lt, ?Z.ltb_ge in *; lia.
Qed.

Lemma valid_calendar d : valid_date d = true -> calendar_ok d = true.
Proof. now intros [_ ?]%valid_date_calendar. Qed.
#[export] Hint Resolve valid_calendar : tpcli.

(** The first day of a month follows the last day of the month before. *)
Lemma toordinal_next_month y m : 1 <= m <= 11 ->
  toordinal (Date y (m + 1) 1) = toordinal (Date y m (days_in_month y m)) + 1.
Proof.
  intros. unfold toordinal; simpl. month_cases m;
    unfold days_before_month, days_in_month; simpl; destruct (is_leap y); lia.
Qed.

Lemma toordinal_next_year y :
  toordinal (Date (y + 1) 1 1) = toordinal (Date y 12 31) + 1.
Proof.
  unfold toordinal, days_before_month; simpl. rewrite days_before_year_succ.
  destruct (is_leap y); simpl; lia.
Qed.

Lemma days_in_month_pos y m : 1 <= m <= 12 -> 28 <= days_in_month y m.
Proof. intros. month_cases m; unfold days_in_month; simpl; destruct (is_leap y); lia. Qed.
