(* ===== verification/DateRanges.v ===== *)
(** * DateRanges: the date options of the commands ([utils/date_ranges.py])

    [validate_date] checks a [YYYY-MM-DD] option, [resolve_date_range]
    turns the date flags of a command ([--start-date], [--last-days],
    [--this-week], ...) into a start and an end date relative to today,
    and [chunk_date_range] is the generator that splits a range into
    inclusive chunks of at most [chunk_days] days for the API.  The
    generator is modelled by the list of chunks it yields and how its
    iteration ends ([chunk_outcome]); its loop runs on fuel, and the
    theorems show which fuel is enough and that no fuel is enough when
    [chunk_days <= 0].  Dates and [timedelta] arithmetic are those of
    [Dates]. *)

From Stdlib Require Import ZArith Lia Ascii String List Bool.
From stdpp Require Import base decidable.
From S2P Require Import Prelude PyValue Dates.
Import ListNotations.
Open Scope string_scope.
Open Scope Z_scope.

(** [re.compile(r"^\d{4}-\d{2}-\d{2}$")]: [$] also matches before a
    final newline. *)
Definition date_shape (s : string) : bool :=
  let core (t : string) :=
    match list_ascii_of_string t with
    | [y1; y2; y3; y4; d1; m1; m2; d2; a1; a2] =>
        forallb is_digit [y1; y2; y3; y4; m1; m2; a1; a2] && Ascii.eqb d1 "-" && Ascii.eqb d2 "-"
    | _ => false
    end in
  core s || (ends_with (String "010"%char EmptyString) s && core (drop_last 1 s)).

(** [validate_date(value)]: [typer.BadParameter] for a value of the
    wrong shape or an impossible date. *)
Definition validate_date (value : option string) : res (option string) :=
  match value with
  | None => Ok None
  | Some v =>
      if negb (date_shape v) then Raise BadParameter
      else match strptime_ymd v with
           | Ok _ => Ok (Some v)
           | Raise _ => Raise BadParameter
           end
  end.

(** [parse_date(value)] *)
Definition parse_date (value : string) : res date := strptime_ymd value.

(** [date(y, m, d)]: [ValueError] outside the calendar. *)
Definition mk_date (y m d : Z) : res date :=
  let dt := Date y m d in if valid_date dt then Ok dt else Raise ValueError.

(** [if start_date:]: a [str] option counts when present and not empty. *)
Definition given (o : option string) : option string :=
  match o with Some s => if String.eqb s EmptyString then None else Some s | None => None end.

(** [if last_days:]: an [int] option counts when present and not zero. *)
Definition given_int (o : option Z) : option Z :=
  match o with Some n => if n =? 0 then None else Some n | None => None end.

(** [now - timedelta(days=max(k, 0)), now] *)
Definition trailing (now : date) (k : Z) : res (date * date) :=
  let* start := add_days now (- Z.max k 0) in Ok (start, now).

(** [date(y, m + 1, 1) - timedelta(days=1)], with December rolling
    over to January of the next year. *)
Definition month_end (now : date) : res date :=
  if month now =? 12 then let* n := mk_date (year now + 1) 1 1 in add_days n (-1)
  else let* n := mk_date (year now) (month now + 1) 1 in add_days n (-1).

(** [resolve_date_range(...)]: [today] is the date the caller passes,
    or [date.today()]; a [date] is always true, so [now] is [today]. *)
Definition resolve_date_range (start_date end_date : option string)
    (last_days last_weeks last_months : option Z)
    (this_week last_week this_month this_year all_time : bool) (today : date) : res (date * date) :=
  let now := today in
  match given start_date, given end_date with
  | Some s, Some e => let* a := parse_date s in let* b := parse_date e in Ok (a, b)
  | Some s, None => let* a := parse_date s in Ok (a, now)
  | None, Some e => let* b := parse_date e in Ok (Date 2000 1 1, b)
  | None, None =>
      match given_int last_days, given_int last_weeks, given_int last_months with
      | Some k, _, _ => trailing now (k - 1)
      | None, Some w, _ => trailing now (w * 7 - 1)
      | None, None, Some mo => trailing now (mo * 30 - 1)
      | None, None, None =>
          if this_week then
            let* start := add_days now (- weekday now) in
            let* e := add_days start 6 in Ok (start, e)
          else if last_week then
            let* this_week_start := add_days now (- weekday now) in
            let* start := add_days this_week_start (-7) in
            let* e := add_days start 6 in Ok (start, e)
          else if this_month then
            let* start := mk_date (year now) (month now) 1 in
            let* e := month_end now in Ok (start, e)
          else if this_year then
            let* a := mk_date (year now) 1 1 in let* b := mk_date (year now) 12 31 in Ok (a, b)
          else if all_time then Ok (Date 2000 1 1, now)
          else trailing now 29
      end
  end.

(** ** [chunk_date_range(start, end, chunk_days)]

    The generator yields [(cursor, chunk_end)] before it computes the
    next cursor, so a chunk is delivered even when computing the next
    cursor overflows.  [chunk_loop] returns the chunks yielded and
    [Some e] when the iteration ends by raising [e]; [None] when the
    fuel runs out. *)
Fixpoint chunk_loop (fuel : nat) (cursor end_ : date) (chunk_days : Z)
    : option (list (date * date) * option exc) :=
  match fuel with
  | O => None
  | S f =>
      if date_leb cursor end_ then
        match add_days cursor (chunk_days - 1) with
        | Raise e => Some ([], Some e)
        | Ok c =>
            let chunk_end := date_min c end_ in
            match add_days chunk_end 1 with
            | Raise e => Some ([(cursor, chunk_end)], Some e)
            | Ok next =>
                match chunk_loop f next end_ chunk_days with
                | Some (l, r) => Some ((cursor, chunk_end) :: l, r)
                | None => None
                end
            end
        end
      else Some ([], None)
  end.

Definition chunk_date_range (start end_ : date) (chunk_days : Z) (fuel : nat) :=
  chunk_loop fuel start end_ chunk_days.

(** The chunks on ordinals: the [i]-th chunk starts [i * k] days after
    [s] and ends [k - 1] days later or at [e]; there are
    [ceil((e - s + 1) / k)] of them. *)
Definition ord_chunks (s e k : Z) : list (Z * Z) :=
  map (fun i : nat => (s + Z.of_nat i * k, Z.min (s + Z.of_nat i * k + k - 1) e))
      (seq 0 (Z.to_nat ((e - s + k) / k))).

Definition dates_of_ords (l : list (Z * Z)) : list (date * date) :=
  map (fun '(a, b) => (fromordinal a, fromordinal b)) l.

Lemma ord_chunks_nil s e k : 1 <= k -> e < s -> ord_chunks s e k = [].
Proof.
  intros Hk He. unfold ord_chunks.
  assert (H0 : (e - s + k) / k <= 0) by (Z.to_euclidean_division_equations; nia).
  destruct ((e - s + k) / k); [reflexivity | lia | reflexivity].
Qed.

Lemma ord_chunks_cons s e k : 1 <= k -> s <= e ->
  ord_chunks s e k = (s, Z.min (s + k - 1) e) :: ord_chunks (s + k) e k.
Proof.
  intros Hk He. unfold ord_chunks.
  replace (e - s + k) with ((e - s) + 1 * k) by ring. rewrite Z.div_add by lia.
  replace (e - (s + k) + k) with (e - s) by ring.
  assert (0 <= (e - s) / k) by (apply Z.div_pos; lia).
  rewrite Z2Nat.inj_add, Nat.add_1_r by lia. cbn [seq map].
  f_equal; [f_equal; [ring | f_equal; ring]|].
  rewrite <- seq_shift, map_map. apply map_ext. intros i.
  rewrite Nat2Z.inj_succ. f_equal; [ring | f_equal; ring].
Qed.

(** [min(cursor + timedelta(days=k - 1), end)] on valid dates. *)
Lemma date_min_fromordinal c e end_ : valid_date end_ = true -> toordinal end_ = e ->
  1 <= c <= MAXORDINAL ->
  date_min (fromordinal c) end_ = fromordinal (Z.min c e).
Proof.
  intros He <- Hc. destruct (toordinal_fromordinal c Hc) as [Ht Hv].
  rewrite date_min_toordinal by (apply valid_calendar; assumption). rewrite Ht.
  destruct (Z.ltb_spec (toordinal end_) c).
  - rewrite Z.min_r by lia. symmetry. now apply fromordinal_toordinal.
  - rewrite Z.min_l by lia. reflexivity.
Qed.

Lemma chunk_loop_spec fuel cursor end_ k :
  valid_date cursor = true -> valid_date end_ = true -> 1 <= k ->
  toordinal end_ + k <= MAXORDINAL ->
  (Z.to_nat (toordinal end_ - toordinal cursor + 1) < fuel)%nat ->
  chunk_loop fuel cursor end_ k =
  Some (dates_of_ords (ord_chunks (toordinal cursor) (toordinal end_) k), None).
Proof.
  revert cursor. induction fuel as [|f IH]; intros cursor Hc He Hk Hmax Hf; [lia|].
  pose proof (toordinal_range _ Hc). pose proof (toordinal_range _ He).
  cbn [chunk_loop]. rewrite date_leb_toordinal by (apply valid_calendar; assumption).
  set (c := toordinal cursor) in *. set (e := toordinal end_) in *.
  destruct (Z.leb_spec c e) as [Hle|Hgt]; [|rewrite ord_chunks_nil by lia; reflexivity].
  rewrite add_days_in_range by lia. fold c. replace (c + (k - 1)) with (c + k - 1) by ring.
  rewrite (date_min_fromordinal (c + k - 1) e) by (reflexivity || assumption || lia).
  set (m := Z.min (c + k - 1) e).
  destruct (toordinal_fromordinal m) as [Ht Hv]; [lia|].
  rewrite add_days_in_range by lia. rewrite Ht.
  destruct (toordinal_fromordinal (m + 1)) as [Ht1 Hv1]; [lia|].
  rewrite IH by (rewrite ?Ht1; lia || assumption).
  rewrite Ht1, (ord_chunks_cons c) by lia. cbn [dates_of_ords map].
  unfold c at 1. rewrite (fromordinal_toordinal cursor Hc). fold m.
  destruct (Z.le_gt_cases (c + k - 1) e).
  - unfold m. rewrite Z.min_l by lia. now replace (c + k - 1 + 1) with (c + k) by ring.
  - rewrite !ord_chunks_nil by lia. reflexivity.
Qed.

(** [date.max] *)
Definition date_max : date := Date 9999 12 31.

Lemma toordinal_date_max : toordinal date_max = MAXORDINAL.
Proof. reflexivity. Qed.

Lemma chunk_loop_to_max fuel cursor k :
  valid_date cursor = true -> 1 <= k ->
  (Z.to_nat (MAXORDINAL - toordinal cursor + 1) < fuel)%nat ->
  exists l, chunk_loop fuel cursor date_max k = Some (l, Some OverflowError).
Proof.
  revert cursor. induction fuel as [|f IH]; intros cursor Hc Hk Hf; [lia|].
  pose proof (toordinal_range _ Hc).
  cbn [chunk_loop]. rewrite date_leb_toordinal, toordinal_date_max by (apply valid_calendar; assumption || reflexivity).
  rewrite (proj2 (Z.leb_le _ _)) by lia.
  destruct (Z.le_gt_cases (toordinal cursor + (k - 1)) MAXORDINAL) as [Hin|Hout].
  2: { rewrite add_days_out_of_range by lia. eauto. }
  rewrite add_days_in_range by lia.
  rewrite (date_min_fromordinal _ MAXORDINAL) by (reflexivity || lia).
  rewrite Z.min_l by lia. set (m := toordinal cursor + (k - 1)).
  destruct (toordinal_fromordinal m) as [Ht Hv]; [lia|].
  destruct (Z.le_gt_cases (m + 1) MAXORDINAL) as [Hn|Hn].
  2: { rewrite add_days_out_of_range by lia. eauto. }
  rewrite add_days_in_range by lia. rewrite Ht.
  destruct (toordinal_fromordinal (m + 1)) as [Ht1 Hv1]; [lia|].
  destruct (IH (fromordinal (m + 1))) as [l ->]; [assumption | assumption | rewrite Ht1; lia|].
  eauto.
Qed.

Lemma chunk_loop_zero fuel cursor end_ :
  valid_date cursor = true -> valid_date end_ = true ->
  date_leb cursor end_ = true -> 1 < toordinal cursor ->
  chunk_loop fuel cursor end_ 0 = None.
Proof.
  intros Hc He Hle H1. pose proof (toordinal_range _ Hc). pose proof (toordinal_range _ He).
  rewrite date_leb_toordinal, Z.leb_le in Hle by (apply valid_calendar; assumption).
  induction fuel as [|f IH]; [reflexivity|].
  cbn [chunk_loop]. rewrite date_leb_toordinal by (apply valid_calendar; assumption).
  rewrite (proj2 (Z.leb_le _ _ )) by lia.
  rewrite add_days_in_range by lia.
  rewrite (date_min_fromordinal _ (toordinal end_)), Z.min_l by (reflexivity || assumption || lia).
  destruct (toordinal_fromordinal (toordinal cursor + (0 - 1))) as [Ht _]; [lia|].
  rewrite add_days_in_range by lia. rewrite Ht.
  replace (toordinal cursor + (0 - 1) + 1) with (toordinal cursor) by ring.
  rewrite fromordinal_toordinal, IH by assumption. reflexivity.
Qed.

(** With [chunk_days >= 1] the loop ends, normally or by an exception,
    within one more iteration than the days of the range. *)
Lemma chunk_loop_total fuel cursor end_ k :
  valid_date cursor = true -> valid_date end_ = true -> 1 <= k ->
  (Z.to_nat (toordinal end_ - toordinal cursor + 1) < fuel)%nat ->
  chunk_loop fuel cursor end_ k <> None.
Proof.
  revert cursor. induction fuel as [|f IH]; intros cursor Hc He Hk Hf; [lia|].
  pose proof (toordinal_range _ Hc). pose proof (toordinal_range _ He).
  cbn [chunk_loop]. rewrite date_leb_toordinal by (apply valid_calendar; assumption).
  destruct (Z.leb_spec (toordinal cursor) (toordinal end_)) as [Hle|Hgt]; [|discriminate].
  destruct (Z.le_gt_cases (toordinal cursor + (k - 1)) MAXORDINAL) as [Hin|Hout].
  2: { rewrite add_days_out_of_range by lia. discriminate. }
  rewrite add_days_in_range by lia.
  rewrite (date_min_fromordinal _ (toordinal end_)) by (reflexivity || assumption || lia).
  set (m := Z.min (toordinal cursor + (k - 1)) (toordinal end_)).
  destruct (toordinal_fromordinal m) as [Ht Hv]; [lia|].
  destruct (Z.le_gt_cases (m + 1) MAXORDINAL) as [Hn|Hn].
  2: { rewrite add_days_out_of_range by (rewrite Ht; lia). discriminate. }
  rewrite add_days_in_range by (rewrite Ht; lia). rewrite Ht.
  destruct (toordinal_fromordinal (m + 1)) as [Ht1 Hv1]; [lia|].
  destruct (chunk_loop f (fromordinal (m + 1)) end_ k) as [[l r]|] eqn:E; [discriminate|].
  exfalso. refine (IH (fromordinal (m + 1)) Hv1 He Hk _ E). rewrite Ht1. lia.
Qed.

(** ** The generator *)

(** C9: Liveness of the chunk generator: for valid dates and
    [chunk_days >= 1], [chunk_date_range] finishes, by returning or by
    raising, within one more step than the days of the range (the fuel
    [fetch_workouts_in_chunks] is modelled with), so the model never runs
    out of fuel there. *)
Theorem chunk_date_range_total start end_ chunk_days :
  valid_date start = true -> valid_date end_ = true -> 1 <= chunk_days ->
  exists chunks stop,
    chunk_date_range start end_ chunk_days (S (Z.to_nat (toordinal end_ - toordinal start + 1))) =
      Some (chunks, stop).
Proof.
  intros Hs He Hk. unfold chunk_date_range.
  destruct (chunk_loop _ start end_ chunk_days) as [[chunks stop] |] eqn:E; [eauto |].
  exfalso. refine (chunk_loop_total _ start end_ chunk_days Hs He Hk _ E). lia.
Qed.

Lemma chunk_date_range_total_witness :
  valid_date (Date 9999 10 1) = true /\ valid_date date_max = true /\ (1 <= 90)%Z /\
  exists chunks stop,
    chunk_date_range (Date 9999 10 1) date_max 90
      (S (Z.to_nat (toordinal date_max - toordinal (Date 9999 10 1) + 1))) = Some (chunks, stop).
Proof.
  assert (H1 : valid_date (Date 9999 10 1) = true) by reflexivity.
  assert (H2 : valid_date date_max = true) by reflexivity.
  split; [exact H1 |]. split; [exact H2 |]. split; [lia |].
  exact (chunk_date_range_total (Date 9999 10 1) date_max 90 H1 H2 ltac:(lia)).
Defined.

(** C8: with [chunk_days >= 1], [chunk_date_range(start, end, chunk_days)]
    ends normally and yields exactly the chunks of [ord_chunks]: the
    [i]-th chunk runs from [start + i * chunk_days] to
    [min(start + i * chunk_days + chunk_days - 1, end)], so the chunks are
    contiguous, each at most [chunk_days] days long, and together cover
    [start .. end]; nothing when [end < start].  It holds when [end] is
    at least [chunk_days] days before [date.max], and the fuel needed is
    one more than the number of days of the range. *)
Theorem chunk_date_range_chunks start end_ chunk_days fuel :
  valid_date start = true -> valid_date end_ = true -> 1 <= chunk_days ->
  toordinal end_ + chunk_days <= MAXORDINAL ->
  (Z.to_nat (toordinal end_ - toordinal start + 1) < fuel)%nat ->
  chunk_date_range start end_ chunk_days fuel =
  Some (dates_of_ords (ord_chunks (toordinal start) (toordinal end_) chunk_days), None).
Proof. apply chunk_loop_spec. Qed.

Lemma chunk_date_range_chunks_witness :
  chunk_date_range (Date 2026 1 1) (Date 2026 4 15) 90 200 =
  Some (dates_of_ords (ord_chunks (toordinal (Date 2026 1 1)) (toordinal (Date 2026 4 15)) 90), None) /\
  dates_of_ords (ord_chunks (toordinal (Date 2026 1 1)) (toordinal (Date 2026 4 15)) 90) =
  [(Date 2026 1 1, Date 2026 3 31); (Date 2026 4 1, Date 2026 4 15)].
Proof.
  split; [|vm_compute; reflexivity].
  apply (chunk_date_range_chunks (Date 2026 1 1) (Date 2026 4 15) 90 200);
    [reflexivity | reflexivity | lia | apply Z.leb_le; vm_compute; reflexivity
    | apply Nat.ltb_lt; vm_compute; reflexivity].
Defined.

(** C10: with [chunk_days = 0] the loop never ends: each chunk is
    [(cursor, cursor - 1 day)] and the next cursor is [cursor] again,
    so for any [start <= end] after [date.min] no fuel is enough. *)
Theorem chunk_date_range_zero_diverges start end_ fuel :
  valid_date start = true -> valid_date end_ = true ->
  date_leb start end_ = true -> 1 < toordinal start ->
  chunk_date_range start end_ 0 fuel = None.
Proof. apply chunk_loop_zero. Qed.

Lemma chunk_date_range_zero_diverges_witness :
  chunk_date_range (Date 2026 2 14) (Date 2026 2 14) 0 1000 = None.
Proof.
  apply chunk_date_range_zero_diverges;
    [reflexivity | reflexivity | reflexivity | apply Z.ltb_lt; vm_compute; reflexivity].
Defined.

(** C11: a range that ends on [date.max] (9999-12-31) always ends in
    [OverflowError], for every start and [chunk_days >= 1]: either
    [cursor + timedelta(days=chunk_days - 1)] or the next cursor after
    the last chunk leaves the calendar. *)
Theorem chunk_date_range_to_max_overflows start chunk_days fuel :
  valid_date start = true -> 1 <= chunk_days ->
  (Z.to_nat (MAXORDINAL - toordinal start + 1) < fuel)%nat ->
  exists chunks, chunk_date_range start date_max chunk_days fuel = Some (chunks, Some OverflowError).
Proof. apply chunk_loop_to_max. Qed.

Lemma chunk_date_range_to_max_overflows_witness :
  exists chunks, chunk_date_range (Date 9999 10 1) date_max 90 200 = Some (chunks, Some OverflowError).
Proof.
  apply chunk_date_range_to_max_overflows; [reflexivity | lia | apply Nat.ltb_lt; vm_compute; reflexivity].
Defined.

(** ** The date flags *)

Lemma add_days_to d d' k : valid_date d' = true -> toordinal d' = toordinal d + k ->
  add_days d k = Ok d'.
Proof.
  intros Hv Ht. pose proof (toordinal_range _ Hv).
  rewrite add_days_in_range by lia. now rewrite <- Ht, fromordinal_toordinal.
Qed.

Lemma mk_date_valid y m d : valid_date (Date y m d) = true -> mk_date y m d = Ok (Date y m d).
Proof. unfold mk_date. now intros ->. Qed.

(** [--last-days n] with [n >= 1] gives the [n] days that end
    today, whatever the flags after it ([last_weeks] to [all_time]),
    when the first of them is still a date. *)
Theorem resolve_date_range_last_days n last_weeks last_months this_week last_week this_month this_year all_time today :
  valid_date today = true -> 1 <= n <= toordinal today ->
  exists start,
    resolve_date_range None None (Some n) last_weeks last_months this_week last_week this_month this_year all_time today
      = Ok (start, today) /\
    valid_date start = true /\ toordinal today - toordinal start + 1 = n.
Proof.
  intros Hv Hn. pose proof (toordinal_range _ Hv).
  cbn [resolve_date_range given given_int]. rewrite (proj2 (Z.eqb_neq n 0)) by lia.
  unfold trailing. rewrite Z.max_l by lia.
  destruct (toordinal_fromordinal (toordinal today + - (n - 1))) as [Ht Hv']; [lia|].
  rewrite (add_days_to _ (fromordinal (toordinal today + - (n - 1)))) by (assumption || lia).
  eexists. split; [reflexivity|]. split; [assumption | lia].
Qed.

Lemma resolve_date_range_last_days_witness :
  exists start,
    resolve_date_range None None (Some 7) None None false false false false false (Date 2026 2 14)
      = Ok (start, Date 2026 2 14) /\
    valid_date start = true /\ toordinal (Date 2026 2 14) - toordinal start + 1 = 7.
Proof.
  apply resolve_date_range_last_days; [reflexivity | split; [lia | apply Z.leb_le; vm_compute; reflexivity]].
Defined.

(** [--this-month] gives the first and the last day of the current
    month, December included, except in December 9999, where
    [date(now.year + 1, 1, 1)] raises [ValueError]. *)
Theorem resolve_date_range_this_month this_year all_time now :
  valid_date now = true ->
  resolve_date_range None None None None None false false true this_year all_time now =
  if (year now =? 9999) && (month now =? 12) then Raise ValueError
  else Ok (Date (year now) (month now) 1, Date (year now) (month now) (days_in_month (year now) (month now))).
Proof.
  intros Hv. destruct now as [y m d].
  apply valid_date_calendar in Hv as [Hy Hc]. apply calendar_okP in Hc. simpl in *.
  pose proof (days_in_month_pos y m ltac:(lia)).
  cbn [resolve_date_range given given_int year month].
  rewrite mk_date_valid by (apply valid_date_calendar; split; [simpl; lia | apply calendar_okP; simpl; lia]).
  cbn [res_bind]. unfold month_end. cbn [year month].
  destruct (Z.eqb_spec m 12) as [->|Hm]; destruct (Z.eqb_spec y 9999) as [->|Hy9]; try reflexivity.
  - rewrite mk_date_valid by (apply valid_date_calendar; split; [simpl; lia | reflexivity]). cbn [res_bind].
    rewrite (add_days_to _ (Date y 12 31)); [reflexivity | |].
    + apply valid_date_calendar. split; [simpl; lia | reflexivity].
    + rewrite toordinal_next_year. ring.
  - pose proof (days_in_month_pos 9999 (m + 1) ltac:(lia)).
    rewrite mk_date_valid by (apply valid_date_calendar; split; [simpl; lia | apply calendar_okP; simpl; lia]).
    cbn [res_bind]. rewrite (add_days_to _ (Date 9999 m (days_in_month 9999 m))); [reflexivity | |].
    + apply valid_date_calendar. split; [simpl; lia | apply calendar_okP; simpl; lia].
    + rewrite toordinal_next_month by lia. ring.
  - pose proof (days_in_month_pos y (m + 1) ltac:(lia)).
    rewrite mk_date_valid by (apply valid_date_calendar; split; [simpl; lia | apply calendar_okP; simpl; lia]).
    cbn [res_bind]. rewrite (add_days_to _ (Date y m (days_in_month y m))); [reflexivity | |].
    + apply valid_date_calendar. split; [simpl; lia | apply calendar_okP; simpl; lia].
    + rewrite toordinal_next_month by lia. ring.
Qed.

Lemma resolve_date_range_this_month_witness :
  resolve_date_range None None None None None false false true false false (Date 2026 12 12) =
  Ok (Date 2026 12 1, Date 2026 12 31).
Proof. apply (resolve_date_range_this_month false false (Date 2026 12 12)). reflexivity. Defined.
