(* ===== verification/Weekly.v ===== *)
(** * Weekly: the weekly aggregator and pattern classifier of [analysis.py]

    [build_weekly_analysis] buckets workouts by ISO week key in a
    dictionary created on demand ([weeks_put] over an association list in
    insertion order), counts strength and rest sessions, accumulates the
    per-sport distance, sessions, TSS, per-type distances and quality
    workouts, then walks the weeks in sorted key order carrying the
    previous week's total to label each week with [classify_week].
    Distances, TSS, deltas and averages are binary64 floats
    ([Floats.float]) added in workout order.  The theorems: the per-week
    session count equals the sum of the per-sport counts (an invariant
    of every step and of the final pass), the labels follow the previous
    week in key order, and the failure and divergence cases found while
    modelling. *)

From Stdlib Require Import QArith Qround Lqa ZArith Lia Ascii String List Bool.
From Stdlib Require Import Sorting.Permutation Sorting.Sorted.
From stdpp Require Import base decidable.
From S2P Require Import Prelude PyValue Floats Dates.
Import ListNotations.
Open Scope string_scope.
Open Scope Q_scope.

(** The sports of [SPORT_MAP]. *)
Inductive sport : Type := Swim | Bike | Run.

#[export] Instance sport_eq_dec : EqDecision sport.
Proof. solve_decision. Defined.

Definition sport_name (s : sport) : string :=
  match s with Swim => "swim" | Bike => "bike" | Run => "run" end.

(** [SPORT_MAP.get(sport_id)]: the lookup hashes the id, so a list or
    dict id raises; [1.0] and [True] find [1]. *)
Definition sport_of_id (v : pyval) : res (option sport) :=
  match v with
  | PList _ | PDict _ => Raise TypeError
  | _ => Ok (if num_eq v 1 then Some Swim
             else if num_eq v 2 then Some Bike
             else if num_eq v 3 then Some Run
             else None)
  end.

(** [sport != sport_filter] *)
Definition sport_differs (sp : option sport) (filter : string) : bool :=
  match sp with
  | Some s => negb (String.eqb (sport_name s) filter)
  | None => true
  end.

(** The types recorded as quality workouts. *)
Definition QUALITY_TYPES : list string := ["lt1"; "lt2"; "vo2"; "race"; "test"; "sprint"].

Record quality : Type := Quality {
  qw_date : string;
  qw_type : string;
  qw_title : pyval;
  qw_distance : float;
  qw_tss : float
}.

Record sport_data : Type := SportData {
  sd_distance : float;
  sd_sessions : Z;
  sd_tss : float;
  sd_by_type : list (string * float);
  sd_quality : list quality
}.

Definition sd_empty : sport_data := SportData (Fin 0) 0 (Fin 0) [] [].

(** A week bucket ([by_type] still holds running totals). *)
Record week : Type := Week {
  wk_week : string;
  wk_start : string;
  wk_end : string;
  wk_swim : sport_data;
  wk_bike : sport_data;
  wk_run : sport_data;
  wk_strength : Z;
  wk_rest : Z;
  wk_total_distance : float;
  wk_total_tss : float;
  wk_total_sessions : Z;
  wk_pattern : string
}.

(** The default of the [weeks] defaultdict. *)
Definition week_empty : week :=
  Week EmptyString EmptyString EmptyString sd_empty sd_empty sd_empty 0 0 (Fin 0) (Fin 0) 0 EmptyString.

Definition wk_sport (w : week) (s : sport) : sport_data :=
  match s with Swim => wk_swim w | Bike => wk_bike w | Run => wk_run w end.

Definition wk_set_sport (w : week) (s : sport) (d : sport_data) : week :=
  match s with
  | Swim => Week (wk_week w) (wk_start w) (wk_end w) d (wk_bike w) (wk_run w) (wk_strength w) (wk_rest w)
              (wk_total_distance w) (wk_total_tss w) (wk_total_sessions w) (wk_pattern w)
  | Bike => Week (wk_week w) (wk_start w) (wk_end w) (wk_swim w) d (wk_run w) (wk_strength w) (wk_rest w)
              (wk_total_distance w) (wk_total_tss w) (wk_total_sessions w) (wk_pattern w)
  | Run => Week (wk_week w) (wk_start w) (wk_end w) (wk_swim w) (wk_bike w) d (wk_strength w) (wk_rest w)
              (wk_total_distance w) (wk_total_tss w) (wk_total_sessions w) (wk_pattern w)
  end.

(** [d[k] += x] on a [defaultdict(float)] kept in insertion order. *)
Fixpoint add_by_type (l : list (string * float)) (k : string) (x : float) : list (string * float) :=
  match l with
  | [] => [(k, fadd (Fin 0) x)]
  | (k', v) :: l' => if String.eqb k k' then (k', fadd v x) :: l' else (k', v) :: add_by_type l' k x
  end.

(** [weeks[k]] of the defaultdict. *)
Definition weeks_get (ws : list (string * week)) (k : string) : week :=
  match assoc k ws with Some w => w | None => week_empty end.

(** Store the bucket of key [k], appending a new key at the end. *)
Fixpoint weeks_put (ws : list (string * week)) (k : string) (w : week) : list (string * week) :=
  match ws with
  | [] => [(k, w)]
  | (k', w') :: ws' => if String.eqb k k' then (k, w) :: ws' else (k', w') :: weeks_put ws' k w
  end.

(** [_classification_type(workout)] *)
Definition classification_type (workout : pyval) : res string :=
  let* c := dict_get workout "classification" (PDict []) in
  let* t := dict_get c "type" PNone in
  Ok (py_str (py_or t (PStr "other"))).

(** [float(workout.get(a) or workout.get(b) or 0.0)] *)
Definition float_of_either (workout : pyval) (a b : string) : res float :=
  let* va := dict_get workout a PNone in
  if truthy va then py_float_d va
  else let* vb := dict_get workout b PNone in py_float_d (py_or vb (PFloat 0 0)).

(** [get_week_key(date_str)] *)
Definition get_week_key (day : pyval) : res string :=
  let* dt := workout_date day in Ok (iso_week_key dt).

(** [get_week_start(date_str)] *)
Definition get_week_start (day : pyval) : res date :=
  let* dt := workout_date day in add_days dt (- weekday dt)%Z.

(** One counted workout added to its sport and to the week totals. *)
Definition add_session (bucket : week) (sp : sport) (workout_type : string) (distance tss : float)
    (date : string) (title : pyval) : week :=
  let sd := wk_sport bucket sp in
  let quality := if existsb (String.eqb workout_type) QUALITY_TYPES
                 then (sd_quality sd ++ [Quality date workout_type title distance tss])%list
                 else sd_quality sd in
  let sd' := SportData (fadd (sd_distance sd) distance) (sd_sessions sd + 1) (fadd (sd_tss sd) tss)
                       (add_by_type (sd_by_type sd) workout_type distance) quality in
  let b := wk_set_sport bucket sp sd' in
  Week (wk_week b) (wk_start b) (wk_end b) (wk_swim b) (wk_bike b) (wk_run b) (wk_strength b) (wk_rest b)
       (fadd (wk_total_distance b) distance) (fadd (wk_total_tss b) tss) (wk_total_sessions b + 1) (wk_pattern b).

(** [week_bucket["week"] = ...; ["start_date"] = ...; ["end_date"] = ...] *)
Definition set_labels (w : week) (k start end_ : string) : week :=
  Week k start end_ (wk_swim w) (wk_bike w) (wk_run w) (wk_strength w) (wk_rest w)
       (wk_total_distance w) (wk_total_tss w) (wk_total_sessions w) (wk_pattern w).

(** [week_bucket["strength_sessions"] += 1] *)
Definition incr_strength (w : week) : week :=
  Week (wk_week w) (wk_start w) (wk_end w) (wk_swim w) (wk_bike w) (wk_run w) (wk_strength w + 1)
       (wk_rest w) (wk_total_distance w) (wk_total_tss w) (wk_total_sessions w) (wk_pattern w).

(** [week_bucket["rest_days"] += 1] *)
Definition incr_rest (w : week) : week :=
  Week (wk_week w) (wk_start w) (wk_end w) (wk_swim w) (wk_bike w) (wk_run w) (wk_strength w)
       (wk_rest w + 1) (wk_total_distance w) (wk_total_tss w) (wk_total_sessions w) (wk_pattern w).

(** The body of the [for workout in workouts] loop. *)
Definition weekly_step (sport_filter : string) (weeks : list (string * week)) (workout : pyval)
    : res (list (string * week)) :=
  let* day := dict_get workout "workoutDay" PNone in
  if negb (truthy day) then Ok weeks else
  let* sport_id := dict_get workout "workoutTypeValueId" PNone in
  let* sp := sport_of_id sport_id in
  if negb (String.eqb sport_filter "all") && sport_differs sp sport_filter then Ok weeks else
  let* week_key := get_week_key day in
  let* week_start := get_week_start day in
  let* week_end := add_days week_start 6 in
  let bucket := set_labels (weeks_get weeks week_key) week_key (strftime_ymd week_start)
                           (strftime_ymd week_end) in
  if num_eq sport_id 9 then Ok (weeks_put weeks week_key (incr_strength bucket))
  else if num_eq sport_id 7 then Ok (weeks_put weeks week_key (incr_rest bucket))
  else
    match sp with
    | None => Ok (weeks_put weeks week_key bucket)
    | Some s =>
        let* workout_type := classification_type workout in
        let* distance := float_of_either workout "distance" "distancePlanned" in
        let* tss := float_of_either workout "tssActual" "tssPlanned" in
        let* title := dict_get workout "title" (PStr "Untitled") in
        Ok (weeks_put weeks week_key
              (add_session bucket s workout_type distance tss (take 10 (py_str day)) title))
    end.

(** [classify_week(total_distance, total_sessions, has_race, delta_pct)] *)
Definition classify_week (total_distance : float) (total_sessions : Z) (has_race : bool)
    (delta_pct : option float) : string :=
  if has_race then "race"
  else if (total_sessions <=? 2)%Z && flt total_distance (Fin 20000) then "off"
  else match delta_pct with
       | None => "start"
       | Some d => if flt d (Fin (-25)) then "recovery" else if flt (Fin 15) d then "build" else "maintenance"
       end.

(** A sport's [by_type] once converted: type, distance and percentage,
    by descending distance (ties keep their order; [sorted] with
    [reverse=True] is stable).  Distances that are NaN are not ordered as
    [sorted] orders them: its result then depends on the merge order. *)
Definition convert_by_type (sd : sport_data) : list (string * (float * float)) :=
  let distance_total := sd_distance sd in
  map (fun '(t, dist) =>
         (t, (dist, if ftruthy distance_total then fmul (fdiv_nz dist distance_total) (Fin 100) else Fin 0)))
      (sort_stable (fun y x => fle (snd x) (snd y)) (sd_by_type sd)).

(** A week of the report. *)
Record week_row : Type := WeekRow {
  row_week : week;
  row_by_type_swim : list (string * (float * float));
  row_by_type_bike : list (string * (float * float));
  row_by_type_run : list (string * (float * float))
}.

Definition week_has_race (w : week) : bool :=
  existsb (fun q => String.eqb (qw_type q) "race")
          (sd_quality (wk_swim w) ++ sd_quality (wk_bike w) ++ sd_quality (wk_run w))%list.

(** [previous_total and previous_total > 0] and the delta. *)
Definition delta_from (previous_total : option float) (total : float) : option float :=
  match previous_total with
  | Some p => if ftruthy p && flt (Fin 0) p then Some (fmul (fdiv_nz (fsub total p) p) (Fin 100)) else None
  | None => None
  end.

Definition with_pattern (w : week) (p : string) : week :=
  Week (wk_week w) (wk_start w) (wk_end w) (wk_swim w) (wk_bike w) (wk_run w) (wk_strength w) (wk_rest w)
       (wk_total_distance w) (wk_total_tss w) (wk_total_sessions w) p.

(** The [for row in ordered] loop. *)
Fixpoint finalize (previous_total : option float) (rows : list week) : list week_row :=
  match rows with
  | [] => []
  | row :: rows' =>
      let total := wk_total_distance row in
      let delta := delta_from previous_total total in
      let pattern := classify_week total (wk_total_sessions row) (week_has_race row) delta in
      let row' := with_pattern row pattern in
      WeekRow row' (convert_by_type (wk_swim row)) (convert_by_type (wk_bike row))
              (convert_by_type (wk_run row)) :: finalize (Some total) rows'
  end.

Record weekly_summary : Type := WeeklySummary {
  total_weeks : nat;
  avg_weekly_distance : float;
  avg_weekly_tss : float
}.

(** [sum(l) / len(l) if l else 0]: [sum] starts from the [int] 0 and
    the length is converted to a float. *)
Definition average (l : list float) : float :=
  match l with
  | [] => Fin 0
  | _ => fdiv_nz (fold_left fadd l (Fin 0)) (Fin (inject_Z (Z.of_nat (length l))))
  end.

(** [build_weekly_analysis(workouts, sport_filter)] *)
Definition build_weekly_analysis (workouts : list pyval) (sport_filter : string)
    : res (list week_row * weekly_summary) :=
  let* weeks := res_fold_left (weekly_step sport_filter) workouts [] in
  let ordered := map (weeks_get weeks) (sort_stable str_leb (map fst weeks)) in
  Ok (finalize None ordered,
      WeeklySummary (length ordered) (average (map wk_total_distance ordered))
                    (average (map wk_total_tss ordered))).

(** ** Specification *)

(** The week's session count is the sum of the three sports' counts.
    (Its distance and TSS totals are float sums of the same numbers in
    workout order, which need not equal the sum of the per-sport float
    sums.) *)
Definition week_consistent (w : week) : Prop :=
  wk_total_sessions w = (sd_sessions (wk_swim w) + sd_sessions (wk_bike w) + sd_sessions (wk_run w))%Z.

Definition total_of (r : week_row) : float := wk_total_distance (row_week r).

(** The delta a row is labelled with: none for the first row, else the
    change against the row just before it. *)
Definition previous_delta (rows : list week_row) (i : nat) (total : float) : option float :=
  match i with
  | O => None
  | S j => match nth_error rows j with
           | Some r' => delta_from (Some (total_of r')) total
           | None => None
           end
  end.

(** ** Lemmas *)

Lemma week_empty_consistent : week_consistent week_empty.
Proof. reflexivity. Qed.

Lemma add_session_consistent b sp t d tss date title :
  week_consistent b -> week_consistent (add_session b sp t d tss date title).
Proof.
  unfold week_consistent, add_session. intros H. destruct sp; simpl in *; lia.
Qed.

Lemma weeks_put_forall (P : week -> Prop) ws k w :
  Forall P (map snd ws) -> P w -> Forall P (map snd (weeks_put ws k w)).
Proof.
  induction ws as [| [k' w'] ws IH]; simpl; intros Hws Hw; [auto |].
  inversion Hws; subst. destruct (String.eqb k k'); simpl; auto.
Qed.

Lemma weeks_get_forall (P : week -> Prop) ws k :
  Forall P (map snd ws) -> P week_empty -> P (weeks_get ws k).
Proof.
  unfold weeks_get. induction ws as [| [k' w'] ws IH]; simpl; intros Hws He; [auto |].
  inversion Hws; subst. destruct (String.eqb k k'); auto.
Qed.

#[export] Hint Resolve week_empty_consistent add_session_consistent weeks_put_forall : tpcli.

Lemma set_labels_consistent w k a b : week_consistent w -> week_consistent (set_labels w k a b).
Proof. auto. Qed.

Lemma incr_strength_consistent w : week_consistent w -> week_consistent (incr_strength w).
Proof. auto. Qed.

Lemma incr_rest_consistent w : week_consistent w -> week_consistent (incr_rest w).
Proof. auto. Qed.

Lemma weeks_get_consistent ws k :
  Forall week_consistent (map snd ws) -> week_consistent (weeks_get ws k).
Proof. intros H. apply weeks_get_forall; [exact H | apply week_empty_consistent]. Qed.

#[export] Hint Resolve set_labels_consistent incr_strength_consistent incr_rest_consistent
  weeks_get_consistent : tpcli.

(** Case on every bind, [if] and [option] match of [H]. *)
Ltac step_cases H :=
  repeat (first [ res_step H
               | match type of H with (if ?b then _ else _) = _ => destruct b end
               | match type of H with (match ?x with Some _ => _ | None => _ end) = _ => destruct x end ]).

Lemma weekly_step_consistent f ws w ws' :
  Forall week_consistent (map snd ws) -> weekly_step f ws w = Ok ws' ->
  Forall week_consistent (map snd ws').
Proof.
  intros Hws H. unfold weekly_step in H. step_cases H.
  all: injection H as <-; auto 7 with tpcli.
Qed.

Lemma finalize_consistent prev l :
  Forall week_consistent l -> Forall (fun r => week_consistent (row_week r)) (finalize prev l).
Proof.
  revert prev. induction l as [| w l IH]; intros prev H; simpl; [constructor |].
  inversion H; subst. constructor; [exact H2 | apply IH; exact H3].
Qed.

Lemma finalize_pattern prev l i r :
  nth_error (finalize prev l) i = Some r ->
  wk_pattern (row_week r) =
  classify_week (total_of r) (wk_total_sessions (row_week r)) (week_has_race (row_week r))
    (match i with
     | O => delta_from prev (total_of r)
     | S j => match nth_error (finalize prev l) j with
              | Some r' => delta_from (Some (total_of r')) (total_of r)
              | None => None
              end
     end).
Proof.
  revert prev i. induction l as [| w l IH]; intros prev i H; [destruct i; discriminate |].
  destruct i as [| i]; simpl in H.
  - injection H as <-. reflexivity.
  - rewrite (IH _ _ H). destruct i as [| j]; reflexivity.
Qed.

(** ** Theorems *)

(** C7: in every week of the weekly report the session count is the
    sum of the swim, bike and run sessions (strength and rest sessions
    are counted apart): an invariant of every loop step and of the final
    pass. *)
Theorem build_weekly_analysis_totals ws f rows s :
  build_weekly_analysis ws f = Ok (rows, s) -> Forall (fun r => week_consistent (row_week r)) rows.
Proof.
  unfold build_weekly_analysis. intros H.
  destruct (res_fold_left (weekly_step f) ws []) as [weeks |] eqn:E; cbn [res_bind] in H;
    [| discriminate].
  injection H as <- _. apply finalize_consistent.
  assert (Hw : Forall week_consistent (map snd weeks)).
  { apply (res_fold_left_inv (fun ws => Forall week_consistent (map snd ws)) (weekly_step f) ws []);
      [constructor | | exact E].
    intros b x b' _ Hb Hs. exact (weekly_step_consistent f b x b' Hb Hs). }
  apply Forall_forall. intros w Hin. apply in_map_iff in Hin as (k & <- & _).
  apply weeks_get_consistent. exact Hw.
Qed.

(** each week of the report is labelled by [classify_week] on its
    own totals and race flag, with no delta for the first week and, for
    every later week, the percent change against the week just before it
    in key order (none when that week's total is not positive). *)
Theorem build_weekly_analysis_patterns ws f rows s :
  build_weekly_analysis ws f = Ok (rows, s) ->
  forall i r, nth_error rows i = Some r ->
  wk_pattern (row_week r) =
  classify_week (total_of r) (wk_total_sessions (row_week r)) (week_has_race (row_week r))
    (previous_delta rows i (total_of r)).
Proof.
  unfold build_weekly_analysis. intros H i r Hr.
  destruct (res_fold_left (weekly_step f) ws []) as [weeks |]; cbn [res_bind] in H;
    [| discriminate].
  injection H as <- _. rewrite (finalize_pattern _ _ _ _ Hr).
  destruct i; reflexivity.
Qed.

(** ** Examples *)

Definition sample_session (d : string) (sid dist : Z) (ty : string) : pyval :=
  PDict [("workoutDay", PStr d); ("workoutTypeValueId", PInt sid); ("distance", PInt dist);
         ("tssActual", PInt 50); ("title", PStr "session"); ("classification", PDict [("type", PStr ty)])].

(** Two ISO weeks: 10 km of lt2 running and 40 km of easy cycling, then
    12 km of running, 3 km of swimming and a strength session. *)
Definition sample_weeks : list pyval :=
  [sample_session "2026-01-05T00:00:00" 3 10000 "lt2"; sample_session "2026-01-07" 2 40000 "easy";
   sample_session "2026-01-13" 3 12000 "easy"; sample_session "2026-01-14" 9 0 "other";
   sample_session "2026-01-15" 1 3000 "easy"].

Lemma build_weekly_analysis_totals_witness :
  exists rows s, build_weekly_analysis sample_weeks "all" = Ok (rows, s) /\
    Forall (fun r => week_consistent (row_week r)) rows /\ length rows = 2%nat.
Proof.
  destruct (build_weekly_analysis sample_weeks "all") as [[rows s] |] eqn:E;
    [| vm_compute in E; discriminate].
  exists rows, s. split; [reflexivity |]. split.
  - exact (build_weekly_analysis_totals sample_weeks "all" rows s E).
  - vm_compute in E. injection E as <- _. reflexivity.
Defined.

Lemma build_weekly_analysis_patterns_witness :
  exists rows s r, build_weekly_analysis sample_weeks "all" = Ok (rows, s) /\
    nth_error rows 1 = Some r /\
    wk_pattern (row_week r) =
    classify_week (total_of r) (wk_total_sessions (row_week r)) (week_has_race (row_week r))
      (previous_delta rows 1 (total_of r)).
Proof.
  destruct (build_weekly_analysis sample_weeks "all") as [[rows s] |] eqn:E;
    [| vm_compute in E; discriminate].
  destruct (nth_error rows 1) as [r |] eqn:Er;
    [| vm_compute in E; injection E as <- _; discriminate].
  exists rows, s, r. split; [reflexivity |]. split; [exact Er |].
  exact (build_weekly_analysis_patterns sample_weeks "all" rows s E 1 r Er).
Defined.

(** a workout of a sport other than swim, bike, run, strength or
    rest still creates its week bucket before being skipped, so the
    report contains a week with no session, labelled [off]; the spec
    (4.7) says such workouts are skipped entirely. *)
Example weekly_other_sport_creates_week :
  match build_weekly_analysis [sample_session "2026-01-20" 4 5000 "easy"] "all" with
  | Ok ([r], s) => wk_week (row_week r) = "2026-W04" /\ wk_total_sessions (row_week r) = 0%Z /\
                   wk_pattern (row_week r) = "off"
  | _ => False
  end.
Proof. vm_compute. repeat split. Qed.

(** a workout on 9999-12-31 makes the whole weekly analysis raise
    [OverflowError]: the end of its week (Sunday 10000-01-02) is past
    [date.max]. *)
Example weekly_overflow_at_max_date :
  build_weekly_analysis [sample_session "9999-12-31" 3 1000 "easy"] "all" = Raise OverflowError.
Proof. vm_compute. reflexivity. Qed.

(** with a sport filter, strength and rest workouts are dropped
    before they are counted (their sport is [None], which differs from
    the filter); with ["all"] the same strength session is counted. *)
Example weekly_filter_drops_strength :
  (match build_weekly_analysis [sample_session "2026-01-14" 9 0 "other"] "run" with
   | Ok (rows, _) => rows = []
   | _ => False
   end) /\
  (match build_weekly_analysis [sample_session "2026-01-14" 9 0 "other"] "all" with
   | Ok ([r], _) => wk_strength (row_week r) = 1%Z
   | _ => False
   end).
Proof. vm_compute. split; reflexivity. Qed.

(** The week patterns of the spec's examples (section 8). *)
Example classify_week_spec_examples :
  classify_week (Fin 10000) 3 true (Some (Fin 10)) = "race" /\
  classify_week (Fin 10000) 2 false (Some (Fin 0)) = "off" /\
  classify_week (Fin 30000) 5 false None = "start" /\
  classify_week (Fin 30000) 5 false (Some (Fin (-30))) = "recovery" /\
  classify_week (Fin 30000) 5 false (Some (Fin 20)) = "build" /\
  classify_week (Fin 30000) 5 false (Some (Fin 3)) = "maintenance".
Proof. repeat split; reflexivity. Qed.
