(* ===== verification/Markdown.v ===== *)
(** * Markdown: the markdown exporter of [exporters/markdown.py]

    [workout_to_markdown] renders one workout (a decoded JSON dict) as YAML
    frontmatter and markdown sections through [Formatting] and [Text];
    [markdown_parts] is the path [write_workout_markdown] writes to, as the
    [pathlib] parts below the output directory; [index_row] is one row of
    [generate_indexes] and [generate_indexes] the index files it writes,
    each as its parts and its text.  The [workout_type] the writer receives
    is the one [commands/fetch.py] passes, [fetch_workout_type].  The
    theorems: a row of the index links to the file the writer wrote, for a
    workout with a day and a type; without a day the two disagree; every
    per-sport index holds exactly that sport's rows, newest first. *)

From Stdlib Require Import QArith ZArith Lia Ascii String List Bool.
From S2P Require Import Prelude PyValue Text Floats Parsing Formatting Dates Weekly.
Import ListNotations.
Open Scope string_scope.

(** ** Lookups of [constants.py] *)

(** [SPORT_NAME_BY_ID] *)
Definition SPORT_NAME_BY_ID (s : sport) : string :=
  match s with Swim => "Swim" | Bike => "Bike" | Run => "Run" end.

(** [TYPE_LABELS] of [constants.py], as its items *)
Definition TYPE_LABELS_table : list (string * string) :=
  [("easy", "Easy/Recovery"); ("lt1", "LT1 (Aerobic Threshold)"); ("lt2", "LT2 (Lactate Threshold)");
   ("vo2", "VO2max"); ("sprint", "Sprint/Anaerobic"); ("race", "Race"); ("strength", "Strength");
   ("test", "Test"); ("long", "Long"); ("other", "Other")].

(** [SPORT_MAP.get(sport_id, "other")] *)
Definition sport_key_of (sport_id : pyval) : res string :=
  let* sp := sport_of_id sport_id in
  Ok (match sp with Some s => sport_name s | None => "other" end).

(** [SPORT_NAME_BY_ID.get(sport_id, default)] *)
Definition sport_label (sport_id : pyval) (default : string) : res string :=
  let* sp := sport_of_id sport_id in
  Ok (match sp with Some s => SPORT_NAME_BY_ID s | None => default end).

(** ** Reading a workout *)

(** [v[:10]]: strings and lists slice, other values are not subscriptable
    (a dict raises [TypeError] too: a slice is unhashable in Python 3.11). *)
Definition py_slice10 (v : pyval) : res pyval :=
  match v with
  | PStr s => Ok (PStr (slice_to 10 s))
  | PList l => Ok (PList (firstn 10 l))
  | _ => Raise TypeError
  end.

(** [str((workout.get("workoutDay") or default)[:10])] *)
Definition markdown_date (workout : pyval) (default : string) : res string :=
  let* day := dict_get workout "workoutDay" PNone in
  let* d := py_slice10 (py_or day (PStr default)) in
  Ok (py_str d).

(** [workout.get(k1) or workout.get(k2)] *)
Definition get_or (w : pyval) (k1 k2 : string) : res pyval :=
  let* a := dict_get w k1 PNone in
  if truthy a then Ok a else dict_get w k2 PNone.

(** One iteration of the notes loop. *)
Definition note_line (comment : pyval) : res (option pyval) :=
  match comment with
  | PDict _ =>
      let* c := dict_get comment "comment" PNone in
      if truthy c then Ok (Some c)
      else let* t := dict_get comment "text" PNone in Ok (Some (if truthy t then t else PStr EmptyString))
  | PStr _ => Ok (Some comment)
  | _ => Ok None
  end.

(** The items of [sep.join(items)]: every item must be a [str]. *)
Fixpoint str_items (l : list pyval) : res (list string) :=
  match l with
  | [] => Ok []
  | PStr s :: l' => let* r := str_items l' in Ok (s :: r)
  | _ :: _ => Raise TypeError
  end.

(** [steps_data] and [primary_metric] from [workout.get("structure")]. *)
Definition steps_of (structure : pyval) : res (pyval * pyval) :=
  match structure with
  | PDict _ =>
      let* s := get_or structure "structure" "steps" in
      let* pm := dict_get structure "primaryIntensityMetric" (PStr EmptyString) in
      Ok (s, pm)
  | PList _ => Ok (structure, PStr EmptyString)
  | _ => Ok (PNone, PStr EmptyString)
  end.

(** [f"{float(v):.{nd}f}"] *)
Definition fixed_of (v : pyval) (nd : nat) : res string :=
  let* f := py_float_d v in Ok (format_fixed f nd).

(** [if workout.get(key): extras.append(render(workout[key]))] *)
Definition extra_line (workout : pyval) (key : string) (render : pyval -> res string) : res (list string) :=
  let* v := dict_get workout key PNone in
  if truthy v then let* s := render v in Ok [s] else Ok [].

Definition extras_of (w : pyval) : res (list string) :=
  let* np := extra_line w "normalizedPowerActual"
               (fun v => let* s := fixed_of v 0 in Ok ("- **NP:** " ++ s ++ "W")) in
  let* pw := extra_line w "powerAverage" (fun v => Ok ("- **Avg Power:** " ++ py_str v ++ "W")) in
  let* hr := extra_line w "heartRateAverage" (fun v => Ok ("- **Avg HR:** " ++ py_str v ++ " bpm")) in
  let* cad := extra_line w "cadenceAverage" (fun v => Ok ("- **Avg Cadence:** " ++ py_str v)) in
  let* ele := extra_line w "elevationGain"
                (fun v => let* s := fixed_of v 0 in Ok ("- **Elevation:** " ++ s ++ "m")) in
  let* iff := extra_line w "if" (fun v => let* s := fixed_of v 2 in Ok ("- **IF:** " ++ s)) in
  Ok (app np (app pw (app hr (app cad (app ele iff))))).

Definition nl : string := String "010" EmptyString.

Definition quoted (s : string) : string := String dquote (s ++ String dquote EmptyString).

(** [workout_to_markdown(workout, workout_type)] *)
Definition workout_to_markdown (workout workout_type : pyval) : res string :=
  let* t := dict_get workout "title" PNone in
  let title := py_or t (PStr "Untitled") in
  let* date := markdown_date workout EmptyString in
  let* sport_id := dict_get workout "workoutTypeValueId" PNone in
  let* sport_name := sport_label sport_id (py_str sport_id) in
  let* duration := get_or workout "totalTime" "totalTimePlanned" in
  let* distance := get_or workout "distance" "distancePlanned" in
  let* tss := get_or workout "tssActual" "tssPlanned" in
  let* d := get_or workout "description" "coachComments" in
  let description := py_or d (PStr EmptyString) in
  let* c := dict_get workout "workoutComments" PNone in
  let* comments := py_iter (py_or c (PList [])) in
  let* note_lines := res_map_list note_line comments in
  let* notes := str_items (filter truthy (flat_map (fun o => match o with Some l => [l] | None => [] end) note_lines)) in
  let notes := join nl notes in
  let* structure := dict_get workout "structure" PNone in
  let* '(steps_data, primary_metric) := steps_of structure in
  let* extras := extras_of workout in
  let extras_text := join nl extras in
  let* title_yaml := match title with
                     | PStr s => Ok (replace_char dquote (String "\" (String dquote EmptyString)) s)
                     | _ => Raise AttributeError
                     end in
  let* tss_text := match tss with PNone => Ok "null" | _ => fixed_of tss 1 end in
  let* dur := format_duration duration in
  let* dist := format_distance distance in
  let* workout_id := dict_get workout "workoutId" (PStr EmptyString) in
  let* type_label := str_table_get TYPE_LABELS_table workout_type (py_str workout_type) in
  let* steps := format_steps steps_data primary_metric 0 in
  Ok ("---" ++ nl ++
      "title: " ++ quoted title_yaml ++ nl ++
      "date: " ++ quoted date ++ nl ++
      "sport: " ++ quoted (lower sport_name) ++ nl ++
      "type: " ++ quoted (py_str workout_type) ++ nl ++
      "duration: " ++ quoted dur ++ nl ++
      "distance: " ++ quoted dist ++ nl ++
      "tss: " ++ tss_text ++ nl ++
      "workoutId: " ++ py_str workout_id ++ nl ++
      "---" ++ nl ++ nl ++
      "# " ++ py_str title ++ nl ++ nl ++
      "- **Date:** " ++ date ++ nl ++
      "- **Sport:** " ++ sport_name ++ nl ++
      "- **Type:** " ++ type_label ++ nl ++
      "- **Duration:** " ++ dur ++ nl ++
      "- **Distance:** " ++ dist ++ nl ++
      "- **TSS:** " ++ (if String.eqb tss_text "null" then "N/A" else tss_text) ++ nl ++
      extras_text ++ nl ++ nl ++
      "## Description" ++ nl ++
      py_str (py_or description (PStr "No description")) ++ nl ++ nl ++
      "## Structured Workout" ++ nl ++
      steps ++ nl ++ nl ++
      "## Notes" ++ nl ++
      (if String.eqb notes EmptyString then "No notes" else notes) ++ nl).

(** ** Paths *)

(** The parts [pathlib] keeps of a relative segment: empty and [.]
    components vanish. *)
Definition path_parts (s : string) : list string :=
  filter (fun p => negb (String.eqb p EmptyString || String.eqb p ".")) (split_char "/" s).

(** [p / seg] on parts; an absolute segment starts again from the root. *)
Definition path_div_parts (parts : list string) (seg : string) : list string :=
  match seg with
  | String c _ => if Ascii.eqb c "/" then "/" :: path_parts seg else app parts (path_parts seg)
  | EmptyString => app parts (path_parts seg)
  end.

(** The directory and the path [write_workout_markdown(output_dir,
    workout, workout_type)] computes, as parts below [output_dir]; a
    [workout_type] that is not a [str] makes [Path.__truediv__] raise. *)
Definition markdown_target (workout workout_type : pyval) : res (list string * list string) :=
  let* sid := dict_get workout "workoutTypeValueId" PNone in
  let* sport_key := sport_key_of sid in
  let* date := markdown_date workout "unknown" in
  let* t := dict_get workout "title" PNone in
  let slug := slugify (py_str (py_or t (PStr "untitled"))) 50 in
  let filename := date ++ "-" ++ slug ++ ".md" in
  match workout_type with
  | PStr wt =>
      let out_dir := path_div_parts (path_div_parts [] sport_key) wt in
      Ok (out_dir, path_div_parts out_dir filename)
  | _ => Raise TypeError
  end.

Fixpoint parts_eqb (a b : list string) : bool :=
  match a, b with
  | [], [] => true
  | x :: a', y :: b' => String.eqb x y && parts_eqb a' b'
  | _, _ => false
  end.

(** The prefixes of a path, shortest first. *)
Fixpoint prefixes (p : list string) : list (list string) :=
  match p with
  | [] => []
  | x :: p' => [x] :: map (cons x) (prefixes p')
  end.

(** [write_workout_markdown(output_dir, workout, workout_type, rewrite)]
    on a file system whose files and directories below [output_dir] are
    [is_file] and [is_dir]: the path it returns and the text it writes, if
    any.  [out_dir.mkdir(parents=True, exist_ok=True)] fails on a file in
    the way; the text is built before [write_text] opens the file, which
    needs the parent directory ([mkdir] created [out_dir] only) and fails
    on a directory. *)
Definition write_workout_markdown (is_file is_dir : list string -> bool) (workout workout_type : pyval)
    (rewrite : bool) : res (list string * option string) :=
  let* '(out_dir, out_path) := markdown_target workout workout_type in
  if (is_file out_path || is_dir out_path) && negb rewrite then Ok (out_path, None)
  else if existsb is_file (prefixes out_dir) then Raise OSError
  else
    let* text := workout_to_markdown workout workout_type in
    let parent := removelast out_path in
    if (parts_eqb parent out_dir || existsb (parts_eqb parent) (prefixes out_dir) || is_dir parent)
       && negb (is_dir out_path)
    then Ok (out_path, Some text)
    else Raise OSError.

(** [workout.get("classification", {}).get("type", "other")] in
    [commands/fetch.py]. *)
Definition fetch_workout_type (workout : pyval) : res pyval :=
  let* c := dict_get workout "classification" (PDict []) in
  dict_get c "type" (PStr "other").

(** ** The indexes *)

Record index_row : Type := IndexRow {
  row_date : string;
  row_sport : string;
  row_sport_key : string;
  row_type : string;
  row_title : string;
  row_duration : string;
  row_distance : string;
  row_tss : string;
  row_path : string
}.

(** The row [generate_indexes] builds for one workout. *)
Definition index_row_of (workout : pyval) : res index_row :=
  let* sport_id := dict_get workout "workoutTypeValueId" PNone in
  let* sport_key := sport_key_of sport_id in
  let* sport_name := sport_label sport_id "?" in
  let* c := dict_get workout "classification" (PDict []) in
  let* t := dict_get c "type" PNone in
  let workout_type := py_str (py_or t (PStr "other")) in
  let* date := markdown_date workout EmptyString in
  let* ti := dict_get workout "title" PNone in
  let title := py_str (py_or ti (PStr "Untitled")) in
  let filename := date ++ "-" ++ slugify title 50 ++ ".md" in
  let* duration := get_or workout "totalTime" "totalTimePlanned" in
  let* duration := format_duration duration in
  let* distance := get_or workout "distance" "distancePlanned" in
  let* distance := format_distance distance in
  let* tss := get_or workout "tssActual" "tssPlanned" in
  let* tss := match tss with PNone => Ok "-" | _ => fixed_of tss 1 end in
  Ok (IndexRow date sport_name sport_key workout_type title duration distance tss
        (sport_key ++ "/" ++ workout_type ++ "/" ++ filename)).

(** [rows.sort(key=lambda row: row["date"], reverse=True)]: newest
    first, rows of one date in their order. *)
Definition sort_rows (rows : list index_row) : list index_row :=
  sort_stable (fun a b => str_leb (row_date b) (row_date a)) rows.

(** [rel_path], cut after the sport for a per-sport index. *)
Definition rel_path (trim_sport : bool) (row : index_row) : string :=
  if trim_sport then join "/" (tl (split_char "/" (row_path row))) else row_path row.

Definition row_line (trim_sport : bool) (row : index_row) : string :=
  "| " ++ row_date row ++ " | " ++ row_sport row ++ " | " ++ row_type row ++ " | " ++
  "[" ++ row_title row ++ "](" ++ rel_path trim_sport row ++ ")" ++ " | " ++
  row_duration row ++ " | " ++ row_distance row ++ " | " ++ row_tss row ++ " |".

(** The text [_write_index(path, title, data, trim_sport)] writes. *)
Definition write_index (title : string) (data : list index_row) (trim_sport : bool) : string :=
  join nl (app ["# " ++ title; EmptyString; "_" ++ string_of_Z (Z.of_nat (length data)) ++ " workouts_";
                EmptyString; "| Date | Sport | Type | Title | Duration | Distance | TSS |";
                "|------|-------|------|-------|----------|----------|-----|"]
               (app (map (row_line trim_sport) data) [EmptyString])).

Definition sport_rows (sport_key : string) (rows : list index_row) : list index_row :=
  filter (fun row => String.eqb (row_sport_key row) sport_key) rows.

(** [generate_indexes(output_dir, workouts)]: the index files, as their
    parts below [output_dir] and their text, in the order written. *)
Definition generate_indexes (workouts : list pyval) : res (list (list string * string)) :=
  let* rows := res_map_list index_row_of workouts in
  let rows := sort_rows rows in
  Ok (([ "INDEX.md" ], write_index "All Workouts" rows false) ::
      flat_map (fun '(key, name) =>
                  match sport_rows key rows with
                  | [] => []
                  | srows => [([key; "INDEX.md"], write_index (name ++ " Workouts") srows true)]
                  end)
        [("swim", "Swim"); ("bike", "Bike"); ("run", "Run")]).

(** * Theorems *)

(** ** Path segments *)

Definition no_slash (c : ascii) : bool := negb (Ascii.eqb c "/").

(** A segment [pathlib] keeps as one part. *)
Definition seg_ok (s : string) : bool :=
  all_chars no_slash s && negb (String.eqb s EmptyString) && negb (String.eqb s ".").

Lemma path_parts_seg (s : string) : seg_ok s = true -> path_parts s = [s].
Proof.
  unfold seg_ok, path_parts. intros H. apply andb_true_iff in H as [H H3]. apply andb_true_iff in H as [H1 H2].
  apply negb_true_iff in H2, H3. rewrite split_char_none by exact H1. cbn. now rewrite H2, H3.
Qed.

Lemma path_div_parts_seg (p : list string) (s : string) : seg_ok s = true -> path_div_parts p s = app p [s].
Proof.
  intros H. unfold path_div_parts. rewrite path_parts_seg by exact H.
  destruct s as [| c s]; [reflexivity |]. unfold seg_ok, no_slash in H. cbn [all_chars] in H.
  destruct (Ascii.eqb c "/"); [discriminate H | reflexivity].
Qed.

Lemma seg_ok_chars (s : string) : seg_ok s = true -> all_chars no_slash s = true.
Proof. unfold seg_ok. now intros [[H _]%andb_true_iff _]%andb_true_iff. Qed.

Lemma split_slash2 (a b : string) :
  all_chars no_slash a = true -> all_chars no_slash b = true -> split_char "/" (a ++ String "/" b) = [a; b].
Proof. intros Ha Hb. rewrite split_char_app, split_char_none by assumption. reflexivity. Qed.

Lemma split_slash3 (a b c : string) :
  all_chars no_slash a = true -> all_chars no_slash b = true -> all_chars no_slash c = true ->
  split_char "/" (a ++ String "/" (b ++ String "/" c)) = [a; b; c].
Proof. intros Ha Hb Hc. rewrite split_char_app, split_slash2 by assumption. reflexivity. Qed.

Lemma slug_or_dash_no_slash : forall c, implb (slug_or_dash c) (no_slash c) = true.
Proof. apply ascii_forall. vm_compute. reflexivity. Qed.

Lemma slugify_no_slash (v : string) (n : Z) : all_chars no_slash (slugify v n) = true.
Proof.
  pose proof (slugify_all_chars v n) as H. induction (slugify v n) as [| c s IH]; [reflexivity |].
  cbn [all_chars] in H |- *. apply andb_true_iff in H as [Hc Hs].
  pose proof (slug_or_dash_no_slash c) as Hi. rewrite Hc in Hi. cbn [implb] in Hi.
  now rewrite Hi, IH.
Qed.

Lemma dash_not_special (a b : string) : String.eqb (a ++ String "-" b) EmptyString = false /\
  String.eqb (a ++ String "-" b) "." = false.
Proof.
  destruct a as [| c [| c' a]]; split; cbn; try reflexivity; destruct (Ascii.eqb c "."); reflexivity.
Qed.

(** The file name of a workout whose day has no slash is one part. *)
Lemma filename_seg (date slug : string) :
  all_chars no_slash date = true -> all_chars no_slash slug = true ->
  seg_ok (date ++ "-" ++ slug ++ ".md") = true.
Proof.
  intros Hd Hs. unfold seg_ok. destruct (dash_not_special date (slug ++ ".md")) as [H1 H2].
  cbn [append] in H1, H2 |- *. rewrite H1, H2, all_chars_app, Hd. cbn [all_chars].
  rewrite all_chars_app, Hs. reflexivity.
Qed.

Lemma sport_key_seg (sid : pyval) (sk : string) : sport_key_of sid = Ok sk -> seg_ok sk = true.
Proof.
  unfold sport_key_of. intros H. res_inv H. destruct a as [[] |]; reflexivity.
Qed.

(** ** The writer and the index agree *)

Lemma write_workout_markdown_target (is_file is_dir : list string -> bool) (w wt : pyval) (rewrite : bool)
    (out_path : list string) (text : option string) :
  write_workout_markdown is_file is_dir w wt rewrite = Ok (out_path, text) ->
  exists out_dir, markdown_target w wt = Ok (out_dir, out_path).
Proof.
  unfold write_workout_markdown. intros H.
  destruct (markdown_target w wt) as [[od op] |]; cbn in H; [| discriminate]. res_inv H; eauto.
Qed.

(** [p / s] is [p] followed by the parts of [s] unless [s] is absolute. *)
Lemma path_div_parts_rel (p : list string) (s : string) :
  hd_error (path_div_parts p s) <> Some "/" ->
  path_div_parts p s = app p (path_parts s) /\ hd_error p <> Some "/".
Proof.
  unfold path_div_parts. destruct s as [| c s]; [| destruct (Ascii.eqb c "/")]; intros H;
    [| now cbn in H |]; (split; [reflexivity |]); destruct p; cbn in *; congruence.
Qed.

(** A file name ending in [.md] has a last part. *)
Lemma path_parts_md (s : string) : path_parts (s ++ ".md") <> [].
Proof.
  destruct (split_char_suffix "/" s ".md" eq_refl) as [u Hu]. unfold path_parts. intros E.
  assert (Hl : forall v, String.length (u ++ ".md") <> String.length v -> String.eqb (u ++ ".md") v = false)
    by (intros v Hv; apply String.eqb_neq; intros Ev; now rewrite Ev in Hv).
  assert (Hin : In (u ++ ".md") (filter (fun p => negb (String.eqb p EmptyString || String.eqb p ".")) (split_char "/" (s ++ ".md"))))
    by (apply filter_In; split; [exact Hu |]; rewrite !Hl; [reflexivity | ..]; rewrite string_length_app; cbn; lia).
  now rewrite E in Hin.
Qed.

(** The target of a workout whose path is not absolute: the file lies
    below [out_dir], one part or more deeper. *)
Lemma markdown_target_shape (w : pyval) (wt : string) (out_dir out_path : list string) :
  markdown_target w (PStr wt) = Ok (out_dir, out_path) -> hd_error out_path <> Some "/" ->
  hd_error out_dir <> Some "/" /\ exists rest, out_path = app out_dir rest /\ rest <> [].
Proof.
  unfold markdown_target. intros H Hh. res_inv H.
  destruct (path_div_parts_rel _ _ Hh) as [-> Hd]. split; [exact Hd |]. eexists. split; [reflexivity |].
  match goal with |- path_parts (?a ++ String ?c (?b ++ ".md")) <> [] =>
    change (String c (b ++ ".md")) with (String c b ++ ".md"); rewrite string_app_assoc end.
  apply path_parts_md.
Qed.

Lemma workout_date_day (w : pyval) (day default : string) :
  dict_get w "workoutDay" PNone = Ok (PStr day) -> day <> EmptyString ->
  markdown_date w default = Ok (slice_to 10 day).
Proof.
  intros Hd Hne. unfold markdown_date. rewrite Hd, res_bind_Ok. unfold py_or. cbn [truthy].
  destruct (String.eqb_spec day EmptyString); [contradiction | reflexivity].
Qed.

(** The type [fetch.py] passes to the writer is the index's type when it is
    a nonempty string. *)
Lemma fetch_type_index (w c t : pyval) (wt : string) :
  fetch_workout_type w = Ok (PStr wt) -> wt <> EmptyString ->
  dict_get w "classification" (PDict []) = Ok c -> dict_get c "type" PNone = Ok t ->
  py_str (py_or t (PStr "other")) = wt.
Proof.
  unfold fetch_workout_type. intros Hf Hne Hc Ht. rewrite Hc, res_bind_Ok in Hf.
  destruct c; try discriminate. cbn in Hf, Ht. injection Ht as <-.
  destruct (assoc "type" kv); injection Hf as ->; [| reflexivity].
  unfold py_or. cbn. destruct (String.eqb_spec wt EmptyString); [contradiction | reflexivity].
Qed.

Lemma slug_title (t : pyval) :
  slugify (py_str (py_or t (PStr "untitled"))) 50 = slugify (py_str (py_or t (PStr "Untitled"))) 50.
Proof. unfold py_or. now destruct (truthy t). Qed.

Lemma slice_no_slash (day : string) : all_chars no_slash day = true -> all_chars no_slash (slice_to 10 day) = true.
Proof. intros H. rewrite slice_to_nonneg by lia. now apply all_chars_substring. Qed.

(** The writer's path and the index link agree. *)
Lemma index_link_matches (is_file is_dir : list string -> bool) (rewrite : bool) (w : pyval)
    (wt day : string) (out_path : list string) (text : option string) (row : index_row) :
  fetch_workout_type w = Ok (PStr wt) -> seg_ok wt = true ->
  dict_get w "workoutDay" PNone = Ok (PStr day) -> day <> EmptyString -> all_chars no_slash day = true ->
  write_workout_markdown is_file is_dir w (PStr wt) rewrite = Ok (out_path, text) ->
  index_row_of w = Ok row ->
  out_path = split_char "/" (row_path row) /\
  out_path = row_sport_key row :: split_char "/" (rel_path true row).
Proof.
  intros Hf Hwt Hd Hne Hds Hw Hr.
  destruct (write_workout_markdown_target _ _ _ _ _ _ _ Hw) as [od Ht]. clear Hw.
  unfold markdown_target in Ht. unfold index_row_of in Hr.
  rewrite (workout_date_day w day _ Hd Hne) in Ht. rewrite (workout_date_day w day _ Hd Hne) in Hr.
  res_inv Ht. res_inv Hr. res_uniq.
  assert (Hwt' : wt <> EmptyString) by (intros ->; discriminate).
  rewrite (fetch_type_index w a5 a6 wt Hf Hwt' E5 E6), slug_title.
  set (fn := slice_to 10 day ++ String "-" (slugify (py_str (py_or a1 (PStr "Untitled"))) 50 ++ ".md")).
  assert (Hfn : seg_ok fn = true) by (apply filename_seg; [apply slice_no_slash, Hds | apply slugify_no_slash]).
  pose proof (sport_key_seg _ _ E3) as Hsk.
  rewrite !path_div_parts_seg by assumption. cbn [row_path row_sport_key rel_path app].
  rewrite split_slash3 by (apply seg_ok_chars; assumption). cbn [tl join append].
  rewrite split_slash2 by (apply seg_ok_chars; assumption). split; reflexivity.
Qed.

(** C18: Composition of [commands/fetch.py], [write_workout_markdown] and
    [generate_indexes]: for a workout with a day without [/] and a
    classification type that is one path segment, the file the writer
    returns (written or kept) is the one the index row links to, and the
    per-sport index's link, read from the sport's directory, names it too. *)
Theorem index_links_written (is_file is_dir : list string -> bool) (rewrite : bool) (w : pyval)
    (wt day : string) (out_path : list string) (text : option string) (row : index_row) :
  fetch_workout_type w = Ok (PStr wt) -> seg_ok wt = true ->
  dict_get w "workoutDay" PNone = Ok (PStr day) -> day <> EmptyString -> all_chars no_slash day = true ->
  write_workout_markdown is_file is_dir w (PStr wt) rewrite = Ok (out_path, text) ->
  index_row_of w = Ok row ->
  out_path = split_char "/" (row_path row) /\
  out_path = row_sport_key row :: split_char "/" (rel_path true row).
Proof. apply index_link_matches. Qed.

Definition md_sample_workout : pyval :=
  PDict [("title", PStr "Tempo Run"); ("workoutDay", PStr "2024-03-05T00:00:00");
         ("workoutTypeValueId", PInt 3); ("classification", PDict [("type", PStr "lt2")])].

Lemma index_links_written_witness :
  exists text row,
    write_workout_markdown (fun _ => false) (fun _ => false) md_sample_workout (PStr "lt2") false =
      Ok (["run"; "lt2"; "2024-03-05-tempo-run.md"], text) /\
    index_row_of md_sample_workout = Ok row /\
    ["run"; "lt2"; "2024-03-05-tempo-run.md"] = split_char "/" (row_path row) /\
    ["run"; "lt2"; "2024-03-05-tempo-run.md"] = row_sport_key row :: split_char "/" (rel_path true row).
Proof.
  do 2 eexists. split; [reflexivity |]. split; [reflexivity |].
  refine (index_links_written (fun _ => false) (fun _ => false) false md_sample_workout "lt2" "2024-03-05T00:00:00"
            _ _ _ eq_refl eq_refl eq_refl _ eq_refl _ _).
  - discriminate.
  - reflexivity.
  - reflexivity.
Defined.

(** Without a [workoutDay] the writer names the file [unknown-<slug>.md]
    while [generate_indexes] links to [-<slug>.md]: the index row points to
    a file that does not exist. *)
Example index_link_without_day :
  (let* r := write_workout_markdown (fun _ => false) (fun _ => false)
               (PDict [("title", PStr "Easy"); ("workoutTypeValueId", PInt 3)]) (PStr "other") false in
   Ok (fst r)) = Ok ["run"; "other"; "unknown-easy.md"] /\
  (let* row := index_row_of (PDict [("title", PStr "Easy"); ("workoutTypeValueId", PInt 3)]) in
   Ok (row_path row)) = Ok "run/other/-easy.md".
Proof. split; vm_compute; reflexivity. Qed.

(** A [workoutDay] with a slash makes the file name a path below the type
    directory that [mkdir] did not create: [write_text] fails. *)
Example write_markdown_slash_day :
  write_workout_markdown (fun _ => false) (fun _ => false)
    (PDict [("title", PStr "Zz"); ("workoutDay", PStr "2024/01/02")]) (PStr "easy") false = Raise OSError.
Proof. vm_compute. reflexivity. Qed.

(** [fetch.py] passes [.get("type", "other")] and the index uses
    [.get("type") or "other"]: for an empty type the file lands in the
    sport directory ([pathlib] drops the empty part) while the index links
    into [other/]. *)
Example index_link_empty_type :
  (let* r := write_workout_markdown (fun _ => false) (fun _ => false)
               (PDict [("title", PStr "X"); ("workoutDay", PStr "2024-01-02"); ("workoutTypeValueId", PInt 3);
                       ("classification", PDict [("type", PStr EmptyString)])]) (PStr EmptyString) false in
   Ok (fst r)) = Ok ["run"; "2024-01-02-x.md"] /\
  (let* row := index_row_of (PDict [("title", PStr "X"); ("workoutDay", PStr "2024-01-02"); ("workoutTypeValueId", PInt 3);
                                    ("classification", PDict [("type", PStr EmptyString)])]) in
   Ok (row_path row)) = Ok "run/other/2024-01-02-x.md".
Proof. split; vm_compute; reflexivity. Qed.
