(* ===== verification/Disk.v ===== *)
(** * Disk: the file system the commands write to

    [fetch] and [export] create directories with
    [Path.mkdir(parents=True, exist_ok=True)], write files with
    [Path.write_text] and test them with [Path.exists()].  The file system
    is a [disk]: the files with their text and the directories, each as the
    list of its names from the root.  A path the code builds is a list of
    components ([pathlib] has already dropped the empty and [.] ones);
    the operating system resolves it component by component ([walk]),
    entering only directories and taking [..] to the parent, so a [..]
    the code does not expect leaves the directory it meant.  The system
    calls ([os_mkdir], [os_write]) answer with the [errno] Python turns into
    [FileNotFoundError], [NotADirectoryError], [FileExistsError] or
    [IsADirectoryError]; [mkdir_p] is CPython 3.11's [Path.mkdir], whose
    recursion on [self.parent] is structural on the reversed components.
    The theorems: the operations keep the disk well formed (every entry
    hangs below a directory, no path is both), [mkdir_p] leaves a directory
    at its path, [write_text] leaves its text at its path and no other
    file changed, and directories are never removed.  On paths without
    [..] the operations read plainly: [walk] is a lookup, [path_exists]
    is "file or directory", [mkdir_plain] says [mkdir_p] adds exactly
    the missing prefixes unless one of them is a file, and
    [write_text_plain] needs the parent directory and no directory at
    the path. *)

From Stdlib Require Import String List Bool Lia.
From S2P Require Import Prelude Markdown.
Import ListNotations.

Abbreviation path := (list string).

Record disk : Type := Disk {
  files : list (path * string);
  dirs : list path
}.

(** The root is a directory of every disk. *)
Definition is_dir (d : disk) (p : path) : bool :=
  match p with [] => true | _ => existsb (parts_eqb p) (dirs d) end.

Definition file_at (d : disk) (p : path) : option string :=
  option_map snd (find (fun e => parts_eqb (fst e) p) (files d)).

Definition is_file (d : disk) (p : path) : bool :=
  match file_at d p with Some _ => true | None => false end.

(** The [errno] of a failed system call. *)
Inductive os_error : Type := ENOENT | ENOTDIR | EEXIST | EISDIR.

(** Path resolution from [cur]: each component is looked up in a
    directory, [..] goes to the parent ([/..] is [/]). *)
Fixpoint walk (d : disk) (cur : path) (comps : list string) : path + os_error :=
  match comps with
  | [] => inl cur
  | c :: rest =>
      if is_dir d cur then walk d (if String.eqb c ".." then removelast cur else app cur [c]) rest
      else if is_file d cur then inr ENOTDIR else inr ENOENT
  end.

(** [os.mkdir(p)] *)
Definition os_mkdir (d : disk) (comps : list string) : disk + os_error :=
  match walk d [] comps with
  | inr e => inr e
  | inl q => if is_dir d q || is_file d q then inr EEXIST else inl (Disk (files d) (q :: dirs d))
  end.

(** [open(p, "w").write(text)] *)
Definition os_write (d : disk) (comps : list string) (text : string) : disk + os_error :=
  match walk d [] comps with
  | inr e => inr e
  | inl q => if is_dir d q then inr EISDIR
             else inl (Disk ((q, text) :: filter (fun e => negb (parts_eqb (fst e) q)) (files d)) (dirs d))
  end.

(** [Path.is_dir()]: [stat] and [S_ISDIR]; a failed [stat] is [False]. *)
Definition path_is_dir (d : disk) (comps : list string) : bool :=
  match walk d [] comps with inl q => is_dir d q | inr _ => false end.

(** [Path.exists()] *)
Definition path_exists (d : disk) (comps : list string) : bool :=
  match walk d [] comps with inl q => is_dir d q || is_file d q | inr _ => false end.

(** [Path.mkdir(parents=True, exist_ok=True)] on the path whose
    components are [rev rc]: [os.mkdir]; on [FileNotFoundError] the parent
    first (the root, its own parent, raises) and [os.mkdir] again without
    [parents]; on any other [OSError] fine when the path is a directory.
    The directories made before an exception stay. *)
Fixpoint mkdir_rev (rc : list string) : st disk unit := fun d =>
  match os_mkdir d (rev rc) with
  | inl d' => (d', Ok tt)
  | inr ENOENT =>
      match rc with
      | [] => (d, Raise OSError)
      | _ :: rc' =>
          match mkdir_rev rc' d with
          | (d1, Raise e) => (d1, Raise e)
          | (d1, Ok _) =>
              match os_mkdir d1 (rev rc) with
              | inl d2 => (d2, Ok tt)
              | inr ENOENT => (d1, Raise OSError)
              | inr _ => if path_is_dir d1 (rev rc) then (d1, Ok tt) else (d1, Raise OSError)
              end
          end
      end
  | inr _ => if path_is_dir d (rev rc) then (d, Ok tt) else (d, Raise OSError)
  end.

Definition mkdir_p (comps : list string) : st disk unit := mkdir_rev (rev comps).

(** [Path.write_text(text)]; a failed [open] writes nothing. *)
Definition write_text (comps : list string) (text : string) : st disk unit := fun d =>
  match os_write d comps text with inl d' => (d', Ok tt) | inr _ => (d, Raise OSError) end.

(** [Path.exists()] as a read of the state. *)
Definition exists_path (comps : list string) : st disk bool := fun d => (d, Ok (path_exists d comps)).

(** The components of [output_dir / p] for a path [p] that
    [Markdown.path_div_parts] built below [output_dir]: an absolute [p]
    starts again from the root. *)
Definition under (out_dir : path) (p : list string) : list string :=
  match p with
  | "/" :: r => r
  | _ => app out_dir p
  end.

(** * Well-formed disks *)

(** Every directory and file hangs below a directory, and no path is
    both a file and a directory. *)
Definition wf_disk (d : disk) : Prop :=
  Forall (fun p => p <> [] /\ is_dir d (removelast p) = true /\ is_file d p = false) (dirs d) /\
  Forall (fun e => fst e <> [] /\ is_dir d (removelast (fst e)) = true /\ is_dir d (fst e) = false) (files d).

(** [d'] has every directory of [d]. *)
Definition keeps_dirs (d d' : disk) : Prop := forall p, is_dir d p = true -> is_dir d' p = true.

(** * Lemmas *)

Lemma parts_eqb_eq (a b : path) : parts_eqb a b = true <-> a = b.
Proof.
  revert b. induction a as [| x a IH]; intros [| y b]; cbn; try (split; congruence).
  rewrite andb_true_iff, String.eqb_eq, IH. split; [intros [-> ->]; reflexivity | intros H; injection H; auto].
Qed.

Lemma parts_eqb_refl (a : path) : parts_eqb a a = true.
Proof. now apply parts_eqb_eq. Qed.

Lemma parts_eqb_neq (a b : path) : a <> b -> parts_eqb a b = false.
Proof. intros H. destruct (parts_eqb a b) eqn:E; [apply parts_eqb_eq in E; contradiction | reflexivity]. Qed.

#[export] Hint Resolve parts_eqb_refl parts_eqb_neq : tpcli.

Lemma is_dir_cons (fs : list (path * string)) (ds : list path) (q p : path) :
  is_dir (Disk fs (q :: ds)) p = parts_eqb p q || is_dir (Disk fs ds) p.
Proof. destruct p; cbn; [now rewrite orb_true_r | reflexivity]. Qed.

Lemma find_filter_skip {A : Type} (f g : A -> bool) (l : list A) :
  (forall x, g x = false -> f x = false) -> find f (filter g l) = find f l.
Proof.
  intros H. induction l as [| x l IH]; cbn; [reflexivity |].
  destruct (g x) eqn:G; cbn; [now destruct (f x) |]. now rewrite (H x G).
Qed.

Lemma file_at_write (fs : list (path * string)) (ds : list path) (q p : path) (t : string) :
  file_at (Disk ((q, t) :: filter (fun e => negb (parts_eqb (fst e) q)) fs) ds) p =
  if parts_eqb q p then Some t else file_at (Disk fs ds) p.
Proof.
  unfold file_at. cbn [files find fst]. destruct (parts_eqb q p) eqn:E; [reflexivity |].
  rewrite find_filter_skip; [reflexivity |]. intros [q' t'] H. cbn in *.
  apply negb_false_iff, parts_eqb_eq in H as ->. exact E.
Qed.

Lemma in_files_is_file (d : disk) (e : path * string) : In e (files d) -> is_file d (fst e) = true.
Proof.
  unfold is_file, file_at. destruct d as [fs ds]. cbn. intros H.
  destruct (find (fun e' => parts_eqb (fst e') (fst e)) fs) eqn:F; [reflexivity |].
  eapply find_none in F; [| exact H]. now rewrite parts_eqb_refl in F.
Qed.

(** A resolution that succeeded succeeds the same way on a disk with more
    directories. *)
Lemma walk_keep (d d' : disk) (cur q : path) (comps : list string) :
  keeps_dirs d d' -> walk d cur comps = inl q -> walk d' cur comps = inl q.
Proof.
  intros K. revert cur. induction comps as [| c rest IH]; intros cur H; cbn in *; [exact H |].
  destruct (is_dir d cur) eqn:D; [rewrite (K _ D); now apply IH |]. now destruct (is_file d cur).
Qed.

(** The last component of a resolution is looked up in a directory. *)
Lemma walk_last (d : disk) (cur q : path) (comps : list string) :
  walk d cur comps = inl q -> comps <> [] ->
  exists p c, is_dir d p = true /\ q = (if String.eqb c ".." then removelast p else app p [c]).
Proof.
  revert cur. induction comps as [| c rest IH]; intros cur H N; [contradiction |]. cbn in H.
  destruct (is_dir d cur) eqn:D; [| now destruct (is_file d cur)].
  destruct rest as [| c' rest]; [injection H as <-; eauto |]. eapply IH; [exact H | discriminate].
Qed.

Lemma wf_dir_parent (d : disk) (p : path) : wf_disk d -> is_dir d p = true -> is_dir d (removelast p) = true.
Proof.
  intros [Hd _] H. destruct p as [| x p]; [reflexivity |].
  change (existsb (parts_eqb (x :: p)) (dirs d) = true) in H. apply existsb_exists in H as [p' [Hin Heq]]. apply parts_eqb_eq in Heq as <-.
  rewrite Forall_forall in Hd. now apply Hd.
Qed.

(** A resolution ends at a directory or at an entry of a directory. *)
Lemma walk_target (d : disk) (q : path) (comps : list string) :
  wf_disk d -> walk d [] comps = inl q ->
  is_dir d q = true \/ (q <> [] /\ is_dir d (removelast q) = true).
Proof.
  intros W H. destruct comps as [| c comps]; [injection H as <-; now left |].
  destruct (walk_last _ _ _ _ H ltac:(discriminate)) as (p & c' & D & ->).
  destruct (String.eqb c' ".."); [left; now apply wf_dir_parent |].
  right. split; [now destruct p | now rewrite removelast_last].
Qed.

Lemma in_dirs_is_dir (d : disk) (p : path) : In p (dirs d) -> p <> [] -> is_dir d p = true.
Proof.
  intros H N. destruct p as [| x p]; [contradiction |].
  change (existsb (parts_eqb (x :: p)) (dirs d) = true). apply existsb_exists. eauto with tpcli.
Qed.

Lemma keeps_refl (d : disk) : keeps_dirs d d.
Proof. now intros p. Qed.

Lemma keeps_trans (d1 d2 d3 : disk) : keeps_dirs d1 d2 -> keeps_dirs d2 d3 -> keeps_dirs d1 d3.
Proof. intros A B p H. now apply B, A. Qed.

Lemma keeps_same_dirs (d d' : disk) : dirs d' = dirs d -> keeps_dirs d d'.
Proof. intros E [| x p] H; [reflexivity |]. unfold is_dir in *. now rewrite E. Qed.

#[export] Hint Resolve keeps_refl keeps_same_dirs : tpcli.

(** [os.mkdir] adds the directory its path resolves to, an entry of an
    existing directory. *)
Lemma os_mkdir_ok (d d' : disk) (comps : list string) :
  wf_disk d -> os_mkdir d comps = inl d' ->
  wf_disk d' /\ keeps_dirs d d' /\ files d' = files d /\ path_is_dir d' comps = true.
Proof.
  destruct d as [fs ds]. unfold os_mkdir. intros W H.
  destruct (walk _ [] comps) as [q | e] eqn:Wk; [| discriminate].
  destruct (is_dir _ q || is_file _ q) eqn:E; [discriminate |]. injection H as <-.
  apply orb_false_iff in E as [E1 E2].
  destruct (walk_target _ _ _ W Wk) as [D | [Nq P]]; [congruence |].
  assert (K : keeps_dirs (Disk fs ds) (Disk fs (q :: ds))) by (intros r Hr; now rewrite is_dir_cons, Hr, orb_true_r).
  destruct W as [Wd Wf]. repeat split; [| | exact K | ].
  - cbn [dirs]. constructor; [split; [exact Nq | split; [now apply K | exact E2]] |].
    eapply Forall_impl; [| exact Wd]. intros r (N & Pr & F). repeat split; [exact N | now apply K | exact F].
  - cbn [files] in *. rewrite Forall_forall in *. intros e He. destruct (Wf e He) as (N & Pe & De).
    repeat split; [exact N | now apply K |]. rewrite is_dir_cons, De, orb_false_r. apply parts_eqb_neq.
    intros Eq. enough (is_file (Disk fs ds) q = true) by congruence. rewrite <- Eq. exact (in_files_is_file (Disk fs ds) e He).
  - unfold path_is_dir. rewrite (walk_keep _ _ _ _ _ K Wk), is_dir_cons, parts_eqb_refl. reflexivity.
Qed.

Lemma disk_same (d : disk) (P : Prop) : wf_disk d -> P -> wf_disk d /\ keeps_dirs d d /\ files d = files d /\ P.
Proof. intros W H. exact (conj W (conj (keeps_refl d) (conj eq_refl H))). Qed.

(** [Path.mkdir(parents=True, exist_ok=True)] keeps the disk well
    formed, adds directories and changes no file, and when it returns there
    is a directory at its path. *)
Lemma mkdir_rev_ok (d d' : disk) (rc : list string) (r : res unit) :
  wf_disk d -> mkdir_rev rc d = (d', r) ->
  wf_disk d' /\ keeps_dirs d d' /\ files d' = files d /\ (r = Ok tt -> path_is_dir d' (rev rc) = true).
Proof.
  intros W. revert d' r. induction rc as [| x rc IH]; intros d' r H; cbn [mkdir_rev] in H;
    (destruct (os_mkdir d _) as [d1 | e] eqn:M;
     [injection H as <- <-; destruct (os_mkdir_ok _ _ _ W M) as (? & ? & ? & ?); auto |]);
    destruct e;
    try (destruct (path_is_dir d _) eqn:P; injection H as <- <-; apply disk_same; auto; discriminate).
  - injection H as <- <-. apply disk_same; [exact W | discriminate].
  - destruct (mkdir_rev rc d) as [d1 [u | e]] eqn:R; destruct (IH _ _ eq_refl) as (W1 & K1 & F1 & _); cbn in H;
      [| injection H as <- <-; refine (conj W1 (conj K1 (conj F1 _))); discriminate].
    destruct (os_mkdir d1 _) as [d2 | e] eqn:M2.
    + injection H as <- <-. destruct (os_mkdir_ok _ _ _ W1 M2) as (W2 & K2 & F2 & P2).
      refine (conj W2 (conj (keeps_trans _ _ _ K1 K2) (conj _ (fun _ => P2)))). congruence.
    + destruct e; [injection H as <- <-; refine (conj W1 (conj K1 (conj F1 _))); discriminate | ..];
        (destruct (path_is_dir d1 _) eqn:P; injection H as <- <-;
         refine (conj W1 (conj K1 (conj F1 _))); [intros _; exact P | discriminate]).
Qed.

Corollary mkdir_p_ok (d d' : disk) (comps : list string) (r : res unit) :
  wf_disk d -> mkdir_p comps d = (d', r) ->
  wf_disk d' /\ keeps_dirs d d' /\ files d' = files d /\ (r = Ok tt -> path_is_dir d' comps = true).
Proof. unfold mkdir_p. intros W H. rewrite <- (rev_involutive comps). now apply mkdir_rev_ok. Qed.

(** [Path.write_text] leaves [text] at the path its argument resolves
    to, an entry of an existing directory, and changes no other file and
    no directory. *)
Lemma write_text_ok (d d' : disk) (comps : list string) (text : string) (r : res unit) :
  wf_disk d -> write_text comps text d = (d', r) ->
  wf_disk d' /\ dirs d' = dirs d /\ (r = Ok tt ->
  exists q, walk d [] comps = inl q /\ walk d' [] comps = inl q /\ file_at d' q = Some text /\
            forall p, p <> q -> file_at d' p = file_at d p).
Proof.
  destruct d as [fs ds]. unfold write_text, os_write. intros W H.
  destruct (walk _ [] comps) as [q | e] eqn:Wk; cbv beta iota in H;
    [| injection H as <- <-; refine (conj W (conj eq_refl _)); discriminate].
  destruct (is_dir _ q) eqn:D; cbv beta iota in H;
    [injection H as <- <-; refine (conj W (conj eq_refl _)); discriminate |]. injection H as <- <-.
  destruct (walk_target _ _ _ W Wk) as [D' | [Nq P]]; [congruence |].
  assert (K := keeps_same_dirs (Disk fs ds) (Disk ((q, text) :: filter (fun e => negb (parts_eqb (fst e) q)) fs) ds) eq_refl).
  destruct W as [Wd Wf]. split; [split |]; [| | split; [reflexivity |]].
  - eapply Forall_forall. intros r Hr. rewrite Forall_forall in Wd. destruct (Wd r Hr) as (N & Pr & F).
    repeat split; [exact N | exact Pr |]. unfold is_file in *. rewrite file_at_write, parts_eqb_neq; [exact F |].
    intros <-. apply (in_dirs_is_dir (Disk fs ds)) in Hr; [congruence | exact N].
  - constructor; [repeat split; [exact Nq | exact P | exact D] |].
    rewrite Forall_forall in *. intros e He. apply filter_In in He as [He _]. exact (Wf e He).
  - intros _. exists q. refine (conj eq_refl (conj (walk_keep _ _ _ _ _ K Wk) (conj _ _))); [now rewrite file_at_write, parts_eqb_refl |].
    intros p Np. rewrite file_at_write, parts_eqb_neq by congruence. reflexivity.
Qed.

Corollary write_text_exists (d d' : disk) (comps : list string) (text : string) :
  wf_disk d -> write_text comps text d = (d', Ok tt) -> path_exists d' comps = true.
Proof.
  intros W H. destruct (write_text_ok _ _ _ _ _ W H) as (_ & _ & Hq). destruct (Hq eq_refl) as (q & _ & Wk & F & _).
  unfold path_exists, is_file. now rewrite Wk, F, orb_true_r.
Qed.

(** ** The disk invariant of a command

    Started on the well-formed disk [d0], every state of a command is
    well formed and still has every directory of [d0]. *)

Definition disk_inv (d0 d : disk) : Prop := wf_disk d /\ keeps_dirs d0 d.

Lemma mkdir_p_inv (d0 : disk) (comps : list string) : st_preserves (disk_inv d0) (mkdir_p comps).
Proof.
  intros d d' r [W K] H. destruct (mkdir_p_ok _ _ _ _ W H) as (W' & K' & _).
  split; [exact W' | exact (keeps_trans _ _ _ K K')].
Qed.

Lemma write_text_inv (d0 : disk) (comps : list string) (text : string) :
  st_preserves (disk_inv d0) (write_text comps text).
Proof.
  intros d d' r [W K] H. destruct (write_text_ok _ _ _ _ _ W H) as (W' & D & _).
  split; [exact W' | exact (keeps_trans _ _ _ K (keeps_same_dirs _ _ D))].
Qed.

Lemma exists_path_inv (d0 : disk) (comps : list string) : st_preserves (disk_inv d0) (exists_path comps).
Proof. intros d d' r H E. now injection E as <- _. Qed.

#[export] Hint Resolve mkdir_p_inv write_text_inv exists_path_inv : st_inv.

Lemma inv_wf {A : Type} (m : st disk A) (d d' : disk) (r : res A) :
  (forall d0, st_preserves (disk_inv d0) m) -> wf_disk d -> m d = (d', r) -> wf_disk d'.
Proof. intros P W H. exact (proj1 (P d d d' r (conj W (keeps_refl d)) H)). Qed.

(** Proves [wf_disk d'] from a hypothesis [m d = (d', _)], back to a
    well-formed disk in the context. *)
Ltac disk_wf :=
  match goal with
  | W : wf_disk ?d |- wf_disk ?d => exact W
  | H : ?m ?d1 = (?d2, _) |- wf_disk ?d2 =>
      refine (inv_wf m d1 d2 _ _ _ H); [intros; st_inv_auto | disk_wf]
  end.

(** [Path.mkdir] and [Path.write_text] raise only [OSError]. *)
Lemma mkdir_rev_raise (d d' : disk) (rc : list string) (e : exc) : mkdir_rev rc d = (d', Raise e) -> e = OSError.
Proof.
  revert d'. induction rc as [| x rc IH]; intros d' H; cbn [mkdir_rev] in H;
    destruct (os_mkdir d _) as [d1 | []]; try congruence;
    repeat match type of H with (if ?b then _ else _) = _ => destruct b end; try congruence.
  destruct (mkdir_rev rc d) as [d1 [u | e1]] eqn:R; [| injection H as _ <-; exact (IH _ eq_refl)].
  destruct (os_mkdir d1 _) as [d2 | []]; try congruence;
    repeat match type of H with (if ?b then _ else _) = _ => destruct b end; congruence.
Qed.

Lemma mkdir_p_raise (d d' : disk) (comps : list string) (e : exc) : mkdir_p comps d = (d', Raise e) -> e = OSError.
Proof. apply mkdir_rev_raise. Qed.

Lemma write_text_raise (d d' : disk) (comps : list string) (text : string) (e : exc) :
  write_text comps text d = (d', Raise e) -> e = OSError.
Proof. unfold write_text. destruct (os_write d comps text); congruence. Qed.

(** [wf_disk] decided. *)
Definition wf_diskb (d : disk) : bool :=
  forallb (fun p => negb (parts_eqb p []) && is_dir d (removelast p) && negb (is_file d p)) (dirs d) &&
  forallb (fun e => negb (parts_eqb (fst e) []) && is_dir d (removelast (fst e)) && negb (is_dir d (fst e))) (files d).

Lemma wf_diskb_spec (d : disk) : wf_diskb d = true -> wf_disk d.
Proof.
  unfold wf_diskb, wf_disk. rewrite andb_true_iff, !forallb_forall. intros [Hd Hf].
  split; apply Forall_forall.
  - intros p Hp. specialize (Hd p Hp). rewrite !andb_true_iff, !negb_true_iff in Hd.
    destruct Hd as [[H1 H2] H3]. repeat split; [| exact H2 | exact H3]. intros ->. discriminate H1.
  - intros e He. specialize (Hf e He). rewrite !andb_true_iff, !negb_true_iff in Hf.
    destruct Hf as [[H1 H2] H3]. repeat split; [| exact H2 | exact H3]. intros E. rewrite E in H1. discriminate H1.
Qed.

(** ** Paths without [..]

    For a path whose components are names, resolution on a well-formed
    disk succeeds exactly when its parent is a directory, and [mkdir_p]
    and [write_text] have closed forms. *)

Definition no_dotdot (comps : list string) : bool := forallb (fun c => negb (String.eqb c "..")) comps.

Lemma prefixes_snoc (l : list string) (x : string) : prefixes (app l [x]) = app (prefixes l) [app l [x]].
Proof. induction l as [| y l IH]; cbn; [reflexivity |]. now rewrite IH, map_app. Qed.

Lemma in_prefixes (q l : list string) : In q (prefixes l) -> q <> [] /\ exists b, l = app q b.
Proof.
  revert q. induction l as [| y l IH]; intros q H; cbn in H; [contradiction |].
  destruct H as [<- | H]; [split; [discriminate | now exists l] |].
  apply in_map_iff in H as (q' & <- & H). destruct (IH _ H) as [_ [b ->]]. split; [discriminate | now exists b].
Qed.

Lemma existsb_ext {A : Type} (f g : A -> bool) (l : list A) :
  (forall x, f x = g x) -> existsb f l = existsb g l.
Proof. intros H. induction l as [| x l IH]; cbn; [reflexivity | now rewrite H, IH]. Qed.

Lemma existsb_map_comp {A B : Type} (f : B -> bool) (g : A -> B) (l : list A) :
  existsb f (map g l) = existsb (fun x => f (g x)) l.
Proof. induction l as [| x l IH]; cbn; [reflexivity | now rewrite IH]. Qed.

Lemma is_file_in (d : disk) (p : path) : is_file d p = true -> exists t, In (p, t) (files d).
Proof.
  unfold is_file, file_at. destruct (find (fun e => parts_eqb (fst e) p) (files d)) as [[p' t] |] eqn:F;
    [| discriminate]. intros _.
  apply find_some in F as [Hin Heq]. apply parts_eqb_eq in Heq. cbn in Heq. subst p'. eauto.
Qed.

(** On a well-formed disk a file is not the root, hangs below a
    directory and is no directory; the prefixes of a directory are
    directories. *)
Lemma wf_file (d : disk) (p : path) :
  wf_disk d -> is_file d p = true -> p <> [] /\ is_dir d (removelast p) = true /\ is_dir d p = false.
Proof.
  intros [_ Wf] H. destruct (is_file_in _ _ H) as [t Hin]. rewrite Forall_forall in Wf. exact (Wf _ Hin).
Qed.

Lemma wf_dir_app (d : disk) (a b : path) : wf_disk d -> is_dir d (app a b) = true -> is_dir d a = true.
Proof.
  intros W. induction b as [| x b IH] using rev_ind; intros H; [now rewrite app_nil_r in H |].
  apply IH. rewrite app_assoc in H. apply (wf_dir_parent _ _ W) in H. now rewrite removelast_last in H.
Qed.

Lemma wf_dir_not_file (d : disk) (p : path) : wf_disk d -> is_dir d p = true -> is_file d p = false.
Proof.
  intros W H. destruct (is_file d p) eqn:F; [| reflexivity]. destruct (wf_file _ _ W F) as (_ & _ & D). congruence.
Qed.

Lemma wf_prefix_dir (d : disk) (q p : path) : wf_disk d -> is_dir d p = true -> In q (prefixes p) -> is_dir d q = true.
Proof. intros W H Hq. destruct (in_prefixes _ _ Hq) as [_ [b ->]]. exact (wf_dir_app _ _ _ W H). Qed.

(** No file lies strictly below a path that is not a directory. *)
Lemma wf_no_file_below (d : disk) (a : path) (k : path) :
  wf_disk d -> is_dir d a = false -> k <> [] -> is_file d (app a k) = false.
Proof.
  intros W D N. destruct (is_file d (app a k)) eqn:F; [| reflexivity].
  destruct (wf_file _ _ W F) as (_ & P & _). rewrite removelast_app in P by exact N.
  rewrite (wf_dir_app _ _ _ W P) in D. discriminate.
Qed.

(** Resolution of a path of names below a directory [cur]: it reaches
    the path when its parent is a directory; otherwise it fails on the
    first component that is not a directory, with [ENOTDIR] when that is
    a file. *)
Lemma walk_plain (d : disk) (cur : path) (comps : list string) (x : string) :
  wf_disk d -> no_dotdot (app comps [x]) = true -> is_dir d cur = true ->
  walk d cur (app comps [x]) =
    if is_dir d (app cur comps) then inl (app cur (app comps [x]))
    else if existsb (fun k => is_file d (app cur k)) (prefixes comps) then inr ENOTDIR else inr ENOENT.
Proof.
  intros W. revert cur. induction comps as [| c cs IH]; intros cur N D.
  - cbn in N |- *. rewrite andb_true_r, negb_true_iff in N. rewrite !app_nil_r, D, N. reflexivity.
  - cbn [app no_dotdot forallb] in N |- *. apply andb_true_iff in N as [Nc N]. apply negb_true_iff in Nc.
    cbn [walk]. rewrite D, Nc. cbn [prefixes existsb]. rewrite existsb_map_comp.
    destruct (is_dir d (app cur [c])) eqn:Dc.
    + rewrite (IH _ N Dc), (wf_dir_not_file _ _ W Dc). cbn [orb].
      replace (app (app cur [c]) cs) with (app cur (c :: cs)) by now rewrite <- app_assoc.
      replace (app (app cur [c]) (app cs [x])) with (app cur (c :: app cs [x])) by now rewrite <- app_assoc.
      rewrite (existsb_ext _ (fun k => is_file d (app cur (c :: k)))); [reflexivity |].
      intros k. now rewrite <- app_assoc.
    + assert (Dcs : is_dir d (app cur (c :: cs)) = false).
      { destruct (is_dir d (app cur (c :: cs))) eqn:E; [| reflexivity].
        replace (app cur (c :: cs)) with (app (app cur [c]) cs) in E by now rewrite <- app_assoc.
        rewrite (wf_dir_app _ _ _ W E) in Dc. discriminate. }
      rewrite Dcs. destruct cs as [| y cs]; cbn [app walk]; rewrite Dc.
      * cbn. now rewrite orb_false_r.
      * destruct (is_file d (app cur [c])) eqn:F; [reflexivity |]. cbn [orb].
        destruct (existsb _ _) eqn:E; [| reflexivity]. apply existsb_exists in E as (k & Hk & Fk).
        destruct (in_prefixes _ _ Hk) as [Nk _].
        replace (app cur (c :: k)) with (app (app cur [c]) k) in Fk by now rewrite <- app_assoc.
        now rewrite (wf_no_file_below _ _ _ W Dc Nk) in Fk.
Qed.

Lemma no_dotdot_app (a b : list string) : no_dotdot (app a b) = no_dotdot a && no_dotdot b.
Proof. unfold no_dotdot. apply forallb_app. Qed.

(** [Path.exists()] of a path of names on a well-formed disk. *)
Lemma path_exists_plain (d : disk) (p : path) :
  wf_disk d -> no_dotdot p = true -> path_exists d p = is_dir d p || is_file d p.
Proof.
  intros W N. induction p as [| x comps _] using rev_ind; [reflexivity |].
  unfold path_exists. rewrite (walk_plain d [] comps x W N eq_refl). cbn [app].
  destruct (is_dir d comps) eqn:D; [reflexivity |].
  destruct (is_dir d (app comps [x])) eqn:Dp.
  - apply (wf_dir_parent _ _ W) in Dp. rewrite removelast_last in Dp. congruence.
  - destruct (is_file d (app comps [x])) eqn:F.
    + destruct (wf_file _ _ W F) as (_ & P & _). rewrite removelast_last in P. congruence.
    + now destruct (existsb _ _).
Qed.

(** [Path.write_text] of a path of names on a well-formed disk. *)
Lemma write_text_plain (d : disk) (p : path) (text : string) :
  wf_disk d -> no_dotdot p = true ->
  write_text p text d =
    if negb (parts_eqb p []) && is_dir d (removelast p) && negb (is_dir d p)
    then (Disk ((p, text) :: filter (fun e => negb (parts_eqb (fst e) p)) (files d)) (dirs d), Ok tt)
    else (d, Raise OSError).
Proof.
  intros W N. unfold write_text, os_write. destruct p as [| x comps _] using rev_ind; [reflexivity |].
  rewrite (walk_plain d [] comps x W N eq_refl). cbn [app]. rewrite removelast_last.
  replace (parts_eqb (app comps [x]) []) with false by now destruct comps.
  destruct (is_dir d comps) eqn:D.
  - cbn. now destruct (is_dir d (app comps [x])).
  - cbn [andb negb]. now destruct (existsb _ _).
Qed.

Lemma is_dir_eta (d : disk) (q : path) : is_dir (Disk (files d) (dirs d)) q = is_dir d q.
Proof. now destruct d. Qed.

Lemma in_prefixes_self (l : list string) : l <> [] -> In l (prefixes l).
Proof.
  induction l as [| y l IH]; intros N; [contradiction |]. cbn. destruct l as [| z l]; [now left |].
  right. apply in_map. apply IH. discriminate.
Qed.

Lemma prefixes_longer (a rest : list string) : rest <> [] -> existsb (parts_eqb (app a rest)) (prefixes a) = false.
Proof.
  intros Nr. destruct (existsb _ _) eqn:E; [| reflexivity]. apply existsb_exists in E as (q & Hq & Eq).
  apply parts_eqb_eq in Eq as <-. destruct (in_prefixes _ _ Hq) as [_ [b Hb]].
  apply (f_equal (@length string)) in Hb. rewrite !length_app in Hb. destruct rest; [contradiction | cbn in Hb; lia].
Qed.

Lemma prefixes_app (a b : list string) : prefixes (app a b) = app (prefixes a) (map (app a) (prefixes b)).
Proof.
  induction a as [| x a IH]; cbn; [now rewrite map_id |].
  rewrite IH, map_app, map_map. reflexivity.
Qed.

Lemma parts_eqb_app_l (a x y : list string) : parts_eqb (app a x) (app a y) = parts_eqb x y.
Proof. induction a as [| c a IH]; cbn; [reflexivity |]. now rewrite String.eqb_refl. Qed.

(** [output_dir / p] for a [p] that is not absolute. *)
Lemma under_rel (out p : list string) : hd_error p <> Some "/" -> under out p = app out p.
Proof.
  destruct p as [| s p]; [reflexivity |]. cbn. intros H. unfold under.
  destruct s as [| c s]; [reflexivity |]. destruct s; [| destruct c as [[] [] [] [] [] [] [] []]; reflexivity].
  destruct c as [[] [] [] [] [] [] [] []]; try reflexivity. contradiction.
Qed.

Lemma is_file_same_files (d d' : disk) (p : path) : files d' = files d -> is_file d' p = is_file d p.
Proof. intros E. unfold is_file, file_at. now rewrite E. Qed.

Lemma prefixes_of_dir (d : disk) (cs : list string) :
  wf_disk d -> is_dir d cs = true ->
  existsb (is_file d) (prefixes cs) = false /\ forall q, existsb (parts_eqb q) (prefixes cs) = true -> is_dir d q = true.
Proof.
  intros W D. split.
  - destruct (existsb _ _) eqn:E; [| reflexivity]. apply existsb_exists in E as (q & Hq & F).
    now rewrite (wf_dir_not_file _ _ W (wf_prefix_dir _ _ _ W D Hq)) in F.
  - intros q E. apply existsb_exists in E as (q' & Hq & Eq). apply parts_eqb_eq in Eq as ->.
    exact (wf_prefix_dir _ _ _ W D Hq).
Qed.

(** [Path.mkdir(parents=True, exist_ok=True)] of a path of names on a
    well-formed disk: it fails, changing nothing, when the path or one
    of its prefixes is a file, and otherwise adds exactly the missing
    prefixes as directories. *)
Lemma mkdir_plain (d : disk) (comps : list string) :
  wf_disk d -> no_dotdot comps = true ->
  if existsb (is_file d) (prefixes comps) then mkdir_p comps d = (d, Raise OSError)
  else exists d', mkdir_p comps d = (d', Ok tt) /\ files d' = files d /\
                  forall q, is_dir d' q = is_dir d q || existsb (parts_eqb q) (prefixes comps).
Proof.
  intros W. induction comps as [| x cs IH] using rev_ind; intros N.
  - cbn. exists d. repeat split. intros q. now rewrite orb_false_r.
  - rename cs into cs'. pose proof N as Np.
    rewrite no_dotdot_app in N. apply andb_true_iff in N as [Ncs _].
    specialize (IH Ncs).
    unfold mkdir_p. rewrite rev_app_distr. cbn [rev app mkdir_rev].
    replace (app (rev (rev cs')) [x]) with (app cs' [x]) by now rewrite rev_involutive.
    rewrite prefixes_snoc, existsb_app. cbn [existsb]. rewrite orb_false_r.
    unfold os_mkdir. rewrite (walk_plain d [] cs' x W Np eq_refl).
    cbn [app]. destruct (is_dir d cs') eqn:D.
    + destruct (prefixes_of_dir _ _ W D) as [NF PD]. rewrite NF. cbn [orb].
      destruct (is_dir d (app cs' [x])) eqn:Dp; cbn [orb].
      * unfold path_is_dir. rewrite (walk_plain d [] cs' x W Np eq_refl).
        cbn [app]. rewrite D, Dp. rewrite (wf_dir_not_file _ _ W Dp). exists d. repeat split.
        intros q. rewrite existsb_app. cbn [existsb]. rewrite orb_false_r.
        destruct (is_dir d q) eqn:Dq; [reflexivity |]. destruct (existsb (parts_eqb q) (prefixes cs')) eqn:E.
        -- now rewrite (PD q E) in Dq.
        -- destruct (parts_eqb q (app cs' [x])) eqn:Eq; [apply parts_eqb_eq in Eq; congruence | reflexivity].
      * destruct (is_file d (app cs' [x])) eqn:Fp.
        -- unfold path_is_dir. rewrite (walk_plain d [] cs' x W Np eq_refl).
           cbn [app]. now rewrite D, Dp.
        -- eexists. split; [reflexivity |]. split; [reflexivity |]. intros q. rewrite is_dir_cons, existsb_app.
           cbn [existsb]. rewrite orb_false_r.
           rewrite is_dir_eta. destruct (is_dir d q) eqn:Dq; [now rewrite orb_true_r |].
           destruct (existsb (parts_eqb q) (prefixes cs')) eqn:E; [now rewrite (PD q E) in Dq |].
           cbn. now rewrite orb_false_r.
    + assert (Ncs' : cs' <> []) by (intros ->; discriminate D).
      rewrite (wf_no_file_below d cs' [x] W D ltac:(discriminate)), orb_false_r.
      change (existsb (fun k => is_file d k) (prefixes cs')) with (existsb (is_file d) (prefixes cs')).
      destruct (existsb (is_file d) (prefixes cs')) eqn:E.
      * unfold path_is_dir. rewrite (walk_plain d [] cs' x W Np eq_refl). cbn [app].
        change (existsb (fun k => is_file d k) (prefixes cs')) with (existsb (is_file d) (prefixes cs')).
        now rewrite D, E.
      * destruct IH as (d1 & M1 & F1 & D1). unfold mkdir_p in M1. rewrite M1.
        destruct (mkdir_rev_ok _ _ _ _ W M1) as (W1 & _).
        assert (D1c : is_dir d1 cs' = true)
          by (rewrite D1; apply orb_true_iff; right; apply existsb_exists; exists cs';
              split; [exact (in_prefixes_self _ Ncs') | apply parts_eqb_eq; reflexivity]).
        rewrite (walk_plain d1 [] cs' x W1 Np eq_refl). cbn [app]. rewrite D1c.
        rewrite D1, (prefixes_longer cs' [x] ltac:(discriminate)), (is_file_same_files _ _ _ F1), (wf_no_file_below d cs' [x] W D ltac:(discriminate)).
        destruct (is_dir d (app cs' [x])) eqn:Dp; [now rewrite (wf_dir_app _ _ _ W Dp) in D |].
        eexists. split; [reflexivity |]. split; [exact F1 |]. intros q.
        rewrite is_dir_cons, is_dir_eta, D1, existsb_app. cbn [existsb].
        now destruct (parts_eqb q (app cs' [x])), (is_dir d q), (existsb (parts_eqb q) (prefixes cs')).
Qed.

(** After [mkdir_p (out ++ odir)] below a directory [out], a path
    [out ++ par] is a directory when it was one, or when [par] is [odir]
    or one of its prefixes. *)
Lemma dir_after_mkdir_rel (d : disk) (out odir par : path) :
  wf_disk d -> is_dir d out = true ->
  is_dir d (app out par) || existsb (parts_eqb (app out par)) (prefixes (app out odir)) =
  parts_eqb par odir || existsb (parts_eqb par) (prefixes odir) || is_dir d (app out par).
Proof.
  intros W Do. destruct (prefixes_of_dir _ _ W Do) as [_ PD].
  rewrite prefixes_app, existsb_app, existsb_map_comp,
    (existsb_ext (fun k => parts_eqb (app out par) (app out k)) (parts_eqb par)) by (intros k; apply parts_eqb_app_l).
  destruct (is_dir d (app out par)) eqn:Dp; [now rewrite !orb_true_r |].
  destruct (existsb (parts_eqb (app out par)) (prefixes out)) eqn:A; [now rewrite (PD _ A) in Dp |].
  cbn [orb]. rewrite !orb_false_r. destruct (parts_eqb par odir) eqn:C; [| reflexivity].
  apply parts_eqb_eq in C as ->. destruct odir as [| y o]; [rewrite app_nil_r in Dp; congruence |].
  apply existsb_exists. exists (y :: o). split; [apply in_prefixes_self; discriminate | apply parts_eqb_refl].
Qed.
