(* ===== verification/Fetch.v ===== *)
(** * Fetch: [fetch_workouts_in_chunks] of [commands/common.py]

    The command layer fetches workouts over 90-day chunks of the date
    range ([DateRanges.chunk_date_range]), keeps the list payloads, and
    then, for each workout: drops it when its sport is not the filter,
    classifies it ([Classify.classify_with_metadata]) and stores the
    classification into the workout dict, drops it when the type or the
    TSS bounds do not match, and finally sorts the kept workouts by
    [str(workoutDay)], newest first.  The API call is a [Context]
    parameter [get_workouts] (user id and the two [%Y-%m-%d] dates to the
    decoded payload or an exception), as is [json.loads].  The theorems:
    the generator always ends with the fuel given to it; every workout
    returned is a workout of a list payload [get_workouts] answered,
    passes the filters, carries its classification and comes in date
    order; and, composed with the markdown exporter, each of them
    gets an index link to the file written for it. *)

From Stdlib Require Import QArith ZArith Lia Ascii String List Bool.
From Stdlib Require Import Sorting.Permutation Sorting.Sorted.
From S2P Require Import Prelude PyValue Text Floats Dates DateRanges Weekly Classify Markdown.
Import ListNotations.
Open Scope string_scope.

(** [workout["classification"] = {...}]: the confidences are hundredths. *)
Definition classification_value (c : WorkoutClassification) : pyval :=
  PDict [("type", PStr (wc_type c)); ("method", PStr (wc_method c));
         ("confidence", PFloat (Qnum (wc_confidence c) * (100 / Zpos (Qden (wc_confidence c)))) (-2));
         ("reasoning", match wc_reasoning c with Some r => PStr r | None => PNone end)].

(** [min_tss is not None and (tss is None or float(tss) < min_tss)] *)
Definition below_min (tss : pyval) (min_tss : option float) : res bool :=
  match min_tss with
  | None => Ok false
  | Some m => match tss with PNone => Ok true | _ => let* t := py_float_d tss in Ok (flt t m) end
  end.

(** [max_tss is not None and (tss is None or float(tss) > max_tss)] *)
Definition above_max (tss : pyval) (max_tss : option float) : res bool :=
  match max_tss with
  | None => Ok false
  | Some m => match tss with PNone => Ok true | _ => let* t := py_float_d tss in Ok (flt m t) end
  end.

(** [type_filter and classification.type != type_filter] *)
Definition type_differs (type_filter : option string) (label : string) : bool :=
  match type_filter with
  | Some t => negb (String.eqb t EmptyString) && negb (String.eqb label t)
  | None => false
  end.

(** [str(item.get("workoutDay", ""))], the sort key. *)
Definition fetch_day_key (w : pyval) : res string :=
  let* d := dict_get w "workoutDay" (PStr EmptyString) in Ok (py_str d).

(** [filtered.sort(key=..., reverse=True)]: the keys are computed first,
    then a stable sort puts greater keys first. *)
Definition sort_by_day_desc (ws : list pyval) : res (list pyval) :=
  let* keyed := res_map_list (fun w => let* k := fetch_day_key w in Ok (k, w)) ws in
  Ok (map snd (sort_stable (fun a b => str_leb (fst b) (fst a)) keyed)).

(** Enough iterations for [chunk_date_range] on [start .. end]. *)
Definition chunk_fuel (start end_ : date) : nat := S (Z.to_nat (toordinal end_ - toordinal start + 1)).

Section Fetch.
Context (json_loads : string -> res pyval)
        (get_workouts : string -> string -> string -> res pyval).

(** The [for chunk_start, chunk_end in chunk_date_range(...)] loop over
    the chunks the generator yields: a payload that is not a list is
    ignored. *)
Fixpoint fetch_chunks (user_id : string) (chunks : list (date * date)) : res (list pyval) :=
  match chunks with
  | [] => Ok []
  | (chunk_start, chunk_end) :: rest =>
      let* payload := get_workouts user_id (strftime_ymd chunk_start) (strftime_ymd chunk_end) in
      let* more := fetch_chunks user_id rest in
      Ok (app (match payload with PList l => l | _ => [] end) more)
  end.

(** The first loop; an exception of the generator ends it after the
    chunks it yielded.  [None] (fuel exhausted) does not happen on valid
    dates ([chunk_date_range_total]). *)
Definition fetch_all (user_id : string) (start end_ : date) : res (list pyval) :=
  match chunk_date_range start end_ 90 (chunk_fuel start end_) with
  | Some (chunks, stop) =>
      let* all := fetch_chunks user_id chunks in
      match stop with Some e => Raise e | None => Ok all end
  | None => Raise OverflowError
  end.

(** One iteration of the second loop: [Some] the (updated) workout when
    it is kept. *)
Definition filter_step (sport_filter : string) (type_filter : option string)
    (min_tss max_tss : option float) (classify_method : string)
    (rules : list (string * list string)) (workout : pyval) : res (option pyval) :=
  let* sport_id := dict_get workout "workoutTypeValueId" PNone in
  let* sport_key := sport_of_id sport_id in
  if negb (String.eqb sport_filter "all") && sport_differs sport_key sport_filter then Ok None
  else
    let* c := classify_with_metadata json_loads workout classify_method rules in
    let* kv := match workout with PDict kv => Ok kv | _ => Raise TypeError end in
    let workout := PDict (dict_set kv "classification" (classification_value c)) in
    if type_differs type_filter (wc_type c) then Ok None
    else
      let* tss := get_or workout "tssActual" "tssPlanned" in
      let* lo := below_min tss min_tss in
      if lo then Ok None
      else
        let* hi := above_max tss max_tss in
        if hi then Ok None else Ok (Some workout).

(** [fetch_workouts_in_chunks(api, user_id, start, end, sport_filter,
    type_filter, min_tss, max_tss, classify_method, config)] *)
Definition fetch_workouts_in_chunks (user_id : string) (start end_ : date) (sport_filter : string)
    (type_filter : option string) (min_tss max_tss : option float) (classify_method : string)
    (config : pyval) : res (list pyval) :=
  let* rules := classification_rules_from_config (py_or config (PDict [])) in
  let* all := fetch_all user_id start end_ in
  let* kept := res_map_list (filter_step sport_filter type_filter min_tss max_tss classify_method rules) all in
  sort_by_day_desc (flat_map (fun o => match o with Some w => [w] | None => [] end) kept).

End Fetch.

(** * Theorems *)

(** The sort key order of the result: newest first. *)
Definition day_desc (a b : pyval) : Prop :=
  exists ka kb, fetch_day_key a = Ok ka /\ fetch_day_key b = Ok kb /\ str_leb kb ka = true.

Lemma sort_by_day_desc_spec (ws ws' : list pyval) :
  sort_by_day_desc ws = Ok ws' -> Sorted day_desc ws' /\ Permutation ws ws'.
Proof.
  unfold sort_by_day_desc. intros H. res_inv H.
  set (leb := fun a b : string * pyval => str_leb (fst b) (fst a)) in *.
  assert (Hk : Forall (fun p => fetch_day_key (snd p) = Ok (fst p)) a).
  { refine (res_map_list_Forall _ _ _ _ _ E). intros w p Hp. res_inv Hp. assumption. }
  assert (Hw : map snd a = ws).
  { rewrite <- (map_id ws). refine (res_map_list_map _ _ _ _ _ _ E). intros w p Hp. res_inv Hp. reflexivity. }
  pose proof (sort_stable_perm leb a) as Hp.
  split.
  - apply (Sorted_map (fun p q => leb p q = true)).
    + intros p q Hp' Hq' Hpq. rewrite Forall_forall in Hk.
      apply (Permutation_in _ (Permutation_sym Hp)) in Hp', Hq'.
      exists (fst p), (fst q). repeat split; auto.
    + apply sort_stable_sorted. intros x y. unfold leb. apply str_leb_total.
  - rewrite <- Hw. now apply Permutation_map.
Qed.

Section FetchTheorems.
Context (json_loads : string -> res pyval)
        (get_workouts : string -> string -> string -> res pyval).

(** A workout [fetch_workouts_in_chunks] keeps: a workout [kv0] of a
    list payload [get_workouts] answered for the user, with its
    classification [c] stored under [classification], whose sport, type
    and TSS pass the filters. *)
Definition kept_ok (user_id : string) (sport_filter : string) (type_filter : option string)
    (min_tss max_tss : option float) (classify_method : string) (rules : list (string * list string))
    (w : pyval) : Prop :=
  exists chunk_start chunk_end payload kv0 c sid sp tss,
    get_workouts user_id chunk_start chunk_end = Ok (PList payload) /\ In (PDict kv0) payload /\
    classify_with_metadata json_loads (PDict kv0) classify_method rules = Ok c /\
    w = PDict (dict_set kv0 "classification" (classification_value c)) /\
    dict_get w "workoutTypeValueId" PNone = Ok sid /\ sport_of_id sid = Ok sp /\
    (negb (String.eqb sport_filter "all") && sport_differs sp sport_filter) = false /\
    type_differs type_filter (wc_type c) = false /\
    get_or w "tssActual" "tssPlanned" = Ok tss /\ below_min tss min_tss = Ok false /\
    above_max tss max_tss = Ok false.

(** Every workout the chunk loop collects comes from a list payload. *)
Lemma fetch_chunks_from_payload user_id chunks all x :
  fetch_chunks get_workouts user_id chunks = Ok all -> In x all ->
  exists s e payload, get_workouts user_id s e = Ok (PList payload) /\ In x payload.
Proof.
  revert all. induction chunks as [| [cs ce] chunks IH]; intros all H Hx; cbn in H.
  - injection H as <-. destruct Hx.
  - destruct (get_workouts user_id _ _) as [payload |] eqn:G; cbn [res_bind] in H; [| discriminate].
    destruct (fetch_chunks _ user_id chunks) as [more |] eqn:M; cbn [res_bind] in H; [| discriminate].
    injection H as <-. apply in_app_or in Hx as [Hx | Hx]; [| exact (IH more eq_refl Hx)].
    destruct payload; try destruct Hx. eauto.
Qed.

Lemma fetch_all_from_payload user_id start end_ all x :
  fetch_all get_workouts user_id start end_ = Ok all -> In x all ->
  exists s e payload, get_workouts user_id s e = Ok (PList payload) /\ In x payload.
Proof.
  unfold fetch_all. destruct (chunk_date_range start end_ 90 _) as [[chunks [e |]] |]; intros H;
    try discriminate; destruct (fetch_chunks _ user_id chunks) as [a |] eqn:F; try discriminate;
    injection H as <-; eauto using fetch_chunks_from_payload.
Qed.

Lemma filter_step_kept user_id all sf tf mn mx meth rules w w' :
  (forall x, In x all -> exists s e payload, get_workouts user_id s e = Ok (PList payload) /\ In x payload) ->
  In w all -> filter_step json_loads sf tf mn mx meth rules w = Ok (Some w') -> kept_ok user_id sf tf mn mx meth rules w'.
Proof.
  intros Hall Hin. unfold filter_step. intros H. res_inv H. destruct w as [| | | | | | kv0]; try discriminate.
  injection E3 as <-. destruct (Hall _ Hin) as (s & e & payload & G & Hp).
  exists s, e, payload, kv0, a1, a, a0, a3.
  cbn [dict_get] in E |- *. rewrite assoc_dict_set_other by discriminate.
  repeat split; assumption.
Qed.

Lemma fetch_workouts_kept user_id start end_ sf tf mn mx meth config rules ws :
  classification_rules_from_config (py_or config (PDict [])) = Ok rules ->
  fetch_workouts_in_chunks json_loads get_workouts user_id start end_ sf tf mn mx meth config = Ok ws ->
  Sorted day_desc ws /\ Forall (kept_ok user_id sf tf mn mx meth rules) ws.
Proof.
  intros Hr H. unfold fetch_workouts_in_chunks in H. rewrite Hr, res_bind_Ok in H. res_inv H.
  destruct (sort_by_day_desc_spec _ _ H) as [Hs Hp]. split; [exact Hs |].
  apply (Permutation_Forall Hp). apply Forall_flat_map.
  refine (res_map_list_Forall_in (fun o => Forall (kept_ok user_id sf tf mn mx meth rules)
                                             (match o with Some w => [w] | None => [] end)) _ _ _ _ E0).
  intros w [w' |] Hin Hw; constructor; [| constructor].
  exact (filter_step_kept _ _ _ _ _ _ _ _ _ _ (fun x => fetch_all_from_payload _ _ _ _ x E) Hin Hw).
Qed.

(** C21: Soundness of [fetch_workouts_in_chunks]: every workout it returns
    is a workout of a list payload [get_workouts] answered for the user,
    with its classification stored under [classification], of the
    requested sport and type, with a TSS inside the bounds given, and the
    list is sorted by [str(workoutDay)], newest first. *)
Theorem fetch_workouts_sound user_id start end_ sf tf mn mx meth config rules ws :
  classification_rules_from_config (py_or config (PDict [])) = Ok rules ->
  fetch_workouts_in_chunks json_loads get_workouts user_id start end_ sf tf mn mx meth config = Ok ws ->
  Sorted day_desc ws /\ Forall (kept_ok user_id sf tf mn mx meth rules) ws.
Proof. apply fetch_workouts_kept. Qed.

(** The labels of the classifier are among the rule labels, [other] and
    the structure labels. *)
Lemma classify_label_seg w meth rules c :
  Forall (fun r => seg_ok (fst r) = true) rules ->
  classify_with_metadata json_loads w meth rules = Ok c -> seg_ok (wc_type c) = true.
Proof.
  intros Hr H. unfold classify_with_metadata in H.
  destruct (classify_with_source json_loads w rules) as [[l src] |] eqn:E; cbn [res_bind] in H; [| discriminate].
  assert (Hl : seg_ok l = true).
  { destruct (classify_with_source_cases _ _ _ _ _ E) as [[_ Hin] | [_ Hk]].
    - unfold STRUCTURE_LABELS in Hin. cbn in Hin. intuition (subst; reflexivity).
    - unfold classify_by_keywords in Hk.
      destruct (normalized_text w) as [text |]; cbn [res_bind] in Hk; [| discriminate].
      injection Hk as <-. destruct (first_rule_match_cases text rules) as [-> | Hin]; [reflexivity |].
      apply in_map_iff in Hin as (r & <- & Hin). rewrite Forall_forall in Hr. exact (Hr r Hin). }
  destruct (String.eqb meth "ai"); injection H as <-; exact Hl. 
Qed.

(** The type [fetch.py] passes to the writer is the stored classification's. *)
Lemma kept_fetch_type kv0 c :
  fetch_workout_type (PDict (dict_set kv0 "classification" (classification_value c))) = Ok (PStr (wc_type c)).
Proof. unfold fetch_workout_type. cbn [dict_get]. now rewrite assoc_dict_set. Qed.

(** C19: Composition of [fetch_workouts_in_chunks], [commands/fetch.py],
    [write_workout_markdown] and [generate_indexes]: when the rule labels
    are path segments (as the default rules are), every workout the fetch
    returns whose day is a string without [/] is written, for the type
    [fetch.py] passes, to exactly the file its index row links to. *)
Theorem fetch_index_links user_id start end_ sf tf mn mx meth config rules ws w day :
  Forall (fun r => seg_ok (fst r) = true) rules ->
  classification_rules_from_config (py_or config (PDict [])) = Ok rules ->
  fetch_workouts_in_chunks json_loads get_workouts user_id start end_ sf tf mn mx meth config = Ok ws ->
  In w ws -> dict_get w "workoutDay" PNone = Ok (PStr day) -> day <> EmptyString ->
  all_chars no_slash day = true ->
  exists wt, fetch_workout_type w = Ok (PStr wt) /\
    forall is_file is_dir rewrite out_path text row,
      write_workout_markdown is_file is_dir w (PStr wt) rewrite = Ok (out_path, text) ->
      index_row_of w = Ok row -> out_path = split_char "/" (row_path row).
Proof.
  intros Hseg Hr H Hin Hd Hne Hds.
  destruct (fetch_workouts_kept _ _ _ _ _ _ _ _ _ _ _ Hr H) as [_ Hk].
  rewrite Forall_forall in Hk. destruct (Hk w Hin) as (cs & ce & p & kv0 & c & sid & sp & tss & _ & _ & Hc & -> & _).
  exists (wc_type c). split; [apply kept_fetch_type |].
  intros is_file is_dir rw out_path text row Hw Hrow.
  refine (proj1 (index_link_matches is_file is_dir rw _ (wc_type c) day out_path text row
                   (kept_fetch_type _ _) _ Hd Hne Hds Hw Hrow)).
  exact (classify_label_seg _ _ _ _ Hseg Hc).
Qed.

End FetchTheorems.

(** A sample API: two runs and a ride in the first chunk of 2024. *)
Definition sample_api (_ start _ : string) : res pyval :=
  if String.eqb start "2024-01-01" then
    Ok (PList [PDict [("title", PStr "Easy run"); ("workoutDay", PStr "2024-01-03"); ("workoutTypeValueId", PInt 3)];
               PDict [("title", PStr "Bike"); ("workoutDay", PStr "2024-01-04"); ("workoutTypeValueId", PInt 2)];
               PDict [("title", PStr "City race"); ("workoutDay", PStr "2024-01-20"); ("workoutTypeValueId", PInt 3)]])
  else Ok (PList []).

Definition sample_fetch : res (list pyval) :=
  fetch_workouts_in_chunks no_json sample_api "u" (Date 2024 1 1) (Date 2024 1 31) "run" None None None "auto" PNone.

Definition sample_fetched : list pyval := match sample_fetch with Ok ws => ws | Raise _ => [] end.

Lemma sample_fetch_ok : sample_fetch = Ok sample_fetched.
Proof. vm_compute. reflexivity. Qed.

Lemma fetch_workouts_sound_witness :
  classification_rules_from_config (py_or PNone (PDict [])) = Ok TYPE_RULES /\
  fetch_workouts_in_chunks no_json sample_api "u" (Date 2024 1 1) (Date 2024 1 31) "run" None None None "auto" PNone =
    Ok sample_fetched /\
  length sample_fetched = 2%nat /\
  Sorted day_desc sample_fetched /\
  Forall (kept_ok no_json sample_api "u" "run" None None None "auto" TYPE_RULES) sample_fetched.
Proof.
  assert (Hr : classification_rules_from_config (py_or PNone (PDict [])) = Ok TYPE_RULES) by reflexivity.
  split; [exact Hr |]. split; [exact sample_fetch_ok |]. split; [vm_compute; reflexivity |].
  exact (fetch_workouts_sound no_json sample_api "u" (Date 2024 1 1) (Date 2024 1 31) "run" None None None
           "auto" PNone TYPE_RULES sample_fetched Hr sample_fetch_ok).
Defined.

Lemma fetch_index_links_witness :
  exists wt, fetch_workout_type (hd PNone sample_fetched) = Ok (PStr wt) /\
    forall is_file is_dir rewrite out_path text row,
      write_workout_markdown is_file is_dir (hd PNone sample_fetched) (PStr wt) rewrite = Ok (out_path, text) ->
      index_row_of (hd PNone sample_fetched) = Ok row -> out_path = split_char "/" (row_path row).
Proof.
  refine (fetch_index_links no_json sample_api "u" (Date 2024 1 1) (Date 2024 1 31) "run" None None None
            "auto" PNone TYPE_RULES sample_fetched (hd PNone sample_fetched) "2024-01-20"
            _ eq_refl sample_fetch_ok _ _ _ _).
  - repeat constructor.
  - vm_compute. left. reflexivity.
  - vm_compute. reflexivity.
  - discriminate.
  - reflexivity.
Defined.
