(* ===== verification/Api.v ===== *)
(** * Api: the retrying HTTP client of [core/api.py]

    [TrainingPeaksAPI] keeps one piece of state, [_has_sent_request], and
    talks to the network through [requests.request] and [time.sleep].
    Both effects are modelled explicitly: a [world] holds the client's
    flag, the number of requests sent so far and the log of the effects
    in the order they happened (newest first), and the network is a
    [Context] parameter [net] that answers the [n]-th request; [json]
    stands for [response.json()].  Every operation is a function
    [world -> world * res A] of the state monad [st world] of [Prelude].

    The theorems: the retry loop refines the abstract contract "the
    first of the first [max_retries] answers that is usable, else
    [APIError]", whatever the sleeps; it sends exactly as many requests
    as that contract consumes; it waits [rate_limit_delay] right before
    every request but the first one of the client's life, which is an
    invariant of every state the client reaches by any sequence of its
    operations. *)

From Stdlib Require Import QArith ZArith Lia Ascii String List Bool.
From S2P Require Import Prelude PyValue.
Import ListNotations.
Open Scope string_scope.

(** ** Requests, answers and effects *)

(** The arguments of one [requests.request(...)] call. *)
Record request : Type := Request {
  rq_method : string;
  rq_url : string;
  rq_authorization : string;
  rq_params : option pyval;
  rq_json : option pyval;
  rq_timeout : Z
}.

(** What [requests.request] does: a response with its status and text,
    or a [RequestException] of its own (connection error, timeout). *)
Inductive outcome : Type :=
  | Answer (status : Z) (text : string)
  | Failure.

Inductive event : Type :=
  | Sleep (seconds : Q)
  | Send (r : request).

(** The client's [_has_sent_request], the requests sent so far and the
    effects, newest first. *)
Record world : Type := World {
  has_sent : bool;
  sent : nat;
  log : list event
}.

Definition io (A : Type) : Type := st world A.

Open Scope st_scope.

(** [time.sleep(seconds)] *)
Definition sleep (seconds : Q) (w : world) : world :=
  World (has_sent w) (sent w) (Sleep seconds :: log w).

(** [requests.request(...)] as the network answers it. *)
Definition send (net : nat -> request -> outcome) (r : request) (w : world) : world * outcome :=
  (World (has_sent w) (S (sent w)) (Send r :: log w), net (sent w) r).

(** [status in (429, 500, 502, 503, 504)] *)
Definition retry_status (status : Z) : bool :=
  existsb (Z.eqb status) [429; 500; 502; 503; 504]%Z.

(** [response.raise_for_status()]: a client or server error status. *)
Definition error_status (status : Z) : bool := (400 <=? status)%Z && (status <? 600)%Z.

(** [base_url.rstrip("/")] *)
Fixpoint rstrip_slash (s : string) : string :=
  match s with
  | EmptyString => EmptyString
  | String c s' =>
      let r := rstrip_slash s' in
      if String.eqb r EmptyString && Ascii.eqb c "/" then EmptyString else String c r
  end.

Definition API_BASE : string := "https://tpapi.trainingpeaks.com".

(** The attributes [__init__] sets, [_has_sent_request] apart. *)
Record client : Type := Client {
  token : string;
  base_url : string;
  rate_limit_delay : Q;
  max_retries : Z;
  timeout_seconds : Z
}.

(** [TrainingPeaksAPI(token, base_url, rate_limit_delay, max_retries,
    timeout_seconds)] and the world it starts: nothing sent yet. *)
Definition new_client (tok base : string) (delay : Q) (retries timeout : Z) : client :=
  Client tok (rstrip_slash base) delay retries timeout.

Definition initial_world : world := World false O [].

Section Client.

Context (net : nat -> request -> outcome) (json : string -> res pyval).

(** What one answer makes of the [try] body: the decoded value, or the
    exception the [except] clause catches ([HTTPError] is an [OSError],
    the decoding error of [response.json()] a [JSONDecodeError]). *)
Definition interpret (o : outcome) : res pyval :=
  match o with
  | Failure => Raise OSError
  | Answer status text =>
      if retry_status status then Raise OSError
      else if error_status status then Raise OSError
      else if String.eqb text EmptyString then Ok (PDict [])
      else match json text with Ok v => Ok v | Raise _ => Raise JSONDecodeError end
  end.

(** The body of the [try] of one attempt. *)
Definition attempt_once (c : client) (r : request) (w : world) : world * res pyval :=
  let w1 := if negb (Qle_bool (rate_limit_delay c) 0) && has_sent w then sleep (rate_limit_delay c) w else w in
  let w2 := World true (sent w1) (log w1) in
  let '(w3, o) := send net r w2 in
  (w3, interpret o).

(** [for attempt in range(attempt, max_retries + 1)], [left] being the
    number of iterations the range has left. *)
Fixpoint retry_loop (c : client) (r : request) (attempt : Z) (left : nat) (w : world) : world * res pyval :=
  match left with
  | O => (w, Raise APIError)
  | S left' =>
      let '(w1, res1) := attempt_once c r w in
      match res1 with
      | Ok v => (w1, Ok v)
      | Raise _ =>
          if (max_retries c <=? attempt)%Z then (w1, Raise APIError)
          else retry_loop c r (attempt + 1) left' (sleep (inject_Z (Z.min (2 ^ attempt) 8)) w1)
      end
  end.

(** [_request(method, path, params, json_data)] *)
Definition _request (c : client) (method path : string) (params json_data : option pyval) : io pyval :=
  retry_loop c (Request method (base_url c ++ path) ("Bearer " ++ token c) params json_data (timeout_seconds c))
    1 (Z.to_nat (max_retries c)).

Definition get (c : client) (path : string) (params : option pyval) : io pyval := _request c "GET" path params None.
Definition post (c : client) (path : string) (payload : pyval) : io pyval := _request c "POST" path None (Some payload).
Definition delete (c : client) (path : string) : io pyval := _request c "DELETE" path None None.

Definition get_user (c : client) : io pyval := get c "/users/v3/user" None.

(** [str(user_data["user"]["userId"])] *)
Definition get_user_id (c : client) : io string :=
  user_data <-- get_user c ;;
  st_lift (let* u := getitem user_data "user" in let* i := getitem u "userId" in Ok (py_str i)).

Definition get_workouts (c : client) (user_id start_date end_date : string) : io pyval :=
  get c ("/fitness/v6/athletes/" ++ user_id ++ "/workouts/" ++ start_date ++ "/" ++ end_date) None.

Definition get_workout (c : client) (user_id workout_id : string) : io pyval :=
  get c ("/fitness/v1/athletes/" ++ user_id ++ "/workouts/" ++ workout_id) None.

Definition create_workout (c : client) (user_id : string) (payload : pyval) : io pyval :=
  post c ("/fitness/v6/athletes/" ++ user_id ++ "/workouts") payload.

Definition delete_workout (c : client) (user_id workout_id : string) : io pyval :=
  delete c ("/fitness/v6/athletes/" ++ user_id ++ "/workouts/" ++ workout_id).

Definition get_athlete_settings (c : client) (user_id : string) : io pyval :=
  get c ("/fitness/v1/athletes/" ++ user_id ++ "/settings") None.

End Client.

(** ** The contract of [_request] and the rate-limit discipline *)

(** The answers the network gives to [n] requests from the [from]-th on. *)
Definition answers (net : nat -> request -> outcome) (r : request) (from n : nat) : list outcome :=
  map (fun i => net i r) (seq from n).

(** The abstract contract of a retrying request: the first usable
    answer, or [APIError] when none of them is. *)
Fixpoint first_usable (rs : list (res pyval)) : res pyval :=
  match rs with
  | [] => Raise APIError
  | Ok v :: _ => Ok v
  | Raise _ :: rs' => first_usable rs'
  end.

(** The number of answers the contract looks at. *)
Fixpoint consumed (rs : list (res pyval)) : nat :=
  match rs with
  | [] => O
  | Ok _ :: _ => 1
  | Raise _ :: rs' => S (consumed rs')
  end.

Fixpoint no_send (l : list event) : bool :=
  match l with
  | [] => true
  | Send _ :: _ => false
  | Sleep _ :: l' => no_send l'
  end.

(** A log (newest first) in which every request but the first one is
    right after a sleep of [d] seconds. *)
Inductive spaced (d : Q) : list event -> Prop :=
  | spaced_nil : spaced d []
  | spaced_sleep q l : spaced d l -> spaced d (Sleep q :: l)
  | spaced_first r l : no_send l = true -> spaced d (Send r :: l)
  | spaced_after r l : spaced d l -> spaced d (Send r :: Sleep d :: l).

(** The invariant of the client's world. *)
Definition wf_world (d : Q) (w : world) : Prop :=
  spaced d (log w) /\ (has_sent w = false -> no_send (log w) = true).

(** The public operations of [TrainingPeaksAPI], as the state they leave. *)
Inductive api_op : Type :=
  | OpGet (path : string) (params : option pyval)
  | OpPost (path : string) (payload : pyval)
  | OpDelete (path : string)
  | OpGetUser
  | OpGetUserId
  | OpGetWorkouts (user_id start_date end_date : string)
  | OpGetWorkout (user_id workout_id : string)
  | OpCreateWorkout (user_id : string) (payload : pyval)
  | OpDeleteWorkout (user_id workout_id : string)
  | OpGetAthleteSettings (user_id : string).

Definition run_op (net : nat -> request -> outcome) (json : string -> res pyval) (c : client) (op : api_op)
    (w : world) : world :=
  match op with
  | OpGet p q => fst (get net json c p q w)
  | OpPost p v => fst (post net json c p v w)
  | OpDelete p => fst (delete net json c p w)
  | OpGetUser => fst (get_user net json c w)
  | OpGetUserId => fst (get_user_id net json c w)
  | OpGetWorkouts u s e => fst (get_workouts net json c u s e w)
  | OpGetWorkout u i => fst (get_workout net json c u i w)
  | OpCreateWorkout u v => fst (create_workout net json c u v w)
  | OpDeleteWorkout u i => fst (delete_workout net json c u i w)
  | OpGetAthleteSettings u => fst (get_athlete_settings net json c u w)
  end.

(** The worlds a client reaches from its creation by any sequence of its
    operations. *)
Inductive reachable (net : nat -> request -> outcome) (json : string -> res pyval) (c : client) : world -> Prop :=
  | reach_init : reachable net json c initial_world
  | reach_op op w : reachable net json c w -> reachable net json c (run_op net json c op w).

(** * Theorems *)

Lemma Qle_bool_pos (d : Q) : 0 < d -> Qle_bool d 0 = false.
Proof. intros H. destruct (Qle_bool d 0) eqn:E; [apply Qle_bool_iff in E; exfalso; apply (Qlt_not_le _ _ H E) | reflexivity]. Qed.

Lemma answers_cons (net : nat -> request -> outcome) (r : request) (from n : nat) :
  answers net r from (S n) = net from r :: answers net r (S from) n.
Proof. reflexivity. Qed.

Section ClientTheorems.

Context (net : nat -> request -> outcome) (json : string -> res pyval).

Lemma attempt_once_eq (c : client) (r : request) (w : world) :
  attempt_once net json c r w =
  (World true (S (sent w))
     (Send r :: (if negb (Qle_bool (rate_limit_delay c) 0) && has_sent w then Sleep (rate_limit_delay c) :: log w else log w)),
   interpret json (net (sent w) r)).
Proof. unfold attempt_once. now destruct (negb _ && has_sent w). Qed.

Lemma retry_loop_contract (c : client) (r : request) (L : nat) :
  forall a w, max_retries c = (a + Z.of_nat L - 1)%Z ->
  snd (retry_loop net json c r a L w) = first_usable (map (interpret json) (answers net r (sent w) L)) /\
  sent (fst (retry_loop net json c r a L w)) = (sent w + consumed (map (interpret json) (answers net r (sent w) L)))%nat.
Proof.
  induction L as [| L IH]; intros a w Hm; [cbn; split; [reflexivity | lia] |].
  rewrite answers_cons. cbn [retry_loop map]. rewrite attempt_once_eq.
  destruct (interpret json (net (sent w) r)) as [v | e]; [cbn; split; [reflexivity | lia] |].
  destruct (Z.leb_spec (max_retries c) a) as [Hle | Hgt].
  - assert (L = O) as -> by lia. cbn. split; [reflexivity | lia].
  - match goal with |- context [retry_loop _ _ _ _ ?a' L ?w'] => destruct (IH a' w' ltac:(lia)) as [H1 H2] end.
    cbn [first_usable consumed]. split; [exact H1 | rewrite H2; cbn; lia].
Qed.

Lemma request_contract (c : client) (method path : string) (params json_data : option pyval) (w : world) :
  let r := Request method (base_url c ++ path) ("Bearer " ++ token c) params json_data (timeout_seconds c) in
  let rs := map (interpret json) (answers net r (sent w) (Z.to_nat (max_retries c))) in
  snd (_request net json c method path params json_data w) = first_usable rs /\
  sent (fst (_request net json c method path params json_data w)) = (sent w + consumed rs)%nat.
Proof.
  intros r rs. unfold _request. destruct (Z.le_gt_cases 0 (max_retries c)) as [H | H].
  - apply retry_loop_contract. lia.
  - unfold rs. replace (Z.to_nat (max_retries c)) with O by lia. cbn. split; [reflexivity | lia].
Qed.

(** C26: Refinement of the retry loop of [_request]: its result is the
    contract's, the first usable answer among the answers to the first
    [max_retries] requests (a successful status with an empty text or
    decodable JSON), else [APIError]; and it sends exactly the requests
    the contract looks at, whatever sleeps it interleaves. *)
Theorem request_refines (c : client) (method path : string) (params json_data : option pyval) (w : world) :
  let r := Request method (base_url c ++ path) ("Bearer " ++ token c) params json_data (timeout_seconds c) in
  let rs := map (interpret json) (answers net r (sent w) (Z.to_nat (max_retries c))) in
  snd (_request net json c method path params json_data w) = first_usable rs /\
  sent (fst (_request net json c method path params json_data w)) = (sent w + consumed rs)%nat.
Proof. apply request_contract. Qed.

Lemma consumed_bounds (rs : list (res pyval)) : (consumed rs <= length rs)%nat /\ (rs <> [] -> 1 <= consumed rs)%nat.
Proof.
  induction rs as [| [v | e] rs IH]; cbn; [split; [lia | congruence] | split; lia |].
  destruct IH as [IH _]. split; lia.
Qed.

(** Bounds of [_request]: with [max_retries >= 1] it sends at least
    one request and at most [max_retries] of them. *)
Theorem request_attempts_bounded (c : client) (method path : string) (params json_data : option pyval) (w : world) :
  (1 <= max_retries c)%Z ->
  (sent w < sent (fst (_request net json c method path params json_data w)) <= sent w + Z.to_nat (max_retries c))%nat.
Proof.
  intros Hm. destruct (request_contract c method path params json_data w) as [_ ->].
  set (rs := map _ _). assert (Hl : length rs = Z.to_nat (max_retries c)) by (unfold rs, answers; now rewrite !length_map, length_seq).
  destruct (consumed_bounds rs) as [H1 H2].
  assert (rs <> []) by (intros E; rewrite E in Hl; cbn in Hl; lia). specialize (H2 H). lia.
Qed.

Lemma sleep_wf (d q : Q) (w : world) : wf_world d w -> wf_world d (sleep q w).
Proof. intros [Hs Hn]. split; [now constructor | exact Hn]. Qed.

Lemma attempt_once_wf (c : client) (r : request) (w : world) :
  0 < rate_limit_delay c -> wf_world (rate_limit_delay c) w ->
  wf_world (rate_limit_delay c) (fst (attempt_once net json c r w)).
Proof.
  intros Hd [Hs Hn]. rewrite attempt_once_eq, Qle_bool_pos by exact Hd. cbn.
  split; [| discriminate]. destruct (has_sent w); [now apply spaced_after | now apply spaced_first, Hn].
Qed.

Lemma retry_loop_wf (c : client) (r : request) (L : nat) :
  0 < rate_limit_delay c ->
  forall a w, wf_world (rate_limit_delay c) w -> wf_world (rate_limit_delay c) (fst (retry_loop net json c r a L w)).
Proof.
  intros Hd. induction L as [| L IH]; intros a w Hw; [exact Hw |]. cbn [retry_loop].
  pose proof (attempt_once_wf c r w Hd Hw) as H1. destruct (attempt_once net json c r w) as [w1 [v | e]]; [exact H1 |].
  destruct (max_retries c <=? a)%Z; [exact H1 | apply IH, sleep_wf, H1].
Qed.

Lemma run_op_wf (c : client) (op : api_op) (w : world) :
  0 < rate_limit_delay c -> wf_world (rate_limit_delay c) w -> wf_world (rate_limit_delay c) (run_op net json c op w).
Proof.
  intros Hd Hw. destruct op; cbn [run_op];
    unfold get_user_id, get_workouts, get_workout, create_workout, delete_workout, get_athlete_settings, get_user,
      get, post, delete, _request; rewrite ?st_bind_lift_fst; now apply retry_loop_wf.
Qed.

Lemma reachable_wf (c : client) (w : world) :
  0 < rate_limit_delay c -> reachable net json c w -> wf_world (rate_limit_delay c) w.
Proof.
  intros Hd. induction 1 as [| op w _ IH]; [split; [constructor | reflexivity] | now apply run_op_wf].
Qed.

(** C27: Rate limiting is an invariant of the client: in every state a
    client with a positive [rate_limit_delay] reaches by any sequence of
    its operations, every request it has sent, but the first of its life,
    comes right after a sleep of [rate_limit_delay] seconds, retries and
    backoff sleeps included. *)
Theorem reachable_rate_limited (c : client) (w : world) :
  0 < rate_limit_delay c -> reachable net json c w -> spaced (rate_limit_delay c) (log w).
Proof. intros Hd Hr. apply (reachable_wf c w Hd Hr). Qed.

End ClientTheorems.

(** ** Witnesses and the behaviours modelling showed *)

Definition sample_client : client := new_client "tok" (API_BASE ++ "/") 1 3 30.

(** A network that drops the first request and answers [{}] afterwards. *)
Definition flaky_net (n : nat) (_ : request) : outcome := if Nat.eqb n 0 then Failure else Answer 200 "{}".

Definition empty_json (_ : string) : res pyval := Ok (PDict []).

Definition sample_world : world :=
  run_op flaky_net empty_json sample_client (OpGetWorkouts "42" "2024-01-01" "2024-01-31")
    (run_op flaky_net empty_json sample_client OpGetUser initial_world).

Lemma reachable_rate_limited_witness :
  0 < rate_limit_delay sample_client /\ reachable flaky_net empty_json sample_client sample_world /\
  spaced (rate_limit_delay sample_client) (log sample_world).
Proof.
  assert (Hd : 0 < rate_limit_delay sample_client) by reflexivity.
  assert (Hr : reachable flaky_net empty_json sample_client sample_world) by (repeat constructor).
  exact (conj Hd (conj Hr (reachable_rate_limited flaky_net empty_json sample_client sample_world Hd Hr))).
Defined.

Lemma request_attempts_bounded_witness :
  (1 <= max_retries sample_client)%Z /\
  (sent initial_world < sent (fst (_request flaky_net empty_json sample_client "GET" "/users/v3/user" None None initial_world))
     <= sent initial_world + Z.to_nat (max_retries sample_client))%nat.
Proof.
  assert (Hm : (1 <= max_retries sample_client)%Z) by (vm_compute; discriminate).
  exact (conj Hm (request_attempts_bounded flaky_net empty_json sample_client "GET" "/users/v3/user" None None
                    initial_world Hm)).
Defined.

(** A client error such as 404 is retried like a server error: the
    [HTTPError] of [raise_for_status] is a [RequestException] too, so a
    missing workout costs [max_retries] requests and the backoff sleeps
    before [APIError]. *)
Example client_error_retried :
  let '(w, r) := get_workout (fun _ _ => Answer 404 "not found") empty_json sample_client "42" "7" initial_world in
  r = Raise APIError /\ sent w = 3%nat /\
  map (fun e => match e with Sleep q => Some q | Send _ => None end) (log w) =
    [None; Some 1; Some 4; None; Some 1; Some 2; None].
Proof. vm_compute. repeat split. Qed.

(** With [max_retries = 0] the range of attempts is empty: no request is
    sent and [_request] raises [APIError] (whose message names the last
    error, [None]). *)
Example zero_retries_no_request :
  _request (fun _ _ => Answer 200 "{}") empty_json (new_client "tok" API_BASE 1 0 30) "GET" "/users/v3/user" None None
    initial_world = (initial_world, Raise APIError).
Proof. reflexivity. Qed.

(** An answer whose text is not JSON is retried as well, then reported
    as [APIError]. *)
Example bad_json_retried :
  snd (get_user (fun _ _ => Answer 200 "<html>") (fun _ => Raise ValueError) sample_client initial_world) = Raise APIError.
Proof. vm_compute. reflexivity. Qed.
