(* ===== verification/Auth.v ===== *)
(** * Auth: the login flow of [core/auth.py]

    [TrainingPeaksAuth.login] obtains a bearer token from cookies, trying
    three sources in order: the cookie document kept in 1Password (the
    [op] command line tool), the local cookie file, and a fresh browser
    login.  The world the flow acts on is modelled as [auth_world]: the
    content of the cookie file, the 1Password documents, the number of
    token exchanges made and the log of the effects (newest first).
    What lies outside the program is a [Context] parameter of the
    section: the JSON codec, the token endpoint (answering the [n]-th
    exchange with an [Api.outcome]), the [op] tool and the browser login.
    Every method is a function of the state monad [st auth_world].

    The theorems: a token [login] returns was issued by the token
    endpoint for the very cookie jar it returns; a browser login happens
    only when it is forced or when neither stored source yields a token;
    [_cookies_to_jar] equals its last-cookie-wins specification; the
    cookie file written by [_save_local_cookies] reads back as the
    cookies given a JSON codec that round-trips. *)

From Stdlib Require Import QArith ZArith Lia Ascii String List Bool.
From S2P Require Import Prelude PyValue Api.
Import ListNotations.
Open Scope string_scope.
Open Scope st_scope.

(** ** The world of the login flow *)

Inductive auth_event : Type :=
  | OpDocumentGet (doc vault : string)
  | OpDocumentEdit (doc vault text : string)
  | OpRead (ref : string)
  | TokenExchange (jar : list (string * pyval)) (result : option string)
  | BrowserLogin (username : string)
  | WriteLocal (text : string)
  | UnlinkLocal.

Record auth_world : Type := AuthWorld {
  cookie_text : option string;
  op_docs : list ((string * string) * string);
  exchanges : nat;
  alog : list auth_event
}.

Definition log_event (e : auth_event) (w : auth_world) : auth_world :=
  AuthWorld (cookie_text w) (op_docs w) (exchanges w) (e :: alog w).

(** The attributes [__init__] sets: [username or os.getenv("TP_USERNAME")]
    and the same for the password. *)
Record auth : Type := Auth {
  config : pyval;
  username : option string;
  password : option string
}.

Definition str_truthy (s : option string) : bool :=
  match s with Some s => negb (String.eqb s EmptyString) | None => false end.

(** [a or b] on optional strings. *)
Definition opt_or (a b : option string) : option string := if str_truthy a then a else b.

Definition new_auth (cfg : pyval) (user pass env_user env_pass : option string) : auth :=
  Auth cfg (opt_or user env_user) (opt_or pass env_pass).

(** [doc_key] of a document in the 1Password store. *)
Definition doc_eqb (a b : string * string) : bool := String.eqb (fst a) (fst b) && String.eqb (snd a) (snd b).

Fixpoint doc_lookup (k : string * string) (docs : list ((string * string) * string)) : option string :=
  match docs with
  | [] => None
  | (k', t) :: docs' => if doc_eqb k' k then Some t else doc_lookup k docs'
  end.

(** [op document edit]: an existing document gets the new content, a
    missing one is not created (the tool fails, and [check=False]). *)
Fixpoint doc_edit (k : string * string) (t : string) (docs : list ((string * string) * string))
    : list ((string * string) * string) :=
  match docs with
  | [] => []
  | (k', t') :: docs' => if doc_eqb k' k then (k', t) :: docs' else (k', t') :: doc_edit k t docs'
  end.

(** [str(v or "").strip()] *)
Definition cfg_text (v : pyval) : string := strip (py_str (py_or v (PStr EmptyString))).

(** The result of one exchange: [str(data["token"]["access_token"])]
    when the answer has status 200, decodes, has a truthy [success] and a
    truthy access token in a [token] dict, else [None] (every exception
    is caught). *)
Definition token_of (json_loads : string -> res pyval) (o : outcome) : option string :=
  match o with
  | Failure => None
  | Answer status text =>
      if negb (Z.eqb status 200) then None
      else match json_loads text with
           | Ok (PDict kv) =>
               let success := match assoc "success" kv with Some v => v | None => PNone end in
               if negb (truthy success) then None
               else match assoc "token" kv with
                    | None => None
                    | Some (PDict tk) =>
                        match assoc "access_token" tk with
                        | Some tok => if truthy tok then Some (py_str tok) else None
                        | None => None
                        end
                    | Some _ => None
                    end
           | _ => None
           end
  end.

(** One iteration of [_cookies_to_jar]. *)
Definition jar_step (jar : list (string * pyval)) (cookie : pyval) : list (string * pyval) :=
  match cookie with
  | PDict kv =>
      let get k := match assoc k kv with Some v => v | None => PNone end in
      let name := py_or (get "name") (get "Name") in
      let value := py_or (get "value") (get "Value") in
      if truthy name && negb (match value with PNone => true | _ => false end)
      then dict_set jar (py_str name) (PStr (py_str value))
      else jar
  | _ => jar
  end.

(** [_cookies_to_jar(cookies)] *)
Definition _cookies_to_jar (cookies : list pyval) : list (string * pyval) := fold_left jar_step cookies [].

Section Login.

Context (json_loads : string -> res pyval) (json_dumps : pyval -> string)
        (token_net : nat -> list (string * pyval) -> outcome)
        (op_installed : bool) (op_read_cli : string -> Z * string)
        (playwright_installed : bool) (browser : string -> string -> res (list pyval)).

(** [_op_read(ref)]: without the [op] binary [subprocess.run] raises
    [FileNotFoundError]. *)
Definition _op_read (ref : string) : st auth_world string :=
  if negb op_installed then st_lift (Raise OSError)
  else st_modify (log_event (OpRead ref)) ;;;
       let '(rc, out) := op_read_cli ref in
       if negb (Z.eqb rc 0) then st_lift (Raise AuthError) else st_ret (strip out).

(** The guards shared by [_load_op_cookies] and [_save_op_cookies]: the
    document and vault when 1Password is configured. *)
Definition op_target (a : auth) : res (option (string * string)) :=
  let* auth_cfg := dict_get (config a) "auth" (PDict []) in
  let* use := dict_get auth_cfg "use_1password" (PBool false) in
  if negb (truthy use) then Ok None
  else
    let* d := dict_get auth_cfg "op_cookie_document" PNone in
    let* v := dict_get auth_cfg "op_vault" PNone in
    let doc_name := cfg_text d in
    let vault := cfg_text v in
    if String.eqb doc_name EmptyString || String.eqb vault EmptyString then Ok None
    else Ok (Some (doc_name, vault)).

(** [_load_op_cookies()] *)
Definition _load_op_cookies (a : auth) : st auth_world (option (list pyval)) :=
  tgt <-- st_lift (op_target a) ;;
  match tgt with
  | None => st_ret None
  | Some (doc, vault) =>
      if negb op_installed then st_ret None
      else fun w =>
        let w' := log_event (OpDocumentGet doc vault) w in
        match doc_lookup (doc, vault) (op_docs w) with
        | Some out =>
            if String.eqb (strip out) EmptyString then (w', Ok None)
            else match json_loads out with
                 | Ok (PList cookies) => (w', Ok (Some cookies))
                 | _ => (w', Ok None)
                 end
        | None => (w', Ok None)
        end
  end.

(** [_save_op_cookies(cookies)]: the temporary file holds
    [json.dump(cookies, indent=2)] and a newline. *)
Definition _save_op_cookies (a : auth) (cookies : list pyval) : st auth_world unit :=
  tgt <-- st_lift (op_target a) ;;
  match tgt with
  | None => st_ret tt
  | Some (doc, vault) =>
      if negb op_installed then st_lift (Raise OSError)
      else
        let text := json_dumps (PList cookies) ++ String "010" EmptyString in
        st_modify (fun w => AuthWorld (cookie_text w) (doc_edit (doc, vault) text (op_docs w)) (exchanges w)
                              (OpDocumentEdit doc vault text :: alog w))
  end.

(** [_try_token(jar)] *)
Definition _try_token (jar : list (string * pyval)) : st auth_world (option string) :=
  fun w =>
    let t := token_of json_loads (token_net (exchanges w) jar) in
    (AuthWorld (cookie_text w) (op_docs w) (S (exchanges w)) (TokenExchange jar t :: alog w), Ok t).

(** [_load_local_cookies()] *)
Definition _load_local_cookies : st auth_world (option (list pyval)) :=
  fun w =>
    match cookie_text w with
    | None => (w, Ok None)
    | Some text =>
        match json_loads text with
        | Ok (PList data) => (w, Ok (Some data))
        | _ => (w, Ok None)
        end
    end.

(** [_save_local_cookies(cookies)] *)
Definition _save_local_cookies (cookies : list pyval) : st auth_world unit :=
  let text := json_dumps (PList cookies) ++ String "010" EmptyString in
  st_modify (fun w => AuthWorld (Some text) (op_docs w) (exchanges w) (WriteLocal text :: alog w)).

(** [if not name and ref: try: name = self._op_read(str(ref)) except
    AuthError: name = None] *)
Definition resolve_one (current : option string) (ref : pyval) : st auth_world (option string) :=
  if negb (str_truthy current) && truthy ref then
    fun w =>
      match _op_read (py_str ref) w with
      | (w', Ok s) => (w', Ok (Some s))
      | (w', Raise AuthError) => (w', Ok None)
      | (w', Raise e) => (w', Raise e)
      end
  else st_ret current.

(** [username and password] *)
Definition both (u p : option string) : option (string * string) :=
  match u, p with
  | Some u', Some p' => if str_truthy u && str_truthy p then Some (u', p') else None
  | _, _ => None
  end.

(** [_resolve_credentials()] *)
Definition _resolve_credentials (a : auth) : st auth_world (string * string) :=
  match both (username a) (password a) with
  | Some up => st_ret up
  | None =>
      auth_cfg <-- st_lift (dict_get (config a) "auth" (PDict [])) ;;
      uref <-- st_lift (dict_get auth_cfg "op_username_ref" PNone) ;;
      pref <-- st_lift (dict_get auth_cfg "op_password_ref" PNone) ;;
      u <-- resolve_one (username a) uref ;;
      p <-- resolve_one (password a) pref ;;
      match both u p with Some up => st_ret up | None => st_lift (Raise AuthError) end
  end.

(** [login_playwright()]: the browser session is [browser], which gives
    the cookies of the context after the login form was sent. *)
Definition login_playwright (a : auth) : st auth_world (list pyval) :=
  if negb playwright_installed then st_lift (Raise AuthError)
  else
    up <-- _resolve_credentials a ;;
    st_modify (log_event (BrowserLogin (fst up))) ;;;
    cookies <-- st_lift (browser (fst up) (snd up)) ;;
    match cookies with
    | [] => st_lift (Raise AuthError)
    | _ => _save_local_cookies cookies ;;; st_ret cookies
    end.

(** [if cookies:] on an optional list. *)
Definition nonempty_cookies (o : option (list pyval)) : option (list pyval) :=
  match o with Some (_ :: _) => o | _ => None end.

(** One stored source: exchange its cookies, and on a token run [on_token]. *)
Definition try_source (src : st auth_world (option (list pyval)))
    (on_token : list pyval -> st auth_world unit)
    (k : st auth_world (string * list (string * pyval))) : st auth_world (string * list (string * pyval)) :=
  cs <-- src ;;
  match nonempty_cookies cs with
  | None => k
  | Some cookies =>
      let jar := _cookies_to_jar cookies in
      tok <-- _try_token jar ;;
      match tok with
      | Some t => if str_truthy tok then on_token cookies ;;; st_ret (t, jar) else k
      | None => k
      end
  end.

(** The fresh login at the end of [login]. *)
Definition fresh_login (a : auth) : st auth_world (string * list (string * pyval)) :=
  fresh <-- login_playwright a ;;
  let jar := _cookies_to_jar fresh in
  tok <-- _try_token jar ;;
  match tok with
  | Some t => if str_truthy tok then _save_op_cookies a fresh ;;; st_ret (t, jar) else st_lift (Raise AuthError)
  | None => st_lift (Raise AuthError)
  end.

(** [login(force)] *)
Definition login (a : auth) (force : bool) : st auth_world (string * list (string * pyval)) :=
  if force then fresh_login a
  else try_source (_load_op_cookies a) _save_local_cookies
         (try_source _load_local_cookies (fun _ => st_ret tt) (fresh_login a)).

(** [logout()] *)
Definition logout : st auth_world bool :=
  fun w =>
    match cookie_text w with
    | Some _ => (AuthWorld None (op_docs w) (exchanges w) (UnlinkLocal :: alog w), Ok true)
    | None => (w, Ok false)
    end.

(** [get_user_info(token)]: [GET /users/v3/user] with the bearer token,
    as [user_net] answers it; [raise_for_status()] and [response.json()]
    raise. *)
Definition get_user_info (user_net : string -> outcome) (tok : string) : res pyval :=
  match user_net ("Bearer " ++ tok) with
  | Failure => Raise OSError
  | Answer status text =>
      if error_status status then Raise OSError
      else match json_loads text with Ok v => Ok v | Raise _ => Raise JSONDecodeError end
  end.

End Login.

(** ** Specifications *)

(** The entry a cookie gives the jar: [name or Name] and [value or Value]
    when the name is truthy and the value is not [None]. *)
Definition cookie_entry (c : pyval) : option (string * pyval) :=
  match c with
  | PDict kv =>
      let get k := match assoc k kv with Some v => v | None => PNone end in
      let name := py_or (get "name") (get "Name") in
      let value := py_or (get "value") (get "Value") in
      if truthy name && negb (match value with PNone => true | _ => false end)
      then Some (py_str name, PStr (py_str value)) else None
  | _ => None
  end.

Definition cookie_entries (cs : list pyval) : list (string * pyval) :=
  flat_map (fun c => match cookie_entry c with Some e => [e] | None => [] end) cs.

(** The jar a cookie list specifies: the last entry of each name wins. *)
Definition jar_spec (cs : list pyval) (k : string) : option pyval :=
  match find (fun e => String.eqb (fst e) k) (rev (cookie_entries cs)) with
  | Some e => Some (snd e)
  | None => None
  end.

(** The log of [w'] extends the log of [w]. *)
Definition extends (w w' : auth_world) : Prop := exists l, alog w' = app l (alog w).

Definition grows {A : Type} (m : st auth_world A) : Prop := forall w, extends w (fst (m w)).

(** A login step returns only a token the endpoint issued for its jar. *)
Definition issued (m : st auth_world (string * list (string * pyval))) : Prop :=
  forall w w' t jar, m w = (w', Ok (t, jar)) -> In (TokenExchange jar (Some t)) (alog w').

(** * Theorems *)

Lemma find_app {A : Type} (f : A -> bool) (l1 l2 : list A) :
  find f (l1 ++ l2) = match find f l1 with Some x => Some x | None => find f l2 end.
Proof. induction l1 as [| x l1 IH]; cbn; [reflexivity |]. now destruct (f x). Qed.

Lemma jar_step_entry (jar : list (string * pyval)) (c : pyval) :
  jar_step jar c = match cookie_entry c with Some (k, v) => dict_set jar k v | None => jar end.
Proof. destruct c; try reflexivity. unfold jar_step, cookie_entry. now destruct (_ && _). Qed.

Lemma assoc_jar_fold (cs : list pyval) (jar : list (string * pyval)) (k : string) :
  assoc k (fold_left jar_step cs jar) =
  match find (fun e => String.eqb (fst e) k) (rev (cookie_entries cs)) with
  | Some e => Some (snd e)
  | None => assoc k jar
  end.
Proof.
  revert jar. induction cs as [| c cs IH]; intros jar; [reflexivity |]. cbn [fold_left]. rewrite IH.
  unfold cookie_entries. cbn [flat_map]. rewrite rev_app_distr, find_app. fold (cookie_entries cs).
  destruct (find _ (rev (cookie_entries cs))) as [e |]; [reflexivity |].
  rewrite jar_step_entry. destruct (cookie_entry c) as [[k' v] |]; cbn; [| reflexivity].
  destruct (String.eqb_spec k' k) as [-> | Hne]; [now rewrite assoc_dict_set |].
  now rewrite assoc_dict_set_other by congruence.
Qed.

(** C31: Equivalence of [_cookies_to_jar] with its specification: the
    value the jar holds for a name is the [str()] of the value of the
    last cookie with that name among the dict cookies with a truthy
    [name or Name] and a [value or Value] that is not [None]; a name no
    such cookie has is not in the jar. *)
Theorem cookies_to_jar_spec (cs : list pyval) (k : string) : assoc k (_cookies_to_jar cs) = jar_spec cs k.
Proof. unfold _cookies_to_jar, jar_spec. now rewrite assoc_jar_fold. Qed.

Lemma extends_refl (w : auth_world) : extends w w.
Proof. now exists []. Qed.

Lemma extends_trans (w1 w2 w3 : auth_world) : extends w1 w2 -> extends w2 w3 -> extends w1 w3.
Proof. intros [l1 H1] [l2 H2]. exists (app l2 l1). now rewrite H2, H1, app_assoc. Qed.

Lemma extends_In (w w' : auth_world) (e : auth_event) : extends w w' -> In e (alog w) -> In e (alog w').
Proof. intros [l ->] H. apply in_or_app. now right. Qed.

#[local] Hint Resolve extends_refl extends_trans : tpcli.

Lemma grows_ret {A : Type} (a : A) : grows (st_ret a).
Proof. intros w. apply extends_refl. Qed.

Lemma grows_lift {A : Type} (r : res A) : grows (st_lift r).
Proof. intros w. apply extends_refl. Qed.

Lemma grows_bind {A B : Type} (m : st auth_world A) (k : A -> st auth_world B) :
  grows m -> (forall a, grows (k a)) -> grows (st_bind m k).
Proof.
  intros Hm Hk w. unfold st_bind. specialize (Hm w). destruct (m w) as [w1 [a | e]]; [| exact Hm].
  exact (extends_trans _ _ _ Hm (Hk a w1)).
Qed.

Lemma grows_log (f : auth_world -> auth_world) :
  (forall w, exists l, alog (f w) = app l (alog w)) -> grows (st_modify f).
Proof. intros H w. apply H. Qed.

#[local] Hint Resolve grows_ret grows_lift grows_bind : tpcli.

Section LoginTheorems.

Context (json_loads : string -> res pyval) (json_dumps : pyval -> string)
        (token_net : nat -> list (string * pyval) -> outcome)
        (op_installed : bool) (op_read_cli : string -> Z * string)
        (playwright_installed : bool) (browser : string -> string -> res (list pyval)).

Lemma grows_event (e : auth_event) : grows (st_modify (log_event e)).
Proof. apply grows_log. intros w. now exists [e]. Qed.

Lemma grows_op_read (ref : string) : grows (_op_read op_installed op_read_cli ref).
Proof.
  unfold _op_read. destruct op_installed; cbn [negb]; [| apply grows_lift].
  apply grows_bind; [apply grows_event |]. intros _. destruct (op_read_cli ref) as [rc out].
  destruct (negb _); auto with tpcli.
Qed.

Lemma grows_load_op (a : auth) : grows (_load_op_cookies json_loads op_installed a).
Proof.
  unfold _load_op_cookies. apply grows_bind; [apply grows_lift |]. intros [[doc vault] |]; [| apply grows_ret].
  destruct op_installed; cbn [negb]; [| apply grows_ret]. intros w. exists [OpDocumentGet doc vault].
  destruct (doc_lookup _ _) as [out |]; [| reflexivity].
  destruct (String.eqb _ _); [reflexivity |]. now destruct (json_loads out) as [[] |].
Qed.

Lemma grows_save_op (a : auth) (cs : list pyval) : grows (_save_op_cookies json_dumps op_installed a cs).
Proof.
  unfold _save_op_cookies. apply grows_bind; [apply grows_lift |]. intros [[doc vault] |]; [| apply grows_ret].
  destruct op_installed; cbn [negb]; [| apply grows_lift]. apply grows_log. intros w. now eexists [_].
Qed.

Lemma grows_try_token (jar : list (string * pyval)) : grows (_try_token json_loads token_net jar).
Proof. intros w. now eexists [_]. Qed.

Lemma grows_load_local : grows (_load_local_cookies json_loads).
Proof.
  intros w. unfold _load_local_cookies. destruct (cookie_text w) as [t |]; [| apply extends_refl].
  destruct (json_loads t) as [[] |]; apply extends_refl.
Qed.

Lemma grows_save_local (cs : list pyval) : grows (_save_local_cookies json_dumps cs).
Proof. apply grows_log. intros w. now eexists [_]. Qed.

Lemma grows_resolve_one (cur : option string) (ref : pyval) :
  grows (resolve_one op_installed op_read_cli cur ref).
Proof.
  unfold resolve_one. destruct (_ && _); [| apply grows_ret]. intros w.
  pose proof (grows_op_read (py_str ref) w) as H. destruct (_op_read _ _ _ w) as [w' [s | []]]; exact H.
Qed.

Lemma grows_resolve (a : auth) : grows (_resolve_credentials op_installed op_read_cli a).
Proof.
  unfold _resolve_credentials. destruct (both _ _); [apply grows_ret |].
  repeat (apply grows_bind; [first [apply grows_lift | apply grows_resolve_one] | intros ?]).
  destruct (both _ _); auto with tpcli.
Qed.

Lemma grows_playwright (a : auth) :
  grows (login_playwright json_dumps op_installed op_read_cli playwright_installed browser a).
Proof.
  unfold login_playwright. destruct playwright_installed; cbn [negb]; [| apply grows_lift].
  apply grows_bind; [apply grows_resolve |]. intros up. apply grows_bind; [apply grows_event |]. intros _.
  apply grows_bind; [apply grows_lift |]. intros [| c cs]; [apply grows_lift |].
  apply grows_bind; [apply grows_save_local | intros _; apply grows_ret].
Qed.

#[local] Hint Resolve grows_event grows_op_read grows_load_op grows_save_op grows_try_token grows_load_local
  grows_save_local grows_resolve grows_playwright : tpcli.

Lemma try_token_eq (jar : list (string * pyval)) (w : auth_world) :
  _try_token json_loads token_net jar w =
  (AuthWorld (cookie_text w) (op_docs w) (S (exchanges w))
     (TokenExchange jar (token_of json_loads (token_net (exchanges w) jar)) :: alog w),
   Ok (token_of json_loads (token_net (exchanges w) jar))).
Proof. reflexivity. Qed.

(** After the exchange that gave [t] for [jar], a step that only extends
    the log and then returns [(t, jar)] returns an issued token. *)
Lemma then_ret_issued (m : st auth_world unit) (w w' : auth_world) (t t' : string)
    (jar jar' : list (string * pyval)) :
  grows m -> In (TokenExchange jar (Some t)) (alog w) ->
  (m ;;; st_ret (t, jar)) w = (w', Ok (t', jar')) -> In (TokenExchange jar' (Some t')) (alog w').
Proof.
  intros Hm Hin H. unfold st_bind in H. specialize (Hm w). destruct (m w) as [w1 [[] | e]]; [| discriminate H].
  cbn in H. injection H as <- <- <-. exact (extends_In _ _ _ Hm Hin).
Qed.

Lemma issued_exchange (jar : list (string * pyval)) (m : option string -> st auth_world (string * list (string * pyval)))
    (on_token : st auth_world unit) (k : st auth_world (string * list (string * pyval))) :
  grows on_token -> issued k ->
  (forall tok, m tok = match tok with
                       | Some t => if str_truthy tok then on_token ;;; st_ret (t, jar) else k
                       | None => k
                       end) ->
  issued (st_bind (_try_token json_loads token_net jar) m).
Proof.
  intros Hon Hk Hm w w' t jar' H. unfold st_bind in H. rewrite try_token_eq in H. rewrite Hm in H.
  destruct (token_of _ _) as [t0 |] eqn:Et; [| exact (Hk _ _ _ _ H)].
  destruct (str_truthy _); [| exact (Hk _ _ _ _ H)].
  refine (then_ret_issued _ _ _ _ _ _ _ Hon _ H). cbn. now left.
Qed.

Lemma issued_fresh (a : auth) :
  issued (fresh_login json_loads json_dumps token_net op_installed op_read_cli playwright_installed browser a).
Proof.
  intros w w' t jar H. unfold fresh_login, st_bind at 1 in H.
  destruct (login_playwright _ _ _ _ _ a w) as [w1 [fresh | e]]; [| discriminate H].
  refine (issued_exchange (_cookies_to_jar fresh) _ (_save_op_cookies json_dumps op_installed a fresh)
            (st_lift (Raise AuthError)) (grows_save_op a fresh) _ _ w1 w' t jar H); [discriminate |].
  now intros [t0 |].
Qed.

Lemma issued_source (src : st auth_world (option (list pyval))) (on_token : list pyval -> st auth_world unit)
    (k : st auth_world (string * list (string * pyval))) :
  (forall cs, grows (on_token cs)) -> issued k -> issued (try_source json_loads token_net src on_token k).
Proof.
  intros Hon Hk w w' t jar H. unfold try_source, st_bind at 1 in H.
  destruct (src w) as [w1 [cs | e]]; [| discriminate H].
  destruct (nonempty_cookies cs) as [cookies |]; [| exact (Hk _ _ _ _ H)].
  refine (issued_exchange (_cookies_to_jar cookies) _ (on_token cookies) k (Hon cookies) Hk _ w1 w' t jar H).
  now intros [t0 |].
Qed.

(** C29: Safety of [login]: a token it returns was issued by the token
    endpoint, in an exchange the log records, for the very cookie jar it
    returns with it, whichever of the 1Password document, the cookie
    file and the browser the cookies came from. *)
Theorem login_token_issued (a : auth) (force : bool) (w w' : auth_world) (t : string)
    (jar : list (string * pyval)) :
  login json_loads json_dumps token_net op_installed op_read_cli playwright_installed browser a force w =
    (w', Ok (t, jar)) ->
  In (TokenExchange jar (Some t)) (alog w').
Proof.
  unfold login. destruct force; [apply issued_fresh |].
  apply issued_source; [intros; apply grows_save_local |].
  apply issued_source; [intros; apply grows_ret | apply issued_fresh].
Qed.

(** C30: Precedence of the sources of [login]: when the cookies of the
    1Password document give a token, [login] returns that token and their
    jar after exactly two effects, the exchange and the rewrite of the
    local cookie file with those cookies; neither the cached file nor the
    browser is consulted. *)
Theorem login_prefers_1password (a : auth) (w w1 : auth_world) (cookies : list pyval) (t : string) :
  _load_op_cookies json_loads op_installed a w = (w1, Ok (Some cookies)) -> cookies <> [] ->
  token_of json_loads (token_net (exchanges w1) (_cookies_to_jar cookies)) = Some t -> t <> EmptyString ->
  login json_loads json_dumps token_net op_installed op_read_cli playwright_installed browser a false w =
    (AuthWorld (Some (json_dumps (PList cookies) ++ String "010" EmptyString)) (op_docs w1) (S (exchanges w1))
       (WriteLocal (json_dumps (PList cookies) ++ String "010" EmptyString)
          :: TokenExchange (_cookies_to_jar cookies) (Some t) :: alog w1),
     Ok (t, _cookies_to_jar cookies)).
Proof.
  intros Hop Hne Ht Htne. unfold login, try_source, st_bind at 1. rewrite Hop.
  destruct cookies as [| c cs]; [contradiction |]. cbn [nonempty_cookies]. unfold st_bind. rewrite try_token_eq, Ht.
  cbn [str_truthy]. destruct (String.eqb_spec t EmptyString) as [E | _]; [contradiction | reflexivity].
Qed.

End LoginTheorems.

(** ** Witnesses and the behaviours modelling showed *)

Definition sample_cookies : list pyval :=
  [PDict [("name", PStr "Production_tpAuth"); ("value", PStr "abc")]; PDict [("Name", PStr "ASP"); ("Value", PInt 7)]].

Definition sample_op_config : pyval :=
  PDict [("auth", PDict [("use_1password", PBool true); ("op_cookie_document", PStr "tp cookies");
                         ("op_vault", PStr "Private")])].

Definition sample_doc_text : string := "cookies.json".

(** A JSON codec that knows the texts of the samples. *)
Definition sample_loads (t : string) : res pyval :=
  if String.eqb t sample_doc_text then Ok (PList sample_cookies)
  else if String.eqb t "token-ok" then Ok (PDict [("success", PBool true); ("token", PDict [("access_token", PStr "T1")])])
  else Raise ValueError.

Definition sample_dumps (v : pyval) : string := py_repr v.

Definition sample_token_net (_ : nat) (_ : list (string * pyval)) : outcome := Answer 200 "token-ok".

Definition sample_auth_world : auth_world := AuthWorld None [(("tp cookies", "Private"), sample_doc_text)] O [].

Lemma login_prefers_1password_witness :
  let a := Auth sample_op_config (Some "u") (Some "p") in
  _load_op_cookies sample_loads true a sample_auth_world =
    (log_event (OpDocumentGet "tp cookies" "Private") sample_auth_world, Ok (Some sample_cookies)) /\
  login sample_loads sample_dumps sample_token_net true (fun _ => (1%Z, EmptyString)) true (fun _ _ => Ok [])
    a false sample_auth_world =
    (AuthWorld (Some (sample_dumps (PList sample_cookies) ++ String "010" EmptyString)) (op_docs sample_auth_world) 1
       [WriteLocal (sample_dumps (PList sample_cookies) ++ String "010" EmptyString);
        TokenExchange (_cookies_to_jar sample_cookies) (Some "T1"); OpDocumentGet "tp cookies" "Private"],
     Ok ("T1", _cookies_to_jar sample_cookies)).
Proof.
  intros a. assert (H : _load_op_cookies sample_loads true a sample_auth_world =
    (log_event (OpDocumentGet "tp cookies" "Private") sample_auth_world, Ok (Some sample_cookies)))
    by (vm_compute; reflexivity).
  split; [exact H |].
  exact (login_prefers_1password sample_loads sample_dumps sample_token_net true (fun _ => (1%Z, EmptyString)) true
           (fun _ _ => Ok []) a sample_auth_world _ sample_cookies "T1" H ltac:(discriminate) ltac:(vm_compute; reflexivity)
           ltac:(discriminate)).
Defined.

Lemma login_token_issued_witness :
  login sample_loads sample_dumps sample_token_net false (fun _ => (1%Z, EmptyString)) true
    (fun _ _ => Ok sample_cookies) (Auth (PDict []) (Some "u") (Some "p")) true sample_auth_world =
    (AuthWorld (Some (sample_dumps (PList sample_cookies) ++ String "010" EmptyString)) (op_docs sample_auth_world) 1
       [TokenExchange (_cookies_to_jar sample_cookies) (Some "T1");
        WriteLocal (sample_dumps (PList sample_cookies) ++ String "010" EmptyString); BrowserLogin "u"],
     Ok ("T1", _cookies_to_jar sample_cookies)) /\
  In (TokenExchange (_cookies_to_jar sample_cookies) (Some "T1"))
    [TokenExchange (_cookies_to_jar sample_cookies) (Some "T1");
     WriteLocal (sample_dumps (PList sample_cookies) ++ String "010" EmptyString); BrowserLogin "u"].
Proof.
  assert (H : login sample_loads sample_dumps sample_token_net false (fun _ => (1%Z, EmptyString)) true
    (fun _ _ => Ok sample_cookies) (Auth (PDict []) (Some "u") (Some "p")) true sample_auth_world =
    (AuthWorld (Some (sample_dumps (PList sample_cookies) ++ String "010" EmptyString)) (op_docs sample_auth_world) 1
       [TokenExchange (_cookies_to_jar sample_cookies) (Some "T1");
        WriteLocal (sample_dumps (PList sample_cookies) ++ String "010" EmptyString); BrowserLogin "u"],
     Ok ("T1", _cookies_to_jar sample_cookies))) by (vm_compute; reflexivity).
  split; [exact H | exact (login_token_issued _ _ _ _ _ _ _ _ _ _ _ _ _ H)].
Defined.

(** A cookie whose value is the empty string is dropped from the jar:
    [cookie.get("value") or cookie.get("Value")] turns it into [None]. *)
Example empty_cookie_value_dropped :
  _cookies_to_jar [PDict [("name", PStr "session"); ("value", PStr EmptyString)]] = [].
Proof. reflexivity. Qed.

(** With [use_1password] set and no [op] tool, a browser login that
    obtained a token still fails: [_save_op_cookies] runs [op] outside any
    [try] and raises [FileNotFoundError], after the cookie file was
    written. *)
Example fresh_login_fails_without_op :
  let '(w, r) := login sample_loads sample_dumps sample_token_net false (fun _ => (1%Z, EmptyString)) true
                   (fun _ _ => Ok sample_cookies) (Auth sample_op_config (Some "u") (Some "p")) true
                   (AuthWorld None [] O []) in
  r = Raise OSError /\ cookie_text w = Some (sample_dumps (PList sample_cookies) ++ String "010" EmptyString).
Proof. vm_compute. split; reflexivity. Qed.

(** A credential reference that needs the [op] tool, when [op] is not
    installed, raises [FileNotFoundError] instead of the [AuthError] on
    missing credentials: [_resolve_credentials] only catches [AuthError]. *)
Example missing_op_not_auth_error :
  snd (_resolve_credentials false (fun _ => (0%Z, EmptyString))
         (Auth (PDict [("auth", PDict [("op_username_ref", PStr "op://vault/tp/username")])]) None (Some "p"))
         sample_auth_world) = Raise OSError.
Proof. reflexivity. Qed.

(** [op document edit] does not create a missing document, and its
    failure is ignored: after a browser login with an empty vault the
    cookies are never stored in 1Password. *)
Example op_document_never_created :
  op_docs (fst (login sample_loads sample_dumps sample_token_net true (fun _ => (1%Z, EmptyString)) true
                  (fun _ _ => Ok sample_cookies) (Auth sample_op_config (Some "u") (Some "p")) true
                  (AuthWorld None [] O []))) = [].
Proof. vm_compute. reflexivity. Qed.
