(* ===== verification/Cli.v ===== *)
(** * Cli: the entry point and the authentication commands

    [__main__.py]'s [main_callback] checks [--version] and the exclusive
    [--json]/[--plain] flags, loads the configuration
    ([Config.load_config]) and builds the [CLIState] every command reads;
    [commands/auth.py]'s [login_command] and [logout_command] drive the
    [Auth] model and report in one of three output modes.  The output of
    a command is a value ([output]): a JSON payload, printed lines, a
    table, or an exit code after something was shown.  The exceptions of
    the model carry no text: [str(exc)] of a [ConfigError] or an
    [AuthError] is a parameter.  The theorems: a state [main_callback]
    builds is never both JSON and plain and holds the loaded
    configuration; [login] exits with code 1 exactly when an [AuthError]
    was raised, and lets every other exception through. *)

From Stdlib Require Import ZArith Ascii String List Bool.
From stdpp Require Import base.
From S2P Require Import Prelude PyValue Config Api Auth.
Import ListNotations.
Local Open Scope st_scope.

(** [CLIState] of [core/state.py], the fields the commands read. *)
Record cli_state : Type := CLIState {
  json_output : bool;
  plain_output : bool;
  state_config : pyval
}.

(** What a command shows: [print_json_payload] (compact [json.dumps] in
    plain mode, [console.print_json] otherwise), lines of [typer.echo]
    or [console.print], a [rich] table with its title and rows and the
    lines printed after it, or lines (or another output) followed by
    [typer.Exit(code)]. *)
Inductive output : Type :=
  | JsonOut (compact : bool) (payload : pyval)
  | Lines (lines : list string)
  | TableOut (title : string) (rows : list (list string)) (after : list string)
  | ExitWith (code : Z) (lines : list string)
  | ExitAfter (code : Z) (shown : output).

Definition print_json_payload (state : cli_state) (payload : pyval) : output :=
  JsonOut (plain_output state) payload.

Definition tab : string := String (ascii_of_nat 9) EmptyString.


Definition in_strs (s : string) (l : list string) : bool := existsb (String.eqb s) l.

(** [main_callback(ctx, json_output, plain_output, config, verbose,
    quiet, version)] up to the subcommand: [inl] the output of an early
    exit, [inr] the state [ctx.obj] receives.  [load_config(cfg_path)] is
    [Config.load_config] on the data directory and the files that exist;
    [version_text], [help_text] and [config_message] are [__version__],
    [ctx.get_help()] and [str(exc)] of a [ConfigError]. *)
Definition main_callback (version_text help_text config_message : string)
    (json plain version : bool) (data_dir : string) (path_given cfg_exists legacy_exists : bool)
    (read : config_source -> option pyval) (invoked_subcommand : bool) : res (output + cli_state) :=
  if version then Ok (inl (ExitWith 0 [version_text]))
  else if json && plain then Ok (inl (ExitWith 2 ["Options --json and --plain are mutually exclusive."]))
  else
    match load_config data_dir path_given cfg_exists legacy_exists read with
    | Raise ConfigError => Ok (inl (ExitWith 2 ["Config error: " ++ config_message]))
    | Raise e => Raise e
    | Ok cfg =>
        let state := CLIState (json && negb plain) plain (PDict cfg) in
        if invoked_subcommand then Ok (inr state) else Ok (inl (ExitWith 0 [help_text]))
    end.

Section AuthCommands.

(** The parameters of [Auth.login]; [user_net] answers [GET /users/v3/user];
    [env_user] and [env_pass] are [TP_USERNAME] and [TP_PASSWORD];
    [auth_message] is [str(exc)] of the [AuthError] caught. *)
Context (json_loads : string -> res pyval) (json_dumps : pyval -> string)
        (token_net : nat -> list (string * pyval) -> outcome)
        (op_installed : bool) (op_read_cli : string -> Z * string)
        (playwright_installed : bool) (browser : string -> string -> res (list pyval))
        (user_net : string -> outcome) (env_user env_pass : option string) (auth_message : string).

(** The [try] block of [login_command]. *)
Definition login_success (state : cli_state) (username password : option string) (force : bool)
    : st auth_world output :=
  tj <-- login json_loads json_dumps token_net op_installed op_read_cli playwright_installed browser
           (new_auth (state_config state) username password env_user env_pass) force ;;
  info <-- st_lift (get_user_info json_loads user_net (fst tj)) ;;
  user <-- st_lift (dict_get info "user" (PDict [])) ;;
  uid <-- st_lift (dict_get user "userId" PNone) ;;
  uname <-- st_lift (dict_get user "username" PNone) ;;
  email <-- st_lift (dict_get user "email" PNone) ;;
  let payload := PDict [("status", PStr "success"); ("authenticated", PBool true);
                        ("user", PDict [("userId", uid); ("username", uname); ("email", email)])] in
  if json_output state then st_ret (print_json_payload state payload)
  else if plain_output state then
    st_ret (Lines ["status" ++ tab ++ "success"; "user_id" ++ tab ++ py_str uid;
                   "username" ++ tab ++ py_str uname; "email" ++ tab ++ py_str email])
  else st_ret (Lines ["Login successful"; "User: " ++ py_str uname ++ " (" ++ py_str uid ++ ")"]).

(** The [except AuthError] block of [login_command]. *)
Definition login_failure (state : cli_state) : output :=
  if json_output state then
    ExitAfter 1 (print_json_payload state (PDict [("status", PStr "error"); ("message", PStr auth_message)]))
  else if plain_output state then ExitWith 1 ["status" ++ tab ++ "error"; "message" ++ tab ++ auth_message]
  else ExitWith 1 ["Login failed: " ++ auth_message].

(** [login_command(ctx, username, password, force)] *)
Definition login_command (state : cli_state) (username password : option string) (force : bool)
    : st auth_world output :=
  st_except AuthError (login_success state username password force) (st_ret (login_failure state)).

End AuthCommands.

(** [logout_command(ctx)] *)
Definition logout_command (state : cli_state) : st auth_world output :=
  removed <-- logout ;;
  if json_output state then
    st_ret (print_json_payload state
              (PDict [("status", PStr "success"); ("logged_out", PBool removed);
                      ("message", PStr (if removed then "Local cookie cache removed" else "No cached cookie file"))]))
  else if plain_output state then
    st_ret (Lines ["status" ++ tab ++ "success"; "logged_out" ++ tab ++ (if removed then "true" else "false");
                   if removed then "message" ++ tab ++ "Local cookie cache removed"
                   else "message" ++ tab ++ "No local cookie cache file"])
  else st_ret (Lines [if removed then "Local cookie cache removed" else "No local cookie cache found"]).

(** * Theorems *)

(** The exit code an output ends with, if any. *)
Definition exit_code (o : output) : option Z :=
  match o with ExitWith c _ | ExitAfter c _ => Some c | _ => None end.

(** A state [main_callback] hands to a command is never both JSON and
    plain, and holds the configuration [load_config] returned. *)
Lemma main_callback_state (version_text help_text config_message : string) (json plain version : bool)
    (data_dir : string) (path_given cfg_exists legacy_exists : bool) (read : config_source -> option pyval)
    (invoked : bool) (st : cli_state) :
  main_callback version_text help_text config_message json plain version data_dir path_given cfg_exists
    legacy_exists read invoked = Ok (inr st) ->
  negb (json_output st && plain_output st) = true /\ json_output st = json /\ plain_output st = plain /\
  exists cfg, load_config data_dir path_given cfg_exists legacy_exists read = Ok cfg /\ state_config st = PDict cfg.
Proof.
  unfold main_callback. intros H. destruct version; [discriminate |].
  destruct (json && plain) eqn:JP; [discriminate |].
  destruct (load_config _ _ _ _ _) as [cfg | []]; try discriminate.
  destruct invoked; [| discriminate]. injection H as <-. cbn.
  destruct json, plain; try discriminate JP; repeat split; eauto.
Qed.

Section AuthTheorems.

Context (json_loads : string -> res pyval) (json_dumps : pyval -> string)
        (token_net : nat -> list (string * pyval) -> outcome)
        (op_installed : bool) (op_read_cli : string -> Z * string)
        (playwright_installed : bool) (browser : string -> string -> res (list pyval))
        (user_net : string -> outcome) (env_user env_pass : option string) (auth_message : string).

Lemma get_user_info_raise (tok : string) (e : exc) :
  get_user_info json_loads user_net tok = Raise e -> e <> AuthError.
Proof.
  unfold get_user_info. destruct (user_net _) as [status text |];
    [destruct (error_status status); [| destruct (json_loads text)] |]; congruence.
Qed.

Lemma dict_get_raise (d : pyval) (k : string) (def : pyval) (e : exc) : dict_get d k def = Raise e -> e = AttributeError.
Proof. destruct d; cbn; congruence. Qed.

(** The [try] block raises [AuthError] exactly when [Auth.login] does,
    and it returns no exit. *)
Lemma login_success_cases (state : cli_state) (u p : option string) (force : bool) (w : auth_world) :
  (snd (login_success json_loads json_dumps token_net op_installed op_read_cli playwright_installed browser
          user_net env_user env_pass state u p force w) = Raise AuthError <->
   snd (login json_loads json_dumps token_net op_installed op_read_cli playwright_installed browser
          (new_auth (state_config state) u p env_user env_pass) force w) = Raise AuthError) /\
  forall w1 o, login_success json_loads json_dumps token_net op_installed op_read_cli playwright_installed browser
                 user_net env_user env_pass state u p force w = (w1, Ok o) -> exit_code o = None.
Proof.
  unfold login_success, st_bind, st_lift.
  destruct (login _ _ _ _ _ _ _ _ _ w) as [w0 [tj | e]]; cbv beta iota; cbn [snd];
    [| split; [split; intros H; injection H as ->; reflexivity | intros ? ? H; discriminate H]].
  destruct (get_user_info json_loads user_net (fst tj)) as [info | e] eqn:G; cbv beta iota; cbn [snd];
    [| split; [split; [intros H; injection H as ->; exfalso; exact (get_user_info_raise _ _ G eq_refl)
                      | discriminate] | intros ? ? H; discriminate H]].
  repeat match goal with
  | |- context [dict_get ?d ?k ?def] =>
      let E := fresh "E" in destruct (dict_get d k def) as [? | ?] eqn:E; cbv beta iota; cbn [snd];
      [| split; [split; [intros H; injection H as ->; discriminate (dict_get_raise _ _ _ _ E) | discriminate] |
                 intros ? ? H; discriminate H]]
  end.
  split; [split; [destruct (json_output state), (plain_output state); discriminate | discriminate] |].
  intros w1 o H. destruct (json_output state), (plain_output state); injection H as _ <-; reflexivity.
Qed.

(** C38: Errors of [login]: the command exits with code 1 exactly when
    the login raised [AuthError] (in every output mode), and every other
    exception of the login, of the user lookup or of reading its answer
    propagates. *)
Theorem login_command_exit (state : cli_state) (u p : option string) (force : bool) (w w' : auth_world)
    (r : res output) :
  login_command json_loads json_dumps token_net op_installed op_read_cli playwright_installed browser
    user_net env_user env_pass auth_message state u p force w = (w', r) ->
  (forall e, r = Raise e -> e <> AuthError) /\
  ((exists o, r = Ok o /\ exit_code o = Some 1%Z) <->
   snd (login json_loads json_dumps token_net op_installed op_read_cli playwright_installed browser
          (new_auth (state_config state) u p env_user env_pass) force w) = Raise AuthError).
Proof.
  unfold login_command, st_except. destruct (login_success_cases state u p force w) as [Hiff Hok].
  destruct (login_success _ _ _ _ _ _ _ _ _ _ state u p force w) as [w1 [o | e]] eqn:S; cbn [snd] in Hiff.
  - intros H. injection H as <- <-. split; [discriminate |].
    split; [intros (o' & E & C); injection E as <-; rewrite (Hok _ _ eq_refl) in C; discriminate |
            intros A; apply Hiff in A; discriminate].
  - destruct (decide (e = AuthError)) as [-> | N]; intros H; injection H as <- <-.
    + split; [discriminate |]. split; [intros _; apply Hiff; reflexivity |].
      intros _. exists (login_failure auth_message state). split; [reflexivity |].
      unfold login_failure. now destruct (json_output state), (plain_output state).
    + split; [intros e' E; injection E as <-; exact N |].
      split; [intros (o' & E & _); discriminate | intros A; apply Hiff in A; injection A as A; contradiction].
Qed.

End AuthTheorems.

(** ** Witnesses and the behaviours modelling showed *)

Definition cli_plain : cli_state := CLIState false true (PDict []).

Lemma login_command_exit_witness :
  exists w' r,
    login_command sample_loads sample_dumps sample_token_net false (fun _ => (1%Z, EmptyString)) false
      (fun _ _ => Ok []) (fun _ => Failure) None None "Playwright is not installed" cli_plain (Some "u") (Some "p")
      false (AuthWorld None [] O []) = (w', r) /\
    (forall e, r = Raise e -> e <> AuthError) /\
    ((exists o, r = Ok o /\ exit_code o = Some 1%Z) <->
     snd (login sample_loads sample_dumps sample_token_net false (fun _ => (1%Z, EmptyString)) false
            (fun _ _ => Ok []) (new_auth (state_config cli_plain) (Some "u") (Some "p") None None) false
            (AuthWorld None [] O [])) = Raise AuthError).
Proof.
  destruct (login_command sample_loads sample_dumps sample_token_net false (fun _ => (1%Z, EmptyString)) false
              (fun _ _ => Ok []) (fun _ => Failure) None None "Playwright is not installed" cli_plain (Some "u")
              (Some "p") false (AuthWorld None [] O [])) as [w' r] eqn:E.
  exists w', r. split; [reflexivity |].
  exact (login_command_exit sample_loads sample_dumps sample_token_net false (fun _ => (1%Z, EmptyString)) false
           (fun _ _ => Ok []) (fun _ => Failure) None None "Playwright is not installed" cli_plain _ _ _ _ _ _ E).
Defined.

(** Without the playwright package and without cached cookies, [login]
    exits with code 1 and shows the [AuthError]'s message. *)
Example login_without_browser_exits :
  snd (login_command sample_loads sample_dumps sample_token_net false (fun _ => (1%Z, EmptyString)) false
         (fun _ _ => Ok []) (fun _ => Failure) None None "m" cli_plain (Some "u") (Some "p") false
         (AuthWorld None [] O [])) =
  Ok (ExitWith 1 ["status" ++ tab ++ "error"; "message" ++ tab ++ "m"]).
Proof. vm_compute. reflexivity. Qed.

(** [logout] without a cookie file says so in three different words,
    one per output mode. *)
Example logout_messages_differ :
  logout_command (CLIState true false (PDict [])) (AuthWorld None [] O []) =
    (AuthWorld None [] O [], Ok (JsonOut false (PDict [("status", PStr "success"); ("logged_out", PBool false);
                                                      ("message", PStr "No cached cookie file")]))) /\
  logout_command cli_plain (AuthWorld None [] O []) =
    (AuthWorld None [] O [], Ok (Lines ["status" ++ tab ++ "success"; "logged_out" ++ tab ++ "false";
                                        "message" ++ tab ++ "No local cookie cache file"])) /\
  logout_command (CLIState false false (PDict [])) (AuthWorld None [] O []) =
    (AuthWorld None [] O [], Ok (Lines ["No local cookie cache found"])).
Proof. repeat split. Qed.
