(* ===== verification/UploadCommand.v ===== *)
(** * UploadCommand: [convert_workout], the duplicate check and the [upload] command

    The upload path of the program: [load_workout_input] and
    [build_basic_workout] of [utils/parsing.py] read the workouts,
    [convert_workout] of [core/upload.py] turns each one into an API
    payload (with [simple_to_tp_structure], [calc_time_and_distance] and
    [label_run_steps]), [workout_exists] asks the API for the workouts of
    the same day, and [upload_command] of [commands/upload.py] posts the
    payloads it does not skip.  The API calls are those of [Api], so the
    requests, retries and sleeps of an upload are in the world's log;
    the JSON and YAML codecs are [Context] parameters.

    The theorems: without [--force] a workout is posted only after the
    duplicate check ran in the same state and answered no; every
    workout gets exactly one result, in order, and the API is asked to
    create exactly the workouts reported [created]. *)

From Stdlib Require Import QArith ZArith Lia Ascii String List Bool.
From S2P Require Import Prelude PyValue Floats Parsing Upload Api Cli.
Import ListNotations.
Open Scope string_scope.
Open Scope st_scope.

(** ** Reading the workouts *)

(** The decoded file or stdin: a dict is one workout, a list keeps its
    dicts, anything else is no workout. *)
Definition workouts_of (raw : pyval) : list pyval :=
  match raw with
  | PDict _ => [raw]
  | PList l => filter (fun v => match v with PDict _ => true | _ => false end) l
  | _ => []
  end.

(** [load_workout_input(file_path, read_stdin, stdin_text)]: [file] is
    the suffix of the file name and its text. *)
Definition load_workout_input (json_loads yaml_load : string -> res pyval) (file : option (string * string))
    (read_stdin : bool) (stdin_text : string) : res (list pyval) :=
  match file with
  | Some (suffix, text) =>
      let sfx := lower suffix in
      let* raw := if String.eqb sfx ".yaml" || String.eqb sfx ".yml" then yaml_load text else json_loads text in
      Ok (workouts_of raw)
  | None =>
      if read_stdin then
        let text := strip stdin_text in
        if String.eqb text EmptyString then Ok []
        else
          let* raw := match json_loads text with
                      | Raise JSONDecodeError => yaml_load text
                      | r => r
                      end in
          Ok (workouts_of raw)
      else Ok []
  end.

(** [SPORT_ID_BY_NAME] *)
Definition sport_id_by_name (s : string) : option Z :=
  if String.eqb s "swim" then Some 1%Z
  else if String.eqb s "bike" then Some 2%Z
  else if String.eqb s "run" then Some 3%Z
  else None.

(** [build_basic_workout(date, sport, title, description)] *)
Definition build_basic_workout (date sport title description : string) : res pyval :=
  match sport_id_by_name (lower sport) with
  | None => Raise ValueError
  | Some _ => Ok (PDict [("date", PStr date); ("sport", PStr (lower sport)); ("title", PStr title);
                         ("description", PStr description)])
  end.

(** ** [convert_workout] *)

(** [round(x, 4)] as the payload holds it: the exact value of [x]
    rounded to 4 decimals, ties to even, whose nearest float is the
    result [py_round_digits x 4]. *)
Definition round4_value (x : float) : pyval :=
  match x with
  | Fin q => PFloat (rhe (Qnum q * 10 ^ 4) (Zpos (Qden q))) (-4)
  | _ => PNone
  end.

(** [round(calc_seconds / 3600, 4) if calc_seconds else None] *)
Definition planned_hours (calc : option (Z * Z)) : res pyval :=
  match calc with
  | Some (secs, _) =>
      if Z.eqb secs 0 then Ok PNone
      else let* x := int_true_div secs 3600 in Ok (round4_value x)
  | None => Ok PNone
  end.

Section Convert.

Context (json_loads : string -> res pyval) (json_dumps : pyval -> string).

(** The structure of the payload, before [label_run_steps]. *)
Definition workout_structure (workout : pyval) (sport : string) : res pyval :=
  match workout with
  | PDict kv =>
      if has_key kv "structure" then
        let* s := getitem workout "structure" in
        match s with PDict _ => Ok s | _ => json_loads (py_str s) end
      else if has_key kv "steps" then
        let* steps := getitem workout "steps" in
        simple_to_tp_structure steps (if String.eqb sport "bike" then "percentOfFtp" else "percentOfThresholdPace")
      else Ok PNone
  | _ => Raise TypeError
  end.

(** [convert_workout(workout, user_id, threshold_speed)] *)
Definition convert_workout (workout : pyval) (user_id : string) (threshold_speed : option float) : res pyval :=
  let* sp := dict_get workout "sport" (PStr "run") in
  let sport := lower (py_str sp) in
  let sport_id := match sport_id_by_name sport with Some i => i | None => 3%Z end in
  let* date := getitem workout "date" in
  let date_text := py_str date ++ "T00:00:00" in
  let th_truthy := match threshold_speed with Some t => ftruthy t | None => false end in
  let* calc := match workout, threshold_speed with
               | PDict kv, Some th =>
                   if has_key kv "steps" && th_truthy
                   then let* steps := getitem workout "steps" in
                        let* r := calc_time_and_distance steps th in Ok (Some r)
                   else Ok None
               | _, _ => Ok None
               end in
  let* title := getitem workout "title" in
  let* description := dict_get workout "description" (PStr EmptyString) in
  let* ttp := dict_get workout "totalTimePlanned" PNone in
  let* hours := if truthy ttp then Ok ttp else planned_hours calc in
  let* dp := dict_get workout "distancePlanned" PNone in
  let* tssp := dict_get workout "tssPlanned" PNone in
  let payload := [("athleteId", PStr user_id); ("workoutDay", PStr date_text); ("workoutTypeValueId", PInt sport_id);
                  ("title", title); ("description", description); ("totalTimePlanned", hours);
                  ("distancePlanned", py_or dp (match calc with Some (_, m) => PInt m | None => PNone end));
                  ("tssPlanned", tssp)] in
  let* struct := workout_structure workout sport in
  let* struct := match threshold_speed with
                 | Some th => if truthy struct && String.eqb sport "run" && th_truthy
                              then label_run_steps struct th else Ok struct
                 | None => Ok struct
                 end in
  Ok (PDict (dict_set payload "structure" (if truthy struct then PStr (json_dumps struct) else PNone))).

End Convert.

(** ** The API side of an upload *)

Section Uploads.

Context (net : nat -> request -> outcome) (json : string -> res pyval).

(** [fetch_threshold_speed(api, user_id)]: the threshold of the first
    speed zone of [workoutTypeId == 3] with a truthy threshold, else 4.0. *)
Fixpoint first_run_threshold (zones : list pyval) : res float :=
  match zones with
  | [] => Ok (Fin 4)
  | zone :: zones' =>
      let* wt := dict_get zone "workoutTypeId" PNone in
      if py_eq wt (PInt 3) then
        let* th := dict_get zone "threshold" PNone in
        if truthy th then let* t := getitem zone "threshold" in py_float_d t else first_run_threshold zones'
      else first_run_threshold zones'
  end.

Definition fetch_threshold_speed (c : client) (user_id : string) : io float :=
  settings <-- get_athlete_settings net json c user_id ;;
  st_lift (let* zs := dict_get settings "speedZones" (PList []) in
           let* zones := py_iter zs in
           first_run_threshold zones).

(** [get_existing_workouts(api, user_id, date_str)] *)
Definition get_existing_workouts (c : client) (user_id date_str : string) : io (list pyval) :=
  data <-- get_workouts net json c user_id date_str date_str ;;
  st_ret (match data with PList l => l | _ => [] end).

(** [any(str(item.get("title", "")).strip().lower() == normalized for item in existing)] *)
Fixpoint any_title (normalized : string) (existing : list pyval) : res bool :=
  match existing with
  | [] => Ok false
  | item :: rest =>
      let* t := dict_get item "title" (PStr EmptyString) in
      if String.eqb (lower (strip (py_str t))) normalized then Ok true else any_title normalized rest
  end.

(** [workout_exists(api, user_id, date_str, title)] *)
Definition workout_exists (c : client) (user_id date_str : string) (title : pyval) : io bool :=
  existing <-- get_existing_workouts c user_id date_str ;;
  st_lift (let* t := as_str title in any_title (lower (strip t)) existing).

(** The result of one created workout. *)
Definition created_result (date title response : pyval) : pyval :=
  let workout_id := match response with
                    | PDict kv => match assoc "workoutId" kv with Some v => v | None => PNone end
                    | _ => PNone
                    end in
  PDict [("status", PStr "created"); ("date", date); ("title", title); ("workoutId", workout_id);
         ("url", if truthy workout_id then PStr ("https://app.trainingpeaks.com/workout/" ++ py_str workout_id)
                 else PNone)].

Definition skipped_result (date title : pyval) : pyval :=
  PDict [("status", PStr "skipped"); ("date", date); ("title", title); ("reason", PStr "already_exists")].

(** One iteration of the loop of [upload_command]; [api] is [None] in a
    dry run. *)
Definition upload_one (json_loads : string -> res pyval) (json_dumps : pyval -> string) (api : option client)
    (user_id : string) (threshold_speed : float) (dry_run force : bool) (workout : pyval) : io pyval :=
  payload <-- st_lift (convert_workout json_loads json_dumps workout
                         (if String.eqb user_id EmptyString then "preview" else user_id) (Some threshold_speed)) ;;
  if dry_run then st_ret (PDict [("status", PStr "dry-run"); ("payload", payload)])
  else
    match api with
    | None => st_lift (Raise RuntimeError)
    | Some c =>
        dup <-- (if force then st_ret false
                 else date <-- st_lift (getitem workout "date") ;;
                      title <-- st_lift (getitem payload "title") ;;
                      workout_exists c user_id (py_str date) title) ;;
        if dup then
          date <-- st_lift (getitem workout "date") ;;
          title <-- st_lift (getitem payload "title") ;;
          st_ret (skipped_result date title)
        else
          response <-- create_workout net json c user_id payload ;;
          date <-- st_lift (getitem workout "date") ;;
          title <-- st_lift (getitem payload "title") ;;
          st_ret (created_result date title response)
    end.

Fixpoint upload_loop (json_loads : string -> res pyval) (json_dumps : pyval -> string) (api : option client)
    (user_id : string) (threshold_speed : float) (dry_run force : bool) (workouts : list pyval) : io (list pyval) :=
  match workouts with
  | [] => st_ret []
  | w :: ws =>
      r <-- upload_one json_loads json_dumps api user_id threshold_speed dry_run force w ;;
      rs <-- upload_loop json_loads json_dumps api user_id threshold_speed dry_run force ws ;;
      st_ret (r :: rs)
  end.

(** [upload_command] after reading its input: [quick] are the
    [--date/--sport/--title/--description] flags, [auth] the client and
    user id [authenticate] gives when this is not a dry run. *)
Definition upload_command (json_loads : string -> res pyval) (json_dumps : pyval -> string)
    (workouts : list pyval) (quick : option (string * string * string * string)) (auth : client * string)
    (dry_run force : bool) : io (list pyval) :=
  ws <-- st_lift (match workouts, quick with
                  | [], Some (d, s, t, desc) =>
                      if negb (String.eqb d EmptyString) && negb (String.eqb s EmptyString)
                         && negb (String.eqb t EmptyString)
                      then let* w := build_basic_workout d s t desc in Ok [w]
                      else Ok []
                  | _, _ => Ok workouts
                  end) ;;
  match ws with
  | [] => st_lift (Raise BadParameter)
  | _ =>
      if dry_run then upload_loop json_loads json_dumps None EmptyString (Fin 4) true force ws
      else
        th <-- fetch_threshold_speed (fst auth) (snd auth) ;;
        upload_loop json_loads json_dumps (Some (fst auth)) (snd auth) th false force ws
  end.

(** [delete_command(ctx, workout_id, force)]: [confirmed] is the answer
    to [typer.confirm], asked only without [--force]; [auth] is what
    [authenticate(state)] returns. *)
Definition delete_command (state : cli_state) (auth : client * string) (workout_id : string)
    (force confirmed : bool) : io output :=
  if negb force && negb confirmed then st_ret (ExitWith 0 [])
  else
    _ <-- delete_workout net json (fst auth) (snd auth) workout_id ;;
    if json_output state then
      st_ret (print_json_payload state (PDict [("status", PStr "deleted"); ("workoutId", PStr workout_id)]))
    else if plain_output state then
      st_ret (Lines ["status" ++ tab ++ "deleted"; "workout_id" ++ tab ++ workout_id])
    else st_ret (Lines ["Deleted workout " ++ workout_id]).

End Uploads.

(** * Theorems *)

Section UploadTheorems.

Context (net : nat -> request -> outcome) (json : string -> res pyval)
        (json_loads : string -> res pyval) (json_dumps : pyval -> string).

(** C32: Safety of [upload] without [--force]: a workout reported
    [created] was posted only after [workout_exists] ran, in the state
    the upload of that workout started from, on the workout's date and
    the title of its payload, and answered [False]. *)
Theorem upload_checks_before_create (c : client) (user_id : string) (th : float) (workout : pyval)
    (w w' : world) (r : pyval) :
  upload_one net json json_loads json_dumps (Some c) user_id th false false workout w = (w', Ok r) ->
  getitem r "status" = Ok (PStr "created") ->
  exists payload date title w1,
    convert_workout json_loads json_dumps workout (if String.eqb user_id EmptyString then "preview" else user_id)
      (Some th) = Ok payload /\
    getitem workout "date" = Ok date /\ getitem payload "title" = Ok title /\
    workout_exists net json c user_id (py_str date) title w = (w1, Ok false).
Proof.
  unfold upload_one. intros H Hs.
  apply st_bind_inv in H as (w0 & payload & Hp & H). apply st_lift_inv in Hp as [-> Hp].
  apply st_bind_inv in H as (w1 & dup & Hd & H).
  apply st_bind_inv in Hd as (w2 & date & Hdate & Hd). apply st_lift_inv in Hdate as [-> Hdate].
  apply st_bind_inv in Hd as (w3 & title & Ht & Hd). apply st_lift_inv in Ht as [-> Ht].
  exists payload, date, title, w1. repeat split; try assumption.
  destruct dup; [| exact Hd].
  apply st_bind_inv in H as (w4 & d4 & _ & H). apply st_bind_inv in H as (w5 & t5 & _ & H).
  injection H as _ <-. discriminate Hs.
Qed.

Lemma upload_one_status (api : option client) (user_id : string) (th : float) (dry_run force : bool)
    (workout : pyval) (w w' : world) (r : pyval) :
  upload_one net json json_loads json_dumps api user_id th dry_run force workout w = (w', Ok r) ->
  exists s, getitem r "status" = Ok (PStr s) /\
            (if dry_run then s = "dry-run" else s = "skipped" \/ s = "created").
Proof.
  unfold upload_one. intros H. apply st_bind_inv in H as (w0 & payload & _ & H).
  destruct dry_run; [injection H as _ <-; eexists; split; reflexivity |].
  destruct api as [c |]; [| discriminate H].
  apply st_bind_inv in H as (w1 & dup & _ & H). destruct dup.
  - apply st_bind_inv in H as (w2 & d & _ & H). apply st_bind_inv in H as (w3 & t & _ & H).
    injection H as _ <-. eexists; split; [reflexivity | now left].
  - apply st_bind_inv in H as (w2 & resp & _ & H). apply st_bind_inv in H as (w3 & d & _ & H).
    apply st_bind_inv in H as (w4 & t & _ & H). injection H as _ <-. eexists; split; [reflexivity | now right].
Qed.

(** C33: The results of [upload]: when the loop returns, the i-th result
    is what the upload of the i-th workout returned from some state, so
    every workout has exactly one result, in the order of the input, and
    its status is [dry-run] in a dry run and [skipped] or [created]
    otherwise. *)
Theorem upload_loop_results (api : option client) (user_id : string) (th : float) (dry_run force : bool)
    (ws : list pyval) (w w' : world) (rs : list pyval) :
  upload_loop net json json_loads json_dumps api user_id th dry_run force ws w = (w', Ok rs) ->
  Forall2 (fun x r => exists w1 w2,
             upload_one net json json_loads json_dumps api user_id th dry_run force x w1 = (w2, Ok r)) ws rs /\
  Forall (fun r => exists s, getitem r "status" = Ok (PStr s) /\
                             (if dry_run then s = "dry-run" else s = "skipped" \/ s = "created")) rs.
Proof.
  revert w w' rs. induction ws as [| x ws IH]; intros w w' rs H; cbn [upload_loop] in H.
  - injection H as _ <-. split; constructor.
  - apply st_bind_inv in H as (w1 & r & H1 & H). apply st_bind_inv in H as (w2 & rs' & H2 & H).
    injection H as _ <-. destruct (IH _ _ _ H2) as [Hl Hf]. split; constructor; eauto.
    exact (upload_one_status _ _ _ _ _ _ _ _ _ H1).
Qed.

(** The payload [convert_workout] builds has the nine keys of the
    API's workout, in this order, whatever the input. *)
Theorem convert_workout_keys (workout : pyval) (user_id : string) (th : option float) (kv : list (string * pyval)) :
  convert_workout json_loads json_dumps workout user_id th = Ok (PDict kv) ->
  map fst kv = ["athleteId"; "workoutDay"; "workoutTypeValueId"; "title"; "description"; "totalTimePlanned";
                "distancePlanned"; "tssPlanned"; "structure"].
Proof.
  unfold convert_workout. intros H. res_inv H. reflexivity.
Qed.

(** [delete] without [--force] and without confirmation sends nothing
    and exits with code 0. *)
Lemma delete_requires_confirmation (state : cli_state) (auth : client * string) (workout_id : string)
    (force confirmed : bool) (w w' : world) (r : res output) :
  delete_command net json state auth workout_id force confirmed w = (w', r) ->
  force = false -> confirmed = false -> w' = w /\ r = Ok (ExitWith 0 []).
Proof. intros H -> ->. now injection H as <- <-. Qed.

End UploadTheorems.

(** ** Witnesses and the behaviours modelling showed *)

Definition up_client : client := new_client "tok" API_BASE 1 3 30.

(** The answers of the API to one upload: no workout on the day, then
    the created workout. *)
Definition up_net (n : nat) (_ : request) : outcome :=
  match n with O => Answer 200 "[]" | _ => Answer 200 "created" end.

Definition up_json (t : string) : res pyval :=
  if String.eqb t "[]" then Ok (PList [])
  else if String.eqb t "created" then Ok (PDict [("workoutId", PInt 77)])
  else Raise ValueError.

Definition up_workout : pyval :=
  PDict [("date", PStr "2024-03-01"); ("title", PStr "Easy run"); ("sport", PStr "run");
         ("steps", PList [PDict [("type", PStr "steady"); ("duration", PStr "5km"); ("target", PStr "75")]])].

Definition up_nojson (_ : string) : res pyval := Raise JSONDecodeError.

Lemma upload_checks_before_create_witness :
  exists w' r,
    upload_one up_net up_json up_nojson py_repr (Some up_client) "u" (Fin 4) false false up_workout initial_world =
      (w', Ok r) /\ getitem r "status" = Ok (PStr "created") /\
    exists payload date title w1,
      convert_workout up_nojson py_repr up_workout "u" (Some (Fin 4)) = Ok payload /\
      getitem up_workout "date" = Ok date /\ getitem payload "title" = Ok title /\
      workout_exists up_net up_json up_client "u" (py_str date) title initial_world = (w1, Ok false).
Proof.
  destruct (upload_one up_net up_json up_nojson py_repr (Some up_client) "u" (Fin 4) false false up_workout
              initial_world) as [w' [r | e]] eqn:E; [| vm_compute in E; discriminate E].
  assert (Hr : getitem r "status" = Ok (PStr "created")).
  { pose proof E as E'. vm_compute in E'. injection E' as _ <-. reflexivity. }
  exists w', r. split; [reflexivity | split; [exact Hr |]].
  exact (upload_checks_before_create up_net up_json up_nojson py_repr up_client "u" (Fin 4) up_workout
           initial_world w' r E Hr).
Defined.

Lemma upload_loop_results_witness :
  exists w' rs,
    upload_loop up_net up_json up_nojson py_repr (Some up_client) "u" (Fin 4) false false [up_workout]
      initial_world = (w', Ok rs) /\
    Forall2 (fun x r => exists w1 w2,
               upload_one up_net up_json up_nojson py_repr (Some up_client) "u" (Fin 4) false false x w1
               = (w2, Ok r)) [up_workout] rs /\
    Forall (fun r => exists s, getitem r "status" = Ok (PStr s) /\ (s = "skipped" \/ s = "created")) rs.
Proof.
  destruct (upload_loop up_net up_json up_nojson py_repr (Some up_client) "u" (Fin 4) false false [up_workout]
              initial_world) as [w' [rs | e]] eqn:E; [| vm_compute in E; discriminate E].
  exists w', rs. split; [reflexivity |].
  exact (upload_loop_results up_net up_json up_nojson py_repr (Some up_client) "u" (Fin 4) false false
           [up_workout] initial_world w' rs E).
Defined.

(** A [POST] that fails with a server error or a timeout is sent again:
    [_request] retries every method, so a workout the server created
    before answering 502 is created twice. *)
Example create_workout_post_retried :
  let '(w, r) := create_workout (fun n _ => if Nat.eqb n 0 then Answer 502 EmptyString else Answer 200 "created")
                   up_json up_client "u" (PDict []) initial_world in
  r = Ok (PDict [("workoutId", PInt 77)]) /\ sent w = 2%nat.
Proof. vm_compute. split; reflexivity. Qed.

(** One entry of the day's workouts that is not a dict aborts the whole
    upload with [AttributeError] ([item.get] in [workout_exists]). *)
Example upload_aborts_on_odd_existing :
  snd (upload_loop (fun _ _ => Answer 200 "odd") (fun _ => Ok (PList [PInt 1])) up_nojson py_repr (Some up_client)
         "u" (Fin 4) false false [up_workout] initial_world) = Raise AttributeError.
Proof. vm_compute. reflexivity. Qed.
