(* ===== verification/Export.v ===== *)
(** * Export: the writers of [commands/export.py] and [_summary] of [commands/fetch.py]

    [write_csv] is the text [_write_csv] writes through [csv.DictWriter]
    (default dialect: [,] separator, doubled quotes, [\r\n] rows, minimal
    quoting), [write_ical] the text of [_write_ical] with [_ics_escape],
    [write_tcx] the files [_write_tcx] writes and its count, and
    [summary] the counts of [_summary].  A file system step is modelled
    only where it decides the outcome ([write_tcx] needs the directory of
    each file).  The theorems: every CSV row the writer emits reads back,
    through an RFC 4180 reader, as the fields it was given; an escaped
    iCalendar text without control characters reads back as itself; the
    summary's counts add up to its total. *)

From Stdlib Require Import QArith ZArith Lia Ascii String List Bool.
From S2P Require Import Prelude PyValue Floats Text Dates Weekly Markdown.
Import ListNotations.
Open Scope string_scope.

Definition cr : ascii := ascii_of_nat 13.
Definition lf : ascii := ascii_of_nat 10.
Definition crlf : string := String cr (String lf EmptyString).

(** ** CSV *)

(** The value [csv.writer] writes for a field: [None] is empty, anything
    else is [str()]. *)
Definition csv_str (v : pyval) : string :=
  match v with PNone => EmptyString | _ => py_str v end.

(** The characters that make [QUOTE_MINIMAL] quote a field. *)
Definition csv_special (c : ascii) : bool :=
  Ascii.eqb c "," || Ascii.eqb c dquote || Ascii.eqb c cr || Ascii.eqb c lf.

Definition csv_field (f : string) : string :=
  if all_chars (fun c => negb (csv_special c)) f then f
  else String dquote (replace_char dquote (String dquote (String dquote EmptyString)) f ++ String dquote EmptyString).

(** [writer.writerow(fields)]; a row of one empty field is written as two quotes. *)
Definition csv_row (fields : list string) : string :=
  match fields with
  | [f] => if String.eqb f EmptyString then String dquote (String dquote crlf) else csv_field f ++ crlf
  | _ => join "," (map csv_field fields) ++ crlf
  end.

Definition CSV_FIELDS : list string :=
  ["workoutId"; "workoutDay"; "sport"; "title"; "description"; "distance"; "totalTime"; "tssPlanned";
   "classification"].

(** The row dict of one workout, in the order of [fields]. *)
Definition csv_values (w : pyval) : res (list pyval) :=
  let* wid := dict_get w "workoutId" PNone in
  let* day := dict_get w "workoutDay" (PStr EmptyString) in
  let* sid := dict_get w "workoutTypeValueId" PNone in
  let* sport := sport_key_of sid in
  let* title := dict_get w "title" PNone in
  let* desc := dict_get w "description" PNone in
  let* dist := get_or w "distance" "distancePlanned" in
  let* total := get_or w "totalTime" "totalTimePlanned" in
  let* tssp := dict_get w "tssPlanned" PNone in
  let* cls := dict_get w "classification" (PDict []) in
  let* ty := dict_get cls "type" PNone in
  Ok [wid; PStr (slice_to 10 (py_str day)); PStr sport; title; desc; dist; total; tssp; ty].

(** The text [_write_csv(path, workouts)] writes when no row raises. *)
Definition write_csv (workouts : list pyval) : res string :=
  let* rows := res_map_list (fun w => let* vs := csv_values w in Ok (csv_row (map csv_str vs))) workouts in
  Ok (csv_row CSV_FIELDS ++ String.concat EmptyString rows).

(** ** iCalendar *)

(** [_ics_escape(value)]: four chained [str.replace] passes. *)
Definition ics_escape (s : string) : string :=
  replace_char lf "\n" (replace_char "," "\," (replace_char ";" "\;" (replace_char "\" "\\" s))).

(** The event lines of one workout; none without a day. *)
Definition ics_event (w : pyval) : res (list string) :=
  let* d := dict_get w "workoutDay" (PStr EmptyString) in
  let day := replace_char "-" EmptyString (slice_to 10 (py_str d)) in
  if String.eqb day EmptyString then Ok []
  else
    let* wid := dict_get w "workoutId" PNone in
    let uid := if truthy wid then py_str wid else "unknown-" ++ day in
    let* t := dict_get w "title" PNone in
    let title := ics_escape (py_str (py_or t (PStr "Workout"))) in
    let* de := dict_get w "description" PNone in
    let description := ics_escape (py_str (py_or de (PStr EmptyString))) in
    Ok ["BEGIN:VEVENT"; "UID:" ++ uid ++ "@trainingpeaks-cli"; "DTSTART;VALUE=DATE:" ++ day;
        "SUMMARY:" ++ title; "DESCRIPTION:" ++ description; "END:VEVENT"].

(** The text [_write_ical(path, workouts)] writes. *)
Definition write_ical (workouts : list pyval) : res string :=
  let* events := res_map_list ics_event workouts in
  Ok (join nl (app ["BEGIN:VCALENDAR"; "VERSION:2.0"; "PRODID:-//trainingpeaks-cli//EN"]
                   (app (concat events) ["END:VCALENDAR"])) ++ nl).

(** ** TCX *)

Definition tcx_text (sport_label title : string) : string :=
  "<?xml version=" ++ quoted "1.0" ++ " encoding=" ++ quoted "UTF-8" ++ "?>" ++ nl ++
  "<TrainingCenterDatabase>" ++ nl ++
  "  <Workouts>" ++ nl ++
  "    <Workout Sport=" ++ quoted sport_label ++ ">" ++ nl ++
  "      <Name>" ++ title ++ "</Name>" ++ nl ++
  "    </Workout>" ++ nl ++
  "  </Workouts>" ++ nl ++
  "</TrainingCenterDatabase>" ++ nl.

(** One iteration of [_write_tcx]: the file written (as parts below
    [output_dir]) and its text, or nothing for a workout without id;
    [write_text] needs the file's directory, and only [output_dir]
    exists for sure. *)
Definition tcx_file (is_dir : list string -> bool) (w : pyval) : res (option (list string * string)) :=
  let* wid := dict_get w "workoutId" PNone in
  if negb (truthy wid) then Ok None
  else
    let* d := dict_get w "workoutDay" (PStr EmptyString) in
    let day := slice_to 10 (py_str d) in
    let* sid := dict_get w "workoutTypeValueId" PNone in
    let* sport := sport_key_of sid in
    let* t := dict_get w "title" PNone in
    let title := py_str (py_or t (PStr "Workout")) in
    let parts := path_div_parts [] (day ++ "-" ++ py_str wid ++ ".tcx") in
    let sport_label := if String.eqb sport "run" then "Running"
                       else if String.eqb sport "bike" then "Biking" else "Other" in
    if Nat.eqb (length parts) 1 || is_dir (removelast parts)
    then Ok (Some (parts, tcx_text sport_label title))
    else Raise OSError.

(** [_write_tcx(output_dir, workouts)]: the files in the order written and
    the count returned. *)
Definition write_tcx (is_dir : list string -> bool) (workouts : list pyval) : res (list (list string * string) * Z) :=
  let* files := res_map_list (tcx_file is_dir) workouts in
  let written := flat_map (fun o => match o with Some f => [f] | None => [] end) files in
  Ok (written, Z.of_nat (length written)).

(** ** [_summary] of [commands/fetch.py] *)

(** A [Counter] on hashable keys: [==] decides which key a value
    increments ([1], [1.0] and [True] are one key), new keys come last. *)
Fixpoint counter_incr (c : list (pyval * Z)) (k : pyval) : list (pyval * Z) :=
  match c with
  | [] => [(k, 1%Z)]
  | (k', n) :: c' => if py_eq k' k then (k', (n + 1)%Z) :: c' else (k', n) :: counter_incr c' k
  end.

Definition hashable (v : pyval) : bool :=
  match v with PList _ | PDict _ => false | _ => true end.

Record summary_t : Type := Summary {
  sm_total : Z;
  sm_by_sport : list (pyval * Z);
  sm_by_type : list (pyval * Z);
  sm_start : string;
  sm_end : string
}.

(** One iteration of the loop of [_summary]. *)
Definition summary_step (acc : list (pyval * Z) * list (pyval * Z)) (w : pyval)
    : res (list (pyval * Z) * list (pyval * Z)) :=
  let '(by_sport, by_type) := acc in
  let* sid := dict_get w "workoutTypeValueId" PNone in
  let* sport := sport_key_of sid in
  let by_sport := counter_incr by_sport (PStr sport) in
  let* cls := dict_get w "classification" (PDict []) in
  let* ty := dict_get cls "type" (PStr "other") in
  if hashable ty then Ok (by_sport, counter_incr by_type ty) else Raise TypeError.

(** [_summary(workouts, start, end)] *)
Definition summary (workouts : list pyval) (start end_ : date) : res summary_t :=
  let* '(by_sport, by_type) := res_fold_left summary_step workouts ([], []) in
  Ok (Summary (Z.of_nat (length workouts)) by_sport by_type (strftime_ymd start) (strftime_ymd end_)).

(** ** Readers the writers answer to *)

(** The states of an RFC 4180 reader. *)
Inductive rstate : Type := StartField | Unquoted | Quoted | QuoteInQuoted | AfterCR.

(** An RFC 4180 reader: [csv_read st field row s] reads [s] in state [st]
    with the current field and row so far; every row ends in [\r\n]. *)
Fixpoint csv_read (st : rstate) (field : string) (row : list string) (s : string) : option (list (list string)) :=
  match s with
  | EmptyString => match st, row with StartField, [] => Some [] | _, _ => None end
  | String c s' =>
      match st with
      | AfterCR => if Ascii.eqb c lf then option_map (cons row) (csv_read StartField EmptyString [] s') else None
      | Quoted =>
          if Ascii.eqb c dquote then csv_read QuoteInQuoted field row s'
          else csv_read Quoted (field ++ String c EmptyString) row s'
      | _ =>
          if Ascii.eqb c "," then csv_read StartField EmptyString (app row [field]) s'
          else if Ascii.eqb c cr then csv_read AfterCR EmptyString (app row [field]) s'
          else match st with
               | StartField =>
                   if Ascii.eqb c dquote then csv_read Quoted EmptyString row s'
                   else if Ascii.eqb c lf then None
                   else csv_read Unquoted (String c EmptyString) row s'
               | Unquoted =>
                   if Ascii.eqb c dquote || Ascii.eqb c lf then None
                   else csv_read Unquoted (field ++ String c EmptyString) row s'
               | _ => if Ascii.eqb c dquote then csv_read Quoted (field ++ String dquote EmptyString) row s' else None
               end
      end
  end.

Definition csv_parse (s : string) : option (list (list string)) := csv_read StartField EmptyString [] s.

(** The states in which a separator or a line end closes the field. *)
Definition ends_field (st : rstate) : bool :=
  match st with StartField | Unquoted | QuoteInQuoted => true | _ => false end.

(** An RFC 5545 reader of a TEXT value. *)
Fixpoint ics_unescape (s : string) : option string :=
  match s with
  | EmptyString => Some EmptyString
  | String c s' =>
      if Ascii.eqb c "\" then
        match s' with
        | String d s'' =>
            if Ascii.eqb d "\" || Ascii.eqb d ";" || Ascii.eqb d "," then option_map (String d) (ics_unescape s'')
            else if Ascii.eqb d "n" then option_map (String lf) (ics_unescape s'')
            else None
        | EmptyString => None
        end
      else option_map (String c) (ics_unescape s')
  end.

Fixpoint count_sum (c : list (pyval * Z)) : Z :=
  match c with [] => 0%Z | (_, n) :: c' => (n + count_sum c')%Z end.

(** The escape of one character in one pass. *)
Definition ics_escape_char (c : ascii) : string :=
  if Ascii.eqb c "\" then "\\"
  else if Ascii.eqb c ";" then "\;"
  else if Ascii.eqb c "," then "\,"
  else if Ascii.eqb c lf then "\n"
  else String c EmptyString.

(** * Theorems *)

Lemma csv_read_sep (st : rstate) (f : string) (row : list string) (c : ascii) (t : string) :
  ends_field st = true -> Ascii.eqb c "," || Ascii.eqb c cr = true ->
  csv_read st f row (String c t) =
  csv_read (if Ascii.eqb c "," then StartField else AfterCR) EmptyString (app row [f]) t.
Proof.
  intros Hst Hc. destruct st; try discriminate; cbn [csv_read];
  destruct (Ascii.eqb c ","); try reflexivity; cbn in Hc; now rewrite Hc.
Qed.

Lemma csv_read_unquoted (f acc : string) (row : list string) (t : string) :
  all_chars (fun c => negb (csv_special c)) f = true ->
  csv_read Unquoted acc row (f ++ t) = csv_read Unquoted (acc ++ f) row t.
Proof.
  revert acc. induction f as [| c f IH]; intros acc Hf; cbn [append]; [now rewrite string_app_nil_r |].
  cbn [all_chars] in Hf. apply andb_true_iff in Hf as [Hc Hf]. unfold csv_special in Hc.
  cbn [csv_read]. destruct (Ascii.eqb c ","), (Ascii.eqb c dquote), (Ascii.eqb c cr), (Ascii.eqb c lf);
    try discriminate; cbn [orb]. rewrite IH by exact Hf. now rewrite <- string_app_assoc.
Qed.


Lemma csv_read_quoted (f acc : string) (row : list string) (t : string) :
  csv_read Quoted acc row (replace_char dquote (String dquote (String dquote EmptyString)) f ++ String dquote t) =
  csv_read QuoteInQuoted (acc ++ f) row t.
Proof.
  revert acc. induction f as [| c f IH]; intros acc; cbn [replace_char append].
  - cbn [csv_read]. now rewrite Ascii.eqb_refl, string_app_nil_r.
  - destruct (Ascii.eqb_spec c dquote) as [-> | Hq]; cbn [append csv_read].
    + rewrite Ascii.eqb_refl. cbn [csv_read]. rewrite IH, <- string_app_assoc. reflexivity.
    + apply Ascii.eqb_neq in Hq. rewrite Hq, IH. now rewrite <- string_app_assoc.
Qed.

(** Whatever follows it, a written field is read whole, in a state that a
    separator closes. *)
Lemma csv_read_field (f : string) (row : list string) :
  exists st, ends_field st = true /\
  forall t, csv_read StartField EmptyString row (csv_field f ++ t) = csv_read st f row t.
Proof.
  unfold csv_field. destruct (all_chars _ f) eqn:Hf.
  - destruct f as [| c f]; [now exists StartField |]. exists Unquoted. split; [reflexivity |]. intros t.
    cbn [all_chars] in Hf. apply andb_true_iff in Hf as [Hc Hf']. unfold csv_special in Hc.
    cbn [append csv_read].
    destruct (Ascii.eqb c ","), (Ascii.eqb c dquote), (Ascii.eqb c cr), (Ascii.eqb c lf); try discriminate.
    now rewrite csv_read_unquoted.
  - exists QuoteInQuoted. split; [reflexivity |]. intros t. cbn [append].
    rewrite <- string_app_assoc. cbn [append csv_read]. now rewrite csv_read_quoted.
Qed.

Lemma csv_read_fields (fs : list string) (row : list string) (s : string) :
  fs <> [] ->
  csv_read StartField EmptyString row (join "," (map csv_field fs) ++ String cr (String lf s)) =
  option_map (cons (app row fs)) (csv_parse s).
Proof.
  revert row. induction fs as [| f [| g fs] IH]; intros row Hne; [contradiction | |].
  - cbn [map join]. destruct (csv_read_field f row) as [st [Hst ->]].
    rewrite csv_read_sep by (exact Hst || reflexivity). reflexivity.
  - cbn [map join]. rewrite <- !string_app_assoc. destruct (csv_read_field f row) as [st [Hst ->]].
    cbn [append]. rewrite csv_read_sep by (exact Hst || reflexivity). cbn [Ascii.eqb].
    rewrite IH by discriminate. now rewrite <- app_assoc.
Qed.

(** Reading one written row, whatever follows it. *)
Lemma csv_read_row (fs : list string) (s : string) :
  fs <> [] -> csv_parse (csv_row fs ++ s) = option_map (cons fs) (csv_parse s).
Proof.
  intros Hne. unfold csv_row.
  assert (Hg : csv_parse ((join "," (map csv_field fs) ++ crlf) ++ s) = option_map (cons fs) (csv_parse s))
    by (rewrite <- string_app_assoc; apply (csv_read_fields fs [] s Hne)).
  destruct fs as [| f [| g fs]]; [contradiction | | exact Hg].
  destruct (String.eqb_spec f EmptyString) as [-> | _]; [reflexivity | exact Hg].
Qed.

Lemma concat_cons_empty (x : string) (l : list string) :
  String.concat EmptyString (x :: l) = x ++ String.concat EmptyString l.
Proof. destruct l; cbn; [now rewrite string_app_nil_r | reflexivity]. Qed.

Lemma csv_parse_rows (rows : list (list string)) :
  Forall (fun r => r <> []) rows ->
  csv_parse (String.concat EmptyString (map csv_row rows)) = Some rows.
Proof.
  induction 1 as [| r rows Hr _ IH]; [reflexivity |].
  cbn [map]. rewrite concat_cons_empty, csv_read_row, IH by exact Hr. reflexivity.
Qed.

Lemma csv_values_length (w : pyval) (vs : list pyval) : csv_values w = Ok vs -> length vs = 9%nat.
Proof. unfold csv_values. intros H. res_inv H. reflexivity. Qed.

Lemma csv_rows_nonempty (ws : list pyval) (vss : list (list pyval)) :
  res_map_list csv_values ws = Ok vss -> Forall (fun r => r <> []) (map (map csv_str) vss).
Proof.
  intros H. apply Forall_map. apply (res_map_list_Forall _ csv_values ws vss); [| exact H].
  intros w vs Hw Hn. apply csv_values_length in Hw. apply (f_equal (@length _)) in Hn.
  rewrite length_map, Hw in Hn. discriminate Hn.
Qed.

(** C24: Round trip of [_write_csv]: the file it writes parses, by an RFC
    4180 reader, into the header [fields] and, for each workout in order,
    the [str()] of the nine values of its row dict ([None] as the empty
    field), whatever commas, quotes and line breaks titles and
    descriptions hold. *)
Theorem write_csv_roundtrip (ws : list pyval) (text : string) :
  write_csv ws = Ok text ->
  exists vss, res_map_list csv_values ws = Ok vss /\ csv_parse text = Some (CSV_FIELDS :: map (map csv_str) vss).
Proof.
  unfold write_csv. intros H. destruct (res_map_list _ ws) as [rows |] eqn:E; [| discriminate H].
  assert (Ht : text = csv_row CSV_FIELDS ++ String.concat EmptyString rows) by (cbn [res_bind] in H; congruence).
  subst text. destruct (res_map_list_then csv_values (fun vs => csv_row (map csv_str vs)) ws rows E) as [vss [Hv ->]].
  exists vss. split; [exact Hv |]. rewrite csv_read_row by discriminate.
  rewrite <- (map_map (map csv_str) csv_row). now rewrite csv_parse_rows by (exact (csv_rows_nonempty ws vss Hv)).
Qed.

Lemma ics_escape_cons (c : ascii) (s : string) :
  ics_escape (String c s) = ics_escape_char c ++ ics_escape s.
Proof.
  unfold ics_escape, ics_escape_char. cbn [replace_char]. rewrite !replace_char_app. f_equal.
  destruct (Ascii.eqb_spec c "\") as [-> | H1]; [reflexivity |]. cbn [replace_char append].
  destruct (Ascii.eqb_spec c ";") as [-> | H2]; [reflexivity |]. cbn [replace_char append].
  destruct (Ascii.eqb_spec c ",") as [-> | H3]; [reflexivity |]. cbn [replace_char append].
  now destruct (Ascii.eqb c lf).
Qed.

(** C25: Round trip of [_ics_escape]: an RFC 5545 reader reads the escaped
    text back as the original, and the escaped text holds no line feed, so
    a title or description stays on its [SUMMARY:] or [DESCRIPTION:]
    line. *)
Theorem ics_escape_roundtrip (s : string) :
  ics_unescape (ics_escape s) = Some s /\ all_chars (fun c => negb (Ascii.eqb c lf)) (ics_escape s) = true.
Proof.
  induction s as [| c s [IH1 IH2]]; [split; reflexivity |].
  rewrite ics_escape_cons, all_chars_app, IH2, andb_true_r. unfold ics_escape_char.
  destruct (Ascii.eqb_spec c "\") as [-> | H1]; [cbn; now rewrite IH1 |].
  destruct (Ascii.eqb_spec c ";") as [-> | H2]; [cbn; now rewrite IH1 |].
  destruct (Ascii.eqb_spec c ",") as [-> | H3]; [cbn; now rewrite IH1 |].
  destruct (Ascii.eqb_spec c lf) as [-> | H4]; [cbn; now rewrite IH1 |].
  cbn [append ics_unescape all_chars]. apply Ascii.eqb_neq in H1, H4. now rewrite H1, H4, IH1.
Qed.

Lemma counter_incr_sum (c : list (pyval * Z)) (k : pyval) : count_sum (counter_incr c k) = (count_sum c + 1)%Z.
Proof. induction c as [| [k' n] c IH]; cbn; [lia |]. destruct (py_eq k' k); cbn; [| rewrite IH]; lia. Qed.

Lemma counter_incr_pos (c : list (pyval * Z)) (k : pyval) :
  Forall (fun kv => (0 < snd kv)%Z) c -> Forall (fun kv => (0 < snd kv)%Z) (counter_incr c k).
Proof.
  induction 1 as [| [k' n] c Hn Hc IH]; cbn; [repeat constructor; cbn; lia |].
  destruct (py_eq k' k); constructor; cbn in *; first [lia | assumption].
Qed.

Definition counts_ok (c : list (pyval * Z)) (n : Z) : Prop :=
  count_sum c = n /\ Forall (fun kv => (0 < snd kv)%Z) c.

Lemma summary_step_incr (a b a' b' : list (pyval * Z)) (w : pyval) :
  summary_step (a, b) w = Ok (a', b') -> exists k1 k2, a' = counter_incr a k1 /\ b' = counter_incr b k2.
Proof. unfold summary_step. intros H. res_inv H. eauto. Qed.

Lemma counts_ok_incr (c : list (pyval * Z)) (n : Z) (k : pyval) :
  counts_ok c n -> counts_ok (counter_incr c k) (n + 1).
Proof. intros [<- Hp]. split; [apply counter_incr_sum | now apply counter_incr_pos]. Qed.

Lemma summary_loop (ws : list pyval) (a b a' b' : list (pyval * Z)) (n : Z) :
  counts_ok a n -> counts_ok b n -> res_fold_left summary_step ws (a, b) = Ok (a', b') ->
  counts_ok a' (n + Z.of_nat (length ws)) /\ counts_ok b' (n + Z.of_nat (length ws)).
Proof.
  revert a b n. induction ws as [| w ws IH]; intros a b n Ha Hb H; cbn [res_fold_left] in H.
  - injection H as <- <-. now rewrite Z.add_0_r.
  - destruct (summary_step (a, b) w) as [[a0 b0] |] eqn:Es; [| discriminate H]. cbn [res_bind] in H.
    destruct (summary_step_incr _ _ _ _ _ Es) as [k1 [k2 [-> ->]]].
    rewrite length_cons, Nat2Z.inj_succ, <- Z.add_1_l, Z.add_assoc.
    exact (IH _ _ _ (counts_ok_incr _ _ k1 Ha) (counts_ok_incr _ _ k2 Hb) H).
Qed.

(** [_summary] counts every workout once: the [by_sport] counts and
    the [by_type] counts each add up to [total], the number of workouts,
    and every key it lists was seen at least once. *)
Theorem summary_counts (ws : list pyval) (start end_ : date) (sm : summary_t) :
  summary ws start end_ = Ok sm ->
  counts_ok (sm_by_sport sm) (sm_total sm) /\ counts_ok (sm_by_type sm) (sm_total sm).
Proof.
  unfold summary. intros H. destruct (res_fold_left summary_step ws ([], [])) as [[a b] |] eqn:E; [| discriminate H].
  injection H as <-. cbn. apply (summary_loop ws [] [] a b 0); [split; [reflexivity | constructor] .. | exact E].
Qed.

(** ** Witnesses and the behaviours modelling showed *)

Definition sample_title : string := "Easy, " ++ quoted "fun" ++ " run".

Definition export_sample : list pyval :=
  [PDict [("workoutId", PInt 7); ("workoutDay", PStr "2024-01-03T00:00:00"); ("workoutTypeValueId", PInt 3);
          ("title", PStr sample_title); ("description", PNone); ("distance", PFloat 5000 0);
          ("classification", PDict [("type", PStr "easy")])];
   PDict [("workoutDay", PNone); ("workoutTypeValueId", PInt 2); ("classification", PDict [])]].

Lemma write_csv_roundtrip_witness :
  write_csv export_sample = Ok (csv_row CSV_FIELDS ++
    csv_row ["7"; "2024-01-03"; "run"; sample_title; EmptyString; "5000.0"; EmptyString; EmptyString; "easy"] ++
    csv_row [EmptyString; "None"; "bike"; EmptyString; EmptyString; EmptyString; EmptyString; EmptyString; EmptyString]) /\
  exists vss, res_map_list csv_values export_sample = Ok vss /\
    csv_parse (csv_row CSV_FIELDS ++
      csv_row ["7"; "2024-01-03"; "run"; sample_title; EmptyString; "5000.0"; EmptyString; EmptyString; "easy"] ++
      csv_row [EmptyString; "None"; "bike"; EmptyString; EmptyString; EmptyString; EmptyString; EmptyString; EmptyString]) = Some (CSV_FIELDS :: map (map csv_str) vss).
Proof.
  assert (H : write_csv export_sample = Ok (csv_row CSV_FIELDS ++
    csv_row ["7"; "2024-01-03"; "run"; sample_title; EmptyString; "5000.0"; EmptyString; EmptyString; "easy"] ++
    csv_row [EmptyString; "None"; "bike"; EmptyString; EmptyString; EmptyString; EmptyString; EmptyString; EmptyString])) by (vm_compute; reflexivity).
  split; [exact H | exact (write_csv_roundtrip _ _ H)].
Defined.

Lemma summary_counts_witness :
  summary export_sample (Date 2024 1 1) (Date 2024 1 31) =
    Ok (Summary 2 [(PStr "run", 1%Z); (PStr "bike", 1%Z)] [(PStr "easy", 1%Z); (PStr "other", 1%Z)]
                "2024-01-01" "2024-01-31") /\
  counts_ok [(PStr "run", 1%Z); (PStr "bike", 1%Z)] 2 /\ counts_ok [(PStr "easy", 1%Z); (PStr "other", 1%Z)] 2.
Proof.
  assert (H : summary export_sample (Date 2024 1 1) (Date 2024 1 31) =
    Ok (Summary 2 [(PStr "run", 1%Z); (PStr "bike", 1%Z)] [(PStr "easy", 1%Z); (PStr "other", 1%Z)]
                "2024-01-01" "2024-01-31")) by (vm_compute; reflexivity).
  split; [exact H | exact (summary_counts _ _ _ _ H)].
Defined.

(** A workout whose [workoutDay] is [null] is written with the day
    [None], in the CSV row as in the calendar, where [DTSTART] is then not
    a date. *)
Example ical_null_day :
  write_ical [PDict [("workoutId", PInt 1); ("workoutDay", PNone)]] =
  Ok (join nl ["BEGIN:VCALENDAR"; "VERSION:2.0"; "PRODID:-//trainingpeaks-cli//EN"; "BEGIN:VEVENT";
               "UID:1@trainingpeaks-cli"; "DTSTART;VALUE=DATE:None"; "SUMMARY:Workout"; "DESCRIPTION:";
               "END:VEVENT"; "END:VCALENDAR"] ++ nl).
Proof. vm_compute. reflexivity. Qed.

(** [_ics_escape] leaves a carriage return as it is, and the calendar's
    lines end in a bare line feed, not the CRLF of RFC 5545. *)
Example ics_escape_keeps_cr :
  ics_escape (String "a" (String cr (String "b" EmptyString))) = String "a" (String cr (String "b" EmptyString)).
Proof. reflexivity. Qed.

(** The TCX [<Name>] is the title as it is: markup in a title makes the
    file ill-formed XML. *)
Example tcx_title_not_escaped :
  tcx_file (fun _ => false) (PDict [("workoutId", PInt 1); ("workoutDay", PStr "2024-01-03");
                                   ("title", PStr "<b>&")]) =
  Ok (Some (["2024-01-03-1.tcx"], tcx_text "Other" "<b>&")).
Proof. vm_compute. reflexivity. Qed.

(** Two workouts with the same day and id write one file twice, and
    [_write_tcx] counts two. *)
Example tcx_count_overwrites :
  write_tcx (fun _ => false)
    [PDict [("workoutId", PInt 1); ("workoutDay", PStr "2024-01-03")];
     PDict [("workoutId", PInt 1); ("workoutDay", PStr "2024-01-03")]] =
  Ok ([(["2024-01-03-1.tcx"], tcx_text "Other" "Workout"); (["2024-01-03-1.tcx"], tcx_text "Other" "Workout")], 2%Z).
Proof. vm_compute. reflexivity. Qed.
