(* ===== verification/FetchCommand.v ===== *)
(** * FetchCommand: [fetch_command] and [get_command] of [commands/fetch.py]

    [fetch] validates its date flags, resolves the range, checks the
    sport and the format, authenticates, fetches the workouts
    ([Fetch.fetch_workouts_in_chunks]), and then writes below the output
    directory: the raw workouts, [workouts.json] with the summary, one
    markdown file per workout and the indexes.  It reports the payload as
    JSON, as tab-separated lines or as a table.  The files go to the
    [Disk] model: the command is a computation of the state monad [st]
    over a [disk].  [json.dumps] (with [indent=2]), the API call,
    [authenticate] and [resolve_output_dir] are [Context] parameters.
    The theorems: the command keeps the disk well formed and never
    removes a directory, whatever it returns; the markdown count it
    reports is the number of workouts, whether or not their files were
    written; the markdown writer returns the path [Markdown.markdown_target]
    names, which exists afterwards and holds [workout_to_markdown] when it
    was written, and for a relative path without [..] it refines
    [Markdown.write_workout_markdown] read on the files below the output
    directory; the table of [get] is never shown.  Examples show a
    [workoutDay] of [../../../x] writing outside the output directory and
    two workouts sharing one file counted twice. *)

From Stdlib Require Import ZArith Lia Ascii String List Bool.
From S2P Require Import Prelude PyValue Floats Formatting Dates DateRanges Weekly Classify Markdown Disk Fetch Export Cli.
Import ListNotations.
Local Open Scope st_scope.

(** [str(path)] of an absolute path. *)
Definition path_str (p : path) : string := "/" ++ join "/" p.

(** The keys [json.dumps] writes for the keys of [dict(counter)]. *)
Definition json_key (k : pyval) : string :=
  match k with
  | PStr s => s
  | PBool true => "true"
  | PBool false => "false"
  | PNone => "null"
  | _ => py_repr k
  end.

Definition counter_dict (c : list (pyval * Z)) : pyval :=
  PDict (map (fun '(k, n) => (json_key k, PInt n)) c).

(** The dict [_summary] returns. *)
Definition summary_value (s : summary_t) : pyval :=
  PDict [("total", PInt (sm_total s)); ("by_sport", counter_dict (sm_by_sport s));
         ("by_type", counter_dict (sm_by_type s));
         ("date_range", PDict [("start", PStr (sm_start s)); ("end", PStr (sm_end s))])].

(** [write_json(path, payload)] of [exporters/json_export.py]. *)
Definition write_json (dumps : pyval -> string) (p : list string) (payload : pyval) : st disk (list string) :=
  mkdir_p (removelast p) ;;; write_text p (dumps payload ++ nl) ;;; st_ret p.

(** [write_workout_markdown(output_dir, workout, workout_type, rewrite)]
    of [exporters/markdown.py] on the disk: the path it returns, below
    [out]. *)
Definition write_workout_markdown_disk (out : path) (workout workout_type : pyval) (rewrite : bool)
    : st disk (list string) :=
  tgt <-- st_lift (markdown_target workout workout_type) ;;
  let '(odir, opath) := tgt in
  ex <-- exists_path (under out opath) ;;
  if ex && negb rewrite then st_ret opath
  else mkdir_p (under out odir) ;;;
       text <-- st_lift (workout_to_markdown workout workout_type) ;;
       write_text (under out opath) text ;;;
       st_ret opath.

(** [_write_index(path, ...)]: [path.parent.mkdir(...)] and
    [path.write_text(...)]. *)
Definition write_index_file (out : path) (f : list string * string) : st disk unit :=
  mkdir_p (removelast (under out (fst f))) ;;; write_text (under out (fst f)) (snd f).

(** [generate_indexes(output_dir, workouts)] on the disk: every row is
    built before the first index is written. *)
Definition generate_indexes_disk (out : path) (workouts : list pyval) : st disk unit :=
  fs <-- st_lift (generate_indexes workouts) ;;
  st_iter (write_index_file out) fs.

(** The markdown loop of [fetch_command]: the number of workouts whose
    returned path exists afterwards. *)
Fixpoint markdown_loop (out : path) (rewrite : bool) (workouts : list pyval) : st disk Z :=
  match workouts with
  | [] => st_ret 0%Z
  | w :: ws =>
      t <-- st_lift (fetch_workout_type w) ;;
      p <-- write_workout_markdown_disk out w t rewrite ;;
      ex <-- exists_path (under out p) ;;
      n <-- markdown_loop out rewrite ws ;;
      st_ret ((if ex then 1 else 0) + n)%Z
  end.

(** The cells of one workout in the plain lines and in the table. *)
Definition workout_cells (w : pyval) : res (list string) :=
  let* sid := dict_get w "workoutTypeValueId" PNone in
  let* sport := sport_label sid "?" in
  let* tss := get_or w "tssActual" "tssPlanned" in
  let* tss_text := match tss with PNone => Ok "-" | _ => fixed_of tss 1 end in
  let* day := markdown_date w EmptyString in
  let* ty := fetch_workout_type w in
  let* ty := match ty with PStr s => Ok s | _ => Raise TypeError end in
  let* ti := dict_get w "title" PNone in
  let* dur := get_or w "totalTime" "totalTimePlanned" in
  let* dur := format_duration dur in
  let* dist := get_or w "distance" "distancePlanned" in
  let* dist := format_distance dist in
  Ok [day; sport; ty; py_str (py_or ti (PStr "Untitled")); dur; dist; tss_text].

(** The options of [fetch_command]; [--output-dir] as given, before
    [resolve_output_dir]. *)
Record fetch_opts : Type := FetchOpts {
  fo_start_date : option string;
  fo_end_date : option string;
  fo_last_days : option Z;
  fo_last_weeks : option Z;
  fo_last_months : option Z;
  fo_this_week : bool;
  fo_last_week : bool;
  fo_this_month : bool;
  fo_this_year : bool;
  fo_all : bool;
  fo_sport : string;
  fo_type : option string;
  fo_min_tss : option float;
  fo_max_tss : option float;
  fo_output_dir : option string;
  fo_format : string;
  fo_raw : bool;
  fo_no_index : bool;
  fo_classify : string;
  fo_rewrite : bool
}.

Section Command.

(** [json.loads]; the [get_workouts] and [get_workout] calls of the
    API; the user id [authenticate(state)] returns, or its exception;
    [resolve_output_dir(state.config, explicit=output_dir)] as the
    components of an absolute path; [json.dumps(payload, indent=2)];
    [date.today()]. *)
Context (json_loads : string -> res pyval)
        (get_workouts : string -> string -> string -> res pyval)
        (get_workout : string -> string -> res pyval)
        (authenticate : res string)
        (resolve_output_dir : option string -> path)
        (dumps : pyval -> string)
        (today : date).

(** The export steps of [fetch_command]: the raw file, [workouts.json],
    the markdown files and the indexes; the path of [workouts.json] and
    the markdown count. *)
Definition fetch_exports (o : fetch_opts) (out : path) (workouts : list pyval) (start end_ : date)
    : st disk (option (list string) * Z) :=
  (if fo_raw o then write_json dumps (app out ["raw"; "all_workouts.json"]) (PList workouts) ;;; st_ret tt
   else st_ret tt) ;;;
  json_path <-- (if in_strs (fo_format o) ["json"; "both"] then
                   s <-- st_lift (summary workouts start end_) ;;
                   p <-- write_json dumps (app out ["workouts.json"])
                           (PDict [("workouts", PList workouts); ("summary", summary_value s)]) ;;
                   st_ret (Some p)
                 else st_ret None) ;;
  written <-- (if in_strs (fo_format o) ["markdown"; "both"] then
                 n <-- markdown_loop out (fo_rewrite o) workouts ;;
                 (if fo_no_index o then st_ret tt else generate_indexes_disk out workouts) ;;;
                 st_ret n
               else st_ret 0%Z) ;;
  st_ret (json_path, written).

Definition fetch_header : string := join tab ["date"; "sport"; "type"; "title"; "duration"; "distance"; "tss"].

(** [fetch_command(ctx, ...)] with [state = get_state(ctx)]. *)
Definition fetch_command (state : cli_state) (o : fetch_opts) : st disk output :=
  sd <-- st_lift (validate_date (fo_start_date o)) ;;
  ed <-- st_lift (validate_date (fo_end_date o)) ;;
  range <-- st_lift (resolve_date_range sd ed (fo_last_days o) (fo_last_weeks o) (fo_last_months o)
                       (fo_this_week o) (fo_last_week o) (fo_this_month o) (fo_this_year o) (fo_all o) today) ;;
  let '(start, end_) := range in
  if negb (in_strs (fo_sport o) ["swim"; "bike"; "run"; "all"]) then st_lift (Raise BadParameter)
  else if negb (in_strs (fo_format o) ["json"; "markdown"; "both"]) then st_lift (Raise BadParameter)
  else
    user_id <-- st_lift authenticate ;;
    workouts <-- st_lift (fetch_workouts_in_chunks json_loads get_workouts user_id start end_ (fo_sport o)
                            (fo_type o) (fo_min_tss o) (fo_max_tss o) (fo_classify o) (state_config state)) ;;
    let out := resolve_output_dir (fo_output_dir o) in
    mkdir_p out ;;;
    ex <-- fetch_exports o out workouts start end_ ;;
    let '(json_path, written) := ex in
    s <-- st_lift (summary workouts start end_) ;;
    let total := string_of_Z (Z.of_nat (length workouts)) in
    let payload :=
      PDict [("workouts", PList workouts); ("summary", summary_value s);
             ("exports", PDict [("output_dir", PStr (path_str out));
                                ("json_file", match json_path with Some p => PStr (path_str p) | None => PNone end);
                                ("markdown_files",
                                 PInt (if in_strs (fo_format o) ["markdown"; "both"] then written else 0))])] in
    if json_output state then st_ret (print_json_payload state payload)
    else if plain_output state then
      rows <-- st_lift (res_map_list workout_cells workouts) ;;
      st_ret (Lines (app (fetch_header :: map (join tab) rows)
                         ["total" ++ tab ++ total; "output_dir" ++ tab ++ path_str out]))
    else
      rows <-- st_lift (res_map_list workout_cells (firstn 30 workouts)) ;;
      st_ret (TableOut ("Workouts (" ++ total ++ " total)") rows
                ["Fetched " ++ total ++ " workouts from " ++ strftime_ymd start ++ " to " ++ strftime_ymd end_;
                 "Exported to: " ++ path_str out]).

(** The fields [get] shows. *)
Definition GET_FIELDS : list string :=
  ["workoutDay"; "title"; "description"; "distance"; "totalTime"; "tssPlanned"].

(** [get_command(ctx, workout_id, output_format)]; the markdown is what
    [console.print] is given. *)
Definition get_command (state : cli_state) (workout_id output_format : string) : res output :=
  if negb (in_strs output_format ["json"; "markdown"; "raw"]) then Raise BadParameter
  else
    let* user_id := authenticate in
    let* workout := get_workout user_id workout_id in
    let* c := classify_with_metadata json_loads workout "auto" TYPE_RULES in
    let* kv := match workout with PDict kv => Ok kv | _ => Raise TypeError end in
    let workout := PDict (dict_set kv "classification" (classification_value c)) in
    if json_output state then Ok (print_json_payload state workout)
    else if plain_output state then
      let* vals := res_map_list (fun k => dict_get workout k PNone) GET_FIELDS in
      Ok (Lines (app (map (fun '(k, v) => k ++ tab ++ py_str v) (combine GET_FIELDS vals))
                     ["classification" ++ tab ++ wc_type c]))
    else if String.eqb output_format "markdown" then
      let* md := workout_to_markdown workout (PStr (wc_type c)) in Ok (Lines [md])
    else if in_strs output_format ["json"; "raw"] then Ok (print_json_payload state workout)
    else
      let* vals := res_map_list (fun k => dict_get workout k PNone) GET_FIELDS in
      Ok (TableOut ("Workout " ++ workout_id)
                   (app (map (fun '(k, v) => [k; py_str v]) (combine GET_FIELDS vals))
                        [["classification"; wc_type c]]) []).

End Command.

(** * Theorems *)

(** ** The disk stays well formed *)

Lemma write_json_inv (d0 : disk) (dumps : pyval -> string) (p : list string) (payload : pyval) :
  st_preserves (disk_inv d0) (write_json dumps p payload).
Proof. unfold write_json. st_inv_auto. Qed.
#[export] Hint Resolve write_json_inv : st_inv.


Lemma write_workout_markdown_disk_inv (d0 : disk) (out : path) (w t : pyval) (rewrite : bool) :
  st_preserves (disk_inv d0) (write_workout_markdown_disk out w t rewrite).
Proof. unfold write_workout_markdown_disk. st_inv_auto. Qed.
#[export] Hint Resolve write_workout_markdown_disk_inv : st_inv.


Lemma generate_indexes_disk_inv (d0 : disk) (out : path) (ws : list pyval) :
  st_preserves (disk_inv d0) (generate_indexes_disk out ws).
Proof. unfold generate_indexes_disk, write_index_file. st_inv_auto. Qed.
#[export] Hint Resolve generate_indexes_disk_inv : st_inv.


Lemma markdown_loop_inv (d0 : disk) (out : path) (rewrite : bool) (ws : list pyval) :
  st_preserves (disk_inv d0) (markdown_loop out rewrite ws).
Proof. induction ws as [| w ws IH]; cbn [markdown_loop]; st_inv_auto. Qed.

#[export] Hint Resolve markdown_loop_inv : st_inv.

Lemma fetch_exports_inv (d0 : disk) (dumps : pyval -> string) (o : fetch_opts) (out : path)
    (ws : list pyval) (start end_ : date) :
  st_preserves (disk_inv d0) (fetch_exports dumps o out ws start end_).
Proof. unfold fetch_exports. st_inv_auto. Qed.
#[export] Hint Resolve fetch_exports_inv : st_inv.

(** ** The markdown writer and its count *)

(** [write_workout_markdown] returns a path that exists afterwards: the
    file was there and is kept, or it has just been written. *)
Lemma write_workout_markdown_disk_spec (out : path) (w t : pyval) (rewrite : bool) (d d' : disk) (p : list string) :
  wf_disk d -> write_workout_markdown_disk out w t rewrite d = (d', Ok p) ->
  exists odir, markdown_target w t = Ok (odir, p) /\
    ((path_exists d (under out p) = true /\ rewrite = false /\ d' = d) \/
     (exists q text, workout_to_markdown w t = Ok text /\ walk d' [] (under out p) = inl q /\
                     file_at d' q = Some text /\ forall q', q' <> q -> file_at d' q' = file_at d q')).
Proof.
  unfold write_workout_markdown_disk. intros W H.
  apply st_bind_inv in H as (d1 & [odir opath] & H1 & H). apply st_lift_inv in H1 as [-> Ht].
  apply st_bind_inv in H as (d2 & ex & H2 & H). injection H2 as <- <-.
  destruct (path_exists d (under out opath)) eqn:E; destruct rewrite; cbn in H;
    try (injection H as <- <-; exists odir; split; [now rewrite Ht | left; auto]; fail).
  all: apply st_bind_inv in H as (d3 & [] & H3 & H); apply st_bind_inv in H as (d4 & text & H4 & H);
    apply st_lift_inv in H4 as [-> Hx]; apply st_bind_inv in H as (d5 & [] & H5 & H); injection H as <- <-;
    exists odir; split; [now rewrite Ht |];
    destruct (mkdir_p_ok _ _ _ _ W H3) as (W3 & _ & F3 & _);
    destruct (write_text_ok _ _ _ _ _ W3 H5) as (_ & _ & Hq); destruct (Hq eq_refl) as (q & _ & Wk & Fq & Fo);
    right; exists q, text; repeat split; auto;
    intros q' N; rewrite (Fo q' N); unfold file_at; now rewrite F3.
Qed.

Lemma write_workout_markdown_disk_exists (out : path) (w t : pyval) (rewrite : bool) (d d' : disk) (p : list string) :
  wf_disk d -> write_workout_markdown_disk out w t rewrite d = (d', Ok p) -> path_exists d' (under out p) = true.
Proof.
  intros W H. destruct (write_workout_markdown_disk_spec _ _ _ _ _ _ _ W H) as (_ & _ & [(E & _ & ->) | (q & text & _ & Wk & F & _)]);
    [exact E |]. unfold path_exists, is_file. now rewrite Wk, F, orb_true_r.
Qed.

(** C20: the writer on the disk implements [Markdown.write_workout_markdown]
    read on the files and directories below [out]: for a workout whose
    path is relative and has no [..], both return the same path or raise
    the same exception; when the abstract writer keeps the file the disk
    is unchanged, and when it writes a text that text is the file at
    [out / path] afterwards and no other file changes. *)
Theorem write_workout_markdown_refines (out : path) (w : pyval) (wt : string) (rewrite : bool) (d : disk)
    (odir opath : list string) :
  wf_disk d -> is_dir d out = true -> no_dotdot (app out opath) = true ->
  markdown_target w (PStr wt) = Ok (odir, opath) -> hd_error opath <> Some "/" ->
  match write_workout_markdown (fun k => is_file d (app out k)) (fun k => is_dir d (app out k)) w (PStr wt) rewrite,
        write_workout_markdown_disk out w (PStr wt) rewrite d with
  | Ok (p, None), (d', r) => r = Ok p /\ d' = d
  | Ok (p, Some text), (d', r) =>
      r = Ok p /\ file_at d' (app out p) = Some text /\ forall q, q <> app out p -> file_at d' q = file_at d q
  | Raise e, (_, r) => r = Raise e
  end.
Proof.
  intros W Do N Ht Hh. destruct (markdown_target_shape _ _ _ _ Ht Hh) as [Hd (rest & -> & Nr)].
  assert (Nd : no_dotdot (app out odir) = true)
    by (rewrite !no_dotdot_app in *; apply andb_true_iff in N as [Na Nbc];
        apply andb_true_iff in Nbc as [Nb _]; now rewrite Na, Nb).
  unfold write_workout_markdown, write_workout_markdown_disk. rewrite Ht. cbn [res_bind].
  unfold st_bind, st_lift, st_ret, exists_path. cbv beta iota zeta.
  rewrite (under_rel out _ Hh), (under_rel out _ Hd), (path_exists_plain d _ W N), (orb_comm (is_dir d _)).
  destruct ((is_file d (app out (app odir rest)) || is_dir d (app out (app odir rest))) && negb rewrite);
    [split; reflexivity |].
  generalize (mkdir_plain d (app out odir) W Nd).
  rewrite prefixes_app, existsb_app, existsb_map_comp, (proj1 (prefixes_of_dir _ _ W Do)). cbn [orb].
  destruct (existsb (fun k => is_file d (app out k)) (prefixes odir)); [intros ->; reflexivity |].
  intros (d1 & M & F1 & D1). rewrite <- prefixes_app in D1. rewrite M.
  destruct (workout_to_markdown w (PStr wt)) as [text | e]; cbn [res_bind]; [| reflexivity].
  destruct (mkdir_p_ok _ _ _ _ W M) as (W1 & _).
  assert (Hr : removelast (app out (app odir rest)) = app out (removelast (app odir rest)))
    by (apply removelast_app; destruct rest; [contradiction | now destruct odir]).
  rewrite (write_text_plain d1 _ _ W1 N), !D1, Hr.
  assert (Hl : existsb (parts_eqb (app out (app odir rest))) (prefixes (app out odir)) = false)
    by (rewrite app_assoc; now apply prefixes_longer).
  rewrite Hl, orb_false_r, (dir_after_mkdir_rel d out odir _ W Do).
  replace (parts_eqb (app out (app odir rest)) []) with false by (destruct rest; [contradiction | now destruct out, odir]).
  cbn [negb andb]. destruct (_ && _); [| reflexivity].
  split; [reflexivity |]. rewrite file_at_write, parts_eqb_refl. split; [reflexivity |].
  intros q Nq. rewrite file_at_write, (parts_eqb_neq _ _ (not_eq_sym Nq)). unfold file_at. cbn [files]. now rewrite F1.
Qed.

Lemma markdown_loop_count (out : path) (rewrite : bool) (ws : list pyval) (d d' : disk) (n : Z) :
  wf_disk d -> markdown_loop out rewrite ws d = (d', Ok n) -> n = Z.of_nat (length ws).
Proof.
  revert d d' n. induction ws as [| w ws IH]; intros d d' n W H; cbn [markdown_loop] in H.
  - now injection H as _ <-.
  - apply st_bind_inv in H as (d1 & t & H1 & H). apply st_lift_inv in H1 as [-> _].
    apply st_bind_inv in H as (d2 & p & H2 & H). apply st_bind_inv in H as (d3 & ex & H3 & H).
    injection H3 as <- <-. apply st_bind_inv in H as (d4 & m & H4 & H). injection H as _ <-.
    rewrite (write_workout_markdown_disk_exists _ _ _ _ _ _ _ W H2).
    rewrite (IH _ _ _ (inv_wf _ _ _ _ (fun d0 => write_workout_markdown_disk_inv d0 _ _ _ _) W H2) H4).
    cbn [length]. lia.
Qed.

Lemma in_strs_cons (s x : string) (l : list string) : in_strs s (x :: l) = String.eqb s x || in_strs s l.
Proof. reflexivity. Qed.

Lemma fetch_exports_count (dumps : pyval -> string) (o : fetch_opts) (out : path) (ws : list pyval)
    (start end_ : date) (d d' : disk) (jp : option (list string)) (n : Z) :
  wf_disk d -> fetch_exports dumps o out ws start end_ d = (d', Ok (jp, n)) ->
  n = if in_strs (fo_format o) ["markdown"; "both"] then Z.of_nat (length ws) else 0%Z.
Proof.
  unfold fetch_exports. intros W H. st_run H.
  destruct (in_strs (fo_format o) ["markdown"; "both"]); st_run Hb1; [| reflexivity].
  eapply markdown_loop_count; [| exact Hb2]. disk_wf.
Qed.

Section CommandTheorems.

Context (json_loads : string -> res pyval)
        (get_workouts : string -> string -> string -> res pyval)
        (get_workout : string -> string -> res pyval)
        (authenticate : res string)
        (resolve_output_dir : option string -> path)
        (dumps : pyval -> string)
        (today : date).

(** Invariant of [fetch]: started on a well-formed disk, the
    command leaves a well-formed disk that has every directory it had,
    whether it returns or raises. *)
Theorem fetch_command_keeps_disk (state : cli_state) (o : fetch_opts) (d d' : disk) (r : res output) :
  wf_disk d ->
  fetch_command json_loads get_workouts authenticate resolve_output_dir dumps today state o d = (d', r) ->
  wf_disk d' /\ keeps_dirs d d'.
Proof.
  intros W H.
  assert (P : st_preserves (disk_inv d)
                (fetch_command json_loads get_workouts authenticate resolve_output_dir dumps today state o))
    by (unfold fetch_command; st_inv_auto).
  exact (P d d' r (conj W (keeps_refl d)) H).
Qed.

(** C34: The markdown count of [fetch]: with [--json], the
    [markdown_files] the payload reports is the number of workouts it
    lists in a markdown format (whether or not their files were written
    by this run) and 0 otherwise. *)
Theorem fetch_markdown_count (state : cli_state) (o : fetch_opts) (d d' : disk) (out : output) :
  wf_disk d -> json_output state = true ->
  fetch_command json_loads get_workouts authenticate resolve_output_dir dumps today state o d = (d', Ok out) ->
  exists ws summ ex,
    out = JsonOut (plain_output state) (PDict [("workouts", PList ws); ("summary", summ); ("exports", ex)]) /\
    dict_get ex "markdown_files" PNone =
      Ok (PInt (if in_strs (fo_format o) ["markdown"; "both"] then Z.of_nat (length ws) else 0%Z)).
Proof.
  unfold fetch_command. intros W J H. st_run H; try discriminate J.
  assert (Ws : wf_disk s) by disk_wf. rewrite (fetch_exports_count _ _ _ _ _ _ _ _ _ _ Ws Hb5).
  do 3 eexists. split; [reflexivity |]. unfold in_strs. cbn. now destruct (_ || _).
Qed.

(** C37: Dead code of [get]: the table at the end of [get_command] is
    never shown, since every format it accepts returns earlier. *)
Theorem get_command_no_table (state : cli_state) (workout_id output_format : string) (out : output) :
  get_command json_loads get_workout authenticate state workout_id output_format = Ok out ->
  forall title rows after, out <> TableOut title rows after.
Proof.
  unfold get_command. intros H title rows after. res_inv H; try discriminate.
  exfalso. unfold in_strs in E, E7. cbn [existsb] in E, E7. rewrite E6 in E.
  destruct (output_format =? "json"), (output_format =? "raw"); discriminate.
Qed.

End CommandTheorems.

(** ** Witnesses and the behaviours modelling showed *)

Definition cmd_workouts : list pyval :=
  [PDict [("title", PStr "Easy run"); ("workoutDay", PStr "2024-01-03T00:00:00"); ("workoutTypeValueId", PInt 3);
          ("tssActual", PInt 40); ("totalTime", PFloat 125 (-2)); ("distance", PInt 12000)];
   PDict [("title", PStr "Bike tempo"); ("workoutDay", PStr "2024-01-05"); ("workoutTypeValueId", PInt 2)]].

Definition cmd_api (workouts : list pyval) (_ start _ : string) : res pyval :=
  if String.eqb start "2024-01-01" then Ok (PList workouts) else Ok (PList []).

Definition cmd_opts (fmt : string) (rewrite : bool) : fetch_opts :=
  FetchOpts (Some "2024-01-01") (Some "2024-01-31") None None None false false false false false "all" None None None
            None fmt false false "auto" rewrite.

Definition cmd_get (_ _ : string) : res pyval := Ok (hd PNone cmd_workouts).

(** The disk of the examples: [/t] exists, the output directory is
    [/t/out]. *)
Definition cmd_disk : disk := Disk [] [["t"]].

Definition cmd_fetch (workouts : list pyval) (state : cli_state) (o : fetch_opts) (d : disk) :=
  fetch_command no_json (cmd_api workouts) (Ok "u") (fun _ => ["t"; "out"]) py_repr (Date 2024 1 1) state o d.

Lemma fetch_command_keeps_disk_witness :
  wf_disk cmd_disk /\
  exists d' r, cmd_fetch cmd_workouts (CLIState false true PNone) (cmd_opts "both" false) cmd_disk = (d', r) /\
               wf_disk d' /\ keeps_dirs cmd_disk d'.
Proof.
  split; [exact (wf_diskb_spec cmd_disk eq_refl) |].
  destruct (cmd_fetch cmd_workouts (CLIState false true PNone) (cmd_opts "both" false) cmd_disk) as [d' r] eqn:E.
  exists d', r. split; [reflexivity |].
  exact (fetch_command_keeps_disk no_json (cmd_api cmd_workouts) (Ok "u") (fun _ => ["t"; "out"]) py_repr
           (Date 2024 1 1) _ _ _ _ _ (wf_diskb_spec cmd_disk eq_refl) E).
Defined.

Lemma fetch_markdown_count_witness :
  exists d' out, cmd_fetch cmd_workouts (CLIState true false PNone) (cmd_opts "markdown" false) cmd_disk = (d', Ok out) /\
    exists ws summ ex,
      out = JsonOut false (PDict [("workouts", PList ws); ("summary", summ); ("exports", ex)]) /\
      dict_get ex "markdown_files" PNone =
        Ok (PInt (if in_strs "markdown" ["markdown"; "both"] then Z.of_nat (length ws) else 0%Z)).
Proof.
  destruct (cmd_fetch cmd_workouts (CLIState true false PNone) (cmd_opts "markdown" false) cmd_disk)
    as [d' [out | e]] eqn:E; [| vm_compute in E; discriminate E].
  exists d', out. split; [reflexivity |].
  exact (fetch_markdown_count no_json (cmd_api cmd_workouts) (Ok "u") (fun _ => ["t"; "out"]) py_repr
           (Date 2024 1 1) (CLIState true false PNone) (cmd_opts "markdown" false) _ _ _
           (wf_diskb_spec cmd_disk eq_refl) eq_refl E).
Defined.

Lemma get_command_no_table_witness :
  exists out, get_command no_json cmd_get (Ok "u") (CLIState false false PNone) "7" "raw" = Ok out /\
  forall title rows after, out <> TableOut title rows after.
Proof.
  destruct (get_command no_json cmd_get (Ok "u") (CLIState false false PNone) "7" "raw") as [out | e] eqn:E;
    [| vm_compute in E; discriminate E].
  exists out. split; [reflexivity |]. exact (get_command_no_table no_json cmd_get (Ok "u") _ _ _ _ E).
Defined.

Lemma write_workout_markdown_refines_witness :
  match write_workout_markdown (fun k => is_file cmd_disk (app ["t"] k)) (fun k => is_dir cmd_disk (app ["t"] k))
          (hd PNone cmd_workouts) (PStr "easy") false,
        write_workout_markdown_disk ["t"] (hd PNone cmd_workouts) (PStr "easy") false cmd_disk with
  | Ok (p, None), (d', r) => r = Ok p /\ d' = cmd_disk
  | Ok (p, Some text), (d', r) =>
      r = Ok p /\ file_at d' (app ["t"] p) = Some text /\ forall q, q <> app ["t"] p -> file_at d' q = file_at cmd_disk q
  | Raise e, (_, r) => r = Raise e
  end.
Proof.
  apply (write_workout_markdown_refines ["t"] (hd PNone cmd_workouts) "easy" false cmd_disk
           ["run"; "easy"] ["run"; "easy"; "2024-01-03-easy-run.md"]).
  - exact (wf_diskb_spec cmd_disk eq_refl).
  - reflexivity.
  - reflexivity.
  - vm_compute. reflexivity.
  - discriminate.
Defined.

(** A [workoutDay] of [../../../x] is ten characters: its markdown file
    goes three levels up from [run/easy], out of the output directory
    [/t/out], to [/t/x-easy-run.md]. *)
Example markdown_escapes_output_dir :
  let w := PDict [("title", PStr "Easy run"); ("workoutDay", PStr "../../../x"); ("workoutTypeValueId", PInt 3)] in
  exists text, file_at (fst (write_workout_markdown_disk ["t"; "out"] w (PStr "easy") false cmd_disk)) ["t"; "x-easy-run.md"]
               = Some text.
Proof. vm_compute. eexists. reflexivity. Qed.

(** Two workouts of one day and title share a markdown file: one file is
    written and the other kept, yet [markdown_files] reports 2. *)
Example markdown_count_counts_kept_files :
  let ws := [hd PNone cmd_workouts; hd PNone cmd_workouts] in
  exists d', fetch_exports py_repr (cmd_opts "markdown" false) ["t"; "out"] ws (Date 2024 1 1) (Date 2024 1 31)
               (Disk [] [["t"]; ["t"; "out"]]) = (d', Ok (None, 2%Z)) /\
             length (filter (fun e => String.eqb (last (fst e) EmptyString) "INDEX.md") (files d')) = 2%nat /\
             length (files d') = 3%nat.
Proof. vm_compute. eexists. split; [reflexivity | split; reflexivity]. Qed.
