(* ===== verification/ExportCommand.v ===== *)
(** * ExportCommand: [export_command] of [commands/export.py]

    [export] validates its date flags and its format, resolves the range,
    authenticates, fetches the workouts ([Fetch.fetch_workouts_in_chunks])
    and writes them as one CSV file, one iCalendar file or one TCX file per
    workout with an id, on the [Disk] model; FIT is not implemented and
    reports an error.  The texts are those of [Export]: [_write_csv] writes
    its header and then row by row, so a row that raises leaves the rows
    before it in the file; [_write_ical] builds its whole text first;
    [_write_tcx] writes each file as it goes.  The theorems: the command
    keeps the disk well formed; the CSV file it leaves after a successful
    run is exactly [Export.write_csv]; the TCX count is the number of
    workouts with an id, even when two share a file; and a FIT export
    ends with exit code 1 only in the rich console mode. *)

From Stdlib Require Import ZArith Lia Ascii String List Bool.
From S2P Require Import Prelude PyValue Floats Dates DateRanges Classify Markdown Disk Fetch Export Cli FetchCommand.
Import ListNotations.
Local Open Scope st_scope.

(** The rows [writer.writerow] writes before the first workout whose row
    raises, and that exception. *)
Fixpoint csv_rows_upto (workouts : list pyval) : string * option exc :=
  match workouts with
  | [] => (EmptyString, None)
  | w :: ws =>
      match csv_values w with
      | Raise e => (EmptyString, Some e)
      | Ok vs => let '(rest, e) := csv_rows_upto ws in (csv_row (map csv_str vs) ++ rest, e)
      end
  end.

(** [_write_csv(path, workouts)]: the parent directory, [path.open("w")]
    (which creates or truncates the file), and the text written when the
    file is closed, on return or on an exception. *)
Definition write_csv_disk (p : path) (workouts : list pyval) : st disk unit :=
  mkdir_p (removelast p) ;;;
  write_text p EmptyString ;;;
  let '(rows, e) := csv_rows_upto workouts in
  write_text p (csv_row CSV_FIELDS ++ rows) ;;;
  match e with Some e => st_lift (Raise e) | None => st_ret tt end.

(** [_write_ical(path, workouts)] *)
Definition write_ical_disk (p : path) (workouts : list pyval) : st disk unit :=
  mkdir_p (removelast p) ;;;
  text <-- st_lift (write_ical workouts) ;;
  write_text p text.

(** The loop of [_write_tcx]: the file of a workout with an id is
    [Export.tcx_file]'s name and text, written in [dir]. *)
Fixpoint write_tcx_loop (dir : path) (workouts : list pyval) : st disk Z :=
  match workouts with
  | [] => st_ret 0%Z
  | w :: ws =>
      f <-- st_lift (tcx_file (fun _ => true) w) ;;
      k <-- (match f with
             | None => st_ret 0%Z
             | Some (parts, text) => write_text (under dir parts) text ;;; st_ret 1%Z
             end) ;;
      n <-- write_tcx_loop dir ws ;;
      st_ret (k + n)%Z
  end.

(** [_write_tcx(output_dir, workouts)] *)
Definition write_tcx_disk (dir : path) (workouts : list pyval) : st disk Z :=
  mkdir_p dir ;;; write_tcx_loop dir workouts.

(** The options of [export_command]; [--output-file] as the components
    of the path it names. *)
Record export_opts : Type := ExportOpts {
  eo_start_date : option string;
  eo_end_date : option string;
  eo_last_days : option Z;
  eo_last_weeks : option Z;
  eo_this_month : bool;
  eo_this_year : bool;
  eo_format : string;
  eo_output_dir : option string;
  eo_output_file : option path;
  eo_sport : string;
  eo_type : option string
}.

Definition export_result (fmt : string) (p : path) (count : Z) : pyval :=
  PDict [("status", PStr "exported"); ("format", PStr fmt); ("path", PStr (path_str p)); ("count", PInt count)].

Definition fit_result : pyval :=
  PDict [("status", PStr "error"); ("format", PStr "fit");
         ("message", PStr "FIT export is not implemented yet in this phase.")].

(** The plain lines: each present key whose value is not [None]. *)
Definition plain_result (result : pyval) : res (list string) :=
  let* ls := res_map_list (fun k => let* v := dict_get result k PNone in
                                    Ok (match v with PNone => [] | _ => [k ++ tab ++ py_str v] end))
               ["status"; "format"; "path"; "count"; "message"] in
  Ok (concat ls).

Section Command.

(** As for [fetch]: [json.loads], the API call, [authenticate],
    [resolve_output_dir] and [date.today()]. *)
Context (json_loads : string -> res pyval)
        (get_workouts : string -> string -> string -> res pyval)
        (authenticate : res string)
        (resolve_output_dir : option string -> path)
        (today : date).

(** The file or files of the chosen format, and the result dict. *)
Definition export_files (o : export_opts) (out : path) (workouts : list pyval) : st disk pyval :=
  let n := Z.of_nat (length workouts) in
  if String.eqb (eo_format o) "csv" then
    let p := match eo_output_file o with Some f => f | None => app out ["workouts.csv"] end in
    write_csv_disk p workouts ;;; st_ret (export_result "csv" p n)
  else if String.eqb (eo_format o) "ical" then
    let p := match eo_output_file o with Some f => f | None => app out ["training.ics"] end in
    write_ical_disk p workouts ;;; st_ret (export_result "ical" p n)
  else if String.eqb (eo_format o) "tcx" then
    let dir := app out ["tcx"] in
    count <-- write_tcx_disk dir workouts ;;
    st_ret (export_result "tcx" dir count)
  else st_ret fit_result.

(** [export_command(ctx, ...)]; the TCX warning on standard error is
    not part of the output. *)
Definition export_command (state : cli_state) (o : export_opts) : st disk output :=
  sd <-- st_lift (validate_date (eo_start_date o)) ;;
  ed <-- st_lift (validate_date (eo_end_date o)) ;;
  if negb (in_strs (eo_format o) ["tcx"; "fit"; "ical"; "csv"]) then st_lift (Raise BadParameter)
  else
    range <-- st_lift (resolve_date_range sd ed (eo_last_days o) (eo_last_weeks o) None false false
                         (eo_this_month o) (eo_this_year o) false today) ;;
    let '(start, end_) := range in
    user_id <-- st_lift authenticate ;;
    workouts <-- st_lift (fetch_workouts_in_chunks json_loads get_workouts user_id start end_ (eo_sport o)
                            (eo_type o) None None "auto" (state_config state)) ;;
    let out := resolve_output_dir (eo_output_dir o) in
    mkdir_p out ;;;
    result <-- export_files o out workouts ;;
    if json_output state then st_ret (print_json_payload state result)
    else if plain_output state then ls <-- st_lift (plain_result result) ;; st_ret (Lines ls)
    else
      status <-- st_lift (dict_get result "status" PNone) ;;
      if py_eq status (PStr "error") then
        msg <-- st_lift (dict_get result "message" (PStr "Export failed")) ;;
        st_ret (ExitWith 1 [py_str msg])
      else
        count <-- st_lift (dict_get result "count" (PInt 0)) ;;
        fmt <-- st_lift (dict_get result "format" PNone) ;;
        path <-- st_lift (dict_get result "path" PNone) ;;
        st_ret (Lines ["Exported " ++ py_str count ++ " workouts as " ++ py_str fmt ++ " to " ++ py_str path]).

End Command.

(** * Theorems *)

Lemma write_csv_disk_inv (d0 : disk) (p : path) (ws : list pyval) : st_preserves (disk_inv d0) (write_csv_disk p ws).
Proof. unfold write_csv_disk. st_inv_auto. Qed.
#[export] Hint Resolve write_csv_disk_inv : st_inv.

Lemma write_ical_disk_inv (d0 : disk) (p : path) (ws : list pyval) : st_preserves (disk_inv d0) (write_ical_disk p ws).
Proof. unfold write_ical_disk. st_inv_auto. Qed.
#[export] Hint Resolve write_ical_disk_inv : st_inv.

Lemma write_tcx_loop_inv (d0 : disk) (dir : path) (ws : list pyval) : st_preserves (disk_inv d0) (write_tcx_loop dir ws).
Proof. induction ws as [| w ws IH]; cbn [write_tcx_loop]; st_inv_auto. Qed.
#[export] Hint Resolve write_tcx_loop_inv : st_inv.

Lemma export_files_inv (d0 : disk) (o : export_opts) (out : path) (ws : list pyval) :
  st_preserves (disk_inv d0) (export_files o out ws).
Proof. unfold export_files, write_tcx_disk. st_inv_auto. Qed.
#[export] Hint Resolve export_files_inv : st_inv.

(** [export] keeps the disk well formed and its directories, whatever
    it returns. *)
Lemma export_command_keeps_disk (json_loads : string -> res pyval)
    (get_workouts : string -> string -> string -> res pyval) (authenticate : res string)
    (resolve_output_dir : option string -> path) (today : date) (state : cli_state) (o : export_opts)
    (d d' : disk) (r : res output) :
  wf_disk d -> export_command json_loads get_workouts authenticate resolve_output_dir today state o d = (d', r) ->
  wf_disk d' /\ keeps_dirs d d'.
Proof.
  intros W H.
  assert (P : st_preserves (disk_inv d)
                (export_command json_loads get_workouts authenticate resolve_output_dir today state o))
    by (unfold export_command; st_inv_auto).
  exact (P d d' r (conj W (keeps_refl d)) H).
Qed.

Lemma concat_empty_cons (x : string) (l : list string) :
  String.concat EmptyString (x :: l) = x ++ String.concat EmptyString l.
Proof. destruct l; cbn; [now rewrite string_app_nil_r | reflexivity]. Qed.

(** The rows written without an exception are the rows of [write_csv]. *)
Lemma csv_rows_upto_ok (ws : list pyval) (rows : string) :
  csv_rows_upto ws = (rows, None) -> write_csv ws = Ok (csv_row CSV_FIELDS ++ rows).
Proof.
  unfold write_csv. intros H.
  enough (E : exists rs, res_map_list (fun w => let* vs := csv_values w in Ok (csv_row (map csv_str vs))) ws = Ok rs
                         /\ String.concat EmptyString rs = rows)
    by (destruct E as (rs & -> & <-); reflexivity).
  revert rows H. induction ws as [| w ws IH]; intros rows H; cbn in H.
  - injection H as <-. now exists [].
  - destruct (csv_values w) as [vs | e] eqn:V; [| discriminate].
    destruct (csv_rows_upto ws) as [rest e] eqn:R. injection H as <- ->.
    destruct (IH _ eq_refl) as (rs & M & C). exists (csv_row (map csv_str vs) :: rs).
    cbn [res_map_list]. rewrite V. cbn [res_bind]. rewrite M. cbn [res_bind].
    split; [reflexivity | now rewrite concat_empty_cons, C].
Qed.

(** C35: The CSV file of [export]: when [_write_csv] returns, the file
    its path resolves to holds exactly the text of [Export.write_csv];
    when the row of a workout raises, either the directory or the file
    could not be opened ([OSError]) or the file holds the header and the
    rows before that workout and the row's exception propagates. *)
Theorem export_csv_file_text (p : path) (ws : list pyval) (d d' : disk) (r : res unit) :
  wf_disk d -> write_csv_disk p ws d = (d', r) ->
  (r = Ok tt -> exists q text, write_csv ws = Ok text /\ walk d' [] p = inl q /\ file_at d' q = Some text) /\
  (forall rows e, csv_rows_upto ws = (rows, Some e) ->
     r = Raise OSError \/
     (r = Raise e /\ exists q, walk d' [] p = inl q /\ file_at d' q = Some (csv_row CSV_FIELDS ++ rows))).
Proof.
  unfold write_csv_disk, st_bind. intros W H.
  destruct (mkdir_p (removelast p) d) as [d1 [[] | e1]] eqn:M;
    [| injection H as <- <-; rewrite (mkdir_p_raise _ _ _ _ M); split; [discriminate | auto]].
  destruct (write_text p EmptyString d1) as [d2 [[] | e2]] eqn:W1;
    [| injection H as <- <-; rewrite (write_text_raise _ _ _ _ _ W1); split; [discriminate | auto]].
  assert (W2 : wf_disk d2) by disk_wf.
  destruct (csv_rows_upto ws) as [rows e] eqn:C.
  destruct (write_text p (csv_row CSV_FIELDS ++ rows) d2) as [d3 [[] | e3]] eqn:W3;
    [| injection H as <- <-; rewrite (write_text_raise _ _ _ _ _ W3); split; [discriminate | auto]].
  destruct (write_text_ok _ _ _ _ _ W2 W3) as (_ & _ & Hq). destruct (Hq eq_refl) as (q & _ & Wk & F & _).
  destruct e as [e |]; injection H as <- <-; split.
  - discriminate.
  - intros rows' e' C'. injection C' as <- <-. right. eauto.
  - intros _. exists q, (csv_row CSV_FIELDS ++ rows). auto using csv_rows_upto_ok.
  - intros rows' e' C'. discriminate C'.
Qed.

(** C36: Exit status of [export --format fit]: it ends with
    [typer.Exit(code=1)] exactly when the output is the rich console;
    with [--json] or [--plain] the error result is printed and the command
    succeeds. *)
Theorem export_fit_exit (json_loads : string -> res pyval)
    (get_workouts : string -> string -> string -> res pyval) (authenticate : res string)
    (resolve_output_dir : option string -> path) (today : date) (state : cli_state) (o : export_opts)
    (d d' : disk) (out : output) :
  eo_format o = "fit" ->
  export_command json_loads get_workouts authenticate resolve_output_dir today state o d = (d', Ok out) ->
  ((exists lines, out = ExitWith 1 lines) <-> json_output state = false /\ plain_output state = false).
Proof.
  unfold export_command, export_files. intros F H. rewrite F in H. cbn [String.eqb Ascii.eqb Bool.eqb andb] in H.
  st_run H; cbn in *; try discriminate; injection Hb5 as <-.
  - split; [intros [ls Hl]; discriminate | intros [Hj _]; discriminate].
  - split; [intros [ls Hl]; discriminate | intros [_ Hp]; discriminate].
  - split; [auto | eauto].
  - injection Hb6 as <-. discriminate.
Qed.

(** ** Witnesses and the behaviours modelling showed *)

Definition exp_opts (fmt : string) : export_opts :=
  ExportOpts (Some "2024-01-01") (Some "2024-01-31") None None false false fmt None None "all" None.

Lemma export_csv_file_text_witness :
  exists d' r, write_csv_disk ["t"; "w.csv"] cmd_workouts cmd_disk = (d', r) /\
  (r = Ok tt -> exists q text, write_csv cmd_workouts = Ok text /\ walk d' [] ["t"; "w.csv"] = inl q /\
                               file_at d' q = Some text) /\
  (forall rows e, csv_rows_upto cmd_workouts = (rows, Some e) ->
     r = Raise OSError \/
     (r = Raise e /\ exists q, walk d' [] ["t"; "w.csv"] = inl q /\ file_at d' q = Some (csv_row CSV_FIELDS ++ rows))).
Proof.
  destruct (write_csv_disk ["t"; "w.csv"] cmd_workouts cmd_disk) as [d' r] eqn:E.
  exists d', r. split; [reflexivity |].
  exact (export_csv_file_text _ _ _ _ _ (wf_diskb_spec cmd_disk eq_refl) E).
Defined.

Lemma export_fit_exit_witness :
  exists d' out,
    export_command no_json (cmd_api cmd_workouts) (Ok "u") (fun _ => ["t"; "out"]) (Date 2024 1 1)
      (CLIState false false PNone) (exp_opts "fit") cmd_disk = (d', Ok out) /\
    ((exists lines, out = ExitWith 1 lines) <-> false = false /\ false = false).
Proof.
  destruct (export_command no_json (cmd_api cmd_workouts) (Ok "u") (fun _ => ["t"; "out"]) (Date 2024 1 1)
              (CLIState false false PNone) (exp_opts "fit") cmd_disk) as [d' [out | e]] eqn:E;
    [| vm_compute in E; discriminate E].
  exists d', out. split; [reflexivity |].
  exact (export_fit_exit no_json (cmd_api cmd_workouts) (Ok "u") (fun _ => ["t"; "out"]) (Date 2024 1 1)
           (CLIState false false PNone) (exp_opts "fit") _ _ _ eq_refl E).
Defined.

(** A [workoutDay] of [../x] takes the TCX file of the workout out of
    [/t/out/tcx] to [/t/out/x-11.tcx]. *)
Example tcx_escapes_tcx_dir :
  let w := PDict [("workoutId", PInt 11); ("title", PStr "Easy run"); ("workoutDay", PStr "../x");
                  ("workoutTypeValueId", PInt 3)] in
  exists d', write_tcx_disk ["t"; "out"; "tcx"] [w] (Disk [] [["t"]; ["t"; "out"]]) = (d', Ok 1%Z) /\
             is_file d' ["t"; "out"; "x-11.tcx"] = true.
Proof. vm_compute. eexists. split; reflexivity. Qed.

(** The workouts [_write_tcx] writes a file for: a truthy [workoutId]. *)
Definition has_id (w : pyval) : bool :=
  match dict_get w "workoutId" PNone with Ok v => truthy v | Raise _ => false end.

Lemma tcx_file_some (w : pyval) (f : option (list string * string)) :
  tcx_file (fun _ => true) w = Ok f -> (f <> None <-> has_id w = true).
Proof.
  unfold tcx_file, has_id. intros H. destruct (dict_get w "workoutId" PNone) as [wid |]; [| discriminate].
  cbn [res_bind] in H. destruct (truthy wid); cbn in H.
  - res_inv H; split; [reflexivity | discriminate].
  - injection H as <-. split; [contradiction |]; discriminate.
Qed.

(** The count [_write_tcx] returns is the number of workouts with an id,
    whether or not two of them share a file. *)
Lemma write_tcx_loop_count (dir : path) (ws : list pyval) (d d' : disk) (n : Z) :
  write_tcx_loop dir ws d = (d', Ok n) -> n = Z.of_nat (length (filter has_id ws)).
Proof.
  revert d d' n. induction ws as [| w ws IH]; intros d d' n H; cbn [write_tcx_loop] in H.
  - now injection H as _ <-.
  - apply st_bind_inv in H as (d1 & f & H1 & H). apply st_lift_inv in H1 as [-> Hf].
    apply st_bind_inv in H as (d2 & k & H2 & H). apply st_bind_inv in H as (d3 & m & H3 & H).
    injection H as _ <-. rewrite (IH _ _ _ H3). cbn [filter].
    pose proof (tcx_file_some _ _ Hf) as S.
    destruct f as [[parts text] |]; cbn in H2.
    + apply st_bind_inv in H2 as (d4 & [] & _ & H2). injection H2 as _ <-.
      rewrite (proj1 S ltac:(discriminate)). cbn [length]. lia.
    + injection H2 as _ <-. destruct (has_id w); [now destruct (proj2 S eq_refl) |]. lia.
Qed.
