(* ===== verification/ZoneReport.v ===== *)
(** * ZoneReport: the zone distribution report ([analyze_zones])

    [analyze_zones] in [core/analysis.py] keeps the workouts of one
    sport, sorts them by day, decomposes each with [parse_workout_zones]
    ([ZoneDistance]) and accumulates a global zone table (distance and
    session count per zone) and a table per period (ISO week or
    [YYYY-MM]).  The loop is a left fold of [zone_report_step] over the
    sorted workouts with the state of its four accumulators; the report
    is then read off the accumulators.  Distances and percentages are
    binary64 floats ([Floats.float]), added in the loop's order.  The
    theorems: each zone's session count is the number of the sport's
    dated workouts whose decomposition gives the zone a positive
    distance, and the period rows are sorted with no key twice. *)

From Stdlib Require Import QArith Lqa ZArith Lia Ascii String List Bool.
From Stdlib Require Import Sorting.Permutation Sorting.Sorted.
From stdpp Require Import base decidable.
From S2P Require Import Prelude PyValue Floats Zones ZoneDistance Classify Dates Weekly.
Import ListNotations.
Open Scope string_scope.
Open Scope Q_scope.

Definition ALL_ZONES : list zone := [Easy; Lt1; Lt2; Vo2].

(** [for key, value in zones.items(): acc[key] += value] *)
Definition zm_plus (a b : zmap) : zmap :=
  ZMap (fadd (zm_easy a) (zm_easy b)) (fadd (zm_lt1 a) (zm_lt1 b)) (fadd (zm_lt2 a) (zm_lt2 b))
       (fadd (zm_vo2 a) (zm_vo2 b)).

(** [if value > 0: sessions[key] += 1] for each zone. *)
Definition count_sessions (c : zcount) (zones : zmap) : res zcount :=
  res_fold_left (fun c '(key, value) => if flt (Fin 0) value then zc_incr c key else Ok c) (zm_items zones) c.

Definition zc_get (c : zcount) (z : zone) : nat :=
  match z with Easy => zc_easy c | Lt1 => zc_lt1 c | Lt2 => zc_lt2 c | Vo2 => zc_vo2 c end.

(** The [by_period] defaultdict: zone distances and the ["total"]. *)
Definition period_get (ps : list (string * (zmap * float))) (k : string) : zmap * float :=
  match assoc k ps with Some v => v | None => (zm_zero, Fin 0) end.

Fixpoint period_put (ps : list (string * (zmap * float))) (k : string) (v : zmap * float)
    : list (string * (zmap * float)) :=
  match ps with
  | [] => [(k, v)]
  | (k', v') :: ps' => if String.eqb k k' then (k, v) :: ps' else (k', v') :: period_put ps' k v
  end.

(** The accumulators [total], [zone_totals], [sessions], [by_period]. *)
Record zacc : Type := ZAcc {
  za_total : float;
  za_zones : zmap;
  za_sessions : zcount;
  za_periods : list (string * (zmap * float))
}.

Definition zacc_init : zacc := ZAcc (Fin 0) zm_zero zc_zero [].

(** [SPORT_MAP.get(workout.get("workoutTypeValueId")) == sport] *)
Definition is_sport (sport : string) (workout : pyval) : res bool :=
  let* id := dict_get workout "workoutTypeValueId" PNone in
  let* sp := sport_of_id id in
  Ok (match sp with Some s => String.eqb (sport_name s) sport | None => false end).

(** The sort key [str(item.get("workoutDay", ""))]. *)
Definition day_key (workout : pyval) : string :=
  match workout with
  | PDict kv => py_str (get_default kv "workoutDay" (PStr EmptyString))
  | _ => EmptyString
  end.

Definition by_day (a b : pyval) : bool := str_leb (day_key a) (day_key b).

(** [str(x)[:10]] *)
Definition day_prefix (v : pyval) : string := take 10 (py_str v).

Section Report.
Context (json_loads : string -> res pyval).

(** One iteration of [for workout in filtered]. *)
Definition zone_report_step (th : pyval) (group_by : string) (acc : zacc) (workout : pyval) : res zacc :=
  let* wd := dict_get workout "workoutDay" PNone in
  let day := day_prefix (py_or wd (PStr EmptyString)) in
  if String.eqb day EmptyString then Ok acc
  else
    let* '(zones, dist) := parse_workout_zones json_loads workout (Fin 4) th in
    let* sessions := count_sessions (za_sessions acc) zones in
    let* dt := strptime_ymd day in
    let* period := if String.eqb group_by "month" then Ok (strftime_ym dt) else get_week_key (PStr day) in
    let '(pz, pt) := period_get (za_periods acc) period in
    Ok (ZAcc (fadd (za_total acc) dist) (zm_plus (za_zones acc) zones) sessions
             (period_put (za_periods acc) period (zm_plus pz zones, fadd pt dist))).

(** [(x / total * 100) if total else 0]: [None] is the [int] 0. *)
Definition pct_of (x total : float) : option float :=
  if ftruthy total then Some (fmul (fdiv_nz x total) (Fin 100)) else None.

Record zone_stat : Type := ZoneStat { zs_distance : float; zs_pct : option float; zs_sessions : nat }.

Record period_row : Type := PeriodRow {
  pr_period : string;
  pr_total : float;
  pr_zones : list (zone * (float * option float))
}.

Record zone_report : Type := ZoneReportOf {
  zr_start : option string;
  zr_end : option string;
  zr_sport : string;
  zr_total : float;
  zr_distribution : list (zone * zone_stat);
  zr_by_period : list period_row
}.

Definition period_row_of (ps : list (string * (zmap * float))) (period : string) : period_row :=
  let '(pz, pt) := period_get ps period in
  PeriodRow period pt (map (fun z => (z, (zm_get pz z, pct_of (zm_get pz z) pt))) ALL_ZONES).

(** [thresholds or DEFAULT_ZONE_THRESHOLDS]: [None] and an empty dict
    give the defaults. *)
Definition effective_thresholds (thresholds : option pyval) : pyval :=
  match thresholds with Some t => py_or t DEFAULT_ZONE_THRESHOLDS | None => DEFAULT_ZONE_THRESHOLDS end.

(** [analyze_zones(workouts, sport, group_by, thresholds)] *)
Definition analyze_zones (workouts : list pyval) (sport group_by : string) (thresholds : option pyval)
    : res zone_report :=
  let th := effective_thresholds thresholds in
  let* kept := res_filter (is_sport sport) workouts in
  let filtered := sort_stable by_day kept in
  let* acc := res_fold_left (zone_report_step th group_by) filtered zacc_init in
  let distribution :=
    map (fun z => (z, ZoneStat (zm_get (za_zones acc) z) (pct_of (zm_get (za_zones acc) z) (za_total acc))
                           (zc_get (za_sessions acc) z))) ALL_ZONES in
  let periods := sort_stable str_leb (map fst (za_periods acc)) in
  let first_last (w : option pyval) := option_map (fun w => take 10 (day_key w)) w in
  Ok (ZoneReportOf (first_last (hd_error filtered)) (first_last (hd_error (rev filtered))) sport (za_total acc)
        distribution (map (period_row_of (za_periods acc)) periods)).

End Report.

(** ** Lemmas *)

Lemma period_put_keys (ps : list (string * (zmap * float))) (k x : string) (v : zmap * float) :
  In x (map fst (period_put ps k v)) -> x = k \/ In x (map fst ps).
Proof.
  induction ps as [| [k' v'] ps IH]; cbn; [intuition |].
  destruct (String.eqb_spec k k') as [-> | _]; cbn; [intuition |]. intros [-> | H]; [auto |].
  destruct (IH H); auto.
Qed.

Lemma period_put_nodup (ps : list (string * (zmap * float))) (k : string) (v : zmap * float) :
  List.NoDup (map fst ps) -> List.NoDup (map fst (period_put ps k v)).
Proof.
  induction ps as [| [k' v'] ps IH]; cbn; intros Hnd; [constructor; [intros [] | constructor] |].
  apply NoDup_cons_iff in Hnd as [Hn Hnd'].
  destruct (String.eqb_spec k k') as [-> | Hne]; cbn; [apply NoDup_cons_iff; auto |].
  constructor; [| exact (IH Hnd')]. intros [-> | Hin]%period_put_keys; [congruence | contradiction].
Qed.

Lemma Permutation_filter_length {A : Type} (f : A -> bool) (l l' : list A) :
  Permutation l l' -> length (List.filter f l) = length (List.filter f l').
Proof.
  induction 1; cbn; try reflexivity.
  - destruct (f x); cbn; lia.
  - destruct (f x), (f y); reflexivity.
  - congruence.
Qed.

(** ** Session counts *)

Section ReportTheorems.
Context (json_loads : string -> res pyval).

(** The workout is dated and its decomposition gives zone [z] a
    positive distance: the loop counts it as a session of [z]. *)
Definition zone_session (th : pyval) (z : zone) (w : pyval) : bool :=
  match dict_get w "workoutDay" PNone with
  | Ok wd =>
      negb (String.eqb (day_prefix (py_or wd (PStr EmptyString))) EmptyString) &&
      match parse_workout_zones json_loads w (Fin 4) th with
      | Ok (zones, _) => flt (Fin 0) (zm_get zones z)
      | Raise _ => false
      end
  | Raise _ => false
  end.

Lemma count_sessions_get c zones c' z :
  count_sessions c zones = Ok c' -> zc_get c' z = (zc_get c z + if flt (Fin 0) (zm_get zones z) then 1 else 0)%nat.
Proof.
  unfold count_sessions, zm_items. cbn [res_fold_left].
  destruct (flt (Fin 0) (zm_easy zones)) eqn:E1, (flt (Fin 0) (zm_lt1 zones)) eqn:E2,
    (flt (Fin 0) (zm_lt2 zones)) eqn:E3, (flt (Fin 0) (zm_vo2 zones)) eqn:E4;
    cbn [res_bind zc_incr String.eqb Ascii.eqb Bool.eqb andb]; intros [= <-];
    destruct z; cbn [zm_get zc_get zc_easy zc_lt1 zc_lt2 zc_vo2]; rewrite ?E1, ?E2, ?E3, ?E4; lia.
Qed.

Lemma zone_report_step_sessions th g acc w acc' z :
  zone_report_step json_loads th g acc w = Ok acc' ->
  zc_get (za_sessions acc') z = (zc_get (za_sessions acc) z + if zone_session th z w then 1 else 0)%nat.
Proof.
  unfold zone_report_step, zone_session. intros H.
  destruct (dict_get w "workoutDay" PNone) as [wd |]; cbn [res_bind] in H; [| discriminate].
  destruct (String.eqb _ EmptyString); cbn [negb andb]; [injection H as <-; lia |].
  destruct (parse_workout_zones json_loads w (Fin 4) th) as [[zones dist] |]; cbn [res_bind] in H;
    [| discriminate].
  destruct (count_sessions (za_sessions acc) zones) as [c |] eqn:Ec; cbn [res_bind] in H; [| discriminate].
  do 2 res_step H. destruct (period_get _ _). injection H as <-. cbn [za_sessions].
  exact (count_sessions_get _ _ _ _ Ec).
Qed.

Lemma zone_report_fold_sessions th g l acc acc' z :
  res_fold_left (zone_report_step json_loads th g) l acc = Ok acc' ->
  zc_get (za_sessions acc') z = (zc_get (za_sessions acc) z + length (List.filter (zone_session th z) l))%nat.
Proof.
  revert acc. induction l as [| w l IH]; intros acc H; cbn in H |- *; [injection H as <-; lia |].
  destruct (zone_report_step json_loads th g acc w) as [a1 |] eqn:E; [| discriminate].
  rewrite (IH _ H), (zone_report_step_sessions _ _ _ _ _ _ E). destruct (zone_session th z w); cbn; lia.
Qed.

Lemma analyze_zones_acc (ws : list pyval) (sport g : string) (th : option pyval) (r : zone_report) :
  analyze_zones json_loads ws sport g th = Ok r ->
  exists kept acc, res_filter (is_sport sport) ws = Ok kept /\
    res_fold_left (zone_report_step json_loads (effective_thresholds th) g) (sort_stable by_day kept) zacc_init
    = Ok acc /\
    zr_distribution r = map (fun z => (z, ZoneStat (zm_get (za_zones acc) z)
                                          (pct_of (zm_get (za_zones acc) z) (za_total acc))
                                          (zc_get (za_sessions acc) z))) ALL_ZONES /\
    zr_by_period r = map (period_row_of (za_periods acc)) (sort_stable str_leb (map fst (za_periods acc))).
Proof.
  unfold analyze_zones. intros H.
  destruct (res_filter (is_sport sport) ws) as [kept |]; cbn [res_bind] in H; [| discriminate].
  destruct (res_fold_left _ _ zacc_init) as [acc |] eqn:E; cbn [res_bind] in H; [| discriminate].
  injection H as <-. exists kept, acc. auto.
Qed.

Lemma zone_report_fold_nodup th g l acc acc' :
  List.NoDup (map fst (za_periods acc)) ->
  res_fold_left (zone_report_step json_loads th g) l acc = Ok acc' -> List.NoDup (map fst (za_periods acc')).
Proof.
  intros H0. apply (res_fold_left_inv (fun a => List.NoDup (map fst (za_periods a)))); [exact H0 |].
  intros a w a' _ Hn H. unfold zone_report_step in H. res_step H.
  destruct (String.eqb _ _); [now injection H as <- |].
  res_step H. destruct a1 as [zones dist]. do 3 res_step H.
  destruct (period_get (za_periods a) a3). injection H as <-. now apply period_put_nodup.
Qed.

Lemma period_row_period (ps : list (string * (zmap * float))) (k : string) : pr_period (period_row_of ps k) = k.
Proof. unfold period_row_of. now destruct (period_get ps k). Qed.

(** C15: the session count of each zone in the report is the number of
    workouts of the sport with a day whose decomposition gives that zone
    a positive distance, whatever the order they come in. *)
Theorem analyze_zones_sessions (ws : list pyval) (sport g : string) (th : option pyval) (r : zone_report)
    (kept : list pyval) :
  analyze_zones json_loads ws sport g th = Ok r -> res_filter (is_sport sport) ws = Ok kept ->
  map (fun zs => (fst zs, zs_sessions (snd zs))) (zr_distribution r) =
  map (fun z => (z, length (List.filter (zone_session (effective_thresholds th) z) kept))) ALL_ZONES.
Proof.
  intros H Hk. destruct (analyze_zones_acc ws sport g th r H) as (kept' & acc & Hk' & E & -> & _).
  rewrite Hk in Hk'. injection Hk' as <-. rewrite map_map. apply map_ext. intros z. cbn [fst snd].
  rewrite (zone_report_fold_sessions _ _ _ _ _ z E).
  replace (zc_get (za_sessions zacc_init) z) with 0%nat by (destruct z; reflexivity).
  f_equal. symmetry. apply Permutation_filter_length, sort_stable_perm.
Qed.

(** The period rows come in strictly ascending order of their
    keys, each period once. *)
Theorem analyze_zones_periods_sorted (ws : list pyval) (sport g : string) (th : option pyval) (r : zone_report) :
  analyze_zones json_loads ws sport g th = Ok r ->
  Sorted (fun a b => str_ltb a b = true) (map pr_period (zr_by_period r)).
Proof.
  intros H. destruct (analyze_zones_acc ws sport g th r H) as (kept & acc & _ & E & _ & ->).
  rewrite map_map, (map_ext _ _ (period_row_period _)), map_id.
  apply sorted_nodup_strict; [apply sort_stable_sorted, str_leb_total |].
  exact (Permutation_NoDup (sort_stable_perm _ _) (zone_report_fold_nodup _ _ _ zacc_init _ (NoDup_nil _) E)).
Qed.

End ReportTheorems.

(** ** Examples *)

Definition run_on (day : string) (distance : Z) : pyval :=
  PDict [("workoutDay", PStr day); ("workoutTypeValueId", PInt 3); ("distance", PInt distance)].

(** The spec's example: runs on 2026-01-10 and 2026-02-10, listed in
    the opposite order. *)
Definition month_example : list pyval := [run_on "2026-02-10T00:00:00" 8000; run_on "2026-01-10T00:00:00" 5000].

Lemma analyze_zones_sessions_witness :
  exists r, analyze_zones reject_json month_example "run" "month" None = Ok r /\
    res_filter (is_sport "run") month_example = Ok month_example /\
    map (fun zs => (fst zs, zs_sessions (snd zs))) (zr_distribution r) = [(Easy, 2%nat); (Lt1, 0%nat); (Lt2, 0%nat); (Vo2, 0%nat)].
Proof.
  assert (Hk : res_filter (is_sport "run") month_example = Ok month_example) by reflexivity.
  destruct (analyze_zones reject_json month_example "run" "month" None) as [r |] eqn:E;
    [| vm_compute in E; discriminate].
  exists r. split; [reflexivity |]. split; [exact Hk |].
  rewrite (analyze_zones_sessions reject_json month_example "run" "month" None r month_example E Hk).
  vm_compute. reflexivity.
Defined.

Lemma analyze_zones_periods_sorted_witness :
  exists r, analyze_zones reject_json month_example "run" "month" None = Ok r /\
    Sorted (fun a b => str_ltb a b = true) (map pr_period (zr_by_period r)).
Proof.
  eexists. split; [vm_compute; reflexivity |].
  apply (analyze_zones_periods_sorted reject_json month_example "run" "month" None). vm_compute. reflexivity.
Defined.

(** The spec's example: grouped by month, runs on 2026-01-10 and
    2026-02-10 give exactly the two periods [2026-01] and [2026-02], in
    ascending order, with the first run's day as the start. *)
Example analyze_zones_month_example :
  res_map (fun r => (zr_start r, zr_end r, map pr_period (zr_by_period r)))
    (analyze_zones reject_json month_example "run" "month" None) =
  Ok (Some "2026-01-10", Some "2026-02-10", ["2026-01"; "2026-02"]).
Proof. vm_compute. reflexivity. Qed.

(** A run whose [workoutDay] is [null] is skipped by the loop but
    still bounds the period: its sort key is the string [None], which
    sorts after every date, so the report ends on ["None"]. *)
Example analyze_zones_null_day_end :
  res_map zr_end
    (analyze_zones reject_json
       [run_on "2026-01-10" 5000; PDict [("workoutDay", PNone); ("workoutTypeValueId", PInt 3); ("distance", PInt 1000)]]
       "run" "week" None) =
  Ok (Some "None").
Proof. vm_compute. reflexivity. Qed.

(** A run whose structure has one active step of -1000 metres at 80%:
    its raw estimate is negative, so the raw [lt1] bucket of -1000 is
    kept. *)
Definition negative_run : pyval :=
  PDict [("workoutDay", PStr "2026-01-10"); ("workoutTypeValueId", PInt 3); ("distance", PInt 5000);
         ("structure", PDict [("primaryIntensityMetric", PStr "percentOfThresholdPace");
            ("structure", PList [PDict [("type", PStr "step");
               ("steps", PList [step_of "meter" (-1000) 80 80 "active"])]])])].

(** A zone counts as a session only when its contribution is
    positive: the [lt1] contribution of -1000 metres is nonzero but
    counts no session. *)
Example analyze_zones_negative_not_session :
  res_map (fun r => map (fun zs => (zs_distance (snd zs), zs_sessions (snd zs))) (zr_distribution r))
    (analyze_zones reject_json [negative_run] "run" "week" None) =
  Ok [(Fin 0, 0%nat); (Fin (-1000), 0%nat); (Fin 0, 0%nat); (Fin 0, 0%nat)].
Proof. vm_compute. reflexivity. Qed.
