(* ===== verification/Patterns.v ===== *)
(** * Patterns: the pattern and injury-risk analyzer ([analyze_patterns])

    [analyze_patterns] in [core/analysis.py] keeps the run and bike
    workouts, sorts them by day, and collects per day the types of the
    runs and of the rides.  For every day in order it takes each sport's
    day intensity ([_day_intensity]: the first most intense type, [rest]
    for none), counts the same-day (run, bike) combinations in a
    [Counter], records the next day's combination after a hard day, and
    counts hard sessions per ISO week in a [defaultdict] whose entries
    exist only for the weeks it touches.  Week-over-week increases of
    hard sessions of at least 40% become risk factors.  The three loops
    are left folds ([pattern_step], [combo_step], [weekly_load_step]);
    the increase is computed in binary64 ([Floats]). *)

From Stdlib Require Import QArith ZArith Lia Ascii String List Bool.
From Stdlib Require Import Sorting.Permutation Sorting.Sorted.
From stdpp Require Import base decidable.
From S2P Require Import Prelude PyValue Floats Dates Weekly ZoneReport.
Import ListNotations.
Open Scope string_scope.
Open Scope Z_scope.

(** ** [_day_intensity] *)

(** [order.get(item, 0)] *)
Definition intensity_rank (t : string) : Z :=
  if String.eqb t "vo2" then 4
  else if String.eqb t "lt2" then 3
  else if String.eqb t "lt1" then 2
  else if String.eqb t "easy" then 1
  else 0.

(** [max(values, key=...)]: a later item replaces the current one only
    when its key is strictly larger. *)
Fixpoint max_by_rank (best : string) (l : list string) : string :=
  match l with
  | [] => best
  | t :: l' => if intensity_rank best <? intensity_rank t then max_by_rank t l' else max_by_rank best l'
  end.

Definition day_intensity (types : list string) : string :=
  match types with
  | [] => "rest"
  | t :: ts => max_by_rank t ts
  end.

(** [x in {"lt2", "vo2"}] *)
Definition is_hard (t : string) : bool := String.eqb t "lt2" || String.eqb t "vo2".

(** [x in {"easy", "rest", "other"}] *)
Definition is_easy (t : string) : bool := String.eqb t "easy" || String.eqb t "rest" || String.eqb t "other".

(** ** Per-day type lists *)

(** [by_date.get(day, [])] *)
Definition dl_get (d : list (string * list string)) (k : string) : list string :=
  match assoc k d with Some l => l | None => [] end.

(** [by_date[day].append(x)] on a [defaultdict(list)]. *)
Fixpoint dl_append (d : list (string * list string)) (k x : string) : list (string * list string) :=
  match d with
  | [] => [(k, [x])]
  | (k', l) :: d' => if String.eqb k k' then (k', (l ++ [x])%list) :: d' else (k', l) :: dl_append d' k x
  end.

(** [run_by_date], [bike_by_date] and the set [all_dates]. *)
Record pstate : Type := PState {
  run_by_date : list (string * list string);
  bike_by_date : list (string * list string);
  all_dates : list string
}.

Definition pstate_init : pstate := PState [] [] [].

(** [SPORT_MAP.get(w.get("workoutTypeValueId")) in {"run", "bike"}] *)
Definition is_run_or_bike (w : pyval) : res bool :=
  let* id := dict_get w "workoutTypeValueId" PNone in
  let* sp := sport_of_id id in
  Ok (match sp with Some Run | Some Bike => true | _ => false end).

(** One iteration of [for workout in rows]. *)
Definition pattern_step (st : pstate) (workout : pyval) : res pstate :=
  let* wd := dict_get workout "workoutDay" (PStr EmptyString) in
  let day := day_prefix wd in
  if String.eqb day EmptyString then Ok st
  else
    let dates := if existsb (String.eqb day) (all_dates st) then all_dates st else (all_dates st ++ [day])%list in
    let* workout_type := classification_type workout in
    let* id := dict_get workout "workoutTypeValueId" PNone in
    let* sp := sport_of_id id in
    match sp with
    | Some Run => Ok (PState (dl_append (run_by_date st) day workout_type) (bike_by_date st) dates)
    | Some Bike => Ok (PState (run_by_date st) (dl_append (bike_by_date st) day workout_type) dates)
    | _ => Ok (PState (run_by_date st) (bike_by_date st) dates)
    end.

Definition run_intensity (st : pstate) (day : string) : string := day_intensity (dl_get (run_by_date st) day).
Definition bike_intensity (st : pstate) (day : string) : string := day_intensity (dl_get (bike_by_date st) day).

(** ** Counters *)

(** [counter[k] += n]: a new key is appended, keeping insertion order. *)
Fixpoint counter_add {K : Type} (eqb : K -> K -> bool) (c : list (K * Z)) (k : K) (n : Z) : list (K * Z) :=
  match c with
  | [] => [(k, n)]
  | (k', m) :: c' => if eqb k k' then (k', m + n) :: c' else (k', m) :: counter_add eqb c' k n
  end.

Definition pair_eqb (a b : string * string) : bool := String.eqb (fst a) (fst b) && String.eqb (snd a) (snd b).

(** [f"run={r},bike={b}"] *)
Definition combo_label (r b : string) : string := "run=" ++ r ++ ",bike=" ++ b.

(** The [combinations] counter and the [day_after] counters. *)
Record cacc : Type := CAcc {
  combinations : list ((string * string) * Z);
  day_after : list (string * list (string * Z))
}.

Fixpoint day_after_add (d : list (string * list (string * Z))) (k next : string) : list (string * list (string * Z)) :=
  match d with
  | [] => [(k, [(next, 1)])]
  | (k', c) :: d' =>
      if String.eqb k k' then (k', counter_add String.eqb c next 1) :: d' else (k', c) :: day_after_add d' k next
  end.

(** One iteration of the first [for day in ordered_dates]. *)
Definition combo_step (st : pstate) (acc : cacc) (day : string) : res cacc :=
  let r := run_intensity st day in
  let b := bike_intensity st day in
  let combos := counter_add pair_eqb (combinations acc) (r, b) 1 in
  if is_hard r || is_hard b then
    let* dt := strptime_ymd day in
    let* next := add_days dt 1 in
    let next_day := strftime_ymd next in
    let key := combo_label r b in
    Ok (CAcc combos (day_after_add (day_after acc) key (combo_label (run_intensity st next_day) (bike_intensity st next_day))))
  else Ok (CAcc combos (day_after acc)).

(** ** Hard sessions per ISO week *)

Record wcount : Type := WCount { run_lt2 : Z; bike_lt2 : Z; run_vo2 : Z; total_hard : Z }.

Definition wcount_zero : wcount := WCount 0 0 0 0.

Definition wc_get (ws : list (string * wcount)) (k : string) : wcount :=
  match assoc k ws with Some w => w | None => wcount_zero end.

Fixpoint wc_put (ws : list (string * wcount)) (k : string) (w : wcount) : list (string * wcount) :=
  match ws with
  | [] => [(k, w)]
  | (k', w') :: ws' => if String.eqb k k' then (k, w) :: ws' else (k', w') :: wc_put ws' k w
  end.

(** [weekly[week_key][field] += 1]: the access creates the entry. *)
Definition bump (ws : list (string * wcount)) (k : string) (f : wcount -> wcount) : list (string * wcount) :=
  wc_put ws k (f (wc_get ws k)).

Definition incr_run_lt2 (w : wcount) : wcount := WCount (run_lt2 w + 1) (bike_lt2 w) (run_vo2 w) (total_hard w).
Definition incr_bike_lt2 (w : wcount) : wcount := WCount (run_lt2 w) (bike_lt2 w + 1) (run_vo2 w) (total_hard w).
Definition incr_run_vo2 (w : wcount) : wcount := WCount (run_lt2 w) (bike_lt2 w) (run_vo2 w + 1) (total_hard w).
Definition incr_total_hard (w : wcount) : wcount := WCount (run_lt2 w) (bike_lt2 w) (run_vo2 w) (total_hard w + 1).

(** One iteration of the second [for day in ordered_dates]. *)
Definition weekly_load_step (st : pstate) (ws : list (string * wcount)) (day : string) : res (list (string * wcount)) :=
  let* dt := strptime_ymd day in
  let k := iso_week_key dt in
  let r := run_intensity st day in
  let b := bike_intensity st day in
  let ws := if String.eqb r "lt2" then bump ws k incr_run_lt2 else ws in
  let ws := if String.eqb r "vo2" then bump ws k incr_run_vo2 else ws in
  let ws := if String.eqb b "lt2" then bump ws k incr_bike_lt2 else ws in
  let ws := if is_hard r then bump ws k incr_total_hard else ws in
  let ws := if is_hard b then bump ws k incr_total_hard else ws in
  Ok ws.

(** ** Risk factors *)

Record risk : Type := Risk { rk_week : string; rk_increase : float; rk_severity : string }.

(** [(curr_val - prev_val) / prev_val * 100] *)
Definition hard_increase (prev curr : Z) : res float :=
  let* ratio := int_true_div (curr - prev) prev in Ok (fmul ratio (Fin 100)).

(** The comparison of each week with the one before it in key order. *)
Fixpoint risk_factors (ws : list (string * Z)) : res (list risk) :=
  match ws with
  | (_, prev) :: (((k, curr) :: _) as rest) =>
      let* here :=
        if 0 <? prev then
          let* increase := hard_increase prev curr in
          Ok (if fle (Fin 40) increase
              then [Risk k (py_round_digits increase 1) (if fle (Fin 60) increase then "high" else "medium")]
              else [])
        else Ok [] in
      let* later := risk_factors rest in
      Ok (here ++ later)%list
  | _ => Ok []
  end.

(** ** The report *)

Record pattern_report : Type := PatternReport {
  pt_start : option string;
  pt_end : option string;
  pt_same_day : list ((string * string) * Z);
  pt_day_after : list (string * list (string * Z));
  pt_weekly : list (string * wcount);
  pt_correlation : option (Z * Z * Z);
  pt_risks : option (list risk);
  pt_coach : bool
}.

(** [Counter.most_common()]: by decreasing count, ties in insertion order. *)
Definition most_common {K : Type} (c : list (K * Z)) : list (K * Z) :=
  sort_stable (fun a b => snd b <=? snd a) c.

(** [sum(count for (run, bike), count in combinations.items() if p(run, bike))] *)
Definition count_where (p : string -> string -> bool) (c : list ((string * string) * Z)) : Z :=
  fold_right (fun '((r, b), n) acc => (if p r b then n else 0) + acc) 0 c.

Definition sort_keys {V : Type} (l : list (string * V)) : list string := sort_stable str_leb (map fst l).

Definition analyze_patterns (workouts : list pyval) (multi_sport injury_risk coach_analysis : bool)
    : res pattern_report :=
  let* kept := res_filter is_run_or_bike workouts in
  let rows := sort_stable by_day kept in
  let* st := res_fold_left pattern_step rows pstate_init in
  let ordered_dates := sort_stable str_leb (all_dates st) in
  let* acc := res_fold_left (combo_step st) ordered_dates (CAcc [] []) in
  let* weekly := res_fold_left (weekly_load_step st) ordered_dates [] in
  let week_keys := sort_keys weekly in
  let* risks := if injury_risk then risk_factors (map (fun k => (k, total_hard (wc_get weekly k))) week_keys)
                else Ok [] in
  let combos := combinations acc in
  Ok (PatternReport (hd_error ordered_dates) (hd_error (rev ordered_dates))
        (most_common combos)
        (map (fun k => (k, match assoc k (day_after acc) with Some c => c | None => [] end))
             (sort_keys (day_after acc)))
        (map (fun k => (k, wc_get weekly k)) week_keys)
        (if multi_sport then
           Some (count_where (fun r b => is_hard r && is_hard b) combos,
                 count_where (fun r b => is_hard r && is_easy b) combos,
                 count_where (fun r b => is_hard b && is_easy r) combos)
         else None)
        (if injury_risk then Some risks else None)
        coach_analysis).

(** ** [_day_intensity] is the first most intense type *)

Lemma max_by_rank_ge (best : string) (l : list string) :
  intensity_rank best <= intensity_rank (max_by_rank best l).
Proof.
  revert best. induction l as [| t l IH]; intros best; cbn; [lia |].
  destruct (Z.ltb_spec (intensity_rank best) (intensity_rank t)); [specialize (IH t) |]; auto with zarith.
Qed.

Lemma max_by_rank_first (best : string) (l : list string) :
  exists pre post, best :: l = (pre ++ max_by_rank best l :: post)%list /\
    Forall (fun t => intensity_rank t < intensity_rank (max_by_rank best l)) pre /\
    Forall (fun t => intensity_rank t <= intensity_rank (max_by_rank best l)) post.
Proof.
  revert best. induction l as [| t l IH]; intros best; cbn [max_by_rank].
  { exists [], []. auto. }
  destruct (Z.ltb_spec (intensity_rank best) (intensity_rank t)) as [Hlt | Hge].
  - destruct (IH t) as (pre & post & Heq & Hpre & Hpost). exists (best :: pre), post.
    rewrite <- app_comm_cons, <- Heq. split; [reflexivity |]. split; [| exact Hpost].
    constructor; [pose proof (max_by_rank_ge t l); lia | exact Hpre].
  - destruct (IH best) as ([| p pre] & post & Heq & Hpre & Hpost); injection Heq as Hb Hl.
    + exists [], (t :: post). rewrite <- Hb, Hl. split; [reflexivity |]. split; [constructor |].
      constructor; [lia | rewrite <- Hb in Hpost; exact Hpost].
    + subst p. exists (best :: t :: pre), post. split; [rewrite Hl at 1; reflexivity |]. split; [| exact Hpost].
      inversion Hpre; subst. constructor; [assumption | constructor; [lia | assumption]].
Qed.

(** [_day_intensity] is [rest] for no workout, and otherwise the
    first type of highest rank ([vo2 > lt2 > lt1 > easy], every other
    type ranking 0): every type before it ranks strictly lower and every
    type after it ranks no higher. *)
Theorem day_intensity_first_max (types : list string) :
  (types = [] /\ day_intensity types = "rest") \/
  (exists pre post, types = (pre ++ day_intensity types :: post)%list /\
    Forall (fun t => intensity_rank t < intensity_rank (day_intensity types)) pre /\
    Forall (fun t => intensity_rank t <= intensity_rank (day_intensity types)) post).
Proof. destruct types as [| t ts]; [left; auto | right; apply max_by_rank_first]. Qed.

(** ** Every week of [weekly_load] has a hard session *)

Definition wc_ok (w : wcount) : Prop :=
  1 <= total_hard w /\ 0 <= run_lt2 w /\ 0 <= run_vo2 w /\ 0 <= bike_lt2 w /\
  run_lt2 w + run_vo2 w + bike_lt2 w <= total_hard w.

Lemma wc_get_put (ws : list (string * wcount)) (k : string) (w : wcount) : wc_get (wc_put ws k w) k = w.
Proof.
  unfold wc_get. induction ws as [| [k' w'] ws IH]; cbn; [now rewrite String.eqb_refl |].
  destruct (String.eqb_spec k k') as [-> | Hne]; cbn; [now rewrite String.eqb_refl |].
  rewrite (proj2 (String.eqb_neq k k') Hne). exact IH.
Qed.

Lemma wc_put_put (ws : list (string * wcount)) (k : string) (w1 w2 : wcount) :
  wc_put (wc_put ws k w1) k w2 = wc_put ws k w2.
Proof.
  induction ws as [| [k' w'] ws IH]; cbn; [now rewrite String.eqb_refl |].
  destruct (String.eqb_spec k k') as [-> | Hne]; cbn; [now rewrite String.eqb_refl |].
  rewrite (proj2 (String.eqb_neq k k') Hne). now rewrite IH.
Qed.

Lemma bump_bump (ws : list (string * wcount)) (k : string) (f g : wcount -> wcount) :
  bump (bump ws k f) k g = bump ws k (fun w => g (f w)).
Proof. unfold bump. now rewrite wc_get_put, wc_put_put. Qed.

Lemma wc_put_forall (P : wcount -> Prop) (ws : list (string * wcount)) (k : string) (w : wcount) :
  Forall (fun kw => P (snd kw)) ws -> P w -> Forall (fun kw => P (snd kw)) (wc_put ws k w).
Proof.
  induction 1 as [| [k' w'] ws Hw Hws IH]; intros Hp; cbn; [auto |].
  destruct (String.eqb k k'); constructor; auto.
Qed.

Lemma wc_get_forall (P : wcount -> Prop) (ws : list (string * wcount)) (k : string) :
  Forall (fun kw => P (snd kw)) ws -> wc_get ws k = wcount_zero \/ P (wc_get ws k).
Proof.
  unfold wc_get. induction 1 as [| [k' w'] ws Hw Hws IH]; cbn; [auto |].
  destruct (String.eqb k k'); [right; exact Hw | exact IH].
Qed.

(** A bump whose update turns zero or a good count into a good count. *)
Definition good_update (f : wcount -> wcount) : Prop :=
  forall w, w = wcount_zero \/ wc_ok w -> wc_ok (f w).

Lemma bump_ok (ws : list (string * wcount)) (k : string) (f : wcount -> wcount) :
  Forall (fun kw => wc_ok (snd kw)) ws -> good_update f -> Forall (fun kw => wc_ok (snd kw)) (bump ws k f).
Proof. intros Hws Hf. apply wc_put_forall; [exact Hws |]. apply Hf, wc_get_forall, Hws. Qed.

(** The counts of a day: a hard run adds its [lt2] or [vo2] count and
    one hard session, a hard ride its [lt2] count if any and one. *)
Lemma weekly_load_step_ok (st : pstate) (ws ws' : list (string * wcount)) (day : string) :
  Forall (fun kw => wc_ok (snd kw)) ws -> weekly_load_step st ws day = Ok ws' ->
  Forall (fun kw => wc_ok (snd kw)) ws'.
Proof.
  intros Hws H. unfold weekly_load_step in H. res_step H. injection H as <-.
  generalize (iso_week_key a) as k. generalize (bike_intensity st day) as b.
  generalize (run_intensity st day) as r. intros r b k. unfold is_hard.
  destruct (String.eqb_spec r "lt2") as [-> | Hr]; [| destruct (String.eqb_spec r "vo2") as [-> | Hr']];
    (destruct (String.eqb_spec b "lt2") as [-> | Hb]; [| destruct (String.eqb_spec b "vo2") as [-> | Hb']]);
    cbn [String.eqb Ascii.eqb Bool.eqb orb andb];
    repeat match goal with
           | Hn : ?x <> ?y |- context [String.eqb ?x ?y] => rewrite (proj2 (String.eqb_neq x y) Hn)
           end;
    cbn [orb]; rewrite ?bump_bump; try exact Hws;
    apply bump_ok; try exact Hws;
    intros w [-> | (H1 & H2 & H3 & H4 & H5)]; unfold wc_ok; cbn; lia.
Qed.

Lemma wc_get_in_ok (ws : list (string * wcount)) (k : string) :
  Forall (fun kw => wc_ok (snd kw)) ws -> In k (map fst ws) -> wc_ok (wc_get ws k).
Proof.
  unfold wc_get. induction 1 as [| [k' w'] ws Hw Hws IH]; cbn; [intros [] |].
  intros Hk. destruct (String.eqb_spec k k') as [-> | Hne]; [exact Hw |].
  apply IH. destruct Hk as [-> | Hk]; [congruence | exact Hk].
Qed.

Lemma sort_keys_in {V : Type} (l : list (string * V)) (k : string) : In k (sort_keys l) -> In k (map fst l).
Proof. unfold sort_keys. intros H. eapply Permutation_in; [symmetry; apply sort_stable_perm | exact H]. Qed.

(** Every week listed in [weekly_load] has at least one hard
    session, and its [run_lt2], [run_vo2] and [bike_lt2] counts together
    never exceed [total_hard]: the [defaultdict] creates a week's entry
    only when one of its hard counters is incremented, so weeks without
    a hard session are absent from the list. *)
Theorem analyze_patterns_weekly_load (ws : list pyval) (ms ir ca : bool) (r : pattern_report) :
  analyze_patterns ws ms ir ca = Ok r -> Forall (fun kw => wc_ok (snd kw)) (pt_weekly r).
Proof.
  unfold analyze_patterns. intros H. do 5 res_step H. injection H as <-. cbn [pt_weekly].
  assert (Hw : Forall (fun kw => wc_ok (snd kw)) a2).
  { refine (res_fold_left_inv _ _ _ _ _ _ _ E2); [constructor |]. intros b x b' _. apply weekly_load_step_ok. }
  apply Forall_forall. intros [k w] (k' & [= <- <-] & Hk)%in_map_iff. cbn.
  exact (wc_get_in_ok _ _ Hw (sort_keys_in _ _ Hk)).
Qed.

(** ** The binary64 thresholds of the risk rule *)

(** The float tests [increase >= 40] and [increase >= 60] agree with
    the exact tests on [100 * (curr - prev) / prev]. *)
Definition thresholds_exact (prev curr : Z) : bool :=
  match hard_increase prev curr with
  | Ok x => Bool.eqb (fle (Fin 40) x) (2 * prev <=? 5 * (curr - prev)) &&
            Bool.eqb (fle (Fin 60) x) (3 * prev <=? 5 * (curr - prev))
  | Raise _ => false
  end.

Definition z_range (lo n : nat) : list Z := map Z.of_nat (seq lo n).

Lemma thresholds_exact_upto_14 :
  forallb (fun p => forallb (thresholds_exact p) (z_range 0 15)) (z_range 1 14) = true.
Proof. vm_compute. reflexivity. Qed.

Lemma in_z_range (lo n : nat) (z : Z) : Z.of_nat lo <= z < Z.of_nat (lo + n) -> In z (z_range lo n).
Proof.
  intros Hz. apply in_map_iff. exists (Z.to_nat z). split; [lia |]. apply in_seq. lia.
Qed.

(** For the hard-session counts a week can reach (at most one per
    sport and day, so 14), the binary64 computation
    [(curr - prev) / prev * 100] never flips the risk decisions: the
    factor is emitted exactly when the increase is at least 40% and is
    [high] exactly when it is at least 60%, as in exact arithmetic. *)
Theorem hard_increase_thresholds (prev curr : Z) :
  0 < prev <= 14 -> 0 <= curr <= 14 ->
  exists x, hard_increase prev curr = Ok x /\
    fle (Fin 40) x = (2 * prev <=? 5 * (curr - prev)) /\
    fle (Fin 60) x = (3 * prev <=? 5 * (curr - prev)).
Proof.
  intros Hp Hc. pose proof thresholds_exact_upto_14 as Hall.
  rewrite forallb_forall in Hall. specialize (Hall prev (in_z_range 1 14 prev ltac:(lia))).
  rewrite forallb_forall in Hall. specialize (Hall curr (in_z_range 0 15 curr ltac:(lia))).
  unfold thresholds_exact in Hall. destruct (hard_increase prev curr) as [x |]; [| discriminate].
  apply andb_true_iff in Hall as [H40 H60]. apply Bool.eqb_prop in H40, H60. eauto.
Qed.

Lemma hard_increase_thresholds_witness :
  (0 < 5 <= 14 /\ 0 <= 7 <= 14) /\
  exists x, hard_increase 5 7 = Ok x /\
    fle (Fin 40) x = (2 * 5 <=? 5 * (7 - 5)) /\ fle (Fin 60) x = (3 * 5 <=? 5 * (7 - 5)).
Proof. split; [lia | apply hard_increase_thresholds; lia]. Defined.

(** ** Examples *)

Definition typed_workout (day : string) (sport_id : Z) (t : string) : pyval :=
  PDict [("workoutDay", PStr day); ("workoutTypeValueId", PInt sport_id); ("classification", PDict [("type", PStr t)])].

(** Hard runs: two in the week of 2026-01-05, none in the week of
    2026-01-12 (only an easy run), four in the week of 2026-01-19. *)
Definition gap_example : list pyval :=
  [typed_workout "2026-01-05" 3 "lt2"; typed_workout "2026-01-07" 3 "vo2"; typed_workout "2026-01-13" 3 "easy";
   typed_workout "2026-01-19" 3 "lt2"; typed_workout "2026-01-20" 3 "lt2"; typed_workout "2026-01-21" 3 "vo2";
   typed_workout "2026-01-22" 3 "lt2"].

Lemma analyze_patterns_weekly_load_witness :
  exists r, analyze_patterns gap_example false true false = Ok r /\ Forall (fun kw => wc_ok (snd kw)) (pt_weekly r).
Proof.
  eexists. split; [vm_compute; reflexivity |].
  apply (analyze_patterns_weekly_load gap_example false true false). vm_compute. reflexivity.
Defined.

(** The week without a hard session is missing from [weekly_load],
    so the injury-risk comparison runs from 2026-W02 straight to
    2026-W04 and reports a 100% spike although the week in between had
    no hard session at all. *)
Example analyze_patterns_gap_spike :
  res_map (fun r => (map fst (pt_weekly r), option_map (map (fun k => (rk_week k, rk_severity k))) (pt_risks r)))
    (analyze_patterns gap_example false true false) =
  Ok (["2026-W02"; "2026-W04"], Some [("2026-W04", "high")]).
Proof. vm_compute. reflexivity. Qed.

(** A day whose only run is a race has day intensity [race], a
    label outside the ranked [vo2 > lt2 > lt1 > easy > other]: every
    unranked type ranks like [other] and the first one is returned. *)
Example day_intensity_race : day_intensity ["race"; "other"; "easy"] = "easy" /\ day_intensity ["race"; "other"] = "race".
Proof. split; reflexivity. Qed.

(** A run or ride whose [workoutDay] is [null] makes the whole
    analysis fail: [str(None)[:10]] is the day ["None"], which
    [strptime] rejects with [ValueError]. *)
Example analyze_patterns_null_day :
  analyze_patterns [typed_workout "2026-01-05" 3 "lt2";
                    PDict [("workoutDay", PNone); ("workoutTypeValueId", PInt 2)]] false false false =
  Raise ValueError.
Proof. vm_compute. reflexivity. Qed.
