(* ===== verification/AnalyzeCommand.v ===== *)
(** * AnalyzeCommand: the [analyze] commands of [commands/analyze.py]

    [analyze weekly], [analyze zones] and [analyze patterns] fetch the
    workouts of a date range ([_fetch_for_analysis]: [resolve_date_range],
    [authenticate], [Fetch.fetch_workouts_in_chunks]), build a report with
    [Weekly.build_weekly_analysis], [ZoneReport.analyze_zones] or
    [Patterns.analyze_patterns], optionally write it to [--output-file]
    and print it as JSON or as text.  The commands are computations of the
    state monad [st] over the [Disk] model; the text renderers
    ([weekly_to_markdown] of [core/analysis.py] and the [console.print]
    lines of the commands) are definitions of this file.  [json.dumps],
    the API call, [authenticate], [date.today()], [repr] of a [float] and
    the dict each report record stands for are [Context] parameters.
    The theorems: the commands keep the disk well formed; the file
    [analyze weekly --output-file] writes holds exactly what the command
    prints (the markdown, or [json.dumps] of the JSON payload and a
    newline); the file of [analyze zones] is the JSON report in every
    output mode; [analyze zones] rejects a bad [--sport] or [--group-by]
    before it authenticates. *)

From Stdlib Require Import QArith ZArith Lia Ascii String List Bool.
From stdpp Require Import base.
From S2P Require Import Prelude PyValue Floats Dates DateRanges Config Zones Weekly Markdown Disk Fetch Cli ZoneReport Patterns.
Import ListNotations.
Open Scope string_scope.
Local Open Scope st_scope.

(** ** Rendering helpers *)

(** [str.upper] on the ASCII range. *)
Definition ascii_upper (c : ascii) : ascii :=
  let n := nat_of_ascii c in
  if (97 <=? n)%nat && (n <=? 122)%nat then ascii_of_nat (n - 32) else c.

Fixpoint upper (s : string) : string :=
  match s with
  | EmptyString => EmptyString
  | String c s' => String (ascii_upper c) (upper s')
  end.

(** [format(s, "4s")]: [s] padded with spaces on the right to [n]. *)
Definition ljust (n : nat) (s : string) : string :=
  s ++ String.concat EmptyString (repeat " " (n - String.length s)).

(** [x / 1000] on a float. *)
Definition div1000 (x : float) : float := fdiv_nz x (Fin 1000).

(** [str()] of a [start] or [end] that is a string or [None]. *)
Definition opt_str (o : option string) : string := match o with Some s => s | None => "None" end.

(** [SPORT_NAME_BY_ID[{"swim": 1, "bike": 2, "run": 3}[sport]]] *)
Definition sport_title (s : sport) : string :=
  match s with Swim => "Swim" | Bike => "Bike" | Run => "Run" end.

(** ** [weekly_to_markdown] *)

(** The lines of one sport of a week: none without sessions. *)
Definition sport_section (s : sport) (sd : sport_data) (by_type : list (string * (float * float))) : list string :=
  if (sd_sessions sd =? 0)%Z then []
  else
    ("### " ++ sport_title s ++ ": " ++ format_fixed (div1000 (sd_distance sd)) 1 ++ " km | " ++
     string_of_Z (sd_sessions sd) ++ " sessions | " ++ format_fixed (sd_tss sd) 0 ++ " TSS")
    :: app (match by_type with
            | [] => []
            | _ => ["- Distribution: " ++
                    join " | " (map (fun '(t, (dist, pct)) =>
                                       t ++ ": " ++ format_fixed (div1000 dist) 1 ++ "km (" ++ format_fixed pct 0 ++ "%)")
                                    by_type)]
            end)
           (app (map (fun q => "- **" ++ upper (qw_type q) ++ "** " ++ qw_date q ++ ": " ++
                               py_str (qw_title q) ++ " (" ++ format_fixed (div1000 (qw_distance q)) 1 ++ "km, " ++
                               format_fixed (qw_tss q) 0 ++ " TSS)")
                     (sd_quality sd))
                [EmptyString]).

Definition week_lines (r : week_row) : list string :=
  let w := row_week r in
  app ["## " ++ wk_week w ++ " (" ++ wk_start w ++ " to " ++ wk_end w ++ ")";
       "**Pattern:** " ++ wk_pattern w;
       "**Total:** " ++ format_fixed (div1000 (wk_total_distance w)) 1 ++ " km | " ++ format_fixed (wk_total_tss w) 0 ++
       " TSS | " ++ string_of_Z (wk_total_sessions w) ++ " sessions";
       EmptyString]
      (app (sport_section Swim (wk_swim w) (row_by_type_swim r))
           (app (sport_section Bike (wk_bike w) (row_by_type_bike r))
                (sport_section Run (wk_run w) (row_by_type_run r)))).

(** [weekly_to_markdown(report)] of the report [build_weekly_analysis]
    returns. *)
Definition weekly_to_markdown (report : list week_row * weekly_summary) : string :=
  let '(weeks, summary) := report in
  let lines :=
    app ["# Weekly Training Analysis"; EmptyString;
         "**Total weeks:** " ++ string_of_Z (Z.of_nat (total_weeks summary));
         "**Average weekly distance:** " ++ format_fixed (div1000 (avg_weekly_distance summary)) 1 ++ " km";
         "**Average weekly TSS:** " ++ format_fixed (avg_weekly_tss summary) 1;
         EmptyString]
        (flat_map week_lines weeks) in
  strip (join nl lines) ++ nl.

(** ** The text of [analyze zones] and [analyze patterns] *)

(** [report["zone_distribution"][key]] *)
Definition zone_stat_of (key : string) (dist : list (zone * zone_stat)) : res zone_stat :=
  match find (fun e => String.eqb (zone_name (fst e)) key) dist with
  | Some (_, zs) => Ok zs
  | None => Raise KeyError
  end.

(** The [console.print] lines of [zones_command] after the report. *)
Definition zones_lines (sport : string) (r : zone_report) : res (list string) :=
  let* rows :=
    res_map_list (fun key =>
      let* zs := zone_stat_of key (zr_distribution r) in
      Ok (ljust 4 (upper key) ++ "  " ++ format_fixed (div1000 (zs_distance zs)) 1 ++ " km  " ++
          format_fixed (match zs_pct zs with Some p => p | None => Fin 0 end) 1 ++ "%  sessions=" ++
          string_of_Z (Z.of_nat (zs_sessions zs))))
      ["easy"; "lt1"; "lt2"; "vo2"] in
  Ok (app ["Zone analysis for " ++ sport;
           "Range: " ++ opt_str (zr_start r) ++ " to " ++ opt_str (zr_end r) ++ " (" ++
           format_fixed (div1000 (zr_total r)) 1 ++ " km)"] rows).

Section Analyze.

(** [json.loads]; the [get_workouts] call; the user id [authenticate]
    returns, or its exception; [json.dumps(_, indent=2)]; [repr] of a
    [float]; [date.today()]; the dict each report record stands for. *)
Context (json_loads : string -> res pyval)
        (get_workouts : string -> string -> string -> res pyval)
        (authenticate : res string)
        (dumps : pyval -> string)
        (float_repr : float -> string)
        (today : date)
        (weekly_json : list week_row * weekly_summary -> pyval)
        (zones_json : zone_report -> pyval)
        (patterns_json : pattern_report -> pyval).

(** The lines of [patterns_command] after the report. *)
Definition patterns_lines (r : pattern_report) : list string :=
  ("Patterns from " ++ opt_str (pt_start r) ++ " to " ++ opt_str (pt_end r))
  :: "Same-day run/bike intensity combinations:"
  :: app (map (fun '((run, bike), n) => "- run=" ++ run ++ " bike=" ++ bike ++ ": " ++ string_of_Z n)
              (firstn 10 (pt_same_day r)))
         (match pt_risks r with
          | Some ((_ :: _) as rs) =>
              "Risk factors:"
              :: map (fun f => "- " ++ rk_week f ++ ": hard_session_spike (+" ++ float_repr (rk_increase f) ++
                               "%, " ++ rk_severity f ++ ")") rs
          | _ => []
          end).

(** The date flags of the three commands. *)
Record range_opts : Type := RangeOpts {
  ro_start_date : option string;
  ro_end_date : option string;
  ro_last_weeks : option Z;
  ro_last_days : option Z;
  ro_this_year : bool
}.

(** The [validate_date] callbacks of [--start-date] and [--end-date]. *)
Definition validate_range (o : range_opts) : res (option string * option string) :=
  let* sd := validate_date (ro_start_date o) in
  let* ed := validate_date (ro_end_date o) in
  Ok (sd, ed).

(** [_fetch_for_analysis(ctx, start_date, end_date, last_days,
    last_weeks, this_year, sport)] on validated dates. *)
Definition fetch_for_analysis (state : cli_state) (sd ed : option string) (o : range_opts) (sport : string)
    : res (list pyval) :=
  let* '(start, end_) := resolve_date_range sd ed (ro_last_days o) (ro_last_weeks o) None false false false
                           (ro_this_year o) false today in
  let* user_id := authenticate in
  fetch_workouts_in_chunks json_loads get_workouts user_id start end_ sport None None None "auto"
    (state_config state).

(** [output_file.write_text(text)] when [--output-file] is given, as
    the components of the path it names. *)
Definition write_output (output_file : option path) (text : string) : st disk unit :=
  match output_file with Some f => write_text f text | None => st_ret tt end.

(** [weekly_command(ctx, ...)] *)
Definition weekly_command (state : cli_state) (o : range_opts) (sport : string) (output_file : option path)
    (output_format : string) : st disk output :=
  dates <-- st_lift (validate_range o) ;;
  let '(sd, ed) := dates in
  workouts <-- st_lift (fetch_for_analysis state sd ed o sport) ;;
  report <-- st_lift (build_weekly_analysis workouts sport) ;;
  if json_output state || String.eqb output_format "json" then
    write_output output_file (dumps (weekly_json report) ++ nl) ;;;
    st_ret (print_json_payload state (weekly_json report))
  else
    let markdown := weekly_to_markdown report in
    write_output output_file markdown ;;;
    st_ret (Lines [markdown]).

(** The [config_zones.get(...)] of [zones_command] reads [state.config]
    as a dict. *)
Definition config_items (config : pyval) : res (list (string * pyval)) :=
  match config with PDict kv => Ok kv | _ => Raise AttributeError end.

(** [zones_command(ctx, ...)] *)
Definition zones_command (state : cli_state) (o : range_opts) (sport group_by : string)
    (easy_max lt1_max lt2_max : option pyval) (output_file : option path) : st disk output :=
  dates <-- st_lift (validate_range o) ;;
  let '(sd, ed) := dates in
  if negb (in_strs sport ["swim"; "bike"; "run"]) then st_lift (Raise BadParameter)
  else if negb (in_strs group_by ["week"; "month"]) then st_lift (Raise BadParameter)
  else
    workouts <-- st_lift (fetch_for_analysis state sd ed o "all") ;;
    kv <-- st_lift (config_items (state_config state)) ;;
    thresholds <-- st_lift (zone_thresholds kv easy_max lt1_max lt2_max) ;;
    report <-- st_lift (analyze_zones json_loads workouts sport group_by (Some thresholds)) ;;
    write_output output_file (dumps (zones_json report) ++ nl) ;;;
    if json_output state then st_ret (print_json_payload state (zones_json report))
    else ls <-- st_lift (zones_lines sport report) ;; st_ret (Lines ls).

(** [patterns_command(ctx, ...)] *)
Definition patterns_command (state : cli_state) (o : range_opts) (coach_analysis multi_sport injury_risk : bool)
    : st disk output :=
  dates <-- st_lift (validate_range o) ;;
  let '(sd, ed) := dates in
  workouts <-- st_lift (fetch_for_analysis state sd ed o "all") ;;
  report <-- st_lift (analyze_patterns workouts multi_sport injury_risk coach_analysis) ;;
  if json_output state then st_ret (print_json_payload state (patterns_json report))
  else st_ret (Lines (patterns_lines report)).

End Analyze.

(** * Theorems *)

Section AnalyzeTheorems.

Context (json_loads : string -> res pyval)
        (get_workouts : string -> string -> string -> res pyval)
        (authenticate : res string)
        (dumps : pyval -> string)
        (float_repr : float -> string)
        (today : date)
        (weekly_json : list week_row * weekly_summary -> pyval)
        (zones_json : zone_report -> pyval)
        (patterns_json : pattern_report -> pyval).

(** ** The disk stays well formed *)

Lemma write_output_inv (d0 : disk) (f : option path) (text : string) :
  st_preserves (disk_inv d0) (write_output f text).
Proof. destruct f; cbn [write_output]; st_inv_auto. Qed.
#[local] Hint Resolve write_output_inv : st_inv.

Lemma weekly_command_inv (d0 : disk) state o sport f fmt :
  st_preserves (disk_inv d0) (weekly_command json_loads get_workouts authenticate dumps today weekly_json
                                state o sport f fmt).
Proof. unfold weekly_command. st_inv_auto. Qed.

Lemma zones_command_inv (d0 : disk) state o sport group_by e l1 l2 f :
  st_preserves (disk_inv d0) (zones_command json_loads get_workouts authenticate dumps today zones_json
                                state o sport group_by e l1 l2 f).
Proof. unfold zones_command. st_inv_auto. Qed.

Lemma patterns_command_inv (d0 : disk) state o coach multi injury :
  st_preserves (disk_inv d0) (patterns_command json_loads get_workouts authenticate float_repr today patterns_json
                                state o coach multi injury).
Proof. unfold patterns_command. st_inv_auto. Qed.

(** ** The output file *)

(** A successful [write_output (Some f) text] leaves [text] at the path
    [f] resolves to. *)
Lemma write_output_some (d d' : disk) (f : path) (text : string) (u : unit) :
  wf_disk d -> write_output (Some f) text d = (d', Ok u) ->
  exists q, walk d' [] f = inl q /\ file_at d' q = Some text.
Proof.
  intros W H. destruct u. destruct (write_text_ok _ _ _ _ _ W H) as (_ & _ & Hq).
  destruct (Hq eq_refl) as (q & _ & Wk & F & _). eauto.
Qed.

(** [analyze weekly --output-file f] leaves in [f] exactly the text the
    command shows: the markdown it prints, or [json.dumps] of the JSON
    payload it prints and a newline. *)
Theorem weekly_command_output_file state o sport (f : path) fmt (d d' : disk) (out : output) :
  wf_disk d ->
  weekly_command json_loads get_workouts authenticate dumps today weekly_json state o sport (Some f) fmt d =
    (d', Ok out) ->
  exists q, walk d' [] f = inl q /\
    match out with
    | Lines [text] => file_at d' q = Some text
    | JsonOut _ payload => file_at d' q = Some (dumps payload ++ nl)
    | _ => False
    end.
Proof.
  unfold weekly_command. intros W H. st_run H;
    match goal with Hw : write_output _ _ _ = _ |- _ => exact (write_output_some _ _ _ _ _ W Hw) end.
Qed.

(** [analyze zones --output-file f] writes the JSON report to [f] in
    every output mode: the report [analyze_zones] built with the
    thresholds of [zone_thresholds] (flag, then config, then default),
    which is also the payload in JSON mode, while the text mode prints
    lines. *)
Theorem zones_command_file_json state o sport group_by e l1 l2 (f : path) (d d' : disk) (out : output) :
  wf_disk d ->
  zones_command json_loads get_workouts authenticate dumps today zones_json state o sport group_by e l1 l2
    (Some f) d = (d', Ok out) ->
  exists workouts kv th report q,
    config_items (state_config state) = Ok kv /\ zone_thresholds kv e l1 l2 = Ok th /\
    analyze_zones json_loads workouts sport group_by (Some th) = Ok report /\
    walk d' [] f = inl q /\ file_at d' q = Some (dumps (zones_json report) ++ nl) /\
    (if json_output state then out = print_json_payload state (zones_json report) else exists ls, out = Lines ls).
Proof.
  unfold zones_command. intros W H. st_run H;
    match goal with Hw : write_output _ _ _ = _ |- _ => destruct (write_output_some _ _ _ _ _ W Hw) as (q & Wk & F) end;
    do 5 eexists; (split; [eassumption |]); (split; [eassumption |]); (split; [eassumption |]);
    (split; [eassumption |]); (split; [eassumption |]); eauto.
Qed.

(** With valid date flags, a [--sport] other than swim, bike and run or
    a [--group-by] other than week and month makes [analyze zones] raise
    [BadParameter] before anything else: whatever [authenticate] and the
    API would do, and with the disk untouched. *)
Theorem zones_command_bad_arguments state o sport group_by e l1 l2 f dates (d : disk) :
  validate_range o = Ok dates ->
  in_strs sport ["swim"; "bike"; "run"] && in_strs group_by ["week"; "month"] = false ->
  zones_command json_loads get_workouts authenticate dumps today zones_json state o sport group_by e l1 l2 f d =
    (d, Raise BadParameter).
Proof.
  intros V B. unfold zones_command, st_bind, st_lift. rewrite V. destruct dates as [sd ed]. cbv beta iota.
  destruct (in_strs sport _); [| reflexivity]. cbn [andb] in B. now rewrite B.
Qed.

End AnalyzeTheorems.

(** * Witnesses and examples *)

(** Five workouts of January 2024: a tempo run and a ride in the first
    week; a half-marathon race, a strength session and a swim in the
    second. *)
Definition an_workouts : list pyval :=
  [PDict [("workoutDay", PStr "2024-01-03T00:00:00"); ("workoutTypeValueId", PInt 3); ("distance", PInt 10000);
          ("tssActual", PFloat 555 (-1)); ("title", PStr "Tempo")];
   PDict [("workoutDay", PStr "2024-01-04"); ("workoutTypeValueId", PInt 2); ("distance", PFloat 400005 (-1));
          ("tssActual", PInt 80); ("title", PStr "Ride")];
   PDict [("workoutDay", PStr "2024-01-10"); ("workoutTypeValueId", PInt 3); ("distance", PInt 21097);
          ("tssActual", PInt 150); ("title", PStr "Half race")];
   PDict [("workoutDay", PStr "2024-01-11"); ("workoutTypeValueId", PInt 9)];
   PDict [("workoutDay", PStr "2024-01-12"); ("workoutTypeValueId", PInt 1); ("distance", PInt 2000)]].

Definition an_api (_ start _ : string) : res pyval :=
  if String.eqb start "2024-01-01" then Ok (PList an_workouts) else Ok (PList []).

Definition an_range : range_opts := RangeOpts (Some "2024-01-01") (Some "2024-01-31") None None false.

Definition an_state : cli_state := CLIState false false (PDict []).

Definition an_disk : disk := Disk [] [["t"]].

Definition an_weekly (fmt : string) :=
  weekly_command (fun _ => Raise ValueError) an_api (Ok "u") (fun _ => "{}") (Date 2024 2 1) (fun _ => PNone)
    an_state an_range "all" (Some ["t"; "weekly.md"]) fmt an_disk.

Definition an_zones (sport group_by : string) :=
  zones_command (fun _ => Raise ValueError) an_api (Ok "u") (fun _ => "{}") (Date 2024 2 1) (fun _ => PNone)
    an_state an_range sport group_by None None None (Some ["t"; "zones.json"]) an_disk.

Lemma weekly_command_output_file_witness :
  exists d' out, an_weekly "markdown" = (d', Ok out) /\
    exists q, walk d' [] ["t"; "weekly.md"] = inl q /\
      match out with
      | Lines [text] => file_at d' q = Some text
      | JsonOut _ payload => file_at d' q = Some ((fun _ => "{}") payload ++ nl)
      | _ => False
      end.
Proof.
  destruct (an_weekly "markdown") as [d' [out | e]] eqn:E; [| vm_compute in E; discriminate E].
  exists d', out. split; [reflexivity |].
  exact (weekly_command_output_file (fun _ => Raise ValueError) an_api (Ok "u") (fun _ => "{}") (Date 2024 2 1)
           (fun _ => PNone) an_state an_range "all" ["t"; "weekly.md"] "markdown" an_disk d' out
           (wf_diskb_spec an_disk eq_refl) E).
Defined.

Lemma zones_command_file_json_witness :
  exists d' out, an_zones "run" "week" = (d', Ok out) /\
    exists workouts kv th report q,
      config_items (state_config an_state) = Ok kv /\ zone_thresholds kv None None None = Ok th /\
      analyze_zones (fun _ => Raise ValueError) workouts "run" "week" (Some th) = Ok report /\
      walk d' [] ["t"; "zones.json"] = inl q /\ file_at d' q = Some ((fun _ => "{}") PNone ++ nl) /\
      (if json_output an_state then out = print_json_payload an_state PNone else exists ls, out = Lines ls).
Proof.
  destruct (an_zones "run" "week") as [d' [out | e]] eqn:E; [| vm_compute in E; discriminate E].
  exists d', out. split; [reflexivity |].
  exact (zones_command_file_json (fun _ => Raise ValueError) an_api (Ok "u") (fun _ => "{}") (Date 2024 2 1)
           (fun _ => PNone) an_state an_range "run" "week" None None None ["t"; "zones.json"] an_disk d' out
           (wf_diskb_spec an_disk eq_refl) E).
Defined.

Lemma zones_command_bad_arguments_witness :
  an_zones "walk" "week" = (an_disk, Raise BadParameter).
Proof.
  exact (zones_command_bad_arguments (fun _ => Raise ValueError) an_api (Ok "u") (fun _ => "{}") (Date 2024 2 1)
           (fun _ => PNone) an_state an_range "walk" "week" None None None (Some ["t"; "zones.json"])
           (Some "2024-01-01", Some "2024-01-31") an_disk eq_refl eq_refl).
Defined.

(** The weekly report of the sample as [weekly_to_markdown] renders it,
    line for line the text of the Python code: [55.5] TSS prints as
    [56] and [135.5] as [136] (ties to even), a week without swim or
    bike sessions has no section for them. *)
Example weekly_markdown_sample :
  (let* ws := fetch_for_analysis (fun _ => Raise ValueError) an_api (Ok "u") (Date 2024 2 1) an_state
                (Some "2024-01-01") (Some "2024-01-31") an_range "all" in
   let* r := build_weekly_analysis ws "all" in
   Ok (weekly_to_markdown r)) =
  Ok (join nl
      ["# Weekly Training Analysis"; EmptyString; "**Total weeks:** 2"; "**Average weekly distance:** 36.5 km";
       "**Average weekly TSS:** 142.8"; EmptyString;
       "## 2024-W01 (2024-01-01 to 2024-01-07)"; "**Pattern:** start"; "**Total:** 50.0 km | 136 TSS | 2 sessions";
       EmptyString; "### Bike: 40.0 km | 1 sessions | 80 TSS"; "- Distribution: other: 40.0km (100%)"; EmptyString;
       "### Run: 10.0 km | 1 sessions | 56 TSS"; "- Distribution: lt1: 10.0km (100%)";
       "- **LT1** 2024-01-03: Tempo (10.0km, 56 TSS)"; EmptyString;
       "## 2024-W02 (2024-01-08 to 2024-01-14)"; "**Pattern:** race"; "**Total:** 23.1 km | 150 TSS | 2 sessions";
       EmptyString; "### Swim: 2.0 km | 1 sessions | 0 TSS"; "- Distribution: other: 2.0km (100%)"; EmptyString;
       "### Run: 21.1 km | 1 sessions | 150 TSS"; "- Distribution: race: 21.1km (100%)";
       "- **RACE** 2024-01-10: Half race (21.1km, 150 TSS)"] ++ nl).
Proof. vm_compute. reflexivity. Qed.

(** [--format] is not checked: any value but [json] (a typo such as
    [jsn] included) gives the markdown report. *)
Example weekly_format_unchecked :
  exists d' md, an_weekly "jsn" = (d', Ok (Lines [md])) /\ an_weekly "markdown" = (d', Ok (Lines [md])).
Proof. vm_compute. do 2 eexists. split; reflexivity. Qed.

(** [analyze zones] writes JSON to its output file also when it prints
    text, while [analyze weekly] writes the markdown it prints. *)
Example zones_file_json_in_text_mode :
  exists d' ls, an_zones "run" "week" = (d', Ok (Lines ls)) /\
    file_at d' ["t"; "zones.json"] = Some ("{}" ++ nl).
Proof. vm_compute. do 2 eexists. split; reflexivity. Qed.

(** The text [analyze zones --sport run] prints for the sample, as the
    Python code prints it: two runs without structure, all easy. *)
Example zones_lines_sample :
  (let* r := analyze_zones (fun _ => Raise ValueError) an_workouts "run" "week" None in zones_lines "run" r) =
  Ok ["Zone analysis for run"; "Range: 2024-01-03 to 2024-01-10 (31.1 km)";
      "EASY  31.1 km  100.0%  sessions=2"; "LT1   0.0 km  0.0%  sessions=0";
      "LT2   0.0 km  0.0%  sessions=0"; "VO2   0.0 km  0.0%  sessions=0"].
Proof. vm_compute. reflexivity. Qed.
