(* ===== verification/Authenticate.v ===== *)
(** * Authenticate: [authenticate(state, force)] of [commands/common.py]

    Every command that talks to TrainingPeaks starts with
    [authenticate]: it builds [TrainingPeaksAuth(config=state.config)]
    (whose [__init__] resolves the cookie store, [auth_init]), logs in
    ([Auth.login]), builds a fresh [TrainingPeaksAPI] from the token and
    the [api] table of the configuration ([float(rate_limit_delay)],
    [int(max_retries)], [int(timeout_seconds)]) and asks it for the user
    id ([Api.get_user_id]).  It is the composition of the two stateful
    components: its state is a [session] holding the world of [Auth] (the
    cookie stores, the token exchanges) and the world of [Api] (the
    requests sent); each step runs on its own half.  The theorems: every
    request [authenticate] sends is [GET /users/v3/user] authorised with
    the token [login] returned, and the first of them is sent without a
    rate-limit sleep (the client is new); a cookie store setting that is
    not a path raises before the login; a bad [api] setting raises after
    the login, with no request sent. *)

From Stdlib Require Import QArith ZArith Lia Ascii String List Bool.
From S2P Require Import Prelude PyValue Floats Config Api Auth Cli.
Import ListNotations.
Open Scope string_scope.
Local Open Scope st_scope.

(** The two worlds [authenticate] acts on. *)
Record session : Type := Session {
  s_auth : auth_world;
  s_api : world
}.

(** A step of [Auth] on the session. *)
Definition on_auth {A : Type} (m : st auth_world A) : st session A := fun s =>
  let '(a', r) := m (s_auth s) in (Session a' (s_api s), r).

(** A step of a new [TrainingPeaksAPI] on the session: its
    [_has_sent_request] starts [False]; the network and its log go on. *)
Definition on_new_client {A : Type} (m : st world A) : st session A := fun s =>
  let '(w', r) := m (World false (sent (s_api s)) (log (s_api s))) in (Session (s_auth s) w', r).

(** The delay the [Api] client holds, whose delays are exact rationals:
    a finite float's value.  [NaN] and [-inf] fail the client's
    [rate_limit_delay > 0] test exactly as [0] does.  [+inf], with which
    [time.sleep] would raise [OverflowError] at the first rate-limited
    request, is outside the model and is also mapped to [0]. *)
Definition delay_seconds (x : float) : Q := match x with Fin q => q | _ => 0%Q end.

(** [api_cfg = state.config.get("api", {})] and the three settings, in
    the order the keyword arguments are evaluated: [float()] rounds to
    binary64 and raises [OverflowError] on an [int] beyond the float
    range, [int()] of a float raises on an infinity. *)
Definition api_settings (config : pyval) : res (Q * Z * Z) :=
  let* api_cfg := dict_get config "api" (PDict []) in
  let* d := dict_get api_cfg "rate_limit_delay" (PFloat 10 (-1)) in
  let* delay := py_float_d d in
  let* m := dict_get api_cfg "max_retries" (PInt 3) in
  let* retries := py_int_d m in
  let* t := dict_get api_cfg "timeout_seconds" (PInt 30) in
  let* timeout := py_int_d t in
  Ok (delay_seconds delay, retries, timeout).

(** [TrainingPeaksAuth(config=state.config)] sets [cookie_file] to
    [resolve_cookie_store(config)] before anything else: with
    [TP_COOKIE_STORE] [env_cookie] and the data directory [data_dir], the
    [auth] table must be a dict and the path chosen a string
    ([expand_path] raises [TypeError] on any other value).  The path
    itself is the file [Auth]'s world holds. *)
Definition auth_init (env_cookie : option string) (data_dir : string) (config : pyval) : res unit :=
  let* kv := match config with PDict kv => Ok kv | _ => Raise AttributeError end in
  let* raw := cookie_store_raw env_cookie kv data_dir in
  match raw with PStr _ => Ok tt | _ => Raise TypeError end.

Section Authenticate.

(** The parameters of [Auth.login] and of the API client; [env_user]
    and [env_pass] are [TP_USERNAME] and [TP_PASSWORD]. *)
Context (json_loads : string -> res pyval) (json_dumps : pyval -> string)
        (token_net : nat -> list (string * pyval) -> outcome)
        (op_installed : bool) (op_read_cli : string -> Z * string)
        (playwright_installed : bool) (browser : string -> string -> res (list pyval))
        (net : nat -> request -> outcome) (env_user env_pass env_cookie : option string) (data_dir : string).

(** [authenticate(state, force)]: the token, the client and the user id. *)
Definition authenticate (state : cli_state) (force : bool) : st session (string * client * string) :=
  st_lift (auth_init env_cookie data_dir (state_config state)) ;;;
  tj <-- on_auth (login json_loads json_dumps token_net op_installed op_read_cli playwright_installed browser
                    (new_auth (state_config state) None None env_user env_pass) force) ;;
  settings <-- st_lift (api_settings (state_config state)) ;;
  let '(delay, retries, timeout) := settings in
  let api := new_client (fst tj) API_BASE delay retries timeout in
  user_id <-- on_new_client (get_user_id net json_loads api) ;;
  st_ret (fst tj, api, user_id).

End Authenticate.

(** * Theorems *)

(** An event of the log is a sleep or the request [r]. *)
Definition sends_of (r : request) (e : event) : Prop :=
  match e with Send r' => r' = r | Sleep _ => True end.

(** [GET /users/v3/user] as [get_user] sends it with the token [tok]. *)
Definition user_request (tok : string) (timeout : Z) : request :=
  Request "GET" (API_BASE ++ "/users/v3/user") ("Bearer " ++ tok) None None timeout.

Section AuthenticateTheorems.

Context (json_loads : string -> res pyval) (json_dumps : pyval -> string)
        (token_net : nat -> list (string * pyval) -> outcome)
        (op_installed : bool) (op_read_cli : string -> Z * string)
        (playwright_installed : bool) (browser : string -> string -> res (list pyval))
        (net : nat -> request -> outcome) (env_user env_pass env_cookie : option string) (data_dir : string).

(** The retry loop adds to the log sleeps and the request [r] only; when
    it succeeds for a client that has sent nothing yet, the first event
    it adds is the request itself. *)
Lemma retry_loop_log (c : client) (r : request) (L : nat) :
  forall a w w' res, retry_loop net json_loads c r a L w = (w', res) ->
  exists new, log w' = app new (log w) /\ Forall (sends_of r) new /\
    (forall v, res = Ok v -> has_sent w = false -> exists older, new = app older [Send r]).
Proof.
  induction L as [| L IH]; intros a w w' res H.
  - cbn in H. injection H as <- <-. exists []. repeat split; [constructor | discriminate].
  - cbn [retry_loop] in H. rewrite attempt_once_eq in H.
    set (pre := if negb (Qle_bool (rate_limit_delay c) 0) && has_sent w then [Sleep (rate_limit_delay c)] else []).
    assert (Hpre : (if negb (Qle_bool (rate_limit_delay c) 0) && has_sent w
                    then Sleep (rate_limit_delay c) :: log w else log w) = app pre (log w))
      by (unfold pre; now destruct (_ && _)).
    assert (Fpre : Forall (sends_of r) pre) by (unfold pre; destruct (_ && _); repeat constructor).
    assert (Npre : has_sent w = false -> pre = []) by (intros E; unfold pre; now rewrite E, andb_false_r).
    rewrite Hpre in H.
    assert (Last : forall res', (World true (S (sent w)) (Send r :: app pre (log w)), res') = (w', res) ->
              exists new, log w' = app new (log w) /\ Forall (sends_of r) new /\
                (forall v, res = Ok v -> has_sent w = false -> exists older, new = app older [Send r]))
      by (intros res' E; injection E as <- _; exists (Send r :: pre);
          split; [reflexivity |]; split; [now constructor |]; intros v _ E; rewrite (Npre E); now exists []).
    destruct (interpret json_loads (net (sent w) r)) as [v | e]; [exact (Last _ H) |].
    destruct (max_retries c <=? a)%Z; [exact (Last _ H) |].
    apply IH in H as (new & Hl & Hf & Hs). cbn [log sleep] in Hl.
    exists (app new (Sleep (inject_Z (Z.min (2 ^ a) 8)) :: Send r :: pre)).
    split; [rewrite Hl, <- app_assoc; reflexivity |]. split.
    + apply Forall_app. split; [exact Hf | repeat constructor; exact Fpre].
    + intros v Hv E. rewrite (Npre E). exists (app new [Sleep (inject_Z (Z.min (2 ^ a) 8))]).
      now rewrite <- app_assoc.
Qed.

(** C28: [authenticate] returns the token [login] returned, a client built
    from it and from the [api] settings, and the requests it sends are
    all [GET /users/v3/user] with that token, the first one sent with no
    sleep before it. *)
Theorem authenticate_user_requests (state : cli_state) (force : bool) (s s' : session)
    (tok uid : string) (c : client) :
  authenticate json_loads json_dumps token_net op_installed op_read_cli playwright_installed browser net
    env_user env_pass env_cookie data_dir state force s = (s', Ok (tok, c, uid)) ->
  (exists jar, login json_loads json_dumps token_net op_installed op_read_cli playwright_installed browser
                 (new_auth (state_config state) None None env_user env_pass) force (s_auth s) =
               (s_auth s', Ok (tok, jar))) /\
  token c = tok /\ api_settings (state_config state) = Ok (rate_limit_delay c, max_retries c, timeout_seconds c) /\
  exists new, log (s_api s') = app new (log (s_api s)) /\
    Forall (sends_of (user_request tok (timeout_seconds c))) new /\
    exists older, new = app older [Send (user_request tok (timeout_seconds c))].
Proof.
  unfold authenticate. intros H.
  apply st_bind_inv in H as (s0 & [] & H0 & H). apply st_lift_inv in H0 as [E0 _]. subst s0.
  apply st_bind_inv in H as (s1 & [t jar] & H1 & H). unfold on_auth in H1.
  destruct (login _ _ _ _ _ _ _ _ _ (s_auth s)) as [a' r] eqn:L. injection H1 as <- ->.
  apply st_bind_inv in H as (s2 & [[delay retries] timeout] & H2 & H). apply st_lift_inv in H2 as [-> A].
  apply st_bind_inv in H as (s3 & u & H3 & H). injection H as <- <- <- <-. cbn [fst].
  unfold on_new_client in H3. cbn [s_api s_auth] in H3.
  destruct (get_user_id _ _ _ _) as [w' r'] eqn:G. injection H3 as <- ->.
  unfold get_user_id, get_user, get, _request in G. apply st_bind_inv in G as (w1 & ud & R & G).
  apply st_lift_inv in G as [-> _].
  destruct (retry_loop_log _ _ _ _ _ _ _ R) as (new & Hl & Hf & Hs).
  refine (conj (ex_intro _ jar eq_refl) (conj eq_refl (conj A _))).
  exists new. exact (conj Hl (conj Hf (Hs _ eq_refl eq_refl))).
Qed.

(** A cookie store setting that is not a path ([auth.cookie_store = 5],
    say, with [TP_COOKIE_STORE] unset) raises out of [authenticate]
    before the login: neither world is touched. *)
Theorem authenticate_bad_cookie_store (state : cli_state) (force : bool) (s : session) (e : exc) :
  auth_init env_cookie data_dir (state_config state) = Raise e ->
  authenticate json_loads json_dumps token_net op_installed op_read_cli playwright_installed browser net
    env_user env_pass env_cookie data_dir state force s = (s, Raise e).
Proof. intros A. unfold authenticate, st_bind, st_lift. now rewrite A. Qed.

(** A bad [api] setting ([max_retries = "three"], say) raises its
    [ValueError] or [TypeError] out of [authenticate] once the login has
    run, before any request: the API world is untouched. *)
Theorem authenticate_bad_settings (state : cli_state) (force : bool) (s : session) (tj : string * list (string * pyval))
    (a' : auth_world) (e : exc) :
  auth_init env_cookie data_dir (state_config state) = Ok tt ->
  login json_loads json_dumps token_net op_installed op_read_cli playwright_installed browser
    (new_auth (state_config state) None None env_user env_pass) force (s_auth s) = (a', Ok tj) ->
  api_settings (state_config state) = Raise e ->
  authenticate json_loads json_dumps token_net op_installed op_read_cli playwright_installed browser net
    env_user env_pass env_cookie data_dir state force s = (Session a' (s_api s), Raise e).
Proof.
  intros I L A. unfold authenticate, st_bind, on_auth, st_lift. rewrite I. cbv beta iota. rewrite L.
  cbv beta iota. now rewrite A.
Qed.

End AuthenticateTheorems.

(** * Witnesses *)

(** The samples of [Auth]; the API answers [GET /users/v3/user] with
    user 42. *)
Definition au_loads (t : string) : res pyval :=
  if String.eqb t "user" then Ok (PDict [("user", PDict [("userId", PInt 42)])]) else sample_loads t.

Definition au_net (_ : nat) (_ : request) : outcome := Answer 200 "user".

Definition au_state (api : list (string * pyval)) : cli_state := CLIState false false (PDict [("api", PDict api)]).

Definition au_session : session := Session sample_auth_world initial_world.

Definition au_authenticate (api : list (string * pyval)) :=
  authenticate au_loads sample_dumps sample_token_net false (fun _ => (1%Z, EmptyString)) true
    (fun _ _ => Ok sample_cookies) au_net (Some "u") (Some "p") None "/data" (au_state api) true au_session.

Lemma authenticate_user_requests_witness :
  exists s' tok c uid, au_authenticate [] = (s', Ok (tok, c, uid)) /\
    token c = tok /\ exists new, log (s_api s') = app new (log (s_api au_session)) /\
      Forall (sends_of (user_request tok (timeout_seconds c))) new.
Proof.
  destruct (au_authenticate []) as [s' [[[tok c] uid] | e]] eqn:E; [| vm_compute in E; discriminate E].
  exists s', tok, c, uid. split; [reflexivity |].
  destruct (authenticate_user_requests au_loads sample_dumps sample_token_net false (fun _ => (1%Z, EmptyString))
              true (fun _ _ => Ok sample_cookies) au_net (Some "u") (Some "p") None "/data" (au_state []) true au_session
              s' tok uid c E) as (_ & T & _ & new & Hl & Hf & _).
  split; [exact T |]. exists new. exact (conj Hl Hf).
Defined.

Lemma authenticate_bad_settings_witness :
  exists a' (tj : string * list (string * pyval)),
    au_authenticate [("max_retries", PStr "three")] = (Session a' initial_world, Raise ValueError) /\
    snd tj = _cookies_to_jar sample_cookies.
Proof.
  destruct (login au_loads sample_dumps sample_token_net false (fun _ => (1%Z, EmptyString)) true
              (fun _ _ => Ok sample_cookies)
              (new_auth (state_config (au_state [("max_retries", PStr "three")])) None None (Some "u") (Some "p"))
              true sample_auth_world) as [a' [tj | e]] eqn:L; [| vm_compute in L; discriminate L].
  exists a', tj. split.
  - exact (authenticate_bad_settings au_loads sample_dumps sample_token_net false (fun _ => (1%Z, EmptyString))
             true (fun _ _ => Ok sample_cookies) au_net (Some "u") (Some "p") None "/data"
             (au_state [("max_retries", PStr "three")]) true au_session tj a' ValueError eq_refl L eq_refl).
  - vm_compute in L. injection L as _ <-. reflexivity.
Defined.

(** [auth.cookie_store = 5] with [TP_COOKIE_STORE] unset: [expand_path(5)]
    raises [TypeError] in [TrainingPeaksAuth.__init__], before the login. *)
Lemma authenticate_bad_cookie_store_witness :
  authenticate au_loads sample_dumps sample_token_net false (fun _ => (1%Z, EmptyString)) true
    (fun _ _ => Ok sample_cookies) au_net (Some "u") (Some "p") None "/data"
    (CLIState false false (PDict [("auth", PDict [("cookie_store", PInt 5)])])) true au_session
  = (au_session, Raise TypeError).
Proof.
  exact (authenticate_bad_cookie_store au_loads sample_dumps sample_token_net false (fun _ => (1%Z, EmptyString))
           true (fun _ _ => Ok sample_cookies) au_net (Some "u") (Some "p") None "/data"
           (CLIState false false (PDict [("auth", PDict [("cookie_store", PInt 5)])])) true au_session TypeError
           eq_refl).
Defined.
