(* ===== verification/ConfigFile.v ===== *)
(** * ConfigFile: [save_config] of [core/config.py] on the disk

    [save_config(config, path)] creates the parent directory of the
    configuration file and writes it: as [json.dumps(config, indent=2)]
    and a newline when the file's suffix is [.json] in any case, as the
    TOML text of [Config.save_config_text] otherwise.  The suffix is
    [pathlib]'s: the part of the last name from its last dot, unless the
    dot is the name's first or last character.  Without a path it writes
    to [default_config_path()], [$TP_CONFIG_FILE] or
    [~/.config/tp/config.toml] through [expand_path].  [json.dumps], the
    environment and [expand_path] are parameters.  The theorems: [save_config] keeps the disk well formed;
    when it returns, the file at the path holds exactly the JSON or TOML
    text its suffix selects. *)

From Stdlib Require Import ZArith Lia Ascii String List Bool.
From S2P Require Import Prelude PyValue Config Disk.
Import ListNotations.
Open Scope string_scope.
Local Open Scope st_scope.

(** [name.rfind(".")] with [-1] as [None]. *)
Fixpoint rfind_dot (s : string) : option nat :=
  match s with
  | EmptyString => None
  | String c s' =>
      match rfind_dot s' with
      | Some i => Some (S i)
      | None => if Ascii.eqb c "." then Some O else None
      end
  end.

(** [PurePath.suffix] of a name. *)
Definition path_suffix (name : string) : string :=
  match rfind_dot name with
  | Some i => if (0 <? i)%nat && (i <? String.length name - 1)%nat
              then substring i (String.length name - i) name else EmptyString
  | None => EmptyString
  end.

(** [os.getenv(name, default)]: a variable set to the empty string is
    returned as it is. *)
Definition getenv_default (getenv : string -> option string) (name default : string) : string :=
  match getenv name with Some v => v | None => default end.

(** [default_config_path()], [expand_path] (variables, [~] and
    [Path.resolve()]) being given. *)
Definition default_config_path (getenv : string -> option string) (expand_path : string -> path) : path :=
  expand_path (getenv_default getenv "TP_CONFIG_FILE" "~/.config/tp/config.toml").

Section SaveConfig.

(** [json.dumps(_, indent=2)], the environment and [expand_path]. *)
Context (dumps : pyval -> string) (getenv : string -> option string) (expand_path : string -> path).

(** [save_config(config, path)] *)
Definition save_config (config : list (string * pyval)) (p : option path) : st disk path :=
  let cfg_path := match p with Some q => q | None => default_config_path getenv expand_path end in
  mkdir_p (removelast cfg_path) ;;;
  if String.eqb (lower (path_suffix (last cfg_path EmptyString))) ".json" then
    write_text cfg_path (dumps (PDict config) ++ newline) ;;; st_ret cfg_path
  else
    text <-- st_lift (save_config_text config) ;;
    write_text cfg_path text ;;; st_ret cfg_path.

End SaveConfig.

(** * Theorems *)

Section SaveConfigTheorems.

Context (dumps : pyval -> string) (getenv : string -> option string) (expand_path : string -> path).

Lemma save_config_inv (d0 : disk) (config : list (string * pyval)) (p : option path) :
  st_preserves (disk_inv d0) (save_config dumps getenv expand_path config p).
Proof. unfold save_config. st_inv_auto. Qed.

(** When [save_config] returns the path it wrote, the file that path
    resolves to holds [json.dumps(config)] and a newline for a [.json]
    suffix (in any case), and the stripped TOML text and a newline
    otherwise. *)
Theorem save_config_file (config : list (string * pyval)) (p : option path) (d d' : disk) (cfg_path : path) :
  wf_disk d -> save_config dumps getenv expand_path config p d = (d', Ok cfg_path) ->
  cfg_path = match p with Some q => q | None => default_config_path getenv expand_path end /\
  exists q, walk d' [] cfg_path = inl q /\
    if String.eqb (lower (path_suffix (last cfg_path EmptyString))) ".json"
    then file_at d' q = Some (dumps (PDict config) ++ newline)
    else exists text, save_config_text config = Ok text /\ file_at d' q = Some text.
Proof.
  unfold save_config. intros W H.
  apply st_bind_inv in H as (d1 & [] & H1 & H). destruct (mkdir_p_ok _ _ _ _ W H1) as (W1 & _).
  destruct (String.eqb _ ".json") eqn:J.
  - apply st_bind_inv in H as (d2 & [] & H2 & H). injection H as <- <-. split; [reflexivity |].
    destruct (write_text_ok _ _ _ _ _ W1 H2) as (_ & _ & Hq). destruct (Hq eq_refl) as (q & _ & Wk & F & _).
    exists q. rewrite J. exact (conj Wk F).
  - apply st_bind_inv in H as (d2 & text & H2 & H). apply st_lift_inv in H2 as [<- T].
    apply st_bind_inv in H as (d3 & [] & H3 & H). injection H as <- <-. split; [reflexivity |].
    destruct (write_text_ok _ _ _ _ _ W1 H3) as (_ & _ & Hq). destruct (Hq eq_refl) as (q & _ & Wk & F & _).
    exists q. rewrite J. exact (conj Wk (ex_intro _ text (conj T F))).
Qed.

End SaveConfigTheorems.

(** The suffixes of a few names, as [pathlib] computes them. *)
Example path_suffix_cases :
  map path_suffix ["config.toml"; "config.JSON"; ".json"; "config."; "a.b.json"; "config"] =
  [".toml"; ".JSON"; EmptyString; EmptyString; ".json"; EmptyString].
Proof. reflexivity. Qed.

(** A path [~/.config/tp/config.JSON] is written as JSON, into the
    directory [save_config] has just created. *)
Example save_config_json_upper :
  exists d', save_config (fun _ => "{}") (fun _ => None) (fun _ => []) [] (Some ["home"; "config.JSON"]) (Disk [] []) = (d', Ok ["home"; "config.JSON"]) /\
    file_at d' ["home"; "config.JSON"] = Some ("{}" ++ newline).
Proof. eexists. split; reflexivity. Qed.

Lemma save_config_file_witness :
  exists d', save_config (fun _ => "{}") (fun _ => None) (fun _ => []) [("zones", PDict [("easy_max", PInt 75)])] (Some ["home"; "config.toml"])
               (Disk [] []) = (d', Ok ["home"; "config.toml"]) /\
    exists q, walk d' [] ["home"; "config.toml"] = inl q /\
      exists text, save_config_text [("zones", PDict [("easy_max", PInt 75)])] = Ok text /\ file_at d' q = Some text.
Proof.
  destruct (save_config (fun _ => "{}") (fun _ => None) (fun _ => []) [("zones", PDict [("easy_max", PInt 75)])] (Some ["home"; "config.toml"])
              (Disk [] [])) as [d' [p | e]] eqn:E; [| vm_compute in E; discriminate E].
  exists d'. assert (Hp : p = ["home"; "config.toml"]) by (vm_compute in E; congruence). subst p.
  split; [reflexivity |].
  destruct (save_config_file (fun _ => "{}") (fun _ => None) (fun _ => []) [("zones", PDict [("easy_max", PInt 75)])] (Some ["home"; "config.toml"])
              (Disk [] []) d' ["home"; "config.toml"] (wf_diskb_spec (Disk [] []) eq_refl) E) as [_ (q & Wk & F)].
  exists q. exact (conj Wk F).
Defined.

(** [TP_CONFIG_FILE] set to the empty string is taken as the path [""],
    which [expand_path] resolves to the working directory, while
    [resolve_cookie_store] treats an empty [TP_COOKIE_STORE] as unset. *)
Example empty_config_env_is_a_path :
  default_config_path (fun _ => Some EmptyString) (fun s => [s]) = [EmptyString] /\
  env_or (Some EmptyString) (Ok (PStr "default")) = Ok (PStr "default").
Proof. split; reflexivity. Qed.
